(* ===== verification/_CoqProject ===== *)
-Q . S2P
Prelude.v
BTree.v
RustStd.v
RustSort.v
RustText.v
Io.v
Effect.v
FsIo.v
Blob.v
Dist.v
Env.v
Scenario.v
Resolver.v
Reducer.v
ConfigC.v
Resources.v
Linker.v
PyConfig.v
Orchestrator.v
Tar.v
Layout.v
Compose.v
