(* ===== verification/Prelude.v ===== *)
(** * Verification of the Python-distribution repackaging engine

    This library models, in Rocq, the three source files of the repository.
    The repackaging engine of PyOxidizer
    ([src/pyoxidizer/src/pyrepackager/repackage.rs]) takes a
    parsed configuration and a parsed Python distribution, resolves an ordered
    list of packaging rules into add entries, reduces the entries into four
    staging maps, compiles bytecode in one batch, serialises the module maps
    into index-first blobs, generates [config.c], links a static libpython,
    renders the runtime configuration and prints the directives of the build
    script.  [src/pyoxidizer/src/project_layout.rs] makes a new Rust project
    that embeds Python: it runs [cargo init] and writes eight files from
    templates.  [src/tugger-rust-toolchain/src/tar.rs] reads the archive of
    a Rust package into memory and installs the files of its components.
    The three files do not call each other; they share the models of the
    standard library and of the file system, and two of them meet in a new
    project, whose build script runs the engine ([Compose]).

    ** Files, in dependency order

    - [Prelude] (this file): the error monad that every fallible operation
      lives in ([result], with [Panic] for Rust panics, [Failure] for
      returned errors and [WithContext] for an error with a context and its
      cause), the loops [foldM] and [collectM] with their lemmas, the hint
      databases and the tactic [result_cases], the characters that cannot be
      written in a string literal.
    - [BTree]: ordered iteration.  A [BTreeMap<String, V>] is a
      [gmap string V] and a [BTreeSet<String>] a [gset string]; [btree_iter]
      is the list of bindings in ascending byte-wise key order, proved sorted,
      duplicate free, complete and canonical.
    - [RustStd]: the operations of the Rust standard library that the sources
      call: [as_bytes], the casts [as u32] and [as i32], indexing that
      panics, [starts_with], character boundaries ([is_char_boundary]) and
      the slices that panic off them ([str_slice], [split_at]),
      [PathBuf::push], [Path::parent], [Path::ancestors], [lines], [split],
      [join].
    - [RustSort]: [slice::sort_by] as a stable insertion sort, with the
      lemmas that a caller of a stable sort relies on.
    - [RustText]: [String::from_utf8] (the validity of UTF-8 byte by byte,
      and that a byte of ASCII cuts well-formed text into well-formed text),
      [str::find] for a character, and paths as lists of components
      ([path_components], [Path::strip_prefix], the last component,
      [Path::join] on components, [Path::to_str], [Path::ends_with], the
      order of paths and the iteration [path_iter] of a map of paths).
    - [Io]: the trait [Write] and the file system as type classes with their
      laws ([LawfulWrite], [FileSystemLaws]), file handles, and [MemFs], a
      file system in memory.
    - [Effect]: [io S A], the computations on a state [S] whose outcome is
      the state that was reached together with a value or an error, with
      [io_bind], [io_try] (an operation and the state that its failure
      leaves), [io_context] (anyhow's [context]) and the loop [io_for];
      [succeeds], the triples of computations that return.
    - [FsIo]: [std::fs::write], [File::create] with [write_all] and
      [read_to_string] in [io]; what a write that fails leaves
      ([WriteFailure]); the frames [writes_only] and [holds].
    - [Blob]: [BlobEntry] and [write_blob_entries] over any [Write]; the
      layout of the format as a pure function and a reference reader.
    - [Dist]: the data model: [PythonResource], [ResourceAction],
      [PythonResourceEntry], [PythonResources] of repackage.rs, and the
      fields that repackage.rs reads of [ExtensionModule],
      [PythonDistributionInfo], [PythonPackaging], [Config] (declared in
      dist.rs and config.rs, which the repository does not hold).
    - [Env]: the collaborators as interfaces: the scanner of fsscan.rs, glob
      expansion, temporary directories and child processes, the bytecode
      compiler; and [World], an executable instance.
    - [Scenario]: the inputs of the end-to-end scenarios S1, S3, S4 and S6 of
      the specification, of a link and of a whole build, as data.
    - [Resolver]: the tables [STDLIB_TEST_PACKAGES], [OS_IGNORE_LIBRARIES],
      [OS_IGNORE_EXTENSIONS], [is_stdlib_test_package] and
      [resolve_python_packaging], one definition per arm of its [match].
    - [Reducer]: [read_resource_names_file], [filter_btreemap] and
      [resolve_python_resources]: the action switch ([apply_entry]), the
      filter rules ([apply_filter]), the loop over the rules ([stage_rule]),
      the required-extension pass ([add_required]), the ignore list
      ([remove_ignored]), the batched compilation ([compile_requests]) and
      the set of all modules ([collect_all_modules]).
    - [ConfigC]: [make_config_c].
    - [Resources]: [PythonResources::sources_blob], [bytecodes_blob] and
      [write_blobs].
    - [Linker]: [link_libpython], each loop a definition ([copy_include],
      [stage_core_object], [need_core_link], [add_extension],
      [need_extension_link], [link_library]); the C compiler and
      [create_dir_all] are the interface [Toolchain].
    - [PyConfig]: [derive_importlib], [derive_python_config] (the lines of its
      format string, [python_config_lines], and their join) and
      [write_data_rs].
    - [Orchestrator]: [process_config],
      [process_config_and_copy_artifacts], [find_pyoxidizer_config_file] and
      [run_from_build]; the parsers of the configuration and of the
      distribution are the interface [Frontend], the environment variables a
      map; [pipeline] is the relational specification of [process_config].
    - [Tar]: tar.rs.  [package_archive_new] ([PackageArchive::new], with the
      body of its loop as [add_archive_entry] and [read_entry]),
      [parse_manifest] with [parse_manifest_line], and [install] with
      [install_component] and [install_file]; the decoders and the tar
      reader are the interface [ArchiveReader], the crate
      tugger_file_manifest the interfaces [FileManifest] and [Destination];
      [install_plan] is the specification of [install]: the list of the
      copies that it makes.
    - [Layout]: project_layout.rs.  One definition per function:
      [find_pyoxidizer_files], [add_pyoxidizer], [update_new_cargo_toml]
      (its computation of the new content is [updated_cargo_toml]),
      [write_new_cargo_config], [write_new_cargo_lock] (the lock file is
      [new_cargo_lock]), [write_new_build_rs], [write_new_main_rs],
      [write_new_pyoxidizer_config_file], [write_application_manifest] and
      [initialize_project]; the templates, the crates cargo_lock and
      cargo_toml, the walk of a directory tree and the constants of
      environment.rs are the interfaces [Templates], [CargoLock],
      [CargoToml], [TreeWalker], [Directories] and [Environment];
      [project_paths] and [project_contents] are the specification of
      [initialize_project]; [Disk] is a file system in memory on which
      [cargo init] is played by [cargo_init].
    - [Compose]: the project that [initialize_project] of project_layout.rs
      makes, seen by the search for the configuration of repackage.rs.

    ** How the model corresponds to the code

    - [String], [str] and [PathBuf] are [string], a list of bytes.  A Rust
      [str] is well-formed UTF-8 and a path need not be; the model keeps
      the bytes and makes the difference where the code does: a slice of a
      [str] panics when an end of the range is not a character boundary
      ([str_slice], [split_at]), [String::from_utf8], [read_to_string] and
      the lines of [read_resource_names_file] fail on bytes that are not
      well formed, and [Path::to_str] gives nothing for such a path
      ([path_to_str]), on which the code panics.  [Vec<u8>] is [list byte].
    - The keys of [dist.objs_core] are paths: the map is iterated in the
      order of the paths ([path_iter]) and [ends_with] compares components;
      the other maps have string keys and are iterated in the order of
      their bytes ([btree_iter]).
    - [usize] lengths are [nat]; [as u32] is reduction modulo [2^32] on [Z];
      [write_u32::<LittleEndian>] is coqutil's [le_split 4].
    - A panic ([panic!], [expect], [unwrap], indexing out of range or with a
      missing key) is [Err (Panic msg)]; a returned [Err] is
      [Err (Failure msg)].  A [for] loop whose body can fail is a monadic
      fold that stops at the first error, as the code does.
    - [cfg!(target_os = ..)] is a parameter [TargetOs] of the definitions
      that read it.
    - The file system is a state [F] with the operations of [FileSystem];
      functions that write return the new state.  The resolver and the
      reducer only read it, except for a pip rule, which runs pip in a
      temporary directory and scans what pip left there; the state that pip
      leaves is used for that scan only.
    - [println!] is not modelled, except in [run_from_build], whose result
      is the list of the lines it prints for cargo together with how the run
      ends: the lines printed before a panic stay printed.  These are the
      lines that the code of repackage.rs prints.  The [cc] crate prints
      directives of its own when its cargo metadata is on, as it is for the
      second build of [link_libpython]; that output belongs to the effect
      of [cc_compile] on the world and is not among the lines of the model.
    - The environment is the map of the variables that [env::var] can read:
      a variable whose value is not Unicode is absent from it.
    - The importer that [derive_importlib] appends ([memoryimporter.py],
      included at compile time) is a parameter of the definitions.
    - The functions of tar.rs and project_layout.rs that write files run in
      [io]: they return at the first error with [?] and undo nothing, so the
      state that an error leaves is a part of the outcome.  A write that
      fails is not taken to leave its file as it was: [std::fs::write] and
      [File::create] truncate before they write and
      [FileEntry::write_to_path] creates the file first, so the state after
      a failure is given by the interface ([write_failed],
      [write_interrupted]), of which the theorems use only that the other
      paths are untouched.  [.context(msg)] wraps a returned error in
      [WithContext msg], which keeps the error as its cause, and lets a
      panic pass.
    - A path is compared by its components, as [Path] does: the laws of the
      file manifest and of the destination of tar.rs speak of
      [path_components]; the files of a new project are told apart by the
      ends of their names.
    - A crate that the sources call and the repository does not hold is a
      type class with the laws that the theorems use and an instance that
      computes, on which the theorems are applied to a concrete archive and
      a concrete project.

    ** What the theorems show

    - Blob: the exact byte layout, that the writer over a lawful [Write]
      refines the pure layout function, the round trip through the reference
      reader under the 32-bit bounds, and that beyond them the length fields
      wrap instead of the write being rejected.
    - Resolver: the entries of every rule, errors included; the prefix rule
      and its safety ([foo.barbell] against [foo.bar]); which names the
      test-package predicate accepts; exactly when the site-packages
      directory of a virtual environment is computed, and from which bytes
      of the version; that no rule removes.
    - Reducer: the module-set law, idempotence of a filter rule,
      last-write-wins as a refinement of a staging specification, the
      required-extension closure and its exception, that a test module or a
      module outside the whitelist never reaches the staged sources, that
      bytecode is compiled exactly for the surviving requests, and when the
      reduction succeeds.
    - ConfigC: the init table has exactly one row per staged extension with
      an init function other than [NULL], in ascending key order.
    - Resources: what the three files hold after [write_blobs], that no
      other file changes, and that the module sources and the module names
      can be read back from them.
    - Linker: the directives and their order, the objects that the library
      is compiled from, which libraries are needed (the links of the core
      never make one needed), and that a needed library that the
      distribution lacks is fatal.
    - PyConfig: what the frozen importlib data is made from; that the
      literal has one field per line when no string holds a line feed, and
      that strings are not escaped; the lines and the content of data.rs.
    - Orchestrator: [process_config] returns exactly when the steps of
      [pipeline] succeed in order; the directives that a build script
      prints; the search for the configuration file returns the candidate
      of the nearest ancestor and visits every ancestor; what the copied
      artifacts hold.
    - Tar: an archive that is read is well formed ([wf_archive]) and its
      manifest holds the last entry of every path; [parse_manifest] reads
      back the text of a list of items and fails at the first unknown
      action; [install] is the run of [install_plan]; it writes nothing
      outside the destination directory, whatever its outcome; what the
      destination holds after a success and after a failure (the copies
      made so far stay, and only the path of the copy that failed can hold
      something else; on a destination whose failing writes change
      nothing, [AtomicDestination], it holds exactly those copies); and it
      runs to the end when the plan has no error and the destination can be
      written.
    - Layout: [initialize_project] implements [project_contents] on the
      files of [project_paths] and changes no other file, whatever its
      outcome; its errors carry the message of the step that failed, as
      the error itself or as the context of the step's error; it runs to
      the end when the path of the project is well-formed text, its steps
      can be computed and the disk can be written; the new content of
      [Cargo.toml], exactly when it exists, panics of slicing included; the
      packages of the new lock file are sorted by name, stably, and the
      package of the project depends on the first locked version of every
      dependency; escaped code is read back when it has no backslash, and
      not when it ends in one.
    - Compose: whatever its outcome, [initialize_project] leaves the search
      of [find_pyoxidizer_config_file] as [cargo init] left it: the file
      [pyoxidizer.bzl] that it writes is no candidate of the search.
    - RustText: slicing well-formed text at a character of ASCII that was
      found in it does not panic ([find_char_slices]); the components of a
      path that is well-formed text are well-formed text; the order of
      paths is total and transitive, and [path_iter] is the sorted list of
      the bindings.

    ** Assumptions of the interfaces

    The theorems on tar.rs rely on the laws [FileManifestLaws] (a manifest
    is a map keyed by the components of a path), [CheckedManifest] (it
    refuses absolute paths and paths with [..]; without it [install] can
    write outside its destination) and [DestinationLaws] (a write touches
    its own path only); those on project_layout.rs on [FileSystemLaws],
    [WriteFailure] and [DirectoriesLaws].  Each law is discharged by the
    instance in memory of the file; for the crates themselves they are
    assumptions, named in the statements that use them.

    ** Bounds

    Every loop of the modelled code ranges over a finite list or map and is
    a structural recursion.  The reference reader recurses on the number of
    entries announced by the header.  The only fuel is in [path_ancestors]:
    the number of parents taken is bounded by the length of the path, which
    is enough because a parent is shorter than its path
    ([path_ancestors_upto_enough], [elem_of_path_ancestors]).  The models
    of tar.rs and project_layout.rs have no fuel: their loops range over
    the entries of an archive, the lines of a manifest, the components of
    an archive and the files of a directory tree, each a list.  That
    [install] and [initialize_project] return is proved as such
    ([install_completes], [initialize_project_completes]).

    ** Not modelled

    The bytecode compiler, the scanner, the C compiler, pip, cargo, the
    decompressors and the tar reader, the crates tugger_file_manifest,
    cargo_lock, cargo_toml and handlebars, the text of the templates and of
    the frozen lock file, and the parsers of the configuration and of the
    distribution are not in the repository; they appear as interfaces
    ([BytecodeCompiler], [Scanner], [Toolchain], [Process], [Frontend],
    [ArchiveReader], [FileManifest], [Destination], [Templates],
    [CargoLock], [CargoToml], [TreeWalker], [Environment]) or as inputs.
    The data of a file entry is held in memory, so that resolving it does
    not fail.  The removal of temporary directories and what is printed for
    the user are not modelled. *)

From Stdlib Require Export ZArith Ascii.
From Stdlib Require Export Strings.Byte.
From stdpp Require Export base tactics option list strings gmap sorting.

(** * Characters that a string literal cannot hold *)

Definition LF : ascii := "010"%char.
Definition CR : ascii := "013"%char.
Definition DQ : ascii := "034"%char.
Definition BACKSLASH : ascii := "092"%char.

Definition nl : string := String LF "".
Definition dq : string := String DQ "".

(** * Errors *)

(** [Panic] models a Rust panic (the build aborts and nothing is returned),
    [Failure] an error value returned to the caller, and [WithContext] an
    error value to which [anyhow]'s [context] has added a message: the
    message is what the error displays, the cause stays in the chain. *)
Inductive error : Type :=
| Panic (msg : string)
| Failure (msg : string)
| WithContext (msg : string) (cause : error).

Inductive result (A : Type) : Type :=
| Ok (a : A)
| Err (e : error).
Arguments Ok {A} a.
Arguments Err {A} e.

#[export] Instance error_eq_dec : EqDecision error.
Proof. intros e1 e2. unfold Decision. decide equality; apply (decide (_ = _)). Defined.

#[export] Instance result_eq_dec `{EqDecision A} : EqDecision (result A).
Proof. solve_decision. Defined.

#[export] Instance result_ret : MRet result := @Ok.

#[export] Instance result_bind : MBind result :=
  λ A B f r, match r with Ok a => f a | Err e => Err e end.

#[export] Instance result_fmap : FMap result :=
  λ A B f r, match r with Ok a => Ok (f a) | Err e => Err e end.

(** [Option::expect] and [Result::expect]: the value, or a panic with the
    given message. *)
Definition expect {A} (o : option A) (msg : string) : result A :=
  match o with Some a => Ok a | None => Err (Panic msg) end.

(** [Result::expect]: an error of the callee becomes a panic with the
    caller's message. *)
Definition expect_ok {A} (r : result A) (msg : string) : result A :=
  match r with Ok a => Ok a | Err _ => Err (Panic msg) end.

(** The message of [Result::unwrap] and [Option::unwrap]. *)
Definition unwrap_message : string := "called `Result::unwrap()` on an `Err` value".

(** [Option::ok_or_else(|| anyhow!(msg))?]. *)
Definition ok_or {A} (o : option A) (msg : string) : result A :=
  match o with Some a => Ok a | None => Err (Failure msg) end.

Definition is_ok {A} (r : result A) : bool :=
  match r with Ok _ => true | Err _ => false end.

Definition result_to_option {A} (r : result A) : option A :=
  match r with Ok a => Some a | Err _ => None end.

(** A [for] loop that threads a state and stops at the first error. *)
Fixpoint foldM {A B} (f : A → B → result A) (a : A) (l : list B) : result A :=
  match l with
  | [] => Ok a
  | x :: l => a' ← f a x; foldM f a' l
  end.

(** A [for] loop that pushes the outcome of each iteration. *)
Fixpoint collectM {A B} (f : A → result (list B)) (l : list A) : result (list B) :=
  match l with
  | [] => Ok []
  | x :: l => ys ← f x; zs ← collectM f l; Ok (ys ++ zs)
  end.

(** * Hint databases and tactics *)

Create HintDb repack discriminated.
Create Rewrite HintDb repack_rw.

Lemma bind_Ok {A B} (f : A → result B) (a : A) : Ok a ≫= f = f a.
Proof. done. Qed.

Lemma bind_Err {A B} (f : A → result B) (e : error) : Err e ≫= f = Err e.
Proof. done. Qed.

Lemma fmap_Ok {A B} (f : A → B) (a : A) : f <$> Ok a = Ok (f a).
Proof. done. Qed.

Lemma bind_Ok_inv {A B} (f : A → result B) (r : result A) (b : B) :
  r ≫= f = Ok b ↔ ∃ a, r = Ok a ∧ f a = Ok b.
Proof.
  destruct r as [a|e]; simpl; split.
  - eauto.
  - by intros (? & [= <-] & ?).
  - done.
  - by intros (? & [=] & ?).
Qed.

Lemma bind_Err_inv {A B} (f : A → result B) (r : result A) (e : error) :
  r ≫= f = Err e ↔ r = Err e ∨ ∃ a, r = Ok a ∧ f a = Err e.
Proof.
  destruct r as [a|e']; simpl; split.
  - intros. right. eauto.
  - by intros [[=]|(? & [= <-] & ?)].
  - intros [= ->]. by left.
  - by intros [[= ->]|(? & [=] & _)].
Qed.

Lemma is_ok_true {A} (r : result A) : is_ok r = true ↔ ∃ a, r = Ok a.
Proof. destruct r; simpl; split; [eauto|done|done|by intros [? [=]]]. Qed.

Lemma is_ok_false {A} (r : result A) : is_ok r = false ↔ ∃ e, r = Err e.
Proof. destruct r; simpl; split; [done|by intros [? [=]]|eauto|done]. Qed.

Lemma expect_Ok {A} (o : option A) msg a : expect o msg = Ok a ↔ o = Some a.
Proof. destruct o; simpl; split; congruence. Qed.

Lemma expect_Err {A} (o : option A) msg e :
  expect o msg = Err e ↔ o = None ∧ e = Panic msg.
Proof. destruct o; simpl; split; [done|by intros [[=] _]|by intros [= <-]|by intros [_ ->]]. Qed.

Lemma expect_ok_Ok {A} (r : result A) msg a : expect_ok r msg = Ok a ↔ r = Ok a.
Proof. destruct r; simpl; split; congruence. Qed.

Lemma expect_ok_Err {A} (r : result A) msg e :
  expect_ok r msg = Err e ↔ (∃ e', r = Err e') ∧ e = Panic msg.
Proof.
  destruct r; simpl; split; [done|by intros [[? [=]] _]| |by intros [_ ->]].
  intros [= <-]. eauto.
Qed.

#[export] Hint Rewrite @bind_Ok @bind_Err @fmap_Ok : repack_rw.

(** Case analysis on the results that a goal or a hypothesis binds. *)
Ltac result_cases :=
  repeat match goal with
  | H : Ok _ = Ok _ |- _ => injection H as H; subst
  | H : Err _ = Err _ |- _ => injection H as H; subst
  | H : Ok _ = Err _ |- _ => discriminate H
  | H : Err _ = Ok _ |- _ => discriminate H
  | H : mbind _ ?r = Ok _ |- _ => apply bind_Ok_inv in H as (? & ? & H)
  | H : expect _ _ = Ok _ |- _ => apply expect_Ok in H
  | H : expect _ _ = Err _ |- _ => apply expect_Err in H as [? ->]
  | H : expect_ok _ _ = Ok _ |- _ => apply expect_ok_Ok in H
  | H : expect_ok _ _ = Err _ |- _ => apply expect_ok_Err in H as [[? ?] ->]
  end.

(** * Monadic folds *)

Section folds.
Context {A B : Type}.
Implicit Types (f : A → B → result A) (a : A) (l k : list B).

Lemma foldM_app f a l k :
  foldM f a (l ++ k) = a' ← foldM f a l; foldM f a' k.
Proof.
  revert a. induction l as [|x l IH]; intros a; simpl; [done|].
  destruct (f a x); simpl; [apply IH|done].
Qed.

(** A loop whose body never fails is a left fold. *)
Lemma foldM_total f (g : A → B → A) a l :
  (∀ a x, f a x = Ok (g a x)) → foldM f a l = Ok (foldl g a l).
Proof.
  intros Hf. revert a. induction l as [|x l IH]; intros a; simpl; [done|].
  by rewrite Hf, bind_Ok, IH.
Qed.

(** An invariant of the body is an invariant of the loop. *)
Lemma foldM_invariant (P : A → Prop) f a l a' :
  (∀ a x a', P a → f a x = Ok a' → P a') →
  P a → foldM f a l = Ok a' → P a'.
Proof.
  intros Hf. revert a. induction l as [|x l IH]; intros a Ha H; simpl in H.
  - by result_cases.
  - result_cases. eauto.
Qed.

(** A loop whose body succeeds on every element succeeds. *)
Lemma foldM_is_ok f a l :
  (∀ a x, x ∈ l → is_ok (f a x) = true) → is_ok (foldM f a l) = true.
Proof.
  revert a. induction l as [|x l IH]; intros a Hf; simpl; [done|].
  destruct (f a x) as [a'|] eqn:E; simpl.
  - apply IH. intros ???. apply Hf. by right.
  - specialize (Hf a x). rewrite E in Hf. apply Hf. by left.
Qed.

(** The error of a loop is the error of one of its iterations. *)
Lemma foldM_Err_inv f a l e :
  foldM f a l = Err e → ∃ a' x, x ∈ l ∧ f a' x = Err e.
Proof.
  revert a. induction l as [|x l IH]; intros a; simpl; [done|].
  destruct (f a x) as [a'|e'] eqn:E; simpl.
  - intros (a'' & y & ? & ?)%IH. exists a'', y. split; [by right|done].
  - intros [= ->]. exists a, x. split; [by left|done].
Qed.

(** Every iteration of a loop that succeeded has succeeded. *)
Lemma foldM_Ok_inv f a l a' x :
  foldM f a l = Ok a' → x ∈ l → ∃ a1 a2, f a1 x = Ok a2.
Proof.
  revert a. induction l as [|y l IH]; intros a Hl Hx; [by apply elem_of_nil in Hx|].
  simpl in Hl. apply bind_Ok_inv in Hl as (a1 & Hy & Hl).
  apply elem_of_cons in Hx as [->|Hx]; [by eauto|by eapply IH].
Qed.

End folds.

Section collect.
Context {A B : Type}.
Implicit Types (f : A → result (list B)) (l k : list A).

Lemma collectM_app f l k :
  collectM f (l ++ k) = ys ← collectM f l; zs ← collectM f k; Ok (ys ++ zs).
Proof.
  induction l as [|x l IH]; simpl.
  - destruct (collectM f k); done.
  - destruct (f x); simpl; [|done]. rewrite IH.
    destruct (collectM f l); simpl; [|done].
    destruct (collectM f k); simpl; [|done]. by rewrite (assoc_L (++)).
Qed.

(** A loop whose body never fails is a [flat_map]. *)
Lemma collectM_total f (g : A → list B) l :
  (∀ x, x ∈ l → f x = Ok (g x)) → collectM f l = Ok (l ≫= g).
Proof.
  induction l as [|x l IH]; intros Hf; simpl; [done|].
  rewrite Hf by left. simpl. rewrite IH; [done|].
  intros y Hy. apply Hf. by right.
Qed.

(** The loop fails as soon as one iteration does. *)
Lemma collectM_Err f l x e :
  x ∈ l → f x = Err e → (∀ y, y ∈ l → f y = Err e ∨ is_ok (f y) = true) →
  collectM f l = Err e.
Proof.
  induction l as [|y l IH]; intros Hx Hfx Hall; [by apply elem_of_nil in Hx|].
  simpl. destruct (Hall y) as [->|Hy]; [by left|done|].
  apply is_ok_true in Hy as [ys Hy]. rewrite Hy. simpl.
  apply elem_of_cons in Hx as [->|Hx]; [congruence|].
  rewrite IH; [done..|]. intros z Hz. apply Hall. by right.
Qed.

Lemma collectM_cons_Ok f x l zs :
  collectM f (x :: l) = Ok zs ↔ ∃ ys zs', f x = Ok ys ∧ collectM f l = Ok zs' ∧ zs = ys ++ zs'.
Proof.
  simpl. destruct (f x) as [ys|]; simpl; [|split; [done|by intros (?&?&?&_)]].
  destruct (collectM f l) as [zs'|]; simpl.
  - split; [intros [= <-]; eauto|]. by intros (?&?&[= <-]&[= <-]&->).
  - split; [done|]. by intros (?&?&_&?&_).
Qed.

(** What a loop that succeeded has pushed comes from its iterations. *)
Lemma elem_of_collectM f l zs z :
  collectM f l = Ok zs → z ∈ zs ↔ ∃ x ys, x ∈ l ∧ f x = Ok ys ∧ z ∈ ys.
Proof.
  revert zs. induction l as [|x l IH]; intros zs.
  - intros [= <-]. split; [by intros ?%elem_of_nil|]. by intros (?&?&?%elem_of_nil&_).
  - intros (ys & zs' & Hx & Hl & ->)%collectM_cons_Ok.
    rewrite elem_of_app, (IH _ Hl). split.
    + intros [Hz|(y & ys' & Hy & Hfy & Hz)]; [exists x, ys|exists y, ys']; split_and!;
        try done; [left|by right].
    + intros (y & ys' & [->|Hy]%elem_of_cons & Hfy & Hz); [left; congruence|].
      right. by exists y, ys'.
Qed.

Lemma collectM_Forall (P : B → Prop) f l zs :
  (∀ x ys, x ∈ l → f x = Ok ys → Forall P ys) → collectM f l = Ok zs → Forall P zs.
Proof.
  intros Hf Hl. apply Forall_forall.
  intros z (x & ys & Hx & Hfx & Hz)%(elem_of_collectM _ _ _ _ Hl).
  by eapply (proj1 (Forall_forall _ _)); [eapply Hf|].
Qed.

(** The loop succeeds exactly when every iteration does. *)
Lemma collectM_is_ok f l : is_ok (collectM f l) = forallb (λ x, is_ok (f x)) l.
Proof.
  induction l as [|x l IH]; simpl; [done|].
  destruct (f x); simpl; [|done]. rewrite <-IH. by destruct (collectM f l).
Qed.

(** The error of the loop is the error of the first iteration that fails. *)
Lemma collectM_first_Err f l1 x l2 e :
  Forall (λ y, is_ok (f y) = true) l1 → f x = Err e → collectM f (l1 ++ x :: l2) = Err e.
Proof.
  intros Hl1 Hx. induction Hl1 as [|y l1 [ys Hy]%is_ok_true _ IH]; simpl.
  - by rewrite Hx.
  - by rewrite Hy, IH.
Qed.

End collect.

(** * Bytes *)

#[export] Instance byte_eq_dec : EqDecision byte := Byte.byte_eq_dec.

(** * Lists *)

Section lists.
Context {A : Type}.
Implicit Types (l k : list A) (R : relation A).

(** The pushes of a loop, seen as one concatenation. *)
Lemma list_bind_concat {B} (f : A → list B) l : l ≫= f = concat (f <$> l).
Proof. induction l as [|x l IH]; csimpl; [done|]. by rewrite IH. Qed.

Lemma length_list_bind {B} (f : A → list B) l :
  length (l ≫= f) = sum_list (length ∘ f <$> l).
Proof. induction l as [|x l IH]; csimpl; [done|]. by rewrite length_app, IH. Qed.

(** A sublist selected by a predicate of a sorted list is sorted. *)
Lemma StronglySorted_filter R (P : A → Prop) `{!∀ x, Decision (P x)} l :
  StronglySorted R l → StronglySorted R (filter P l).
Proof.
  induction 1 as [|x l _ IH Hall]; [constructor|].
  rewrite filter_cons. case_decide; [|done].
  constructor; [done|]. rewrite Forall_forall in Hall |- *.
  intros y [_ Hy]%list_elem_of_filter. by apply Hall.
Qed.

Lemma filter_nil_Forall (P : A → Prop) `{!∀ x, Decision (P x)} l :
  Forall (λ x, ¬ P x) l → filter P l = [].
Proof. induction 1 as [|x l Hx _ IH]; [done|]. by rewrite filter_cons_False. Qed.

(** Sortedness is transported along a key function. *)
Lemma StronglySorted_fmap_key {B} (f : B → A) R (S : relation B) (l : list B) :
  (∀ x y, S x y → R (f x) (f y)) →
  StronglySorted S l → StronglySorted R (f <$> l).
Proof.
  intros HS. induction 1 as [|x l _ IH Hall]; simpl; constructor; [done|].
  apply Forall_fmap. eapply Forall_impl; [apply Hall|]. intros y. apply HS.
Qed.

End lists.

#[export] Hint Resolve is_ok_true is_ok_false : repack.
