(* ===== verification/BTree.v ===== *)
(** * Ordered maps and sets of the Rust standard library

    [BTreeMap<String, V>] is modelled by [gmap string V] and
    [BTreeSet<String>] by [gset string]: lookups, insertions, removals and
    extensional equality are stdpp's.  What a B-tree adds is its iteration
    order, ascending in the byte-wise order of the keys; [btree_iter] is that
    iteration, defined by sorting the bindings, and this file proves that it
    is the unique key-sorted enumeration of the map. *)

From S2P Require Import Prelude.

Section btree.
Context {V : Type}.
Implicit Types (m : gmap string V) (k : string) (v : V) (l : list (string * V)).

(** The order of two bindings is the order of their keys ([Ord for String]
    compares bytes lexicographically, as [String.le] does). *)
Definition key_le (a b : string * V) : Prop := String.le a.1 b.1.

#[global] Instance key_le_dec : RelDecision key_le.
Proof. intros a b. unfold key_le. apply _. Defined.

#[global] Instance key_le_trans : Transitive key_le.
Proof. intros a b c. unfold key_le. apply transitivity. Qed.

#[global] Instance key_le_total : Total key_le.
Proof. intros a b. unfold key_le. apply total, _. Qed.

(** [for (k, v) in &m], [m.keys()], [m.values()]. *)
Definition btree_iter m : list (string * V) := merge_sort key_le (map_to_list m).
Definition btree_keys m : list string := (btree_iter m).*1.
Definition btree_values m : list V := (btree_iter m).*2.

Lemma btree_iter_perm m : btree_iter m ≡ₚ map_to_list m.
Proof. apply merge_sort_Permutation. Qed.

Lemma btree_iter_sorted m : StronglySorted key_le (btree_iter m).
Proof. apply StronglySorted_merge_sort; apply _. Qed.

Lemma elem_of_btree_iter m k v : (k, v) ∈ btree_iter m ↔ m !! k = Some v.
Proof. by rewrite btree_iter_perm, elem_of_map_to_list. Qed.

Lemma elem_of_btree_keys m k : k ∈ btree_keys m ↔ is_Some (m !! k).
Proof.
  unfold btree_keys. rewrite list_elem_of_fmap. split.
  - intros ([k' v] & -> & H%elem_of_btree_iter). eauto.
  - intros [v H]. exists (k, v). by rewrite elem_of_btree_iter.
Qed.

Lemma NoDup_btree_keys m : NoDup (btree_keys m).
Proof.
  unfold btree_keys. rewrite btree_iter_perm. apply NoDup_fst_map_to_list.
Qed.

Lemma length_btree_iter m : length (btree_iter m) = size m.
Proof. by rewrite btree_iter_perm, length_map_to_list. Qed.

(** Two bindings of one map that are ordered both ways are the same. *)
Lemma key_le_antisym_in m a b :
  a ∈ map_to_list m → b ∈ map_to_list m → key_le a b → key_le b a → a = b.
Proof.
  destruct a as [k v], b as [k' v']. unfold key_le. simpl.
  intros Ha%elem_of_map_to_list Hb%elem_of_map_to_list H1 H2.
  assert (k = k') as <- by (by apply (anti_symm String.le)). congruence.
Qed.

(** The iteration is canonical: any key-sorted enumeration of the bindings
    is [btree_iter]. *)
Lemma btree_iter_unique m l :
  StronglySorted key_le l → l ≡ₚ map_to_list m → l = btree_iter m.
Proof.
  intros Hl Hp. apply (StronglySorted_unique_strong key_le); [|done|..].
  - intros a b Ha Hb. apply (key_le_antisym_in m).
    + by rewrite <-Hp.
    + by rewrite <-btree_iter_perm.
  - apply btree_iter_sorted.
  - by rewrite Hp, btree_iter_perm.
Qed.

Lemma btree_iter_empty : btree_iter (∅ : gmap string V) = [].
Proof. symmetry. apply btree_iter_unique; [constructor|by rewrite map_to_list_empty]. Qed.

Lemma btree_iter_singleton k v : btree_iter ({[k := v]} : gmap string V) = [(k, v)].
Proof.
  symmetry. apply btree_iter_unique; [by repeat constructor|].
  by rewrite map_to_list_singleton.
Qed.

(** The map is recovered from its iteration. *)
Lemma btree_iter_nil m : btree_iter m = [] ↔ m = ∅.
Proof.
  split; [|intros ->; apply btree_iter_empty].
  intros Hm. apply map_to_list_empty_iff, Permutation_nil_r.
  by rewrite <-Hm, btree_iter_perm.
Qed.

Lemma list_to_map_btree_iter m : list_to_map (btree_iter m) = m.
Proof.
  rewrite <-(list_to_map_to_list m) at 2. apply list_to_map_proper.
  - apply NoDup_btree_keys.
  - apply btree_iter_perm.
Qed.

(** Iterating the map with one more, greatest, key visits it last. *)
Lemma btree_iter_insert_last m k v :
  (∀ k', is_Some (m !! k') → String.le k' k ∧ k' ≠ k) →
  btree_iter (<[k:=v]> m) = btree_iter m ++ [(k, v)].
Proof.
  intros Hk. symmetry. apply btree_iter_unique.
  - apply StronglySorted_app_2; [|apply btree_iter_sorted|by repeat constructor].
    intros [k1 v1] b H1%elem_of_btree_iter ->%list_elem_of_singleton.
    unfold key_le. simpl. apply Hk. eauto.
  - assert (m !! k = None) as Hnone.
    { destruct (m !! k) eqn:E; [|done]. by destruct (Hk k) as [_ []]; [eauto|]. }
    rewrite map_to_list_insert, btree_iter_perm by done.
    symmetry. apply Permutation_cons_append.
Qed.

(** Retaining the bindings that satisfy a predicate commutes with
    iteration. *)
Lemma btree_iter_filter (P : string * V → Prop) `{!∀ x, Decision (P x)} m :
  btree_iter (filter P m) = filter P (btree_iter m).
Proof.
  symmetry. apply btree_iter_unique.
  - apply StronglySorted_filter, btree_iter_sorted.
  - rewrite btree_iter_perm. apply NoDup_Permutation.
    + apply NoDup_filter, NoDup_map_to_list.
    + apply NoDup_map_to_list.
    + intros [k v]. rewrite list_elem_of_filter, !elem_of_map_to_list.
      rewrite map_lookup_filter_Some. tauto.
Qed.

End btree.

Section btree_fmap.
Context {V W : Type}.

(** Mapping the values does not change the order of iteration. *)
Lemma btree_iter_fmap (f : V → W) (m : gmap string V) :
  btree_iter (f <$> m) = prod_map id f <$> btree_iter m.
Proof.
  symmetry. apply btree_iter_unique.
  - eapply StronglySorted_fmap_key, btree_iter_sorted. by intros [] [].
  - rewrite map_to_list_fmap. by apply fmap_Permutation, btree_iter_perm.
Qed.

Lemma btree_keys_fmap (f : V → W) (m : gmap string V) :
  btree_keys (f <$> m) = btree_keys m.
Proof.
  unfold btree_keys. rewrite btree_iter_fmap, <-list_fmap_compose.
  by apply list_fmap_ext; intros ? [].
Qed.

End btree_fmap.

(** * Sets *)

(** [for x in &s] on a [BTreeSet<String>]. *)
Definition btree_set_iter (s : gset string) : list string :=
  merge_sort String.le (elements s).

Lemma btree_set_iter_perm s : btree_set_iter s ≡ₚ elements s.
Proof. apply merge_sort_Permutation. Qed.

Lemma btree_set_iter_sorted s : StronglySorted String.le (btree_set_iter s).
Proof. apply StronglySorted_merge_sort; apply _. Qed.

Lemma elem_of_btree_set_iter s x : x ∈ btree_set_iter s ↔ x ∈ s.
Proof. by rewrite btree_set_iter_perm, elem_of_elements. Qed.

Lemma NoDup_btree_set_iter s : NoDup (btree_set_iter s).
Proof. rewrite btree_set_iter_perm. apply NoDup_elements. Qed.

Lemma btree_set_iter_unique s l :
  StronglySorted String.le l → l ≡ₚ elements s → l = btree_set_iter s.
Proof.
  intros Hl Hp. apply (StronglySorted_unique String.le); [done|..].
  - apply btree_set_iter_sorted.
  - by rewrite Hp, btree_set_iter_perm.
Qed.

(** The keys of a map are visited in the order its key set is. *)
Lemma list_to_set_btree_keys {V} (m : gmap string V) :
  list_to_set (btree_keys m) = dom m.
Proof.
  apply set_eq. intros k. by rewrite elem_of_list_to_set, elem_of_btree_keys, elem_of_dom.
Qed.

Lemma btree_keys_dom {V} (m : gmap string V) :
  btree_keys m = btree_set_iter (dom m).
Proof.
  apply btree_set_iter_unique.
  - eapply StronglySorted_fmap_key, btree_iter_sorted. by intros [] [].
  - apply NoDup_Permutation; [apply NoDup_btree_keys|apply NoDup_elements|].
    intros k. by rewrite elem_of_btree_keys, elem_of_elements, elem_of_dom.
Qed.

#[export] Hint Resolve btree_iter_sorted NoDup_btree_keys btree_set_iter_sorted : repack.
#[export] Hint Rewrite @btree_iter_empty @btree_iter_singleton : repack_rw.
