(* ===== verification/RustStd.v ===== *)
(** * Operations of the Rust standard library that the sources call

    Strings are byte strings ([string]), byte vectors are [list byte].  Each
    definition models one method of [str], [String], [Vec] or an integer
    cast, as documented by the standard library; none of them is code of the
    repository.  A [str] is UTF-8: an index into it is a byte offset, and a
    slice panics when an end of its range is inside a character
    ([is_char_boundary], from the continuation bytes [10xxxxxx]).  The
    lemmas are the facts about them that the components share. *)

From S2P Require Import Prelude.

(** * Bytes of a string *)

(** [str::as_bytes] and [str::bytes]. *)
Definition as_bytes (s : string) : list byte := String.list_byte_of_string s.

(** [String::from_utf8] on bytes that are valid UTF-8 (validity is not
    modelled: strings are byte strings). *)
Definition from_utf8 (bs : list byte) : string := String.string_of_list_byte bs.

Lemma as_bytes_app s1 s2 : as_bytes (s1 +:+ s2) = as_bytes s1 ++ as_bytes s2.
Proof.
  unfold as_bytes, String.list_byte_of_string.
  induction s1 as [|c s1 IH]; simpl; [done|]. by rewrite <-IH.
Qed.

Lemma length_as_bytes s : length (as_bytes s) = String.length s.
Proof.
  unfold as_bytes, String.list_byte_of_string.
  induction s as [|c s IH]; simpl; [done|]. by rewrite <-IH.
Qed.

Lemma from_utf8_as_bytes s : from_utf8 (as_bytes s) = s.
Proof. apply String.string_of_list_byte_of_string. Qed.

Lemma as_bytes_from_utf8 bs : as_bytes (from_utf8 bs) = bs.
Proof. apply String.list_byte_of_string_of_list_byte. Qed.

#[export] Instance as_bytes_inj : Inj (=) (=) as_bytes.
Proof. intros s1 s2 H. by rewrite <-(from_utf8_as_bytes s1), H, from_utf8_as_bytes. Qed.

(** * Integer casts *)

(** [n as u32] for [n : usize]: the low 32 bits. *)
Definition usize_as_u32 (n : nat) : Z := Z.of_nat n mod 2 ^ 32.

Lemma usize_as_u32_range n : (0 ≤ usize_as_u32 n < 2 ^ 32)%Z.
Proof. apply Z.mod_pos_bound. done. Qed.

Lemma usize_as_u32_small n : (Z.of_nat n < 2 ^ 32)%Z → usize_as_u32 n = Z.of_nat n.
Proof. intros. apply Z.mod_small. lia. Qed.

(** The number of bytes in 4 GiB.  It is never computed: proofs use
    [four_gib_Z] only. *)
Definition four_gib : nat := Z.to_nat (2 ^ 32).

Lemma four_gib_Z : Z.of_nat four_gib = (2 ^ 32)%Z.
Proof. unfold four_gib. by rewrite Z2Nat.id. Qed.

#[global] Opaque four_gib.

(** The cast does not tell two lengths apart that differ by [2^32]. *)
Lemma usize_as_u32_wrap n : usize_as_u32 (n + four_gib) = usize_as_u32 n.
Proof.
  unfold usize_as_u32. rewrite Nat2Z.inj_add, four_gib_Z.
  rewrite <-(Z.mul_1_l (2 ^ 32)) at 1. by rewrite Z.mod_add.
Qed.

(** [z as i32] for [z : i64]: the low 32 bits, read as a signed number. *)
Definition i64_as_i32 (z : Z) : Z := ((z + 2 ^ 31) mod 2 ^ 32 - 2 ^ 31)%Z.

Lemma i64_as_i32_range z : (- 2 ^ 31 ≤ i64_as_i32 z < 2 ^ 31)%Z.
Proof. unfold i64_as_i32. pose proof (Z.mod_pos_bound (z + 2 ^ 31) (2 ^ 32)). lia. Qed.

Lemma i64_as_i32_small z : (- 2 ^ 31 ≤ z < 2 ^ 31)%Z → i64_as_i32 z = z.
Proof. intros. unfold i64_as_i32. rewrite Z.mod_small; lia. Qed.

(** * Indexing *)

(** [v[i]] on a vector or slice: panics out of range. *)
Definition vec_index {A} (v : list A) (i : nat) : result A :=
  expect (v !! i) "index out of bounds".

(** [m[key]] on a [BTreeMap]: panics when the key is absent. *)
Definition map_index {V} (m : gmap string V) (key : string) : result V :=
  expect (m !! key) "no entry found for key".

Lemma vec_index_cons {A} (x : A) v : vec_index (x :: v) 0 = Ok x.
Proof. done. Qed.

Lemma vec_index_nil {A} i : vec_index ([] : list A) i = Err (Panic "index out of bounds").
Proof. done. Qed.

Lemma vec_index_0_Ok {A} (v : list A) (x : A) : vec_index v 0 = Ok x ↔ ∃ rest, v = x :: rest.
Proof.
  unfold vec_index. rewrite expect_Ok. destruct v as [|y v]; simpl.
  - split; [done|]. by intros [? [=]].
  - split; [intros [= ->]; eauto|]. by intros [? [= -> _]].
Qed.

(** * Prefixes, suffixes and search *)

(** [s.starts_with(pat)]. *)
Definition starts_with (s pat : string) : bool := String.prefix pat s.

(** [s.ends_with(pat)]. *)
Definition ends_with (s pat : string) : bool :=
  String.prefix (String.rev pat) (String.rev s).

(** [s.find(pat)]: the byte offset of the first match. *)
Definition str_find (s pat : string) : option nat := String.index 0 pat s.

(** [s.contains(pat)]. *)
Definition str_contains (s pat : string) : bool := bool_decide (is_Some (str_find s pat)).

(** A byte that continues a character of UTF-8: [0x80] to [0xBF], the bytes
    whose two highest bits are 1 and 0. *)
Definition is_continuation (c : ascii) : bool :=
  match c with Ascii _ _ _ _ _ _ b6 b7 => b7 && negb b6 end.

(** The string does not begin in the middle of a character. *)
Definition char_start (s : string) : bool :=
  match s with
  | "" => true
  | String c _ => negb (is_continuation c)
  end.

(** What is left of the string at [index] begins a character; an index
    beyond the end is no boundary. *)
Fixpoint char_start_at (s : string) (index : nat) : bool :=
  match index, s with
  | 0, _ => char_start s
  | S index, String _ s => char_start_at s index
  | S _, "" => false
  end.

(** [s.is_char_boundary(index)]: the start and the end of the string are
    boundaries, and so is every index whose byte does not continue a
    character. *)
Definition is_char_boundary (s : string) (index : nat) : bool :=
  match index with
  | 0 => true
  | _ => char_start_at s index
  end.

(** [&s[a..b]]: panics when the range is not inside the string or when one
    of its ends is not a character boundary. *)
Definition str_slice (s : string) (a b : nat) : result string :=
  if bool_decide (a ≤ b) && is_char_boundary s a && is_char_boundary s b
  then Ok (String.substring a (b - a) s)
  else Err (Panic "byte index is out of bounds or not a char boundary").

(** [s.split_at(mid)]: panics when [mid] is beyond the end or not a
    character boundary. *)
Definition split_at (s : string) (mid : nat) : result (string * string) :=
  if is_char_boundary s mid
  then Ok (String.substring 0 mid s, String.substring mid (String.length s - mid) s)
  else Err (Panic "failed to slice string").

Lemma string_app_cons c s r : String c s +:+ r = String c (s +:+ r).
Proof. done. Qed.

Lemma string_app_nil_r s : s +:+ "" = s.
Proof. induction s as [|c s IH]; [done|]. by rewrite string_app_cons, IH. Qed.

Lemma string_app_assoc s1 s2 s3 : (s1 +:+ s2) +:+ s3 = s1 +:+ s2 +:+ s3.
Proof. induction s1 as [|c s1 IH]; [done|]. by rewrite !string_app_cons, IH. Qed.

Lemma string_length_app s1 s2 :
  String.length (s1 +:+ s2) = String.length s1 + String.length s2.
Proof. induction s1 as [|c s1 IH]; [done|]. rewrite string_app_cons. simpl. by rewrite IH. Qed.

Lemma starts_with_app s pat : starts_with s pat = true ↔ ∃ rest, s = pat +:+ rest.
Proof.
  unfold starts_with. revert s. induction pat as [|c pat IH]; intros s; simpl.
  - split; [|by destruct s]. intros _. by exists s.
  - destruct s as [|c' s]; simpl; [split; [done|by intros [? [=]]]|].
    destruct (ascii_dec c c') as [->|Hne].
    + rewrite IH. split; intros [r Hr]; exists r; [by rewrite Hr|].
      rewrite string_app_cons in Hr. by simplify_eq.
    + split; [done|]. intros [r Hr]. rewrite string_app_cons in Hr. by simplify_eq.
Qed.

Lemma string_app_inj_l p a b : p +:+ a = p +:+ b → a = b.
Proof. induction p as [|c p IH]; [done|]. rewrite !string_app_cons. intros [= ?]. auto. Qed.

Lemma substring_prefix s rest : String.substring 0 (String.length s) (s +:+ rest) = s.
Proof.
  induction s as [|c s IH]; [by destruct rest|]. rewrite string_app_cons.
  simpl. by rewrite IH.
Qed.

(** The end of a prefix is a boundary exactly when what follows begins a
    character. *)
Lemma char_start_at_app a b : char_start_at (a +:+ b) (String.length a) = char_start b.
Proof. induction a as [|c a IH]; [by destruct b|]. by rewrite string_app_cons. Qed.

Lemma char_start_at_le s index : char_start_at s index = true → index ≤ String.length s.
Proof.
  revert index. induction s as [|c s IH]; intros [|index]; simpl; try done; try lia.
  intros ?%IH. lia.
Qed.

Lemma is_char_boundary_app a b :
  is_char_boundary (a +:+ b) (String.length a) = (bool_decide (a = "") || char_start b).
Proof.
  destruct a as [|c a]; [done|]. rewrite string_app_cons. cbn [String.length is_char_boundary].
  apply (char_start_at_app (String c a) b).
Qed.

Lemma is_char_boundary_length s : is_char_boundary s (String.length s) = true.
Proof.
  rewrite <-(string_app_nil_r s) at 1. rewrite is_char_boundary_app. apply orb_true_r.
Qed.

Lemma is_char_boundary_le s index : is_char_boundary s index = true → index ≤ String.length s.
Proof. destruct index; [lia|]. apply char_start_at_le. Qed.

(** Slicing off a prefix gives the prefix, when what follows begins a
    character. *)
Lemma str_slice_prefix s rest :
  char_start rest = true → str_slice (s +:+ rest) 0 (String.length s) = Ok s.
Proof.
  intros Hrest. unfold str_slice.
  rewrite is_char_boundary_app, Hrest, orb_true_r, bool_decide_eq_true_2 by lia.
  by rewrite Nat.sub_0_r, substring_prefix.
Qed.

Lemma starts_with_refl s : starts_with s s = true.
Proof. apply starts_with_app. exists "". by rewrite string_app_nil_r. Qed.

Lemma starts_with_length s pat :
  starts_with s pat = true → String.length pat ≤ String.length s.
Proof.
  unfold starts_with. revert s. induction pat as [|c pat IH]; intros [|c' s]; simpl;
    [lia|lia|done|].
  destruct (ascii_dec c c'); [|done]. intros H%IH. lia.
Qed.

(** * Paths *)

(** [PathBuf::push] on Unix: an absolute component replaces the path,
    otherwise it is appended after a separator, which is added unless the
    path is empty or ends in one. *)
Definition path_push (p c : string) : string :=
  if starts_with c "/" then c
  else if bool_decide (p = "") || ends_with p "/" then p +:+ c
  else p +:+ "/" +:+ c.

(** [Path::join]. *)
Definition path_join (p c : string) : string := path_push p c.

(** The text before and after the last separator of a path. *)
Fixpoint path_split_last (s : string) : option (string * string) :=
  match s with
  | "" => None
  | String c s' =>
      match path_split_last s' with
      | Some (d, f) => Some (String c d, f)
      | None => if decide (c = "/"%char) then Some ("", s') else None
      end
  end.

(** [Path::parent] on a path without a trailing separator: nothing for the
    empty path and for the root, the empty path for a single component. *)
Definition path_parent (p : string) : option string :=
  if decide (p = "") then None
  else if decide (p = "/") then None
  else match path_split_last p with
       | Some (d, _) => if decide (d = "") then Some "/" else Some d
       | None => Some ""
       end.

(** [Path::ancestors]: the path, its parent, the parent of that, and so on.
    The fuel bounds the number of parents that are taken. *)
Fixpoint path_ancestors_upto (fuel : nat) (p : string) : list string :=
  match fuel with
  | 0 => [p]
  | S fuel =>
      match path_parent p with
      | Some d => p :: path_ancestors_upto fuel d
      | None => [p]
      end
  end.

(** A parent is shorter than its path, so the length of the path is fuel
    enough. *)
Definition path_ancestors (p : string) : list string :=
  path_ancestors_upto (String.length p) p.

Lemma path_split_last_length s d f :
  path_split_last s = Some (d, f) → String.length d < String.length s.
Proof.
  revert d. induction s as [|c s IH]; intros d; [done|]. cbn [path_split_last].
  destruct (path_split_last s) as [[d' f']|].
  - intros [= <- <-]. specialize (IH _ eq_refl). simpl. lia.
  - case_decide; [|done]. intros [= <- <-]. simpl. lia.
Qed.

Lemma path_parent_shorter p d : path_parent p = Some d → String.length d < String.length p.
Proof.
  unfold path_parent. repeat case_decide; try done.
  destruct (path_split_last p) as [[d' f]|] eqn:E.
  - pose proof (path_split_last_length _ _ _ E) as Hlen. case_decide as Hd.
    + intros [= <-]. destruct p as [|c [|c' p]]; [done| |simpl; lia].
      cbn in E. destruct (decide (c = "/"%char)); by subst.
    + by intros [= <-].
  - intros [= <-]. destruct p; [done|simpl; lia].
Qed.

(** With fuel enough the ancestors are the path followed by the ancestors
    of its parent: the walk ends at a path without a parent. *)
Lemma path_ancestors_upto_enough fuel p :
  String.length p ≤ fuel →
  path_ancestors_upto fuel p =
    p :: match path_parent p with Some d => path_ancestors d | None => [] end.
Proof.
  revert p. induction (lt_wf fuel) as [fuel _ IH]. intros p Hp.
  destruct fuel as [|fuel].
  - destruct p; [done|simpl in Hp; lia].
  - cbn [path_ancestors_upto]. destruct (path_parent p) as [d|] eqn:E; [|done].
    pose proof (path_parent_shorter _ _ E). f_equal.
    unfold path_ancestors. rewrite !IH by lia. done.
Qed.

Lemma path_ancestors_unfold p :
  path_ancestors p = p :: match path_parent p with Some d => path_ancestors d | None => [] end.
Proof. by apply path_ancestors_upto_enough. Qed.

(** [a] is [p], or the parent of [p], or the parent of that, and so on. *)
Inductive ancestor : string → string → Prop :=
  | ancestor_refl p : ancestor p p
  | ancestor_step p d a : path_parent p = Some d → ancestor d a → ancestor p a.

(** The list of the ancestors holds them all: the fuel is never short. *)
Lemma elem_of_path_ancestors p a : a ∈ path_ancestors p ↔ ancestor p a.
Proof.
  split.
  - remember (String.length p) as n eqn:Hn. revert p Hn.
    induction (lt_wf n) as [n _ IH]. intros p ->.
    rewrite path_ancestors_unfold. intros [->|Ha]%elem_of_cons; [constructor|].
    destruct (path_parent p) as [d|] eqn:E; [|by apply elem_of_nil in Ha].
    apply (ancestor_step _ d); [done|]. by apply (IH _ (path_parent_shorter _ _ E) d).
  - induction 1 as [p|p d a Hp _ IH]; rewrite path_ancestors_unfold; [by left|].
    rewrite Hp. by right.
Qed.

(** Two relative names joined to the same directory give different paths. *)
Lemma path_join_relative_inj p a b :
  starts_with a "/" = false → starts_with b "/" = false →
  path_join p a = path_join p b → a = b.
Proof.
  unfold path_join, path_push. intros -> ->.
  destruct (_ || _); [by intros ?%string_app_inj_l|].
  by intros ?%string_app_inj_l%(string_app_inj_l "/").
Qed.

(** * Lines *)

(** The pieces of a text between line feeds, each with the fact that a line
    feed ended it.  A text that ends in a line feed has no last empty
    piece. *)
Fixpoint split_lf (s : string) : list (string * bool) :=
  match s with
  | "" => []
  | String c s' =>
      if decide (c = LF) then ("", true) :: split_lf s'
      else match split_lf s' with
           | [] => [(String c "", false)]
           | (l, t) :: ls => (String c l, t) :: ls
           end
  end.

(** Removes one trailing carriage return. *)
Fixpoint strip_cr (s : string) : string :=
  match s with
  | "" => ""
  | String c "" => if decide (c = CR) then "" else s
  | String c s' => String c (strip_cr s')
  end.

(** [str::lines] and [BufRead::lines]: the line feed is removed, and a
    carriage return before it. *)
Definition lines (s : string) : list string :=
  (λ '(l, t), if t : bool then strip_cr l else l) <$> split_lf s.

(** [parts.join(sep)]. *)
Definition join (sep : string) (parts : list string) : string := String.concat sep parts.

Lemma lines_nil : lines "" = [].
Proof. done. Qed.

(** A string that is one line: it holds no line feed and does not end in a
    carriage return. *)
Fixpoint is_line (s : string) : bool :=
  match s with
  | "" => true
  | String c s' =>
      negb (bool_decide (c = LF)) && negb (bool_decide (c = CR) && bool_decide (s' = "")) &&
      is_line s'
  end.

(** The text that holds the given lines, each followed by a line feed. *)
Definition terminated (ls : list string) : string :=
  foldr (λ l acc, l +:+ nl +:+ acc) "" ls.

Lemma split_lf_line l rest :
  is_line l = true → split_lf (l +:+ String LF rest) = (l, true) :: split_lf rest.
Proof.
  induction l as [|c l IH]; intros Hl.
  - change ("" +:+ String LF rest) with (String LF rest). cbn [split_lf].
    by rewrite decide_True.
  - rewrite string_app_cons. cbn [is_line] in Hl.
    apply andb_prop in Hl as [[Hc%negb_true_iff%bool_decide_eq_false _]%andb_prop Hl].
    cbn [split_lf]. by rewrite decide_False, IH.
Qed.

Lemma strip_cr_line l : is_line l = true → strip_cr l = l.
Proof.
  induction l as [|c l IH]; [done|]. cbn [is_line]. intros [[_ Hcr]%andb_prop Hl]%andb_prop.
  destruct l as [|c' l]; simpl in *.
  - rewrite andb_true_r in Hcr. apply negb_true_iff, bool_decide_eq_false in Hcr.
    by rewrite decide_False.
  - f_equal. by apply IH.
Qed.

(** Reading the lines of a text written line by line gives the lines. *)
Lemma lines_terminated ls :
  Forall (λ l, is_line l = true) ls → lines (terminated ls) = ls.
Proof.
  unfold lines. induction 1 as [|l ls Hl _ IH]; [done|].
  cbn [terminated foldr]. change (nl +:+ ?s) with (String LF s).
  rewrite split_lf_line by done. cbn [fmap list_fmap]. f_equal; [|apply IH].
  by apply strip_cr_line.
Qed.

Lemma as_bytes_terminated ls :
  as_bytes (terminated ls) = ls ≫= λ l, as_bytes l ++ as_bytes nl.
Proof.
  induction ls as [|l ls IH]; [done|]. cbn [terminated foldr]. rewrite bind_cons, <-IH.
  by rewrite !as_bytes_app, (assoc_L (++)).
Qed.

Lemma join_cons sep x y l : join sep (x :: y :: l) = x +:+ sep +:+ join sep (y :: l).
Proof. done. Qed.

(** * Splitting *)

(** [s.split(c)]: the pieces between the occurrences of [c]; there is always
    a last piece, which can be empty. *)
Fixpoint split_char (c : ascii) (s : string) : list string :=
  match s with
  | "" => [""]
  | String c' s' =>
      if decide (c' = c) then "" :: split_char c s'
      else match split_char c s' with
           | [] => [String c' ""]
           | piece :: pieces => String c' piece :: pieces
           end
  end.

(** The string holds the character. *)
Fixpoint string_has (c : ascii) (s : string) : bool :=
  match s with
  | "" => false
  | String c' s' => bool_decide (c' = c) || string_has c s'
  end.

Lemma split_char_nonempty c s : split_char c s ≠ [].
Proof.
  destruct s as [|c' s]; [done|]. simpl. case_decide; [done|].
  by destruct (split_char c s).
Qed.

Lemma join_cons_String sep c p ps :
  join sep (String c p :: ps) = String c (join sep (p :: ps)).
Proof. by destruct ps. Qed.

(** Joining the pieces of a split with the separator gives the string
    back. *)
Lemma join_split_char c s : join (String c "") (split_char c s) = s.
Proof.
  induction s as [|c' s IH]; [done|]. cbn [split_char]. case_decide as Hc.
  - subst c'. pose proof (split_char_nonempty c s) as Hne.
    destruct (split_char c s) as [|piece pieces]; [done|].
    rewrite join_cons. by rewrite IH.
  - pose proof (split_char_nonempty c s) as Hne.
    destruct (split_char c s) as [|piece pieces]; [done|].
    by rewrite join_cons_String, IH.
Qed.

Lemma split_char_no_separator c s : string_has c s = false → split_char c s = [s].
Proof.
  induction s as [|c' s IH]; [done|]. cbn [string_has split_char].
  intros [Hc%bool_decide_eq_false Hs]%orb_false_iff.
  by rewrite decide_False, IH.
Qed.

Lemma split_char_app c piece rest :
  string_has c piece = false →
  split_char c (piece +:+ String c rest) = piece :: split_char c rest.
Proof.
  induction piece as [|c' piece IH]; intros Hp.
  - change ("" +:+ String c rest) with (String c rest). cbn [split_char].
    by rewrite decide_True.
  - cbn [string_has] in Hp. apply orb_false_iff in Hp as [Hc%bool_decide_eq_false Hp].
    rewrite string_app_cons. cbn [split_char]. by rewrite decide_False, IH.
Qed.

Lemma string_has_app c s1 s2 :
  string_has c (s1 +:+ s2) = string_has c s1 || string_has c s2.
Proof.
  induction s1 as [|c' s1 IH]; [done|].
  rewrite string_app_cons. cbn [string_has]. by rewrite IH, orb_assoc.
Qed.

Lemma string_has_join c sep ls :
  string_has c sep = false → Forall (λ l, string_has c l = false) ls →
  string_has c (join sep ls) = false.
Proof.
  intros Hsep Hls. induction Hls as [|l ls Hl Hls IH]; [done|].
  destruct ls as [|l' ls]; [done|].
  by rewrite join_cons, !string_has_app, Hl, Hsep, IH.
Qed.

(** No piece of a split holds the separator. *)
Lemma split_char_pieces c s : Forall (λ l, string_has c l = false) (split_char c s).
Proof.
  induction s as [|c' s IH]; [by repeat constructor|]. cbn [split_char].
  case_decide as Hc; [by constructor|].
  destruct (split_char c s) as [|piece pieces].
  { constructor; [|done]. cbn [string_has]. by rewrite bool_decide_eq_false_2. }
  inversion_clear IH as [|?? Hp Hps]. constructor; [|done].
  cbn [string_has]. by rewrite bool_decide_eq_false_2.
Qed.

(** Splitting a join of pieces that do not hold the separator gives the
    pieces back. *)
Lemma split_char_join c ls :
  ls ≠ [] → Forall (λ l, string_has c l = false) ls →
  split_char c (join (String c "") ls) = ls.
Proof.
  intros Hne Hls. induction Hls as [|l ls Hl Hls IH]; [done|].
  destruct ls as [|l' ls]; [by apply split_char_no_separator|].
  rewrite join_cons. change (String c "" +:+ ?s) with (String c s).
  rewrite split_char_app by done. f_equal. by apply IH.
Qed.

Lemma string_app_singleton c r : String c "" +:+ r = String c r.
Proof. done. Qed.

(** The same when more text follows the join. *)
Lemma split_char_join_app c ls rest :
  ls ≠ [] → Forall (λ l, string_has c l = false) ls →
  split_char c (join (String c "") ls +:+ String c rest) = ls ++ split_char c rest.
Proof.
  intros Hne Hls. induction Hls as [|l ls Hl Hls IH]; [done|].
  destruct ls as [|l' ls]; [by apply split_char_app|].
  rewrite join_cons, !string_app_assoc, string_app_singleton.
  rewrite split_char_app by done. cbn [app]. f_equal. by apply IH.
Qed.

(** * Replacement *)

(** [s.replace(c, to)] for a one-byte pattern. *)
Fixpoint replace_char (c : ascii) (to : string) (s : string) : string :=
  match s with
  | "" => ""
  | String c' s' =>
      (if decide (c' = c) then to else String c' "") +:+ replace_char c to s'
  end.

#[export] Hint Rewrite as_bytes_app length_as_bytes from_utf8_as_bytes as_bytes_from_utf8
  : repack_rw.
#[export] Hint Resolve usize_as_u32_range starts_with_refl : repack.
