(* ===== verification/RustSort.v ===== *)
(** * Stable sorting

    [slice::sort_by] of the Rust standard library is a stable sort: elements
    that the comparison takes for equal keep their order.  [sort_by] is the
    insertion sort that inserts an element before the first one that is not
    smaller; the lemmas are what a caller of a stable sort relies on — the
    result is a sorted permutation in which every group of equal elements is
    in its original order.  None of this is code of the repository. *)

From S2P Require Import Prelude.

Section sort_by.
Context {A : Type} (le : relation A) `{!RelDecision le}.

Fixpoint insert_by (x : A) (l : list A) : list A :=
  match l with
  | [] => [x]
  | y :: l' => if decide (le x y) then x :: l else y :: insert_by x l'
  end.

(** [l.sort_by(cmp)], for the order [le] that [cmp] decides. *)
Definition sort_by (l : list A) : list A := foldr insert_by [] l.

Lemma insert_by_Permutation x l : insert_by x l ≡ₚ x :: l.
Proof.
  induction l as [|y l IH]; [done|]. simpl. case_decide; [done|].
  by rewrite IH, Permutation_swap.
Qed.

Lemma sort_by_Permutation l : sort_by l ≡ₚ l.
Proof.
  induction l as [|x l IH]; [done|]. simpl. by rewrite insert_by_Permutation, IH.
Qed.

Lemma elem_of_sort_by x l : x ∈ sort_by l ↔ x ∈ l.
Proof. by rewrite sort_by_Permutation. Qed.

(** An element is inserted before the elements of a group that it belongs
    to. *)
Lemma filter_insert_by (P : A → Prop) `{!∀ x, Decision (P x)} x l :
  (∀ y, P x → P y → le x y) →
  filter P (insert_by x l) = filter P (x :: l).
Proof.
  intros HP. induction l as [|y l IH]; [done|]. simpl. case_decide as Hxy; [done|].
  rewrite filter_cons, IH, !filter_cons.
  destruct (decide (P y)) as [Hy|]; [|done].
  destruct (decide (P x)) as [Hx|]; [|done]. destruct Hxy. by apply HP.
Qed.

(** Stability: a group of elements that the order does not tell apart is in
    the order in which it was. *)
Lemma filter_sort_by (P : A → Prop) `{!∀ x, Decision (P x)} l :
  (∀ x y, P x → P y → le x y) →
  filter P (sort_by l) = filter P l.
Proof.
  intros HP. induction l as [|x l IH]; [done|]. simpl.
  rewrite filter_insert_by by auto. by rewrite !filter_cons, IH.
Qed.

Context `{!Transitive le} `{!Total le}.

Lemma insert_by_sorted x l : StronglySorted le l → StronglySorted le (insert_by x l).
Proof.
  induction 1 as [|y l Hl IH Hy]; simpl; [by repeat constructor|].
  case_decide as Hxy.
  - constructor; [by constructor|]. constructor; [done|].
    eapply Forall_impl; [done|]. intros z ?. by transitivity y.
  - constructor; [done|]. rewrite insert_by_Permutation. constructor; [|done].
    by destruct (total le x y).
Qed.

Lemma sort_by_sorted l : StronglySorted le (sort_by l).
Proof. induction l; simpl; [constructor|by apply insert_by_sorted]. Qed.

(** A sorted list is left as it is. *)
Lemma sort_by_sorted_id l : StronglySorted le l → sort_by l = l.
Proof.
  induction 1 as [|x l Hl IH Hx]; [done|]. simpl. rewrite IH.
  destruct Hx as [|y l Hy _]; [done|]. simpl. by rewrite decide_True.
Qed.

End sort_by.
