(* ===== verification/RustText.v ===== *)
(** * Text and paths of the Rust standard library

    What tar.rs and project_layout.rs call on byte vectors, strings and
    paths, beyond what RustStd holds: the validation of UTF-8 that
    [String::from_utf8] performs, [str::find] with a character, and
    [Path::components], [Path::strip_prefix] and [Path::file_name] on Unix.

    A path is a [string].  Rust compares, orders and hashes paths by their
    components, so two texts with the same components are the same key of a
    map; the result of [strip_prefix] is given by the text that joins the
    components that are left, which has those components
    ([path_components_of_body]).  [path_to_str] is [Path::to_str], which
    gives the text of a path when its bytes are UTF-8; [path_ends_with] is
    [Path::ends_with], on components; [path_le] is the order of paths, by
    components, and [path_iter] the iteration of a [BTreeMap] whose keys
    are paths.  The lemmas on UTF-8 say where well-formed text can be cut:
    at a byte of ASCII, hence at a character that [find] found, at a
    separator of a path, at the end of a line.  None of this is code of the
    repository. *)

From S2P Require Import Prelude BTree RustStd RustSort.

(** * UTF-8 *)

Definition byte_val (b : byte) : Z := Z.of_N (Byte.to_N b).

Definition in_range (lo hi : Z) (b : byte) : bool :=
  (lo <=? byte_val b)%Z && (byte_val b <=? hi)%Z.

Definition continuation (b : byte) : bool := in_range 0x80 0xBF b.

(** The second byte of a three-byte sequence: no overlong encoding after
    [E0], no surrogate after [ED]. *)
Definition second_of_three (b0 b1 : byte) : bool :=
  if (byte_val b0 =? 0xE0)%Z then in_range 0xA0 0xBF b1
  else if (byte_val b0 =? 0xED)%Z then in_range 0x80 0x9F b1
  else continuation b1.

(** The second byte of a four-byte sequence: no overlong encoding after
    [F0], nothing above U+10FFFF after [F4]. *)
Definition second_of_four (b0 b1 : byte) : bool :=
  if (byte_val b0 =? 0xF0)%Z then in_range 0x90 0xBF b1
  else if (byte_val b0 =? 0xF4)%Z then in_range 0x80 0x8F b1
  else continuation b1.

(** The bytes are well-formed UTF-8: a sequence of encodings of scalar
    values, of one to four bytes each. *)
Fixpoint is_utf8 (bs : list byte) : bool :=
  match bs with
  | [] => true
  | b0 :: bs1 =>
      if in_range 0x00 0x7F b0 then is_utf8 bs1
      else match bs1 with
      | [] => false
      | b1 :: bs2 =>
          if in_range 0xC2 0xDF b0 then continuation b1 && is_utf8 bs2
          else match bs2 with
          | [] => false
          | b2 :: bs3 =>
              if in_range 0xE0 0xEF b0
              then second_of_three b0 b1 && continuation b2 && is_utf8 bs3
              else match bs3 with
              | [] => false
              | b3 :: bs4 =>
                  in_range 0xF0 0xF4 b0 && second_of_four b0 b1 && continuation b2 &&
                  continuation b3 && is_utf8 bs4
              end
          end
      end
  end.

(** [String::from_utf8(bs)]: the bytes as a string when they are
    well-formed. *)
Definition string_from_utf8 (bs : list byte) : result string :=
  if is_utf8 bs then Ok (from_utf8 bs) else Err (Failure "invalid utf-8 sequence").

(** * Search for a character *)

(** [s.find(c)]: the byte offset of the first occurrence. *)
Fixpoint find_char (c : ascii) (s : string) : option nat :=
  match s with
  | "" => None
  | String c' s' => if decide (c' = c) then Some 0 else S <$> find_char c s'
  end.

(** * Paths *)

(** [std::path::Component] on Unix. *)
Inductive Component : Type :=
  | RootDir
  | CurDir
  | ParentDir
  | Normal (name : string).

#[export] Instance Component_eq_dec : EqDecision Component.
Proof. solve_decision. Defined.

(** [Component::as_os_str]. *)
Definition as_os_str (c : Component) : string :=
  match c with
  | RootDir => "/"
  | CurDir => "."
  | ParentDir => ".."
  | Normal name => name
  end.

(** What a piece between two separators stands for: nothing when it is
    empty or [.]. *)
Definition parse_single_component (piece : string) : option Component :=
  if decide (piece = "") then None
  else if decide (piece = ".") then None
  else if decide (piece = "..") then Some ParentDir
  else Some (Normal piece).

Definition body_components (p : string) : list Component :=
  omap parse_single_component (split_char "/" p).

Definition has_root (p : string) : bool := starts_with p "/".

(** A [.] counts only when the path starts with it. *)
Definition include_cur_dir (p : string) : bool :=
  bool_decide (head (split_char "/" p) = Some ".").

(** [p.components()]. *)
Definition path_components (p : string) : list Component :=
  if has_root p then RootDir :: body_components p
  else (if include_cur_dir p then [CurDir] else []) ++ body_components p.

(** The path that is collected from components. *)
Definition path_of_components (cs : list Component) : string :=
  match cs with
  | RootDir :: cs => "/" +:+ join "/" (as_os_str <$> cs)
  | _ => join "/" (as_os_str <$> cs)
  end.

(** The components of [l] after those of [base], when [l] starts with
    them. *)
Fixpoint iter_after (l base : list Component) {struct base} : option (list Component) :=
  match base, l with
  | [], _ => Some l
  | b :: base, x :: l => if decide (x = b) then iter_after l base else None
  | _ :: _, [] => None
  end.

(** [p.strip_prefix(base)]. *)
Definition path_strip_prefix (p base : string) : option string :=
  path_of_components <$> iter_after (path_components p) (path_components base).

(** [p.iter().last()], [p.file_name()]: the text of the last component. *)
Definition path_last (p : string) : option string :=
  as_os_str <$> last (path_components p).

(** [p.to_str()]: the path as text, when its bytes are well-formed UTF-8. *)
Definition path_to_str (p : string) : option string :=
  if is_utf8 (as_bytes p) then Some p else None.

(** [p.ends_with(child)]: the components of [child] are the last components
    of the path; the two sequences of components are compared from their
    ends. *)
Definition path_ends_with (p child : string) : bool :=
  bool_decide (is_Some (iter_after (reverse (path_components p))
                                   (reverse (path_components child)))).

(** [Ord for Component]: the variants in the order of their declaration,
    normal components by their bytes. *)
Definition component_rank (c : Component) : nat :=
  match c with
  | RootDir => 0
  | CurDir => 1
  | ParentDir => 2
  | Normal _ => 3
  end.

Definition component_le (a b : Component) : Prop :=
  match a, b with
  | Normal x, Normal y => String.le x y
  | _, _ => component_rank a ≤ component_rank b
  end.

#[export] Instance component_le_dec : RelDecision component_le.
Proof. intros [] []; simpl; apply _. Defined.

(** [Ord for Path]: the lexicographic order of the components. *)
Fixpoint components_le (a b : list Component) : Prop :=
  match a, b with
  | [], _ => True
  | _ :: _, [] => False
  | x :: a, y :: b => if decide (x = y) then components_le a b else component_le x y
  end.

#[export] Instance components_le_dec : RelDecision components_le.
Proof.
  intros a. induction a as [|x a IH]; intros [|y b]; simpl; try apply _.
  destruct (decide (x = y)); apply _.
Defined.

Definition path_le (p q : string) : Prop :=
  components_le (path_components p) (path_components q).

Section path_map.
Context {V : Type}.

Definition path_key_le (a b : string * V) : Prop := path_le a.1 b.1.

#[export] Instance path_key_le_dec : RelDecision path_key_le.
Proof. intros a b. unfold path_key_le, path_le. apply _. Defined.

(** [for (k, v) in &m], [m.keys()] on a [BTreeMap<PathBuf, V>]: the
    bindings in the order of the paths, which is not the order of their
    bytes.  Rust takes two texts with the same components for one key; the
    map of the model holds one text for a path. *)
Definition path_iter (m : gmap string V) : list (string * V) :=
  sort_by path_key_le (btree_iter m).

Definition path_keys (m : gmap string V) : list string := (path_iter m).*1.

End path_map.

(** The suffixes are pairwise such that none ends in the other. *)
Fixpoint apart (suffixes : list string) : bool :=
  match suffixes with
  | [] => true
  | a :: suffixes =>
      forallb (λ b, negb (ends_with a b) && negb (ends_with b a)) suffixes && apart suffixes
  end.

(** A name that a path can hold between two separators. *)
Definition component_name (s : string) : Prop :=
  s ≠ "" ∧ s ≠ "." ∧ s ≠ ".." ∧ string_has "/" s = false.

(** The components that follow the first one. *)
Definition body_component (c : Component) : Prop :=
  match c with
  | Normal name => component_name name
  | ParentDir => True
  | _ => False
  end.

(** * Lemmas on UTF-8 *)

#[local] Ltac utf8_step IH :=
  repeat match goal with
  | H : _ && _ = true |- _ => apply andb_true_iff in H as [? ?]
  | H : ?x = true |- context[?x] => rewrite H
  end;
  rewrite ?andb_true_l; try (apply IH; [simpl; lia|done]).

(** Text that follows well-formed text is well-formed when the whole is. *)
Lemma is_utf8_app a b : is_utf8 a = true → is_utf8 (a ++ b) = is_utf8 b.
Proof.
  remember (length a) as n eqn:Hn. revert a Hn.
  induction (lt_wf n) as [n _ IH]. intros a -> Ha.
  assert (∀ a', length a' < length a → is_utf8 a' = true → is_utf8 (a' ++ b) = is_utf8 b)
    as IH' by (intros a' ??; by eapply IH). clear IH.
  destruct a as [|b0 a]; [done|]. cbn [is_utf8 app] in *.
  destruct (in_range 0 127 b0); [by apply IH'; [simpl; lia|]|].
  destruct a as [|b1 a]; [done|]. cbn [app].
  destruct (in_range 194 223 b0); [by utf8_step IH'|].
  destruct a as [|b2 a]; [done|]. cbn [app].
  destruct (in_range 224 239 b0); [by utf8_step IH'|].
  destruct a as [|b3 a]; [done|]. cbn [app]. by utf8_step IH'.
Qed.

Lemma is_utf8_ascii bs :
  Forall (λ b, in_range 0x00 0x7F b = true) bs → is_utf8 bs = true.
Proof. induction 1 as [|b bs Hb _ IH]; [done|]. cbn [is_utf8]. by rewrite Hb. Qed.

Lemma string_from_utf8_Ok bs s :
  string_from_utf8 bs = Ok s ↔ is_utf8 bs = true ∧ as_bytes s = bs.
Proof.
  unfold string_from_utf8. destruct (is_utf8 bs); split; try done.
  - intros [= <-]. by rewrite as_bytes_from_utf8.
  - intros [_ <-]. by rewrite from_utf8_as_bytes.
  - by intros [? _].
Qed.

Lemma string_from_utf8_as_bytes s :
  is_utf8 (as_bytes s) = true → string_from_utf8 (as_bytes s) = Ok s.
Proof. intros. by apply string_from_utf8_Ok. Qed.

Lemma in_range_disjoint lo hi lo' hi' b :
  in_range lo hi b = true → (hi < lo' ∨ hi' < lo)%Z → in_range lo' hi' b = false.
Proof.
  unfold in_range. intros [?%Z.leb_le ?%Z.leb_le]%andb_true_iff Hd.
  apply andb_false_iff. rewrite !Z.leb_gt. lia.
Qed.

(** A byte of ASCII is not the second byte of a sequence. *)
Lemma ascii_not_continuation c b0 :
  in_range 0x00 0x7F c = true →
  continuation c = false ∧ second_of_three b0 c = false ∧ second_of_four b0 c = false.
Proof.
  intros Hc. unfold second_of_three, second_of_four, continuation.
  split_and!; repeat case_match; apply (in_range_disjoint _ _ _ _ _ Hc); lia.
Qed.

(** A byte of ASCII cuts well-formed text into well-formed texts, and only
    such text. *)
Lemma is_utf8_ascii_split a c b :
  in_range 0x00 0x7F c = true → is_utf8 (a ++ c :: b) = is_utf8 a && is_utf8 b.
Proof.
  intros Hc.
  remember (length a) as n eqn:Hn. revert a Hn.
  induction (lt_wf n) as [n _ IH]. intros a ->.
  assert (∀ a', length a' < length a →
                is_utf8 (a' ++ c :: b) = is_utf8 a' && is_utf8 b) as IH'
    by (intros; by eapply IH). clear IH.
  destruct a as [|b0 a]; [cbn; by rewrite Hc|]. cbn [app is_utf8].
  destruct (ascii_not_continuation c b0 Hc) as (Hc1 & Hc3 & Hc4).
  destruct (in_range 0 127 b0); [apply IH'; simpl; lia|].
  destruct a as [|b1 a]; cbn [app];
    [rewrite ?Hc1, ?Hc3, ?Hc4, ?andb_false_r; by repeat case_match|].
  destruct (in_range 194 223 b0); [rewrite IH' by (simpl; lia); by rewrite andb_assoc|].
  destruct a as [|b2 a]; cbn [app];
    [rewrite ?Hc1, ?Hc3, ?Hc4, ?andb_false_r; by repeat case_match|].
  destruct (in_range 224 239 b0); [rewrite IH' by (simpl; lia); by rewrite !andb_assoc|].
  destruct a as [|b3 a]; cbn [app];
    [rewrite ?Hc1, ?Hc3, ?Hc4, ?andb_false_r; by repeat case_match|].
  rewrite IH' by (simpl; lia). by rewrite !andb_assoc.
Qed.

(** Well-formed text does not begin with a byte that continues a
    character. *)
Lemma is_utf8_head b0 bs : is_utf8 (b0 :: bs) = true → continuation b0 = false.
Proof.
  unfold continuation. destruct (in_range 128 191 b0) eqn:Hb; [|done]. cbn [is_utf8].
  rewrite !(in_range_disjoint _ _ _ _ _ Hb) by lia. by repeat case_match.
Qed.

Lemma continuation_byte c : continuation (byte_of_ascii c) = is_continuation c.
Proof. by destruct c as [[] [] [] [] [] [] [] []]. Qed.

Lemma is_utf8_char_start s : is_utf8 (as_bytes s) = true → char_start s = true.
Proof.
  destruct s as [|c s]; [done|]. cbn [char_start]. rewrite <-continuation_byte.
  by intros ->%is_utf8_head.
Qed.

(** Lines of well-formed text make well-formed text. *)
Lemma is_utf8_terminated ls :
  Forall (λ l, is_utf8 (as_bytes l) = true) ls → is_utf8 (as_bytes (terminated ls)) = true.
Proof.
  induction 1 as [|l ls Hl _ IH]; [done|]. cbn [terminated foldr].
  by rewrite !as_bytes_app, is_utf8_app.
Qed.

(** In well-formed text a character begins where well-formed text ends. *)
Lemma is_utf8_suffix_start a b :
  is_utf8 (as_bytes a) = true → is_utf8 (as_bytes (a +:+ b)) = true → char_start b = true.
Proof.
  intros Ha. rewrite as_bytes_app, is_utf8_app by done. apply is_utf8_char_start.
Qed.

(** In well-formed text a character begins after a character of ASCII. *)
Lemma is_utf8_after_ascii a c b :
  in_range 0x00 0x7F (byte_of_ascii c) = true →
  is_utf8 (as_bytes (a +:+ String c b)) = true →
  is_utf8 (as_bytes a) = true ∧ is_utf8 (as_bytes b) = true ∧ char_start b = true.
Proof.
  intros Hc. rewrite as_bytes_app.
  change (as_bytes (String c b)) with (byte_of_ascii c :: as_bytes b).
  rewrite is_utf8_ascii_split by done. intros [? ?]%andb_true_iff.
  split_and!; [done..|]. by apply is_utf8_char_start.
Qed.

(** * Lemmas on search *)

Lemma find_char_None c s : find_char c s = None ↔ string_has c s = false.
Proof.
  induction s as [|c' s IH]; [done|]. cbn [find_char string_has]. case_decide.
  - by rewrite bool_decide_eq_true_2.
  - rewrite bool_decide_eq_false_2 by done. rewrite fmap_None. apply IH.
Qed.

Lemma string_app_nil_l s : "" +:+ s = s.
Proof. done. Qed.

Lemma find_char_app c a b :
  string_has c a = false → find_char c (a +:+ String c b) = Some (String.length a).
Proof.
  induction a as [|c' a IH]; cbn [string_has]; intros Ha.
  - rewrite string_app_nil_l. cbn [find_char]. by rewrite decide_True.
  - apply orb_false_iff in Ha as [Hc%bool_decide_eq_false Ha].
    rewrite string_app_cons. cbn [find_char String.length]. by rewrite decide_False, IH.
Qed.

Lemma find_char_Some c s pos :
  find_char c s = Some pos ↔
  ∃ a b, s = a +:+ String c b ∧ string_has c a = false ∧ String.length a = pos.
Proof.
  split.
  - revert pos. induction s as [|c' s IH]; intros pos; [done|]. cbn [find_char].
    case_decide as Hc.
    + intros [= <-]. subst c'. by exists "", s.
    + intros (n & (a & b & -> & Ha & <-)%IH & ->)%fmap_Some.
      exists (String c' a), b. split_and!; [done| |done].
      cbn [string_has]. by rewrite bool_decide_eq_false_2.
  - intros (a & b & -> & Ha & <-). by apply find_char_app.
Qed.

Lemma substring_suffix a b :
  String.substring (String.length a) (String.length b) (a +:+ b) = b.
Proof.
  induction a as [|c a IH]; [|done].
  change (String.substring 0 (String.length b) b = b).
  rewrite <-(string_app_nil_r b) at 2. apply substring_prefix.
Qed.

(** The slice from the end of a prefix to the end of the string, when what
    follows the prefix begins a character. *)
Lemma str_slice_suffix a b :
  char_start b = true →
  str_slice (a +:+ b) (String.length a) (String.length (a +:+ b)) = Ok b.
Proof.
  intros Hb. unfold str_slice.
  rewrite is_char_boundary_length, is_char_boundary_app, Hb, orb_true_r.
  rewrite string_length_app, bool_decide_eq_true_2 by lia.
  replace (String.length a + String.length b - String.length a) with (String.length b) by lia.
  by rewrite substring_suffix.
Qed.

(** The slice after a character. *)
Lemma str_slice_after c a b :
  char_start b = true →
  str_slice (a +:+ String c b) (String.length a + 1) (String.length (a +:+ String c b)) = Ok b.
Proof.
  replace (a +:+ String c b) with ((a +:+ String c "") +:+ b)
    by by rewrite string_app_assoc.
  replace (String.length a + 1) with (String.length (a +:+ String c ""))
    by (rewrite string_length_app; simpl; lia).
  apply str_slice_suffix.
Qed.

(** The two slices that the first occurrence of a character of ASCII cuts
    well-formed text into: neither slice panics. *)
Lemma find_char_slices c s pos :
  in_range 0x00 0x7F (byte_of_ascii c) = true →
  is_utf8 (as_bytes s) = true →
  find_char c s = Some pos →
  ∃ a b, s = a +:+ String c b ∧ string_has c a = false ∧
    str_slice s 0 pos = Ok a ∧ str_slice s (pos + 1) (String.length s) = Ok b.
Proof.
  intros Hc Hs (a & b & -> & Ha & <-)%find_char_Some.
  destruct (is_utf8_after_ascii _ _ _ Hc Hs) as (Hua & Hub & Hb).
  exists a, b. split_and!; [done..| |].
  - apply str_slice_prefix. cbn [char_start]. rewrite <-continuation_byte.
    by destruct (ascii_not_continuation _ (byte_of_ascii c) Hc) as [-> _].
  - by apply str_slice_after.
Qed.

(** * Lemmas on slices and on search for a string *)

Lemma substring_beyond n m s : String.length s ≤ n → String.substring n m s = "".
Proof.
  revert n m. induction s as [|c s IH]; intros n m Hn; [by destruct n, m|].
  destruct n as [|n]; simpl in *; [lia|]. apply IH. lia.
Qed.

Lemma substring_all s : String.substring 0 (String.length s) s = s.
Proof. rewrite <-(string_app_nil_r s) at 2. apply substring_prefix. Qed.

Lemma substring_split n s :
  n ≤ String.length s →
  String.substring 0 n s +:+ String.substring n (String.length s - n) s = s.
Proof.
  revert n. induction s as [|c s IH]; intros [|n] Hn; try (simpl in Hn; lia); [done|..].
  - rewrite Nat.sub_0_r, substring_all. done.
  - simpl. rewrite string_app_cons. f_equal. apply IH. simpl in Hn. lia.
Qed.

Lemma length_substring_prefix n s :
  n ≤ String.length s → String.length (String.substring 0 n s) = n.
Proof.
  revert n. induction s as [|c s IH]; intros [|n] Hn; simpl in *; try lia; try done.
  f_equal. apply IH. lia.
Qed.

Lemma length_substring n m s :
  String.length (String.substring n m s) = m `min` (String.length s - n).
Proof.
  revert n m. induction s as [|c s IH]; intros [|n] [|m]; simpl; try done.
  all: by rewrite IH, ?Nat.sub_0_r.
Qed.

Lemma substring_of_suffix n m s :
  n ≤ String.length s →
  String.substring n m s = String.substring 0 m (String.substring n (String.length s - n) s).
Proof.
  revert n. induction s as [|c s IH]; intros [|n] Hn; simpl in Hn; try lia.
  - by destruct m.
  - by rewrite Nat.sub_0_r, substring_all.
  - simpl. apply IH. lia.
Qed.

(** An index is a boundary when it cuts the string so that the second part
    begins a character, or when it is 0. *)
Lemma is_char_boundary_split s index :
  is_char_boundary s index = true ↔
  ∃ a b, s = a +:+ b ∧ String.length a = index ∧ (a = "" ∨ char_start b = true).
Proof.
  split.
  - intros Hb. pose proof (is_char_boundary_le _ _ Hb) as Hle.
    pose proof (eq_sym (substring_split _ _ Hle)) as Hs.
    pose proof (length_substring_prefix _ _ Hle) as Hlen.
    revert Hs Hlen. generalize (String.substring 0 index s).
    generalize (String.substring index (String.length s - index) s).
    intros b a -> <-. exists a, b. split_and!; [done..|].
    rewrite is_char_boundary_app in Hb.
    apply orb_true_iff in Hb as [?%bool_decide_eq_true|?]; auto.
  - intros (a & b & -> & <- & Hab). rewrite is_char_boundary_app.
    destruct Hab as [->| ->]; [done|apply orb_true_r].
Qed.

(** [split_at] cuts the string in two at a boundary. *)
Lemma split_at_Ok s mid a b :
  split_at s mid = Ok (a, b) ↔
  s = a +:+ b ∧ String.length a = mid ∧ (a = "" ∨ char_start b = true).
Proof.
  unfold split_at. destruct (is_char_boundary s mid) eqn:Hmid; split.
  - intros [= <- <-]. pose proof (is_char_boundary_le _ _ Hmid) as Hle.
    apply is_char_boundary_split in Hmid as (a & b & -> & <- & Hab).
    rewrite substring_prefix, string_length_app.
    replace (String.length a + String.length b - String.length a) with (String.length b)
      by lia.
    by rewrite substring_suffix.
  - intros (-> & <- & _). rewrite substring_prefix, string_length_app.
    replace (String.length a + String.length b - String.length a) with (String.length b)
      by lia.
    by rewrite substring_suffix.
  - done.
  - intros (-> & <- & Hab). assert (is_char_boundary (a +:+ b) (String.length a) = true)
      by (apply is_char_boundary_split; by exists a, b). congruence.
Qed.

Lemma split_at_app a b :
  char_start b = true → split_at (a +:+ b) (String.length a) = Ok (a, b).
Proof. intros. apply split_at_Ok. auto. Qed.

(** A slice from the start is a prefix that ends at a boundary. *)
Lemma str_slice_prefix_Ok s n p :
  str_slice s 0 n = Ok p ↔
  ∃ rest, s = p +:+ rest ∧ String.length p = n ∧ (p = "" ∨ char_start rest = true).
Proof.
  unfold str_slice. rewrite bool_decide_eq_true_2 by lia. cbn [andb is_char_boundary].
  rewrite Nat.sub_0_r. destruct (is_char_boundary s n) eqn:Hn; split.
  - intros [= <-]. apply is_char_boundary_split in Hn as (a & b & -> & <- & Hab).
    exists b. by rewrite substring_prefix.
  - intros (rest & -> & <- & _). by rewrite substring_prefix.
  - done.
  - intros (rest & -> & <- & Hp).
    assert (is_char_boundary (p +:+ rest) (String.length p) = true)
      by (apply is_char_boundary_split; by exists p, rest). congruence.
Qed.

(** A match starts inside the string. *)
Lemma str_find_le s pat n : str_find s pat = Some n → n ≤ String.length s.
Proof.
  unfold str_find. intros Hn. destruct (decide (n ≤ String.length s)) as [|Hgt]; [done|].
  pose proof (String.index_correct1 _ _ _ _ Hn) as Hsub.
  rewrite substring_beyond in Hsub by lia. subst pat.
  destruct s; simpl in Hn; simplify_eq; simpl in *; lia.
Qed.

(** What is found is in the string, at the offset that is returned. *)
Lemma str_find_Some s pat n :
  str_find s pat = Some n →
  ∃ pre post, s = pre +:+ pat +:+ post ∧ String.length pre = n.
Proof.
  intros Hn. pose proof (str_find_le _ _ _ Hn) as Hle.
  pose proof (String.index_correct1 _ _ _ _ Hn) as Hsub.
  rewrite substring_of_suffix in Hsub by done.
  set (rest := String.substring n (String.length s - n) s) in *.
  assert (String.length pat ≤ String.length rest) as Hpat.
  { pose proof (length_substring 0 (String.length pat) rest) as Hlen.
    rewrite Hsub in Hlen. lia. }
  exists (String.substring 0 n s), (String.substring (String.length pat)
    (String.length rest - String.length pat) rest).
  split; [|by apply length_substring_prefix].
  rewrite <-Hsub at 1. rewrite (substring_split (String.length pat) rest) by done.
  symmetry. by apply substring_split.
Qed.

(** A text that starts with a string without the character is cut by the
    character after that string. *)
Lemma app_String_prefix c a b p q :
  a +:+ String c b = p +:+ q → string_has c p = false → ∃ a', a = p +:+ a'.
Proof.
  revert a. induction p as [|c' p IH]; intros a Heq Hp; [by exists a|].
  cbn [string_has] in Hp. apply orb_false_iff in Hp as [Hc%bool_decide_eq_false Hp].
  destruct a as [|c'' a].
  - rewrite string_app_nil_l, string_app_cons in Heq. by simplify_eq.
  - rewrite !string_app_cons in Heq. injection Heq as -> Heq.
    destruct (IH a Heq Hp) as [a' ->]. by exists a'.
Qed.

(** * Lemmas on suffixes *)

Lemma rev_app_spec s acc : String.rev_app s acc = String.rev s +:+ acc.
Proof.
  revert acc. induction s as [|c s IH]; intros acc; [done|].
  unfold String.rev. cbn [String.rev_app]. rewrite !IH.
  by rewrite string_app_assoc.
Qed.

Lemma rev_String c s : String.rev (String c s) = String.rev s +:+ String c "".
Proof. unfold String.rev at 1. cbn [String.rev_app]. apply rev_app_spec. Qed.

Lemma rev_string_app s1 s2 : String.rev (s1 +:+ s2) = String.rev s2 +:+ String.rev s1.
Proof.
  induction s1 as [|c s1 IH]; [by rewrite string_app_nil_r|].
  by rewrite string_app_cons, !rev_String, IH, string_app_assoc.
Qed.

Lemma rev_involutive s : String.rev (String.rev s) = s.
Proof.
  induction s as [|c s IH]; [done|]. by rewrite rev_String, rev_string_app, IH.
Qed.

Lemma ends_with_app s pat : ends_with s pat = true ↔ ∃ pre, s = pre +:+ pat.
Proof.
  unfold ends_with. fold (starts_with (String.rev s) (String.rev pat)).
  rewrite starts_with_app. split.
  - intros [rest Hs]. exists (String.rev rest).
    by rewrite <-(rev_involutive s), Hs, rev_string_app, rev_involutive.
  - intros [pre ->]. exists (String.rev pre). apply rev_string_app.
Qed.

Lemma ends_with_trans s a b :
  ends_with s a = true → ends_with a b = true → ends_with s b = true.
Proof.
  intros [x ->]%ends_with_app [y ->]%ends_with_app. apply ends_with_app.
  exists (x +:+ y). by rewrite string_app_assoc.
Qed.

Lemma string_app_prefix_cases p1 r1 p2 r2 :
  p1 +:+ r1 = p2 +:+ r2 → String.length p1 ≤ String.length p2 → ∃ z, p2 = p1 +:+ z.
Proof.
  revert p2. induction p1 as [|c p1 IH]; intros p2 Heq Hlen; [by exists p2|].
  destruct p2 as [|c' p2]; [simpl in Hlen; lia|].
  rewrite !string_app_cons in Heq. injection Heq as -> Heq.
  destruct (IH p2 Heq) as [z ->]; [simpl in Hlen; lia|]. by exists z.
Qed.

Lemma length_rev s : String.length (String.rev s) = String.length s.
Proof.
  induction s as [|c s IH]; [done|]. rewrite rev_String, string_length_app, IH. simpl. lia.
Qed.

(** Of two suffixes of a string the shorter is a suffix of the longer. *)
Lemma ends_with_both s a b :
  ends_with s a = true → ends_with s b = true → String.length a ≤ String.length b →
  ends_with b a = true.
Proof.
  intros [x Hx]%ends_with_app [y Hy]%ends_with_app Hlen. apply ends_with_app.
  assert (String.rev a +:+ String.rev x = String.rev b +:+ String.rev y) as Hrev
    by (by rewrite <-!rev_string_app, <-Hx, <-Hy).
  destruct (string_app_prefix_cases _ _ _ _ Hrev) as [z Hz];
    [by rewrite !length_rev|].
  exists (String.rev z). by rewrite <-(rev_involutive b), Hz, rev_string_app, rev_involutive.
Qed.

(** Strings that end in suffixes of which none ends in the other differ. *)
Lemma ends_with_ne s1 s2 a b :
  ends_with s1 a = true → ends_with s2 b = true →
  ends_with a b = false → ends_with b a = false → s1 ≠ s2.
Proof.
  intros H1 H2 Hab Hba ->.
  destruct (decide (String.length a ≤ String.length b)).
  - by rewrite (ends_with_both s2 a b) in Hba.
  - rewrite (ends_with_both s2 b a) in Hab by (done || lia). done.
Qed.

(** Paths that end in suffixes that are apart are different paths. *)
Lemma NoDup_by_suffix paths suffixes :
  Forall2 (λ p s, ends_with p s = true) paths suffixes → apart suffixes = true → NoDup paths.
Proof.
  induction 1 as [|p s paths suffixes Hp Hps IH]; [constructor|].
  cbn [apart]. intros [Hs Hrest]%andb_prop. constructor; [|by apply IH].
  intros Hin. rewrite forallb_forall in Hs.
  apply list_elem_of_lookup in Hin as [i Hi].
  destruct (Forall2_lookup_l _ _ _ _ _ Hps Hi) as (s' & Hs' & Hend).
  apply list_elem_of_lookup_2, list_elem_of_In, Hs in Hs'.
  apply andb_prop in Hs' as [?%negb_true_iff ?%negb_true_iff].
  by eapply (ends_with_ne p p s s').
Qed.

Lemma path_join_ends_with p c : ends_with (path_join p c) c = true.
Proof.
  apply ends_with_app. unfold path_join, path_push.
  destruct (starts_with c "/"); [by exists ""|].
  destruct (_ || _); [by exists p|]. exists (p +:+ "/"). by rewrite string_app_assoc.
Qed.

Lemma split_char_sep c a b :
  split_char c (a +:+ String c b) = split_char c a ++ split_char c b.
Proof.
  induction a as [|c' a IH].
  - rewrite string_app_nil_l. cbn [split_char]. by rewrite decide_True.
  - rewrite string_app_cons. cbn [split_char]. case_decide; [by rewrite IH|].
    rewrite IH. pose proof (split_char_nonempty c a).
    by destruct (split_char c a).
Qed.

(** The file name of a path that was joined with a name. *)
Lemma path_join_file_name d b :
  string_has "/" b = false → last (split_char "/" (path_join d b)) = Some b.
Proof.
  intros Hb. unfold path_join, path_push.
  assert (starts_with b "/" = false) as ->.
  { destruct b as [|c b]; [done|]. cbn [string_has] in Hb.
    apply orb_false_iff in Hb as [Hc%bool_decide_eq_false _].
    apply not_true_is_false. intros [x Hx]%starts_with_app. by injection Hx as ->. }
  assert (∀ x, last (split_char "/" (x +:+ String "/" b)) = Some b) as Hlast.
  { intros x. by rewrite split_char_sep, (split_char_no_separator _ _ Hb), last_snoc. }
  case_bool_decide as Hd; cbn [orb].
  { subst d. by rewrite string_app_nil_l, (split_char_no_separator _ _ Hb). }
  destruct (ends_with d "/") eqn:He; [|apply Hlast].
  apply ends_with_app in He as [x ->]. rewrite string_app_assoc. apply Hlast.
Qed.

(** * Lemmas on paths *)

Lemma parse_single_component_Some piece c :
  parse_single_component piece = Some c →
  string_has "/" piece = false → body_component c ∧ as_os_str c = piece.
Proof.
  unfold parse_single_component. intros; repeat case_decide; simplify_eq; by repeat split.
Qed.

Lemma parse_single_component_as_os_str c :
  body_component c → parse_single_component (as_os_str c) = Some c.
Proof.
  destruct c as [| | |name]; try done. intros (? & ? & ? & _).
  unfold parse_single_component. simpl. by rewrite !decide_False.
Qed.

Lemma body_components_body p : Forall body_component (body_components p).
Proof.
  unfold body_components. pose proof (split_char_pieces "/" p) as Hp.
  induction Hp as [|piece pieces Hpiece _ IH]; [done|]. cbn [omap list_omap].
  destruct (parse_single_component piece) as [c|] eqn:Hc; [|done].
  constructor; [|done]. by eapply parse_single_component_Some.
Qed.

Lemma has_root_String c s : has_root (String c s) = bool_decide (c = "/"%char).
Proof.
  unfold has_root. case_bool_decide as Hc.
  - subst c. apply starts_with_app. by exists s.
  - apply not_true_is_false. by intros (rest & [= ? _])%starts_with_app.
Qed.

Lemma has_root_no_separator s : string_has "/" s = false → has_root s = false.
Proof.
  destruct s as [|c s]; [done|]. rewrite has_root_String. cbn [string_has].
  intros [Hc%bool_decide_eq_false _]%orb_false_iff. by rewrite bool_decide_eq_false_2.
Qed.

Lemma has_root_app a b : a ≠ "" → has_root (a +:+ b) = has_root a.
Proof.
  destruct a as [|c a]; [done|]. intros _. by rewrite string_app_cons, !has_root_String.
Qed.

(** A component read as a path has itself as its only component. *)
Lemma path_components_as_os_str c :
  c = RootDir ∨ c = CurDir ∨ body_component c → path_components (as_os_str c) = [c].
Proof.
  intros [->|[->|Hc]]; [done..|]. destruct c as [| | |name]; try done.
  destruct Hc as (Hne & Hdot & Hdots & Hsep). simpl. unfold path_components.
  rewrite has_root_no_separator by done. unfold include_cur_dir, body_components.
  rewrite split_char_no_separator by done. simpl.
  rewrite bool_decide_eq_false_2 by congruence.
  unfold parse_single_component. by rewrite !decide_False.
Qed.

Lemma path_components_head p c :
  head (path_components p) = Some c → c = RootDir ∨ c = CurDir ∨ body_component c.
Proof.
  unfold path_components. pose proof (body_components_body p) as Hb.
  destruct (has_root p); [intros [= <-]; by left|].
  destruct (include_cur_dir p); [intros [= <-]; by right; left|]. simpl.
  destruct Hb; [done|]. intros [= <-]. by right; right.
Qed.

Lemma path_components_tail p : Forall body_component (tail (path_components p)).
Proof.
  unfold path_components. pose proof (body_components_body p) as Hb.
  destruct (has_root p); [done|]. destruct (include_cur_dir p); [done|].
  simpl. destruct Hb; by simpl.
Qed.

(** Stripping the first component of a path always succeeds and leaves the
    other components. *)
Lemma path_strip_prefix_first p c :
  head (path_components p) = Some c →
  path_strip_prefix p (as_os_str c) = Some (path_of_components (tail (path_components p))).
Proof.
  intros Hc. unfold path_strip_prefix.
  rewrite (path_components_as_os_str c) by by eapply path_components_head.
  destruct (path_components p) as [|c' cs]; [done|]. injection Hc as ->.
  cbn [iter_after tail]. by rewrite decide_True.
Qed.

Lemma as_os_str_no_separator c : body_component c → string_has "/" (as_os_str c) = false.
Proof. destruct c; try done. by intros (_ & _ & _ & ?). Qed.

Lemma omap_parse_as_os_str cs :
  Forall body_component cs → omap parse_single_component (as_os_str <$> cs) = cs.
Proof.
  induction 1 as [|c cs Hc _ IH]; [done|]. cbn [fmap list_fmap omap list_omap].
  rewrite parse_single_component_as_os_str by done. simpl. by f_equal.
Qed.

Lemma has_root_join_body c cs :
  body_component c → has_root (join "/" (as_os_str <$> c :: cs)) = false.
Proof.
  intros Hc. pose proof (has_root_no_separator _ (as_os_str_no_separator c Hc)) as Hroot.
  cbn [fmap list_fmap]. destruct (as_os_str c) as [|ch name] eqn:Hstr;
    [|by rewrite join_cons_String, has_root_String in *].
  destruct c; try done. destruct Hc. by simplify_eq/=.
Qed.

(** The text of body components has those components. *)
Lemma path_components_of_body cs :
  Forall body_component cs → path_components (path_of_components cs) = cs.
Proof.
  intros Hcs. destruct cs as [|c cs]; [done|].
  pose proof (Forall_inv Hcs) as Hc.
  assert (path_of_components (c :: cs) = join "/" (as_os_str <$> c :: cs)) as ->
    by by destruct c.
  assert (Forall (λ l, string_has "/" l = false) (as_os_str <$> c :: cs)) as Hsep.
  { apply Forall_fmap. eapply Forall_impl; [done|]. apply as_os_str_no_separator. }
  unfold path_components, include_cur_dir, body_components.
  rewrite has_root_join_body, split_char_join, omap_parse_as_os_str by done.
  rewrite bool_decide_eq_false_2; [done|].
  destruct c; try done. simpl. destruct Hc as (_ & ? & _). congruence.
Qed.

Lemma body_components_sep a b :
  body_components (a +:+ String "/" b) = body_components a ++ body_components b.
Proof. unfold body_components. by rewrite split_char_sep, omap_app. Qed.

Lemma include_cur_dir_sep a b : include_cur_dir (a +:+ String "/" b) = include_cur_dir a.
Proof.
  unfold include_cur_dir. rewrite split_char_sep.
  pose proof (split_char_nonempty "/" a). by destruct (split_char "/" a).
Qed.

(** What follows a separator adds its body components. *)
Lemma path_components_sep a b :
  a ≠ "" →
  path_components (a +:+ String "/" b) = path_components a ++ body_components b.
Proof.
  intros Ha. unfold path_components.
  rewrite has_root_app, include_cur_dir_sep, body_components_sep by done.
  destruct (has_root a); [done|]. by rewrite (assoc_L (++)).
Qed.

Lemma path_components_trailing a : a ≠ "" → path_components (a +:+ "/") = path_components a.
Proof. intros Ha. rewrite (path_components_sep a "") by done. apply app_nil_r. Qed.

Lemma path_components_root b : path_components (String "/" b) = RootDir :: body_components b.
Proof.
  unfold path_components. by rewrite has_root_String, bool_decide_eq_true_2 by done.
Qed.

Lemma path_components_relative file :
  Forall body_component (path_components file) → path_components file = body_components file.
Proof.
  unfold path_components. destruct (has_root file); [by inversion 1|].
  destruct (include_cur_dir file); [by inversion 1|done].
Qed.

Lemma body_path_no_root file :
  Forall body_component (path_components file) → starts_with file "/" = false.
Proof.
  unfold path_components. fold (has_root file). destruct (has_root file); [by inversion 1|done].
Qed.

Lemma path_join_absolute dir file : has_root file = true → path_join dir file = file.
Proof. unfold path_join, path_push, has_root. by intros ->. Qed.

Lemma path_join_empty file : path_join "" file = file.
Proof. unfold path_join, path_push. by destruct (starts_with file "/"). Qed.

(** The components of a path that is joined to a directory: those of the
    directory and the body components of what is joined. *)
Lemma path_components_join_relative dir file :
  has_root file = false → dir ≠ "" →
  path_components (path_join dir file) = path_components dir ++ body_components file.
Proof.
  intros Hfile Hdir. unfold path_join, path_push. fold (has_root file).
  rewrite Hfile, bool_decide_eq_false_2 by done. simpl.
  destruct (ends_with dir "/") eqn:Hend.
  - apply ends_with_app in Hend as [pre ->]. rewrite string_app_assoc.
    change ("/" +:+ file) with (String "/" file).
    destruct pre as [|c pre]; [exact (path_components_root file)|].
    by rewrite path_components_sep, path_components_trailing.
  - change ("/" +:+ file) with (String "/" file). by apply path_components_sep.
Qed.

(** The same when what is joined has no root and no leading [.]. *)
Lemma path_components_join dir file :
  Forall body_component (path_components file) →
  path_components (path_join dir file) = path_components dir ++ path_components file.
Proof.
  intros Hfile. destruct (decide (dir = "")) as [->|Hdir]; [by rewrite path_join_empty|].
  rewrite (path_components_relative file Hfile).
  apply path_components_join_relative; [|done]. apply (body_path_no_root file Hfile).
Qed.

(** A path has its body components, after a root or a leading [.]. *)
Lemma path_components_body p :
  ∃ first, path_components p = first ++ body_components p.
Proof.
  unfold path_components. destruct (has_root p); [by exists [RootDir]|]. by eexists.
Qed.

(** * Paths as text *)

Lemma path_to_str_Some p s : path_to_str p = Some s ↔ is_utf8 (as_bytes p) = true ∧ s = p.
Proof.
  unfold path_to_str. destruct (is_utf8 (as_bytes p)); split; try done.
  - by intros [= <-].
  - by intros [_ ->].
  - by intros [? _].
Qed.

Lemma path_to_str_utf8 p : is_utf8 (as_bytes p) = true → path_to_str p = Some p.
Proof. intros. by apply path_to_str_Some. Qed.

(** The pieces between the occurrences of a character of ASCII in
    well-formed text are well-formed. *)
Lemma is_utf8_joined c ls :
  in_range 0x00 0x7F (byte_of_ascii c) = true →
  is_utf8 (as_bytes (join (String c "") ls)) = true →
  Forall (λ l, is_utf8 (as_bytes l) = true) ls.
Proof.
  intros Hc. induction ls as [|l [|l' ls] IH]; [done|by repeat constructor|].
  change (join (String c "") (l :: l' :: ls))
    with (l +:+ String c (join (String c "") (l' :: ls))).
  intros (Hl & Hls & _)%is_utf8_after_ascii; [|done]. constructor; [done|by apply IH].
Qed.

Lemma is_utf8_split_char c s :
  in_range 0x00 0x7F (byte_of_ascii c) = true →
  is_utf8 (as_bytes s) = true →
  Forall (λ l, is_utf8 (as_bytes l) = true) (split_char c s).
Proof. intros Hc Hs. apply (is_utf8_joined c); [done|]. by rewrite join_split_char. Qed.

(** The components of a path that is well-formed text are well-formed
    text. *)
Lemma is_utf8_components p :
  is_utf8 (as_bytes p) = true →
  Forall (λ c, is_utf8 (as_bytes (as_os_str c)) = true) (path_components p).
Proof.
  intros Hp. assert (Forall (λ c, is_utf8 (as_bytes (as_os_str c)) = true) (body_components p)).
  { apply Forall_forall. intros c (piece & Hpiece & Hc)%list_elem_of_omap.
    pose proof (is_utf8_split_char "/" p eq_refl Hp) as Hpieces.
    rewrite Forall_forall in Hpieces. specialize (Hpieces _ Hpiece).
    unfold parse_single_component in Hc. by repeat case_decide; simplify_eq. }
  unfold path_components. destruct (has_root p); [by constructor|].
  apply Forall_app. split; [|done]. by destruct (include_cur_dir p); repeat constructor.
Qed.

Lemma is_utf8_path_last p name :
  is_utf8 (as_bytes p) = true → path_last p = Some name → is_utf8 (as_bytes name) = true.
Proof.
  intros Hp%is_utf8_components (c & Hc%last_Some_elem_of & ->)%fmap_Some.
  rewrite Forall_forall in Hp. by apply Hp.
Qed.

(** A path that is joined of well-formed texts is well-formed text. *)
Lemma is_utf8_path_join d b :
  is_utf8 (as_bytes d) = true → is_utf8 (as_bytes b) = true →
  is_utf8 (as_bytes (path_join d b)) = true.
Proof.
  intros Hd Hb. unfold path_join, path_push. destruct (starts_with b "/"); [done|].
  destruct (_ || _); rewrite !as_bytes_app, is_utf8_app by done; [done|].
  by rewrite (is_utf8_app (as_bytes "/")).
Qed.

(** * The end and the order of paths *)

Lemma iter_after_Some l base r : iter_after l base = Some r ↔ l = base ++ r.
Proof.
  revert l. induction base as [|b base IH]; intros l; cbn [iter_after app].
  - split; [by intros [= ->]|by intros ->].
  - destruct l as [|x l]; [done|]. case_decide as Hx.
    + subst. rewrite IH. split; [by intros ->|by intros [= ->]].
    + split; [done|]. by intros [= ? _].
Qed.

(** [ends_with] holds when the components of the child end those of the
    path. *)
Lemma path_ends_with_suffix p child :
  path_ends_with p child = true ↔ path_components child `suffix_of` path_components p.
Proof.
  unfold path_ends_with. rewrite bool_decide_eq_true. split.
  - intros [r Hr%iter_after_Some]. exists (reverse r).
    apply (inj reverse). by rewrite reverse_app, reverse_involutive.
  - intros [k Hk]. exists (reverse k). apply iter_after_Some.
    by rewrite Hk, reverse_app.
Qed.

#[export] Instance component_le_trans : Transitive component_le.
Proof. intros [] [] []; simpl; try lia; try done. apply transitivity. Qed.

#[export] Instance component_le_antisym : AntiSymm (=) component_le.
Proof.
  intros [] []; simpl; try lia; try done. intros ??. f_equal. by apply (anti_symm String.le).
Qed.

#[export] Instance component_le_total : Total component_le.
Proof. intros [] []; simpl; try lia. apply total, _. Qed.

#[export] Instance components_le_trans : Transitive components_le.
Proof.
  intros a. induction a as [|x a IH]; intros [|y b] [|z c]; simpl; try done.
  destruct (decide (x = y)) as [->|Hxy], (decide (y = z)) as [->|Hyz];
    rewrite ?decide_True, ?decide_False by done; try done; [apply IH|].
  destruct (decide (x = z)) as [->|Hxz]; [|apply transitivity].
  intros ??. destruct Hxy. by apply (anti_symm component_le).
Qed.

#[export] Instance components_le_total : Total components_le.
Proof.
  intros a. induction a as [|x a IH]; intros [|y b]; simpl; auto.
  repeat case_decide; subst; first [done|apply IH|apply total, _].
Qed.

Section path_map_lemmas.
Context {V : Type}.
Implicit Types (m : gmap string V).

#[export] Instance path_key_le_trans : Transitive (@path_key_le V).
Proof. intros a b c. unfold path_key_le, path_le. apply transitivity. Qed.

#[export] Instance path_key_le_total : Total (@path_key_le V).
Proof. intros a b. unfold path_key_le, path_le. apply total, _. Qed.

(** The iteration of a map of paths holds the bindings of the map, in the
    order of the paths. *)
Lemma path_iter_perm m : path_iter m ≡ₚ map_to_list m.
Proof. unfold path_iter. by rewrite sort_by_Permutation, btree_iter_perm. Qed.

Lemma path_iter_sorted m : StronglySorted path_key_le (path_iter m).
Proof. apply sort_by_sorted; apply _. Qed.

Lemma elem_of_path_iter m k v : (k, v) ∈ path_iter m ↔ m !! k = Some v.
Proof. unfold path_iter. by rewrite elem_of_sort_by, elem_of_btree_iter. Qed.

Lemma elem_of_path_keys m k : k ∈ path_keys m ↔ is_Some (m !! k).
Proof.
  unfold path_keys. rewrite list_elem_of_fmap. split.
  - intros ([k' v] & -> & ?%elem_of_path_iter). by exists v.
  - intros [v Hv]. exists (k, v). by rewrite elem_of_path_iter.
Qed.

End path_map_lemmas.

(** The order of the paths is not the order of their bytes, and a path ends
    with another by components, not by text. *)
Example path_order :
  path_keys (list_to_map [("a-b/x", 1); ("a/b", 2)] : gmap string nat) = ["a/b"; "a-b/x"] ∧
  btree_keys (list_to_map [("a-b/x", 1); ("a/b", 2)] : gmap string nat) = ["a-b/x"; "a/b"].
Proof. by vm_compute. Qed.

Example path_ends_with_components :
  path_ends_with "build/Modules//config.o" "Modules/config.o" = true ∧
  path_ends_with "build/xModules/config.o" "Modules/config.o" = false ∧
  path_ends_with "Modules/config.o" "Modules/config.o" = true.
Proof. by vm_compute. Qed.
