(* ===== verification/Io.v ===== *)
(** * Writers and the file system

    The sources write through [std::io::Write] and touch the file system
    through [std::fs].  Both are interfaces here: [Write] is the trait, with
    the law [LawfulWrite] that a successful [write_all] appends to what the
    writer holds; [FileSystem] gives reading and (over)writing of whole files
    with the two laws a client relies on.  [Vec<u8>] and file handles are
    instances of [Write]; [MemFs] is an executable file system, with
    read-only paths so that failing writes can be exercised. *)

From S2P Require Import Prelude.

(** * The [Write] trait *)

Class Write (W : Type) := write_all : W → list byte → result W.
#[global] Hint Mode Write ! : typeclass_instances.

(** What a writer promises: it holds a byte sequence, and a write that
    succeeds appends to it. *)
Class LawfulWrite (W : Type) `{Write W} := {
  written : W → list byte;
  write_all_written (w w' : W) (bs : list byte) :
    write_all w bs = Ok w' → written w' = written w ++ bs
}.
#[global] Hint Mode LawfulWrite ! - : typeclass_instances.

(** [impl Write for Vec<u8>]: appends, never fails. *)
#[export] Instance vec_write : Write (list byte) := λ v bs, Ok (v ++ bs).

#[export] Instance vec_lawful_write : LawfulWrite (list byte) := {|
  written v := v;
  write_all_written w w' bs H := eq_sym (f_equal (default w') (f_equal result_to_option H))
|}.

(** * The file system *)

Class FileSystem (F : Type) := {
  (** [std::fs::read], [File::open] followed by [read_to_end]. *)
  read_file : F → string → result (list byte);
  (** [std::fs::write], [File::create]: creates the file or replaces its
      content. *)
  write_file : F → string → list byte → result F
}.
#[global] Hint Mode FileSystem ! : typeclass_instances.

Class FileSystemLaws (F : Type) `{FileSystem F} := {
  read_write_eq (fs fs' : F) (p : string) (bs : list byte) :
    write_file fs p bs = Ok fs' → read_file fs' p = Ok bs;
  read_write_ne (fs fs' : F) (p q : string) (bs : list byte) :
    write_file fs p bs = Ok fs' → p ≠ q → read_file fs' q = read_file fs q
}.
#[global] Hint Mode FileSystemLaws ! - : typeclass_instances.

(** [std::fs::copy(from, to)]. *)
Definition fs_copy `{FileSystem F} (fs : F) (from to : string) : result F :=
  bs ← read_file fs from; write_file fs to bs.

(** * File handles *)

(** An open file: the file system it lives in and its path.  Writing through
    the handle extends the file. *)
Record File (F : Type) := { file_fs : F; file_path : string }.
Arguments file_fs {F} _.
Arguments file_path {F} _.

Section files.
Context `{FileSystem F}.

(** [File::create(path)]: the file exists afterwards and is empty. *)
Definition file_create (fs : F) (path : string) : result (File F) :=
  fs' ← write_file fs path []; Ok {| file_fs := fs'; file_path := path |}.

#[export] Instance file_write : Write (File F) := λ fh bs,
  old ← read_file (file_fs fh) (file_path fh);
  fs' ← write_file (file_fs fh) (file_path fh) (old ++ bs);
  Ok {| file_fs := fs'; file_path := file_path fh |}.

Definition file_content (fh : File F) : list byte :=
  default [] (result_to_option (read_file (file_fs fh) (file_path fh))).

Lemma file_write_path (fh fh' : File F) bs :
  write_all fh bs = Ok fh' → file_path fh' = file_path fh.
Proof. unfold write_all, file_write. intros. by result_cases. Qed.

Context `{!FileSystemLaws F}.

Lemma file_create_content fs path fh :
  file_create fs path = Ok fh → file_content fh = [] ∧ file_path fh = path.
Proof.
  unfold file_create, file_content. intros. result_cases. simpl.
  by erewrite read_write_eq.
Qed.

Lemma file_write_content (fh fh' : File F) bs :
  write_all fh bs = Ok fh' → file_content fh' = file_content fh ++ bs.
Proof.
  unfold write_all, file_write, file_content.
  intros (old & Hold & (fs' & Hw & [= <-])%bind_Ok_inv)%bind_Ok_inv. simpl.
  erewrite read_write_eq by done. by rewrite Hold.
Qed.

(** Writing through a handle leaves every other file as it was. *)
Lemma file_write_other (fh fh' : File F) bs q :
  write_all fh bs = Ok fh' → file_path fh ≠ q →
  read_file (file_fs fh') q = read_file (file_fs fh) q.
Proof.
  unfold write_all, file_write. intros. result_cases. simpl.
  by eapply read_write_ne.
Qed.

#[export] Instance file_lawful_write : LawfulWrite (File F) := {|
  written := file_content;
  write_all_written := file_write_content
|}.

(** What holds of a handle on [p] opened in the file system [fs0]: its file
    can be read and every other file is as it was in [fs0]. *)
Definition file_frame (fs0 : F) (p : string) (fh : File F) : Prop :=
  file_path fh = p ∧ is_ok (read_file (file_fs fh) p) = true ∧
  ∀ q, p ≠ q → read_file (file_fs fh) q = read_file fs0 q.

Lemma file_create_frame fs p fh :
  file_create fs p = Ok fh → file_frame fs p fh ∧ file_content fh = [].
Proof.
  intros Hc. destruct (file_create_content _ _ _ Hc) as [Hcontent Hpath].
  split; [|done]. unfold file_create in Hc.
  apply bind_Ok_inv in Hc as (fs' & Hw & [= <-]). unfold file_frame. simpl.
  split_and!; [done| |].
  - by rewrite (read_write_eq _ _ _ _ Hw).
  - intros q Hq. by apply (read_write_ne _ _ _ _ _ Hw).
Qed.

Lemma file_write_frame fs0 p fh bs fh' :
  file_frame fs0 p fh → write_all fh bs = Ok fh' → file_frame fs0 p fh'.
Proof.
  intros (Hpath & Hread & Hother) Hw. split_and!.
  - by rewrite (file_write_path _ _ _ Hw).
  - unfold write_all, file_write in Hw.
    apply bind_Ok_inv in Hw as (old & Hold & (fs' & Hw & [= <-])%bind_Ok_inv). simpl.
    rewrite Hpath in Hw. by rewrite (read_write_eq _ _ _ _ Hw).
  - intros q Hq. rewrite <-Hother by done. apply (file_write_other _ _ _ _ Hw). by rewrite Hpath.
Qed.

Lemma file_frame_read fs0 p fh :
  file_frame fs0 p fh → read_file (file_fs fh) p = Ok (file_content fh).
Proof.
  intros (Hpath & Hread & _). unfold file_content. rewrite Hpath.
  by destruct (read_file (file_fs fh) p).
Qed.

(** A file that is created and then written holds what was written, and
    leaves the other files alone. *)
Lemma created_file fs p fh fh' bytes :
  file_create fs p = Ok fh →
  (file_frame fs p fh → file_frame fs p fh' ∧ file_content fh' = file_content fh ++ bytes) →
  read_file (file_fs fh') p = Ok bytes ∧
  ∀ q, p ≠ q → read_file (file_fs fh') q = read_file fs q.
Proof.
  intros [Hf Hc]%file_create_frame Hrun. destruct (Hrun Hf) as [Hf' Hc'].
  rewrite Hc in Hc'. rewrite (file_frame_read _ _ _ Hf'), Hc'. split; [done|].
  by destruct Hf' as (_ & _ & ?).
Qed.

(** Two writes through a handle append both byte sequences. *)
Lemma file_write_twice_frame fs0 p fh fh1 fh2 bs1 bs2 :
  file_frame fs0 p fh → write_all fh bs1 = Ok fh1 → write_all fh1 bs2 = Ok fh2 →
  file_frame fs0 p fh2 ∧ file_content fh2 = file_content fh ++ bs1 ++ bs2.
Proof.
  intros Hf H1 H2. split; [by eauto using file_write_frame|].
  by rewrite (file_write_content _ _ _ H2), (file_write_content _ _ _ H1), (assoc_L (++)).
Qed.

End files.

(** * An executable file system *)

(** Files by path, and the paths that cannot be written. *)
Record MemFs := {
  mem_files : gmap string (list byte);
  mem_readonly : gset string
}.

Definition mem_read (fs : MemFs) (p : string) : result (list byte) :=
  ok_or (mem_files fs !! p) "No such file or directory".

Definition mem_write (fs : MemFs) (p : string) (bs : list byte) : result MemFs :=
  if decide (p ∈ mem_readonly fs) then Err (Failure "Permission denied")
  else Ok {| mem_files := <[p := bs]> (mem_files fs); mem_readonly := mem_readonly fs |}.

#[export] Instance mem_fs : FileSystem MemFs := {|
  read_file := mem_read;
  write_file := mem_write
|}.

#[export] Instance mem_fs_laws : FileSystemLaws MemFs.
Proof.
  split; intros fs fs' p; unfold write_file, read_file; simpl; unfold mem_write, mem_read.
  - intros bs H. case_decide; [done|]. result_cases. simpl. by rewrite lookup_insert_eq.
  - intros q bs H Hne. case_decide; [done|]. result_cases. simpl.
    by rewrite lookup_insert_ne.
Qed.

Definition mem_fs_of (files : list (string * list byte)) : MemFs :=
  {| mem_files := list_to_map files; mem_readonly := ∅ |}.
