(* ===== verification/Effect.v ===== *)
(** * Effects that survive an error

    The components of repackage.rs are modelled in [result]: when an
    operation fails, the state it had reached is not part of the outcome.
    The installer of tar.rs and the project layout write files one after the
    other and return at the first error without undoing what they wrote; to
    state that, [io S A] is a computation on a state [S] whose outcome is
    the state it reached together with a value or an error.  An operation
    of the world that fails leaves the state as it was ([io_step]) or the
    state that its interruption leaves ([io_try]).  [context_error] is
    anyhow's [context]: the error becomes the cause of an error with the
    new message, and [error_chain] lists the messages from the outermost
    to the root cause. *)

From S2P Require Import Prelude.

(** The error that a caller sees when the callee's error gets a context: the
    context becomes the message of the error value and the callee's error
    stays behind it as its cause; a panic passes through. *)
Definition context_error (e : error) (msg : string) : error :=
  match e with Panic m => Panic m | _ => WithContext msg e end.

(** The chain of messages of an error, the outermost context first, as
    the alternate format of anyhow prints it. *)
Fixpoint error_chain (e : error) : list string :=
  match e with
  | Panic msg | Failure msg => [msg]
  | WithContext msg cause => msg :: error_chain cause
  end.

(** [r.context(msg)] and [r.with_context(|| msg)] of anyhow. *)
Definition context {A} (r : result A) (msg : string) : result A :=
  match r with Ok a => Ok a | Err e => Err (context_error e msg) end.

Definition io (S A : Type) : Type := S → S * result A.

Section io.
Context {S : Type}.

Definition io_ret {A} (a : A) : io S A := λ s, (s, Ok a).

Definition io_bind {A B} (f : A → io S B) (m : io S A) : io S B := λ s,
  match m s with
  | (s', Ok a) => f a s'
  | (s', Err e) => (s', Err e)
  end.

(** A computation that does not touch the state. *)
Definition io_lift {A} (r : result A) : io S A := λ s, (s, r).

Definition io_fail {A} (e : error) : io S A := io_lift (Err e).

(** An operation that returns the new state, or fails and leaves the state
    as it was. *)
Definition io_step (f : S → result S) : io S () := λ s,
  match f s with
  | Ok s' => (s', Ok ())
  | Err e => (s, Err e)
  end.

(** An operation that returns the new state, or fails after it has begun:
    the state that a failure leaves is [interrupted s]. *)
Definition io_try (f : S → result S) (interrupted : S → S) : io S () := λ s,
  match f s with
  | Ok s' => (s', Ok ())
  | Err e => (interrupted s, Err e)
  end.

(** A query of the state. *)
Definition io_get {A} (f : S → A) : io S A := λ s, (s, Ok (f s)).

(** An operation that reads the state and can fail. *)
Definition io_read {A} (f : S → result A) : io S A := λ s, (s, f s).

(** An operation that returns the new state and a value, or fails and leaves
    the state as it was. *)
Definition io_run {A} (f : S → result (S * A)) : io S A := λ s,
  match f s with
  | Ok (s', a) => (s', Ok a)
  | Err e => (s, Err e)
  end.

(** [m.context(msg)?] on a computation. *)
Definition io_context {A} (m : io S A) (msg : string) : io S A := λ s,
  let '(s', r) := m s in (s', context r msg).

(** A [for] loop whose body returns at the first error with [?]. *)
Fixpoint io_for {B} (f : B → io S ()) (l : list B) : io S () :=
  match l with
  | [] => io_ret ()
  | x :: l => io_bind (λ _, io_for f l) (f x)
  end.

End io.

#[export] Instance io_mret {S} : MRet (io S) := @io_ret S.
#[export] Instance io_mbind {S} : MBind (io S) := @io_bind S.

(** * Lemmas *)

Lemma context_Ok {A} (r : result A) msg a : context r msg = Ok a ↔ r = Ok a.
Proof. destruct r; simpl; split; congruence. Qed.

Lemma context_Err {A} (r : result A) msg e :
  context r msg = Err e ↔ ∃ e', r = Err e' ∧ e = context_error e' msg.
Proof.
  destruct r as [a|e']; simpl; split; [done|by intros (? & [=] & _)| |].
  - intros [= <-]. by exists e'.
  - by intros (? & [= <-] & ->).
Qed.

Lemma fmap_Ok_inv {A B} (f : A → B) (r : result A) b :
  f <$> r = Ok b ↔ ∃ a, r = Ok a ∧ b = f a.
Proof.
  destruct r as [a|e]; split; [|by intros (? & [= <-] & ->)|done|by intros (? & [=] & _)].
  intros [= <-]. by exists a.
Qed.

(** A context passes a panic through and wraps every error value. *)
Lemma context_error_cases e msg :
  (∃ m, e = Panic m ∧ context_error e msg = Panic m) ∨
  ((∀ m, e ≠ Panic m) ∧ context_error e msg = WithContext msg e).
Proof. destruct e; [left; by eexists|by right..]. Qed.

(** A context never loses the cause: the chain of the callee's error is the
    tail of the chain of the caller's. *)
Lemma context_error_chain e msg :
  (∀ m, e ≠ Panic m) → error_chain (context_error e msg) = msg :: error_chain e.
Proof.
  destruct (context_error_cases e msg) as [(m & -> & _)|[_ ->]]; [|done].
  intros Hm. by destruct (Hm m).
Qed.

Section io_lemmas.
Context {S : Type}.
Implicit Types (s : S).

Lemma io_bind_Ok {A B} (f : A → io S B) (m : io S A) s s' b :
  io_bind f m s = (s', Ok b) ↔ ∃ s1 a, m s = (s1, Ok a) ∧ f a s1 = (s', Ok b).
Proof.
  unfold io_bind. destruct (m s) as [s1 [a|e]]; split.
  - by exists s1, a.
  - intros (? & ? & ? & ?). by simplify_eq.
  - done.
  - intros (? & ? & ? & _). by simplify_eq.
Qed.

Lemma io_bind_Err {A B} (f : A → io S B) (m : io S A) s s' e :
  io_bind f m s = (s', Err e) ↔
  m s = (s', Err e) ∨ ∃ s1 a, m s = (s1, Ok a) ∧ f a s1 = (s', Err e).
Proof.
  unfold io_bind. destruct (m s) as [s1 [a|e']]; split.
  - intros. right. by exists s1, a.
  - intros [?|(? & ? & ? & ?)]; by simplify_eq.
  - intros [= <- <-]. by left.
  - intros [?|(? & ? & ? & _)]; by simplify_eq.
Qed.

Lemma io_bind_lift {A B} (f : A → io S B) (r : result A) s :
  io_bind f (io_lift r) s = match r with Ok a => f a s | Err e => (s, Err e) end.
Proof. done. Qed.

Lemma io_bind_ret_r (m : io S ()) s : io_bind (λ _, io_ret ()) m s = m s.
Proof. unfold io_bind. by destruct (m s) as [s' [[]|e]]. Qed.

Lemma io_for_singleton {B} (f : B → io S ()) x s : io_for f [x] s = f x s.
Proof. apply io_bind_ret_r. Qed.

Lemma io_context_Ok {A} (m : io S A) msg s s' a :
  io_context m msg s = (s', Ok a) ↔ m s = (s', Ok a).
Proof.
  unfold io_context. destruct (m s) as [s1 r].
  split; intros [= <- Hr]; f_equal; by apply (context_Ok r msg a).
Qed.

Lemma io_context_state {A} (m : io S A) msg s : (io_context m msg s).1 = (m s).1.
Proof. unfold io_context. by destruct (m s). Qed.

Lemma io_step_Ok (f : S → result S) s s' u : io_step f s = (s', Ok u) ↔ f s = Ok s'.
Proof.
  unfold io_step. destruct u, (f s); split; intros; by simplify_eq.
Qed.

Lemma io_step_Err (f : S → result S) s s' e :
  io_step f s = (s', Err e) ↔ f s = Err e ∧ s' = s.
Proof.
  unfold io_step. destruct (f s); split; intros; destruct_and?; by simplify_eq.
Qed.

Lemma io_try_Ok (f : S → result S) g s s' u : io_try f g s = (s', Ok u) ↔ f s = Ok s'.
Proof.
  unfold io_try. destruct u, (f s); split; intros; by simplify_eq.
Qed.

Lemma io_try_Err (f : S → result S) g s s' e :
  io_try f g s = (s', Err e) ↔ f s = Err e ∧ s' = g s.
Proof.
  unfold io_try. destruct (f s); split; intros; destruct_and?; by simplify_eq.
Qed.

(** The state that an operation reaches, whatever its outcome. *)
Lemma io_try_state (f : S → result S) g s :
  (io_try f g s).1 = match f s with Ok s' => s' | Err _ => g s end.
Proof. unfold io_try. by destruct (f s). Qed.

Lemma io_ret_Ok {A} (a a' : A) s s' : io_ret a s = (s', Ok a') ↔ a' = a ∧ s' = s.
Proof. unfold io_ret. split; [by intros [= <- <-]|by intros [-> ->]]. Qed.

Lemma io_lift_Ok {A} (r : result A) s s' a : io_lift r s = (s', Ok a) ↔ r = Ok a ∧ s' = s.
Proof. unfold io_lift. split; [by intros [= <- <-]|by intros [-> ->]]. Qed.

Lemma io_read_Ok {A} (f : S → result A) s s' a :
  io_read f s = (s', Ok a) ↔ f s = Ok a ∧ s' = s.
Proof. unfold io_read. split; [by intros [= <- <-]|by intros [<- ->]]. Qed.

Lemma io_run_Ok {A} (f : S → result (S * A)) s s' a :
  io_run f s = (s', Ok a) ↔ f s = Ok (s', a).
Proof.
  unfold io_run. destruct (f s) as [[s1 a1]|e]; split; intros; by simplify_eq.
Qed.

Lemma io_context_Err {A} (m : io S A) msg s s' e :
  io_context m msg s = (s', Err e) ↔ ∃ e', m s = (s', Err e') ∧ e = context_error e' msg.
Proof.
  unfold io_context. destruct (m s) as [s1 r]. split.
  - intros [= <- (e' & -> & ->)%context_Err]. by exists e'.
  - intros (e' & [= <- ->] & ->). done.
Qed.

Section loops.
Context {B : Type}.
Implicit Types (f : B → io S ()) (l : list B).

Lemma io_for_app f l1 l2 s :
  io_for f (l1 ++ l2) s = io_bind (λ _, io_for f l2) (io_for f l1) s.
Proof.
  revert s. induction l1 as [|x l1 IH]; intros s; [done|].
  cbn [app io_for]. unfold io_bind.
  destruct (f x s) as [s1 [[]|e]]; [|done]. by rewrite IH.
Qed.

(** A property of the state that every iteration keeps holds when the loop
    returns, however it returns. *)
Lemma io_for_invariant (P : S → Prop) f l s :
  (∀ x s, x ∈ l → P s → P (f x s).1) → P s → P (io_for f l s).1.
Proof.
  revert s. induction l as [|x l IH]; intros s Hf Hs; [done|].
  cbn [io_for]. unfold io_bind. assert (P (f x s).1) as Hx by (apply Hf; [by left|done]).
  destruct (f x s) as [s1 [[]|e]]; [|done].
  apply IH; [|done]. intros y s' Hy. apply Hf. by right.
Qed.

(** A loop that fails has run a part of the list and failed on the next
    element. *)
Lemma io_for_Err f l s s' e :
  io_for f l s = (s', Err e) ↔
  ∃ before x after s1,
    l = before ++ x :: after ∧ io_for f before s = (s1, Ok ()) ∧ f x s1 = (s', Err e).
Proof.
  revert s. induction l as [|x l IH]; intros s.
  { split; [done|]. by intros ([|??] & ? & ? & ? & ? & _). }
  cbn [io_for]. rewrite io_bind_Err. split.
  - intros [Hx|(s1 & [] & Hx & (before & y & after & s2 & -> & Hb & Hy)%IH)].
    + by exists [], x, l, s.
    + exists (x :: before), y, after, s2. split_and!; [done| |done].
      cbn [io_for]. apply io_bind_Ok. by exists s1, ().
  - intros ([|z before] & y & after & s1 & [= -> ->] & Hb & Hy).
    + injection Hb as <-. by left.
    + cbn [io_for] in Hb. apply io_bind_Ok in Hb as (s2 & [] & Hz & Hb).
      right. exists s2, (). split; [done|]. apply IH. by exists before, y, after, s1.
Qed.

Lemma io_for_cons_Ok f x l s s' u :
  io_for f (x :: l) s = (s', Ok u) ↔ ∃ s1, f x s = (s1, Ok ()) ∧ io_for f l s1 = (s', Ok u).
Proof.
  cbn [io_for]. rewrite io_bind_Ok. split.
  - intros (s1 & [] & ? & ?). by exists s1.
  - intros (s1 & ? & ?). by exists s1, ().
Qed.

End loops.

(** ** Computations that succeed

    [succeeds Pre m Post]: from a state in [Pre] the computation returns a
    value and reaches a state that [Post] relates to the value. *)
Definition succeeds {A} (Pre : S → Prop) (m : io S A) (Post : A → S → Prop) : Prop :=
  ∀ s, Pre s → ∃ s' a, m s = (s', Ok a) ∧ Post a s'.

Lemma succeeds_mono {A} (Pre Pre' : S → Prop) (m : io S A) (Post Post' : A → S → Prop) :
  succeeds Pre m Post → (∀ s, Pre' s → Pre s) → (∀ a s, Post a s → Post' a s) →
  succeeds Pre' m Post'.
Proof. intros Hm HPre HPost s (s' & a & ? & ?)%HPre%Hm. exists s', a. auto. Qed.

Lemma succeeds_bind {A B} Pre (Mid : A → S → Prop) (Post : B → S → Prop)
    (f : A → io S B) (m : io S A) :
  succeeds Pre m Mid → (∀ a, succeeds (Mid a) (f a) Post) → succeeds Pre (io_bind f m) Post.
Proof.
  intros Hm Hf s (s1 & a & Hrun & (s' & b & ? & ?)%Hf)%Hm.
  exists s', b. split; [|done]. apply io_bind_Ok. by exists s1, a.
Qed.

Lemma succeeds_ret {A} (Pre : S → Prop) (a : A) : succeeds Pre (io_ret a) (λ a' s, a' = a ∧ Pre s).
Proof. intros s ?. by exists s, a. Qed.

Lemma succeeds_lift {A} (Pre : S → Prop) (r : result A) a :
  r = Ok a → succeeds Pre (io_lift r) (λ a' s, a' = a ∧ Pre s).
Proof. intros -> s ?. by exists s, a. Qed.

Lemma succeeds_lift_bind {A B} (Pre : S → Prop) (Post : B → S → Prop) (r : result A) a
    (f : A → io S B) :
  r = Ok a → succeeds Pre (f a) Post → succeeds Pre (io_bind f (io_lift r)) Post.
Proof. intros -> Hf s Hs. rewrite io_bind_lift. by apply Hf. Qed.

Lemma succeeds_read {A} (Pre : S → Prop) (f : S → result A) a :
  (∀ s, Pre s → f s = Ok a) → succeeds Pre (io_read f) (λ a' s, a' = a ∧ Pre s).
Proof. intros Hf s Hs. exists s, a. unfold io_read. by rewrite Hf. Qed.

Lemma succeeds_step (Pre Post : S → Prop) (f : S → result S) :
  (∀ s, Pre s → ∃ s', f s = Ok s' ∧ Post s') → succeeds Pre (io_step f) (λ _, Post).
Proof. intros Hf s (s' & Hs & ?)%Hf. exists s', (). unfold io_step. by rewrite Hs. Qed.

Lemma succeeds_try (Pre Post : S → Prop) (f : S → result S) g :
  (∀ s, Pre s → ∃ s', f s = Ok s' ∧ Post s') → succeeds Pre (io_try f g) (λ _, Post).
Proof. intros Hf s (s' & Hs & ?)%Hf. exists s', (). unfold io_try. by rewrite Hs. Qed.

Lemma succeeds_context {A} Pre (m : io S A) msg (Post : A → S → Prop) :
  succeeds Pre m Post → succeeds Pre (io_context m msg) Post.
Proof.
  intros Hm s (s' & a & Hrun & ?)%Hm. exists s', a. split; [|done]. by apply io_context_Ok.
Qed.

(** A loop whose body succeeds in every state of an invariant runs to its
    end. *)
Lemma succeeds_for {B} (P : S → Prop) (f : B → io S ()) (l : list B) :
  (∀ x, x ∈ l → succeeds P (f x) (λ _, P)) → succeeds P (io_for f l) (λ _, P).
Proof.
  induction l as [|x l IH]; intros Hf; [intros s ?; by exists s, ()|].
  cbn [io_for]. apply (succeeds_bind _ (λ _, P)).
  - apply Hf. by left.
  - intros _. apply IH. intros y Hy. apply Hf. by right.
Qed.

End io_lemmas.

(** Takes apart the hypotheses that say that a computation succeeded. *)
Ltac io_inv :=
  repeat match goal with
  | H : io_bind _ _ _ = (_, Ok _) |- _ => apply io_bind_Ok in H as (? & ? & ? & H)
  | H : mbind _ _ _ = (_, Ok _) |- _ => apply io_bind_Ok in H as (? & ? & ? & H)
  | H : io_ret _ _ = (_, Ok _) |- _ => apply io_ret_Ok in H as [? ?]; subst
  | H : io_lift _ _ = (_, Ok _) |- _ => apply io_lift_Ok in H as [H ?]; subst
  | H : io_read _ _ = (_, Ok _) |- _ => apply io_read_Ok in H as [H ?]; subst
  | H : io_run _ _ = (_, Ok _) |- _ => apply io_run_Ok in H
  | H : io_step _ _ = (_, Ok _) |- _ => apply io_step_Ok in H
  | H : io_try _ _ _ = (_, Ok _) |- _ => apply io_try_Ok in H
  | H : io_context _ _ _ = (_, Ok _) |- _ => apply io_context_Ok in H
  | H : io_fail _ _ = (_, Ok _) |- _ => discriminate H
  end.
