(* ===== verification/FsIo.v ===== *)
(** * Writing files in [io]

    The calls of [std::fs] that project_layout.rs makes, as computations on
    a file system whose effect survives an error, and two ways to say what
    a computation does to the files: [writes_only paths m] — whatever the
    outcome of [m], a file outside [paths] is as it was — and
    [holds files fs0 fs'], which says what the files hold in [fs'] and that
    the other files are as in [fs0].  Both compose along a sequence of
    steps.  A write that fails is not taken to leave its file as it was:
    what it leaves is given by [WriteFailure], of which only the files at
    other paths are known. *)

From S2P Require Import Prelude RustStd Io Effect RustText.

(** What a write that fails leaves.  [std::fs::write] and [File::create]
    open the file with truncation and then write, so that a call that fails
    can leave the file empty or with a part of the bytes:
    [write_failed fs path bytes] is the file system after such a call.  It
    differs from [fs] at [path] only. *)
Class WriteFailure (F : Type) `{FileSystem F} := {
  write_failed : F → string → list byte → F;
  read_write_failed_ne (fs : F) (p q : string) (bs : list byte) :
    p ≠ q → read_file (write_failed fs p bs) q = read_file fs q
}.
#[global] Hint Mode WriteFailure ! - : typeclass_instances.

Section operations.
Context `{FileSystem F} `{!WriteFailure F}.

(** [std::fs::write(path, bytes)]. *)
Definition fs_write (path : string) (bytes : list byte) : io F () :=
  io_try (λ fs, write_file fs path bytes) (λ fs, write_failed fs path bytes).

(** [File::create(path)?] followed by [fh.write_all(bytes)?]. *)
Definition create_write_all (path : string) (bytes : list byte) : io F () :=
  _ ← io_try (λ fs, file_fs <$> file_create fs path) (λ fs, write_failed fs path []);
  io_try (λ fs, file_fs <$> write_all {| file_fs := fs; file_path := path |} bytes)
         (λ fs, write_failed fs path bytes).

(** [std::fs::read_to_string(path)]. *)
Definition read_to_string (fs : F) (path : string) : result string :=
  bytes ← read_file fs path; string_from_utf8 bytes.

(** The computation leaves every file outside [paths] as it was, whatever
    its outcome. *)
Definition writes_only {A} (paths : list string) (m : io F A) : Prop :=
  ∀ fs q, q ∉ paths → read_file (m fs).1 q = read_file fs q.

(** The files hold the contents, and every other file is as it was. *)
Definition holds (files : list (string * string)) (fs0 fs' : F) : Prop :=
  Forall (λ pc, read_file fs' pc.1 = Ok (as_bytes pc.2)) files ∧
  ∀ q, q ∉ files.*1 → read_file fs' q = read_file fs0 q.

(** Every file can be written in the states of the invariant. *)
Definition writable (P : F → Prop) : Prop :=
  ∀ fs p bytes, P fs → ∃ fs', write_file fs p bytes = Ok fs' ∧ P fs'.

End operations.

Section frames.
Context `{FileSystem F}.
Implicit Types (fs : F) (paths : list string).

Lemma writes_only_mono {A} paths paths' (m : io F A) :
  paths ⊆ paths' → writes_only paths m → writes_only paths' m.
Proof. intros Hsub Hm fs q Hq. apply Hm. intros ?. by apply Hq, Hsub. Qed.

Lemma writes_only_pure {A} paths (m : io F A) :
  (∀ fs, (m fs).1 = fs) → writes_only paths m.
Proof. intros Hm fs q _. by rewrite Hm. Qed.

Lemma writes_only_bind {A B} paths (f : A → io F B) (m : io F A) :
  writes_only paths m → (∀ a, writes_only paths (f a)) → writes_only paths (io_bind f m).
Proof.
  intros Hm Hf fs q Hq. unfold io_bind. specialize (Hm fs q Hq).
  destruct (m fs) as [fs1 [a|e]]; [|done]. by rewrite Hf.
Qed.

Lemma writes_only_context {A} paths (m : io F A) msg :
  writes_only paths m → writes_only paths (io_context m msg).
Proof. intros Hm fs q Hq. rewrite io_context_state. by apply Hm. Qed.

Lemma writes_only_if {A} paths (c : F → bool) (m1 m2 : io F A) :
  writes_only paths m1 → writes_only paths m2 →
  writes_only paths (λ fs, if c fs then m1 fs else m2 fs).
Proof. intros H1 H2 fs q Hq. destruct (c fs); [by apply H1|by apply H2]. Qed.

Lemma writes_only_step paths (f : F → result F) :
  (∀ fs fs' q, f fs = Ok fs' → q ∉ paths → read_file fs' q = read_file fs q) →
  writes_only paths (io_step f).
Proof.
  intros Hf fs q Hq. unfold io_step. destruct (f fs) as [fs'|] eqn:E; [|done]. by eapply Hf.
Qed.

Lemma writes_only_try paths (f : F → result F) g :
  (∀ fs fs' q, f fs = Ok fs' → q ∉ paths → read_file fs' q = read_file fs q) →
  (∀ fs q, q ∉ paths → read_file (g fs) q = read_file fs q) →
  writes_only paths (io_try f g).
Proof.
  intros Hf Hg fs q Hq. rewrite io_try_state.
  destruct (f fs) as [fs'|] eqn:E; [by eapply Hf|by apply Hg].
Qed.

Lemma holds_nil fs : holds [] fs fs.
Proof. by split. Qed.

(** What two steps hold when they write different files. *)
Lemma holds_app l1 l2 fs0 fs1 fs2 :
  holds l1 fs0 fs1 → holds l2 fs1 fs2 → l1.*1 ## l2.*1 → holds (l1 ++ l2) fs0 fs2.
Proof.
  intros [Hl1 Hf1] [Hl2 Hf2] Hdisj. split.
  - apply Forall_app. split; [|done]. rewrite Forall_forall in Hl1 |- *.
    intros pc Hpc. rewrite Hf2; [by apply Hl1|].
    intros Hin. apply (Hdisj pc.1); [|done]. by apply list_elem_of_fmap_2.
  - intros q Hq. rewrite fmap_app, not_elem_of_app in Hq. destruct Hq.
    by rewrite Hf2, Hf1.
Qed.

Lemma holds_cons path content l fs0 fs1 fs2 :
  holds [(path, content)] fs0 fs1 → holds l fs1 fs2 → path ∉ l.*1 →
  holds ((path, content) :: l) fs0 fs2.
Proof. intros Hf Hl Hp. apply (holds_app [_] l fs0 fs1 fs2); [done..|set_solver]. Qed.

(** A computation that writes one file and touches no other. *)
Lemma holds_writer (m : io F ()) path content fs fs' :
  writes_only [path] m → m fs = (fs', Ok ()) →
  read_file fs' path = Ok (as_bytes content) → holds [(path, content)] fs fs'.
Proof.
  intros Hm Hrun Hread. split; [by repeat constructor|].
  intros q Hq. specialize (Hm fs q Hq). by rewrite Hrun in Hm.
Qed.

Context `{!FileSystemLaws F} `{!WriteFailure F}.

(** A write that fails touches no other file. *)
Lemma write_failed_frame paths path bytes fs q :
  path ∈ paths → q ∉ paths → read_file (write_failed fs path bytes) q = read_file fs q.
Proof. intros Hp Hq. apply read_write_failed_ne. by intros ->. Qed.

Lemma writes_only_fs_write paths path bytes :
  path ∈ paths → writes_only paths (fs_write (F := F) path bytes).
Proof.
  intros Hp. apply writes_only_try; [|intros fs q; by apply write_failed_frame].
  intros fs fs' q Hw Hq. apply (read_write_ne _ _ _ _ _ Hw). by intros ->.
Qed.

Lemma fs_write_Ok path bytes fs fs' :
  fs_write path bytes fs = (fs', Ok ()) → read_file fs' path = Ok bytes.
Proof. unfold fs_write. intros Hw%io_try_Ok. by eapply read_write_eq. Qed.

(** A write that fails leaves what the interrupted call leaves. *)
Lemma fs_write_Err path bytes fs fs' e :
  fs_write path bytes fs = (fs', Err e) →
  write_file fs path bytes = Err e ∧ fs' = write_failed fs path bytes.
Proof. unfold fs_write. by intros ?%io_try_Err. Qed.

Lemma writes_only_create_write_all paths path bytes :
  path ∈ paths → writes_only paths (create_write_all (F := F) path bytes).
Proof.
  intros Hp.
  apply writes_only_bind; [|intros _];
    (apply writes_only_try; [intros fs fs' q|intros fs q; by apply write_failed_frame]).
  - intros (fh & [Hf _]%file_create_frame & ->)%fmap_Ok_inv Hq.
    destruct Hf as (_ & _ & Hother). apply Hother. by intros ->.
  - intros (fh & Hw & ->)%fmap_Ok_inv Hq.
    rewrite (file_write_other _ _ _ q Hw); [done|]. simpl. by intros ->.
Qed.

Lemma create_write_all_Ok path bytes fs fs' :
  create_write_all path bytes fs = (fs', Ok ()) → read_file fs' path = Ok bytes.
Proof.
  unfold create_write_all.
  intros (fs1 & [] & Hcreate%io_try_Ok & Hwrite%io_try_Ok)%io_bind_Ok.
  apply fmap_Ok_inv in Hcreate as (fh & Hcreate & ->).
  apply fmap_Ok_inv in Hwrite as (fh' & Hwrite & ->).
  destruct (file_create_content _ _ _ Hcreate) as [_ Hpath].
  apply (created_file fs path fh fh' bytes Hcreate). intros Hf.
  destruct fh as [fs1 p]. simpl in *. subst p.
  split; [by eapply file_write_frame|].
  rewrite (file_write_content _ _ _ Hwrite). done.
Qed.

Lemma succeeds_fs_write (P : F → Prop) path bytes :
  writable P → succeeds P (fs_write path bytes) (λ _, P).
Proof. intros HP. apply succeeds_try. intros fs. apply HP. Qed.

Lemma succeeds_create_write_all (P : F → Prop) path bytes :
  writable P → succeeds P (create_write_all path bytes) (λ _, P).
Proof.
  intros HP. apply (succeeds_bind _ (λ _ fs, P fs ∧ read_file fs path = Ok [])).
  - apply succeeds_try. intros fs (fs' & Hw & ?)%(HP _ path []).
    exists fs'. unfold file_create. rewrite Hw. split_and!; [done..|].
    by eapply read_write_eq.
  - intros _. apply succeeds_try. intros fs [Hfs Hread].
    destruct (HP fs path ([] ++ bytes) Hfs) as (fs' & Hw & ?).
    exists fs'. unfold write_all, file_write. cbn [file_fs file_path].
    by rewrite Hread, bind_Ok, Hw.
Qed.

End frames.

(** Proves that an element is in a list that is written out. *)
Ltac in_list :=
  first [apply list_elem_of_here | apply list_elem_of_further; in_list].

(** Proves that a sequence of steps writes only the given files, from the
    lemmas on the steps. *)
Ltac solve_frame :=
  unfold mbind, io_mbind; cbv zeta;
  repeat first
    [ apply writes_only_fs_write
    | apply writes_only_create_write_all
    | apply writes_only_context
    | apply writes_only_pure; done
    | apply writes_only_bind; [|intros ?] ];
  try set_solver.
