(* ===== verification/Blob.v ===== *)
(** * The blob codec

    [write_blob_entries] of repackage.rs serialises an ordered list of
    (name, data) entries: a little-endian [u32] count, the index of
    (name length, data length) pairs, the names, the data.  The writer is
    modelled as the code is written, over any [Write]; [blob_bytes] is the
    layout of the format as a pure function and [read_blob_entries] a
    reference reader of it (the loader that consumes the blobs is not part of
    the repository).  The theorems relate the three. *)

From S2P Require Import Prelude RustStd Io.
From coqutil Require Import Word.LittleEndianList.

#[global] Arguments le_split : simpl never.
#[global] Arguments le_combine : simpl never.

(** * Entries *)

Record BlobEntry := {
  be_name : string;
  be_data : list byte
}.

Definition BlobEntries := list BlobEntry.

#[export] Instance BlobEntry_eq_dec : EqDecision BlobEntry.
Proof. solve_decision. Defined.

(** * The writer *)

Section writer.
Context `{Write W}.

(** [dest.write_u32::<LittleEndian>(n)]. *)
Definition write_u32_le (dest : W) (n : Z) : result W :=
  write_all dest (le_split 4 n).

(** The body of the first loop: the two lengths of an entry, each cast to
    [u32]. *)
Definition write_index_entry (dest : W) (entry : BlobEntry) : result W :=
  let name_bytes := as_bytes (be_name entry) in
  dest ← write_u32_le dest (usize_as_u32 (length name_bytes));
  write_u32_le dest (usize_as_u32 (length (be_data entry))).

(** The body of the second loop. *)
Definition write_name (dest : W) (entry : BlobEntry) : result W :=
  let name_bytes := as_bytes (be_name entry) in
  write_all dest name_bytes.

(** The body of the third loop. *)
Definition write_data (dest : W) (entry : BlobEntry) : result W :=
  write_all dest (be_data entry).

Definition write_blob_entries (dest : W) (entries : list BlobEntry) : result W :=
  dest ← write_u32_le dest (usize_as_u32 (length entries));
  dest ← foldM write_index_entry dest entries;
  dest ← foldM write_name dest entries;
  foldM write_data dest entries.

End writer.

(** * The layout *)

Definition blob_index_entry (e : BlobEntry) : list byte :=
  le_split 4 (usize_as_u32 (length (as_bytes (be_name e))))
  ++ le_split 4 (usize_as_u32 (length (be_data e))).

Definition blob_bytes (entries : list BlobEntry) : list byte :=
  le_split 4 (usize_as_u32 (length entries))
  ++ (entries ≫= blob_index_entry)
  ++ (entries ≫= λ e, as_bytes (be_name e))
  ++ (entries ≫= be_data).

(** An entry that the 32-bit index can describe. *)
Definition entry_fits (e : BlobEntry) : Prop :=
  (Z.of_nat (String.length (be_name e)) < 2 ^ 32)%Z ∧
  (Z.of_nat (length (be_data e)) < 2 ^ 32)%Z.

Definition blob_fits (entries : list BlobEntry) : Prop :=
  (Z.of_nat (length entries) < 2 ^ 32)%Z ∧ Forall entry_fits entries.

#[export] Instance entry_fits_dec e : Decision (entry_fits e).
Proof. unfold entry_fits. apply _. Defined.

#[export] Instance blob_fits_dec entries : Decision (blob_fits entries).
Proof. unfold blob_fits. apply _. Defined.

(** * The reference reader *)

Definition read_u32_le (bs : list byte) : option (Z * list byte) :=
  if decide (4 ≤ length bs) then Some (le_combine (take 4 bs), drop 4 bs) else None.

Fixpoint read_index (n : nat) (bs : list byte) : option (list (nat * nat) * list byte) :=
  match n with
  | 0 => Some ([], bs)
  | S n =>
      '(name_len, bs) ← read_u32_le bs;
      '(data_len, bs) ← read_u32_le bs;
      '(index, bs) ← read_index n bs;
      Some ((Z.to_nat name_len, Z.to_nat data_len) :: index, bs)
  end.

Fixpoint read_chunks (lens : list nat) (bs : list byte) : option (list (list byte) * list byte) :=
  match lens with
  | [] => Some ([], bs)
  | n :: lens =>
      if decide (n ≤ length bs)
      then '(chunks, rest) ← read_chunks lens (drop n bs); Some (take n bs :: chunks, rest)
      else None
  end.

(** The entries of a blob and the bytes that follow it. *)
Definition read_blob_entries (bs : list byte) : option (list BlobEntry * list byte) :=
  '(count, bs) ← read_u32_le bs;
  '(index, bs) ← read_index (Z.to_nat count) bs;
  '(names, bs) ← read_chunks index.*1 bs;
  '(datas, bs) ← read_chunks index.*2 bs;
  Some (zip_with (λ n d, {| be_name := from_utf8 n; be_data := d |}) names datas, bs).

(** * Invariants of the destination *)

Section writer_invariant.
Context `{Write W} (P : W → Prop).
Hypothesis write_all_P : ∀ w bs w', P w → write_all w bs = Ok w' → P w'.

(** What every write preserves, writing a blob preserves. *)
Lemma write_blob_entries_invariant dest dest' entries :
  P dest → write_blob_entries dest entries = Ok dest' → P dest'.
Proof.
  unfold write_blob_entries, write_u32_le. intros HP Hw.
  apply bind_Ok_inv in Hw as (d1 & H1 & Hw).
  apply bind_Ok_inv in Hw as (d2 & H2 & Hw).
  apply bind_Ok_inv in Hw as (d3 & H3 & Hw).
  assert (P d1) as HP1 by eauto.
  assert (P d2) as HP2.
  { eapply (foldM_invariant P); [|exact HP1|exact H2].
    unfold write_index_entry, write_u32_le. intros a x a' Ha Hx.
    apply bind_Ok_inv in Hx as (a1 & ? & ?). eauto. }
  assert (P d3) as HP3.
  { eapply (foldM_invariant P); [|exact HP2|exact H3]. unfold write_name. eauto. }
  eapply (foldM_invariant P); [|exact HP3|exact Hw]. unfold write_data. eauto.
Qed.

End writer_invariant.

(** * The writer refines the layout *)

Section lawful.
Context `{LawfulWrite W}.
Implicit Types (dest : W) (entries : list BlobEntry).

(** A loop of writes appends the concatenation of what each iteration
    writes. *)
Lemma foldM_written (body : W → BlobEntry → result W) (g : BlobEntry → list byte)
    dest dest' entries :
  (∀ d e d', body d e = Ok d' → written d' = written d ++ g e) →
  foldM body dest entries = Ok dest' →
  written dest' = written dest ++ (entries ≫= g).
Proof.
  intros Hbody. revert dest.
  induction entries as [|e entries IH]; intros dest Hfold; simpl in Hfold.
  - injection Hfold as <-. csimpl. by rewrite (right_id_L [] (++)).
  - apply bind_Ok_inv in Hfold as (d & Hd & Hfold).
    rewrite (IH _ Hfold), (Hbody _ _ _ Hd). csimpl. by rewrite (assoc_L (++)).
Qed.

Lemma write_u32_le_written dest dest' n :
  write_u32_le dest n = Ok dest' → written dest' = written dest ++ le_split 4 n.
Proof. apply write_all_written. Qed.

Lemma write_index_entry_written dest dest' e :
  write_index_entry dest e = Ok dest' →
  written dest' = written dest ++ blob_index_entry e.
Proof.
  unfold write_index_entry, blob_index_entry.
  intros (d & Hd%write_u32_le_written & Hd'%write_u32_le_written)%bind_Ok_inv.
  by rewrite Hd', Hd, (assoc_L (++)).
Qed.

Lemma write_blob_entries_written dest dest' entries :
  write_blob_entries dest entries = Ok dest' →
  written dest' = written dest ++ blob_bytes entries.
Proof.
  unfold write_blob_entries, blob_bytes.
  intros (d1 & H1%write_u32_le_written & (d2 & H2 & (d3 & H3 & H4)%bind_Ok_inv)%bind_Ok_inv)%bind_Ok_inv.
  apply (foldM_written _ blob_index_entry) in H2;
    [|intros ???; apply write_index_entry_written].
  apply (foldM_written _ (λ e, as_bytes (be_name e))) in H3;
    [|intros ???; apply write_all_written].
  apply (foldM_written _ be_data) in H4; [|intros ???; apply write_all_written].
  by rewrite H4, H3, H2, H1, !(assoc_L (++)).
Qed.

End lawful.

(** * Writing into a vector *)

Lemma foldl_app_bind {A} (g : A → list byte) (v : list byte) (l : list A) :
  foldl (λ v e, v ++ g e) v l = v ++ (l ≫= g).
Proof.
  revert v. induction l as [|e l IH]; intros v; csimpl.
  - by rewrite (right_id_L [] (++)).
  - by rewrite IH, (assoc_L (++)).
Qed.

Lemma write_blob_entries_vec_eq (dest : list byte) (entries : list BlobEntry) :
  write_blob_entries dest entries = Ok (dest ++ blob_bytes entries).
Proof.
  assert (∀ v bs : list byte, write_all v bs = Ok (v ++ bs)) as Hw by done.
  unfold write_blob_entries, blob_bytes, write_u32_le. rewrite Hw, bind_Ok.
  rewrite (foldM_total _ (λ v e, v ++ blob_index_entry e)), bind_Ok.
  2:{ intros v e. unfold write_index_entry, write_u32_le, blob_index_entry.
      by rewrite Hw, bind_Ok, Hw, (assoc_L (++)). }
  rewrite (foldM_total _ (λ v e, v ++ as_bytes (be_name e))), bind_Ok by done.
  rewrite (foldM_total _ (λ v e, v ++ be_data e)) by done.
  by rewrite !foldl_app_bind, !(assoc_L (++)).
Qed.

Lemma write_blob_entries_nil (entries : list BlobEntry) :
  write_blob_entries [] entries = Ok (blob_bytes entries).
Proof. exact (write_blob_entries_vec_eq [] entries). Qed.

(** * Reading back *)

Lemma read_u32_le_split (z : Z) (rest : list byte) :
  read_u32_le (le_split 4 z ++ rest) = Some ((z mod 2 ^ 32)%Z, rest).
Proof.
  unfold read_u32_le. rewrite length_app, length_le_split.
  rewrite decide_True by lia.
  rewrite take_app_length', drop_app_length' by (by rewrite length_le_split).
  by rewrite le_combine_split.
Qed.

Lemma read_u32_le_usize (n : nat) (rest : list byte) :
  (Z.of_nat n < 2 ^ 32)%Z →
  read_u32_le (le_split 4 (usize_as_u32 n) ++ rest) = Some (Z.of_nat n, rest).
Proof.
  intros Hn. rewrite read_u32_le_split. unfold usize_as_u32.
  by rewrite Z.mod_mod, Z.mod_small by lia.
Qed.

Arguments read_u32_le : simpl never.

Lemma read_index_layout (entries : list BlobEntry) (rest : list byte) :
  Forall entry_fits entries →
  read_index (length entries) ((entries ≫= blob_index_entry) ++ rest) =
    Some ((λ e, (length (as_bytes (be_name e)), length (be_data e))) <$> entries, rest).
Proof.
  induction 1 as [|e entries [Hn Hd] _ IH]; [done|].
  rewrite bind_cons, fmap_cons. cbn [length read_index].
  unfold blob_index_entry at 1. rewrite <-!(assoc_L (++)).
  rewrite read_u32_le_usize by (by rewrite length_as_bytes). cbn [mbind option_bind].
  rewrite read_u32_le_usize by done. cbn [mbind option_bind].
  rewrite IH. cbn [mbind option_bind]. by rewrite !Nat2Z.id.
Qed.

Lemma read_chunks_bind {A} (f : A → list byte) (l : list A) (rest : list byte) :
  read_chunks ((λ x, length (f x)) <$> l) ((l ≫= f) ++ rest) = Some (f <$> l, rest).
Proof.
  induction l as [|x l IH]; [done|].
  rewrite bind_cons, !fmap_cons. cbn [read_chunks].
  rewrite <-(assoc_L (++)), decide_True by (rewrite length_app; lia).
  by rewrite drop_app_length, take_app_length, IH.
Qed.

Lemma fmap_fst_pair {A B C} (a : A → B) (b : A → C) (l : list A) :
  ((λ x, (a x, b x)) <$> l).*1 = a <$> l.
Proof. rewrite <-list_fmap_compose. by apply list_fmap_ext. Qed.

Lemma fmap_snd_pair {A B C} (a : A → B) (b : A → C) (l : list A) :
  ((λ x, (a x, b x)) <$> l).*2 = b <$> l.
Proof. rewrite <-list_fmap_compose. by apply list_fmap_ext. Qed.

Lemma zip_names_datas (entries : list BlobEntry) :
  zip_with (λ n d, {| be_name := from_utf8 n; be_data := d |})
    ((λ e, as_bytes (be_name e)) <$> entries) (be_data <$> entries) = entries.
Proof.
  induction entries as [|[n d] entries IH]; [done|].
  rewrite !fmap_cons. cbn [zip_with be_name be_data].
  by rewrite from_utf8_as_bytes, IH.
Qed.

Lemma read_blob_bytes (entries : list BlobEntry) (rest : list byte) :
  blob_fits entries →
  read_blob_entries (blob_bytes entries ++ rest) = Some (entries, rest).
Proof.
  intros [Hcount Hfits]. unfold read_blob_entries, blob_bytes.
  rewrite <-!(assoc_L (++)), read_u32_le_usize by done. cbn [mbind option_bind].
  rewrite Nat2Z.id, read_index_layout by done. cbn [mbind option_bind].
  rewrite fmap_fst_pair, fmap_snd_pair, read_chunks_bind. cbn [mbind option_bind].
  rewrite read_chunks_bind. cbn [mbind option_bind].
  by rewrite zip_names_datas.
Qed.

Lemma length_blob_bytes (entries : list BlobEntry) :
  length (blob_bytes entries) =
    4 + 8 * length entries
    + sum_list ((λ e, String.length (be_name e)) <$> entries)
    + sum_list ((λ e, length (be_data e)) <$> entries).
Proof.
  unfold blob_bytes. rewrite !length_app, length_le_split, !length_list_bind.
  assert (sum_list (length ∘ blob_index_entry <$> entries) = 8 * length entries) as ->.
  { induction entries as [|e entries IH]; [done|]. rewrite fmap_cons. cbn [sum_list length].
    rewrite IH. unfold compose, blob_index_entry.
    rewrite length_app, !length_le_split. unfold id. lia. }
  rewrite (list_fmap_ext (length ∘ _) (λ e, String.length (be_name e)) entries)
    by (intros; apply length_as_bytes).
  unfold compose. lia.
Qed.

(** * Scenario: two entries *)

Definition s2_entries : list BlobEntry :=
  [ {| be_name := "a"; be_data := [x01; x02] |};
    {| be_name := "bb"; be_data := [x03] |} ].

Definition s2_bytes : list byte :=
  [x02; x00; x00; x00;
   x01; x00; x00; x00; x02; x00; x00; x00;
   x02; x00; x00; x00; x01; x00; x00; x00;
   x61; x62; x62;
   x01; x02; x03].

(** An entry of more than 4 GiB: [data] followed by [2^32] zero bytes. *)
Definition oversize (name : string) (data : list byte) : BlobEntry :=
  {| be_name := name; be_data := data ++ replicate four_gib x00 |}.

(** The index of an entry does not see [2^32] more bytes of data, so the
    reader stops [2^32] bytes early. *)
Lemma read_blob_bytes_padded name data (pad : list byte) :
  entry_fits {| be_name := name; be_data := data |} →
  length pad = four_gib →
  read_blob_entries (blob_bytes [{| be_name := name; be_data := data ++ pad |}]) =
    Some ([{| be_name := name; be_data := data |}], pad).
Proof.
  intros Hfits Hpad.
  rewrite <-(read_blob_bytes [{| be_name := name; be_data := data |}] pad)
    by (split; [done|by constructor]).
  f_equal. unfold blob_bytes, blob_index_entry. rewrite !bind_singleton.
  cbn [length be_name be_data].
  rewrite (length_app data pad), Hpad, usize_as_u32_wrap.
  rewrite <-!(assoc_L (++)). reflexivity.
Qed.

(** * Properties of the codec *)

(** C1. Round trip: entries whose count and lengths fit 32 bits, written by
    [write_blob_entries] into a byte vector, are read back by the reference
    reader from any stream that starts with the written bytes, equal to what
    was written and in the same order, followed by the rest of the stream. *)
Theorem blob_roundtrip (entries : list BlobEntry) (bs rest : list byte) :
  blob_fits entries →
  write_blob_entries [] entries = Ok bs →
  read_blob_entries (bs ++ rest) = Some (entries, rest).
Proof.
  intros Hfits. rewrite write_blob_entries_vec_eq. intros [= <-].
  by apply read_blob_bytes.
Qed.

Lemma blob_roundtrip_witness :
  read_blob_entries (s2_bytes ++ [xff]) = Some (s2_entries, [xff]).
Proof.
  apply (blob_roundtrip s2_entries s2_bytes [xff]).
  - split; [reflexivity|]. repeat constructor.
  - vm_compute. reflexivity.
Defined.

(** C9. Written into a [Vec<u8>], any list of entries serialises (the write
    never fails) and the bytes appended are the index-first layout: the
    count, the (name length, data length) pairs, the names, the data, with
    nothing between them. *)
Theorem write_blob_entries_vec (dest : list byte) (entries : list BlobEntry) :
  write_blob_entries dest entries =
    Ok (dest ++ le_split 4 (usize_as_u32 (length entries))
             ++ (entries ≫= blob_index_entry)
             ++ (entries ≫= λ e, as_bytes (be_name e))
             ++ (entries ≫= be_data)).
Proof. apply write_blob_entries_vec_eq. Qed.

Lemma write_blob_entries_vec_witness :
  write_blob_entries [] s2_entries = Ok s2_bytes.
Proof. rewrite (write_blob_entries_vec [] s2_entries). vm_compute. reflexivity. Defined.

(** C27. Refinement: over any writer that obeys the law of [Write], a
    successful [write_blob_entries] appends exactly the layout [blob_bytes]
    of the entries to what the writer already held. *)
Theorem write_blob_entries_refines `{LawfulWrite W} (dest dest' : W)
    (entries : list BlobEntry) :
  write_blob_entries dest entries = Ok dest' →
  written dest' = written dest ++ blob_bytes entries.
Proof. apply write_blob_entries_written. Qed.

Lemma write_blob_entries_refines_witness :
  written (s2_bytes : list byte) = written ([] : list byte) ++ blob_bytes s2_entries.
Proof.
  apply (write_blob_entries_refines (W:=list byte) [] s2_bytes s2_entries).
  vm_compute. reflexivity.
Defined.

(** C37. An entry larger than 4 GiB is not rejected: its length is cast to
    [u32], so the index records the length modulo [2^32], and the reader gets
    back a shorter entry than the one written. *)
Theorem oversize_entry_truncated (name : string) (data : list byte) :
  entry_fits {| be_name := name; be_data := data |} →
  ∃ bs, write_blob_entries [] [oversize name data] = Ok bs ∧
        read_blob_entries bs =
          Some ([{| be_name := name; be_data := data |}], replicate four_gib x00).
Proof.
  intros Hfits. exists ([] ++ blob_bytes [oversize name data]).
  split; [apply write_blob_entries_vec_eq|].
  apply (read_blob_bytes_padded name data (replicate four_gib x00) Hfits).
  apply length_replicate.
Qed.

Lemma oversize_entry_truncated_witness :
  ∃ bs, write_blob_entries [] [oversize "a" [x01]] = Ok bs ∧
        read_blob_entries bs =
          Some ([{| be_name := "a"; be_data := [x01] |}], replicate four_gib x00).
Proof. apply (oversize_entry_truncated "a" [x01]). split; reflexivity. Defined.

(** The size of a blob: four bytes of count, eight bytes of index per
    entry, then the names and the data with no separator and no padding. *)
Theorem blob_size (entries : list BlobEntry) (bs : list byte) :
  write_blob_entries [] entries = Ok bs →
  length bs =
    4 + 8 * length entries
    + sum_list ((λ e, String.length (be_name e)) <$> entries)
    + sum_list ((λ e, length (be_data e)) <$> entries).
Proof. rewrite write_blob_entries_vec_eq. intros [= <-]. apply length_blob_bytes. Qed.

Lemma blob_size_witness : length s2_bytes = 4 + 8 * 2 + (1 + 2 + 0) + (2 + 1 + 0).
Proof. apply (blob_size s2_entries s2_bytes). vm_compute. reflexivity. Defined.

(** A blob determines its entries: two lists of entries that fit and
    serialise to the same bytes are equal. *)
Theorem blob_bytes_inj (entries1 entries2 : list BlobEntry) (bs : list byte) :
  blob_fits entries1 → blob_fits entries2 →
  write_blob_entries [] entries1 = Ok bs →
  write_blob_entries [] entries2 = Ok bs →
  entries1 = entries2.
Proof.
  intros H1 H2. rewrite !write_blob_entries_nil. intros E1 E2.
  assert (blob_bytes entries1 = blob_bytes entries2) as Heq by congruence.
  pose proof (read_blob_bytes entries1 [] H1) as R1.
  pose proof (read_blob_bytes entries2 [] H2) as R2.
  rewrite Heq, R2 in R1. congruence.
Qed.

Lemma blob_bytes_inj_witness : s2_entries = s2_entries.
Proof.
  apply (blob_bytes_inj s2_entries s2_entries s2_bytes).
  - split; [reflexivity|]. repeat constructor.
  - split; [reflexivity|]. repeat constructor.
  - vm_compute. reflexivity.
  - vm_compute. reflexivity.
Defined.
