(* ===== verification/Dist.v ===== *)
(** * The data model

    The types the engine computes with.  [PythonResource],
    [ResourceAction], [PythonResourceEntry] and [PythonResources] are
    declared in repackage.rs.  [LibraryDepends], [ExtensionModule],
    [PythonDistributionInfo] (dist.rs), [PythonPackaging], [RunMode],
    [Config] (config.rs) and [PythonResourceType], [PythonFileResource]
    (fsscan.rs) are declared in sibling modules that the repository does not
    hold: they carry the fields that repackage.rs reads, with the types it
    reads them at. *)

From S2P Require Import Prelude.

(** * The distribution *)

(** A library an extension or the core links against ([dist.rs]). *)
Record LibraryDepends := {
  ld_name : string;
  ld_static_path : option string;
  ld_dynamic_path : option string;
  ld_framework : bool;
  ld_system : bool
}.

(** One build variant of an extension module ([dist.rs]). *)
Record ExtensionModule := {
  em_module : string;
  em_variant : string;
  em_builtin_default : bool;
  em_required : bool;
  em_init_fn : option string;
  em_object_paths : list string;
  em_links : list LibraryDepends
}.

(** A parsed Python distribution ([dist.rs]). *)
Record PythonDistributionInfo := {
  python_exe : string;
  os : string;
  version : string;
  py_modules : gmap string string;
  extension_modules : gmap string (list ExtensionModule);
  objs_core : gmap string string;
  includes : gmap string string;
  libraries : gmap string string;
  links_core : list LibraryDepends
}.

#[export] Instance LibraryDepends_eq_dec : EqDecision LibraryDepends.
Proof. solve_decision. Defined.

#[export] Instance ExtensionModule_eq_dec : EqDecision ExtensionModule.
Proof. solve_decision. Defined.

(** * The configuration *)

(** A packaging rule ([config.rs]); optimisation levels are [i64]. *)
Inductive PythonPackaging :=
| StdlibExtensionsPolicy (policy : string)
| StdlibExtensionsExplicitIncludes (includes : list string)
| StdlibExtensionsExplicitExcludes (excludes : list string)
| StdlibExtensionVariant (extension variant : string)
| Stdlib (optimize_level : Z) (exclude_test_modules include_source : bool)
| Virtualenv (path : string) (optimize_level : Z) (excludes : list string)
    (include_source : bool)
| PackageRoot (path : string) (packages : list string) (optimize_level : Z)
    (excludes : list string) (include_source : bool)
| PipInstallSimple (package : string) (optimize_level : Z) (include_source : bool)
| FilterFileInclude (path : string)
| FilterFilesInclude (glob : string).

#[export] Instance PythonPackaging_eq_dec : EqDecision PythonPackaging.
Proof. solve_decision. Defined.

(** What the embedded interpreter runs ([config.rs]). *)
Inductive RunMode :=
| Repl
| RunModule (module : string)
| Eval (code : string).

#[export] Instance RunMode_eq_dec : EqDecision RunMode.
Proof. solve_decision. Defined.

(** The parsed configuration ([config.rs]). *)
Record Config := {
  program_name : string;
  python_distribution_path : option string;
  stdio_encoding_name : option string;
  stdio_encoding_errors : option string;
  optimize_level : Z;
  filesystem_importer : bool;
  sys_paths : list string;
  no_site : bool;
  no_user_site_directory : bool;
  ignore_environment : bool;
  dont_write_bytecode : bool;
  unbuffered_stdio : bool;
  rust_allocator_raw : bool;
  write_modules_directory_env : option string;
  run : RunMode;
  python_packaging : list PythonPackaging
}.

(** * Scanned files *)

(** How the scanner classifies a file ([fsscan.rs]). *)
Inductive PythonResourceType :=
| Source
| Bytecode
| BytecodeOpt1
| BytecodeOpt2
| Resource
| Other.

#[export] Instance PythonResourceType_eq_dec : EqDecision PythonResourceType.
Proof. solve_decision. Defined.

(** A file found by the scanner, with its dotted name ([fsscan.rs]). *)
Record PythonFileResource := {
  pfr_name : string;
  pfr_path : string;
  pfr_flavor : PythonResourceType
}.

(** * Resources and actions *)

(** A resource to make available to the interpreter; the optimisation
    level of a bytecode request is an [i32]. *)
Inductive PythonResource :=
| ResourceExtensionModule (name : string) (module : ExtensionModule)
| ResourceModuleSource (name : string) (source : list byte)
| ResourceModuleBytecode (name : string) (source : list byte) (optimize_level : Z)
| ResourceData (name : string) (data : list byte).

Inductive ResourceAction :=
| Add
| Remove.

Record PythonResourceEntry := {
  action : ResourceAction;
  resource : PythonResource
}.

#[export] Instance PythonResource_eq_dec : EqDecision PythonResource.
Proof. solve_decision. Defined.

#[export] Instance ResourceAction_eq_dec : EqDecision ResourceAction.
Proof. solve_decision. Defined.

#[export] Instance PythonResourceEntry_eq_dec : EqDecision PythonResourceEntry.
Proof. solve_decision. Defined.

(** The name a resource is staged under. *)
Definition resource_name (r : PythonResource) : string :=
  match r with
  | ResourceExtensionModule name _ => name
  | ResourceModuleSource name _ => name
  | ResourceModuleBytecode name _ _ => name
  | ResourceData name _ => name
  end.

(** The resources to embed in a binary. *)
Record PythonResources := {
  module_sources : gmap string (list byte);
  module_bytecodes : gmap string (list byte);
  all_modules : gset string;
  resources : gmap string (list byte);
  res_extension_modules : gmap string ExtensionModule;
  read_files : list string
}.

(** * The target *)

(** The operating system the engine is compiled for
    ([cfg!(target_os = ..)]). *)
Inductive TargetOs :=
| Linux
| Macos
| Windows
| OtherOs.

#[export] Instance TargetOs_eq_dec : EqDecision TargetOs.
Proof. solve_decision. Defined.
