(* ===== verification/Env.v ===== *)
(** * The collaborators of the engine

    repackage.rs calls code that the repository does not hold: the file
    scanner ([fsscan::find_python_resources]), the glob expansion
    ([glob::glob]), temporary directories, child processes, the
    distribution's [ensure_pip] and the bytecode compiler
    ([bytecode::BytecodeCompiler]).  Each is an interface here, a class over
    the type [F] of file-system states; the engine is modelled against these
    classes and its theorems hold for every instance.  [World] is an
    executable instance, used to run the engine on concrete inputs. *)

From S2P Require Import Prelude Io Dist.

(** [find_python_resources(root)]: the Python files under a directory, with
    their dotted names. *)
Class Scanner (F : Type) := find_python_resources : F → string → list PythonFileResource.
#[global] Hint Mode Scanner ! : typeclass_instances.

(** [glob(pattern)]: an error for a malformed pattern, otherwise the
    matched paths, each of which can be an error of its own. *)
Class Glob (F : Type) := findglob : F → string → result (list (result string)).
#[global] Hint Mode Glob ! : typeclass_instances.

(** Temporary directories and child processes.  Each returns the state of
    the file system that it leaves. *)
Class Process (F : Type) := {
  (** [dist.ensure_pip()]. *)
  ensure_pip : F → PythonDistributionInfo → result F;
  (** [TempDir::new(prefix)]: the directory created. *)
  temp_dir_new : F → string → result (F * string);
  (** [Command::new(program).args(args).status()]: the exit status. *)
  command_status : F → string → list string → result (F * Z)
}.
#[global] Hint Mode Process ! : typeclass_instances.

(** [BytecodeCompiler::compile(source, name, optimize_level)]: the bytecode
    or the compiler's message. *)
Class BytecodeCompiler := compile : list byte → string → Z → result (list byte).

(** * An executable world *)

(** A file system in memory, the scan of each directory, the expansion of
    each glob, the directory that the next [TempDir::new] gives, and what a
    run of [pip] with a given package adds to the scan of that directory. *)
Record World := {
  w_fs : MemFs;
  w_scan : gmap string (list PythonFileResource);
  w_glob : gmap string (list (result string));
  w_temp : option string;
  w_pip : gmap string (list PythonFileResource)
}.

Definition world_with_fs (w : World) (fs : MemFs) : World :=
  {| w_fs := fs; w_scan := w_scan w; w_glob := w_glob w; w_temp := w_temp w;
     w_pip := w_pip w |}.

Definition world_with_scan (w : World) (scan : gmap string (list PythonFileResource)) : World :=
  {| w_fs := w_fs w; w_scan := scan; w_glob := w_glob w; w_temp := w_temp w;
     w_pip := w_pip w |}.

#[export] Instance world_fs : FileSystem World := {|
  read_file w p := read_file (w_fs w) p;
  write_file w p bs := world_with_fs w <$> write_file (w_fs w) p bs
|}.

#[export] Instance world_scanner : Scanner World := λ w root,
  default [] (w_scan w !! root).

#[export] Instance world_glob : Glob World := λ w pattern,
  ok_or (w_glob w !! pattern) "Pattern syntax error".

(** The last argument of the command is the package; the one before it is
    the target directory. *)
Definition world_command (w : World) (program : string) (args : list string) :
    result (World * Z) :=
  match reverse args with
  | package :: target :: _ =>
      match w_pip w !! package with
      | Some found => Ok (world_with_scan w (<[target := found]> (w_scan w)), 0%Z)
      | None => Ok (w, 1%Z)
      end
  | _ => Err (Failure "No such file or directory")
  end.

#[export] Instance world_process : Process World := {|
  ensure_pip w _ := Ok w;
  temp_dir_new w _ := (λ d, (w, d)) <$> ok_or (w_temp w) "Permission denied";
  command_status := world_command
|}.

#[export] Instance world_fs_laws : FileSystemLaws World.
Proof.
  split; intros w w' p; unfold write_file, read_file; simpl.
  - intros bs H. destruct (mem_write _ _ _) as [fs|] eqn:E; [|done].
    injection H as <-. exact (read_write_eq (F := MemFs) _ _ _ _ E).
  - intros q bs H Hne. destruct (mem_write _ _ _) as [fs|] eqn:E; [|done].
    injection H as <-. exact (read_write_ne (F := MemFs) _ _ _ _ _ E Hne).
Qed.

(** A compiler that prefixes the source with a marker of the level, and
    rejects the sources of a given list of modules. *)
Definition marker_compiler (rejected : list string) : BytecodeCompiler := λ source name level,
  if decide (name ∈ rejected) then Err (Failure "invalid syntax")
  else Ok (byte_of_ascii (ascii_of_nat (Z.to_nat (level mod 256))) :: source).
