(* ===== verification/Scenario.v ===== *)
(** * Concrete inputs

    The distributions, configurations and worlds of the end-to-end scenarios,
    as data.  The components evaluate their operations on them. *)

From S2P Require Import Prelude RustStd Io Dist Env.

(** * Builders *)

Definition extension (module variant : string) (builtin_default required : bool)
    (init_fn : option string) (links : list LibraryDepends) : ExtensionModule :=
  {| em_module := module; em_variant := variant; em_builtin_default := builtin_default;
     em_required := required; em_init_fn := init_fn; em_object_paths := [];
     em_links := links |}.

Definition static_library (name path : string) : LibraryDepends :=
  {| ld_name := name; ld_static_path := Some path; ld_dynamic_path := None;
     ld_framework := false; ld_system := false |}.

Definition distribution (version : string) (py_modules : list (string * string))
    (extension_modules : list (string * list ExtensionModule)) : PythonDistributionInfo :=
  {| python_exe := "/dist/python/install/bin/python3"; os := "linux"; version := version;
     py_modules := list_to_map py_modules;
     extension_modules := list_to_map extension_modules;
     objs_core := ∅; includes := ∅; libraries := ∅; links_core := [] |}.

Definition configuration (rules : list PythonPackaging) : Config :=
  {| program_name := "app"; python_distribution_path := None;
     stdio_encoding_name := None; stdio_encoding_errors := None; optimize_level := 0;
     filesystem_importer := false; sys_paths := []; no_site := true;
     no_user_site_directory := true; ignore_environment := true;
     dont_write_bytecode := true; unbuffered_stdio := false; rust_allocator_raw := false;
     write_modules_directory_env := None; run := Repl; python_packaging := rules |}.

Definition world (files : list (string * string)) : World :=
  {| w_fs := mem_fs_of (prod_map id as_bytes <$> files); w_scan := ∅; w_glob := ∅;
     w_temp := None; w_pip := ∅ |}.

Definition source_file (name path : string) : PythonFileResource :=
  {| pfr_name := name; pfr_path := path; pfr_flavor := Source |}.

(** The compiler of the scenarios rejects the module [broken]. *)
Definition scenario_compiler : BytecodeCompiler := marker_compiler ["broken"].

(** * S1: minimal standard library *)

Definition s1_io : ExtensionModule := extension "_io" "default" true false (Some "PyInit__io") [].
Definition s1_zlib : ExtensionModule := extension "zlib" "default" false true (Some "PyInit_zlib") [].
Definition s1_readline : ExtensionModule :=
  extension "readline" "default" false false (Some "PyInit_readline") [].

Definition s1_dist : PythonDistributionInfo :=
  distribution "3.7.4" [] [("zlib", [s1_zlib]); ("readline", [s1_readline]); ("_io", [s1_io])].

Definition s1_config : Config := configuration [StdlibExtensionsPolicy "minimal"].

(** * S3: exclude, then filter *)

Definition s3_dist : PythonDistributionInfo :=
  distribution "3.7.4"
    [("json", "/dist/json/__init__.py");
     ("json.tests.test_foo", "/dist/json/tests/test_foo.py");
     ("os", "/dist/os.py")] [].

Definition s3_world : World :=
  world [("/dist/json/__init__.py", "import codecs");
         ("/dist/json/tests/test_foo.py", "assert True");
         ("/dist/os.py", "import sys");
         ("/cfg/names.txt", "# kept modules" +:+ nl +:+ "json" +:+ nl +:+
                            "json.tests.test_foo" +:+ nl)].

Definition s3_config : Config :=
  configuration [Stdlib 0 true true; FilterFileInclude "/cfg/names.txt"].

(** * S4: variant selection *)

Definition s4_openssl_1_1 : ExtensionModule :=
  extension "_ssl" "openssl-1.1" false false (Some "PyInit__ssl")
    [static_library "ssl" "/dist/lib/libssl.a"].
Definition s4_openssl_3 : ExtensionModule :=
  extension "_ssl" "openssl-3" false false (Some "PyInit__ssl") [].

Definition s4_dist : PythonDistributionInfo :=
  distribution "3.7.4" [] [("ssl", [s4_openssl_1_1; s4_openssl_3])].

(** * S6: required closure *)

Definition s6_dist : PythonDistributionInfo :=
  distribution "3.7.4" [] [("_io", [s1_io]); ("readline", [s1_readline])].

Definition s6_config : Config := configuration [StdlibExtensionsExplicitIncludes ["json"]].

(** * Resources to write: two sources, one bytecode *)

Definition two_sources : PythonResources :=
  {| module_sources := list_to_map [("os", as_bytes "import sys"); ("json", as_bytes "x = 1")];
     module_bytecodes := {[ "json" := [x00; x01] ]};
     all_modules := {[ "os"; "json" ]};
     resources := ∅; res_extension_modules := ∅; read_files := [] |}.

(** * A distribution to link *)

Definition link_ssl : ExtensionModule :=
  {| em_module := "_ssl"; em_variant := "default"; em_builtin_default := false;
     em_required := false; em_init_fn := Some "PyInit__ssl";
     em_object_paths := ["/dist/build/Modules/_ssl.o"];
     em_links := [static_library "ssl" "/dist/lib/libssl.a";
                  {| ld_name := "m"; ld_static_path := None; ld_dynamic_path := None;
                     ld_framework := false; ld_system := true |};
                  {| ld_name := "Security"; ld_static_path := None; ld_dynamic_path := None;
                     ld_framework := true; ld_system := false |}] |}.

Definition link_io : ExtensionModule :=
  {| em_module := "_io"; em_variant := "default"; em_builtin_default := true;
     em_required := true; em_init_fn := Some "PyInit__io";
     em_object_paths := ["/dist/build/Modules/_iomodule.o"];
     em_links := [static_library "iolib" "/dist/lib/libiolib.a"] |}.

Definition link_dist : PythonDistributionInfo :=
  {| python_exe := "/dist/python/install/bin/python3"; os := "linux"; version := "3.7.4";
     py_modules := ∅;
     extension_modules := list_to_map [("_ssl", [link_ssl]); ("_io", [link_io])];
     objs_core := list_to_map [("Modules/config.o", "/dist/build/Modules/config.o");
                               ("Python/ceval.o", "/dist/build/Python/ceval.o")];
     includes := {[ "Python.h" := "/dist/include/Python.h" ]};
     libraries := {[ "ssl" := "/dist/lib/libssl.a" ]};
     links_core := [static_library "core_static" "/dist/lib/libcore_static.a";
                    {| ld_name := "dl"; ld_static_path := None; ld_dynamic_path := None;
                       ld_framework := false; ld_system := true |}] |}.

Definition link_resources : PythonResources :=
  {| module_sources := ∅; module_bytecodes := ∅; all_modules := ∅; resources := ∅;
     res_extension_modules := list_to_map [("_ssl", link_ssl); ("_io", link_io)];
     read_files := [] |}.

Definition link_world : World :=
  {| w_fs := mem_fs_of [("/dist/include/Python.h", as_bytes "#define PY 1");
                        ("/dist/build/Modules/config.o", [x00]);
                        ("/dist/build/Python/ceval.o", [x01]);
                        ("/dist/lib/libssl.a", [x02])];
     w_scan := ∅; w_glob := ∅; w_temp := Some "/tmp/libpython.0"; w_pip := ∅ |}.

(** * A distribution with importlib, and a configuration to render *)

Definition importlib_dist : PythonDistributionInfo :=
  distribution "3.7.4"
    [("importlib._bootstrap", "/dist/importlib/_bootstrap.py");
     ("importlib._bootstrap_external", "/dist/importlib/_bootstrap_external.py")] [].

Definition importlib_world : World :=
  world [("/dist/importlib/_bootstrap.py", "def _install(): pass");
         ("/dist/importlib/_bootstrap_external.py", "def _get_supported_file_loaders(): pass")].

Definition run_config : Config :=
  {| program_name := "app"; python_distribution_path := None;
     stdio_encoding_name := Some "utf-8"; stdio_encoding_errors := None; optimize_level := 2;
     filesystem_importer := true; sys_paths := ["$ORIGIN/lib"; "/opt/app"]; no_site := true;
     no_user_site_directory := false; ignore_environment := true;
     dont_write_bytecode := true; unbuffered_stdio := false; rust_allocator_raw := true;
     write_modules_directory_env := Some "APP_MODULES"; run := RunModule "app.main";
     python_packaging := [] |}.

(** * A build, end to end *)

Definition build_dist : PythonDistributionInfo :=
  {| python_exe := "/dist/python/install/bin/python3"; os := "linux"; version := "3.7.4";
     py_modules :=
       list_to_map [("importlib._bootstrap", "/dist/importlib/_bootstrap.py");
                    ("importlib._bootstrap_external", "/dist/importlib/_bootstrap_external.py");
                    ("os", "/dist/os.py")];
     extension_modules := extension_modules link_dist;
     objs_core := objs_core link_dist; includes := includes link_dist;
     libraries := libraries link_dist; links_core := links_core link_dist |}.

Definition build_config : Config :=
  {| program_name := "app"; python_distribution_path := Some "/cfg/python.tar.zst";
     stdio_encoding_name := None; stdio_encoding_errors := None; optimize_level := 0;
     filesystem_importer := false; sys_paths := []; no_site := true;
     no_user_site_directory := true; ignore_environment := true;
     dont_write_bytecode := true; unbuffered_stdio := false; rust_allocator_raw := false;
     write_modules_directory_env := None; run := Repl;
     python_packaging := [StdlibExtensionsPolicy "all"; Stdlib 0 false true;
                          FilterFileInclude "/cfg/names.txt"] |}.

Definition build_world : World :=
  {| w_fs := mem_fs_of
       [("/proj/pyoxidizer.x86_64-unknown-linux-gnu.toml", as_bytes "[python_config]");
        ("/cfg/python.tar.zst", [x28; xb5; x2f; xfd]);
        ("/cfg/names.txt", as_bytes ("os" +:+ nl +:+ "_ssl" +:+ nl +:+ "_io" +:+ nl));
        ("/dist/importlib/_bootstrap.py", as_bytes "def _install(): pass");
        ("/dist/importlib/_bootstrap_external.py", as_bytes "def _install(): pass");
        ("/dist/os.py", as_bytes "import sys");
        ("/dist/include/Python.h", as_bytes "#define PY 1");
        ("/dist/build/Modules/config.o", [x00]);
        ("/dist/build/Python/ceval.o", [x01]);
        ("/dist/lib/libssl.a", [x02])];
     w_scan := ∅; w_glob := ∅; w_temp := Some "/tmp/libpython.0"; w_pip := ∅ |}.

Definition build_env : gmap string string :=
  list_to_map [("HOST", "x86_64-unknown-linux-gnu"); ("TARGET", "x86_64-unknown-linux-gnu");
               ("OPT_LEVEL", "3"); ("CARGO_MANIFEST_DIR", "/proj/app"); ("OUT_DIR", "/out")].

(** * A virtual environment and a package root *)

Definition venv_dist (version : string) : PythonDistributionInfo := distribution version [] [].

Definition venv_world : World :=
  {| w_fs := mem_fs_of [("/venv/lib/python3.7/site-packages/foo/__init__.py", as_bytes "x = 1");
                        ("/venv/lib/python3.7/site-packages/foo/bar.py", as_bytes "y = 2");
                        ("/venv/lib/python3.7/site-packages/foo/barbell.py", as_bytes "z = 3")];
     w_scan := {[ "/venv/lib/python3.7/site-packages" :=
                    [source_file "foo" "/venv/lib/python3.7/site-packages/foo/__init__.py";
                     source_file "foo.bar" "/venv/lib/python3.7/site-packages/foo/bar.py";
                     source_file "foo.barbell"
                       "/venv/lib/python3.7/site-packages/foo/barbell.py"] ]};
     w_glob := ∅; w_temp := Some "/tmp/pyoxidizer-pip-install.0";
     w_pip := {[ "requests" :=
                   [source_file "requests" "/venv/lib/python3.7/site-packages/foo/bar.py"] ]} |}.
