(* ===== verification/Resolver.v ===== *)
(** * The rule resolver

    [resolve_python_packaging] of repackage.rs turns one packaging rule and
    the distribution into a list of add entries.  Each arm of its [match] is
    a definition here, named after the rule; a loop that can panic is a
    [collectM], a loop that assigns a flag is a [foldl].  The arms read the
    file system and call the scanner and child processes through the
    interfaces of [Env].  What is printed is not modelled. *)

From S2P Require Import Prelude BTree RustStd RustText Io Dist Env Scenario.

(** * Tables *)

Definition STDLIB_TEST_PACKAGES : list string :=
  [ "bsddb.test"; "ctypes.test"; "distutils.tests"; "email.test";
    "idlelib.idle_test"; "json.tests"; "lib-tk.test"; "lib2to3.tests";
    "sqlite3.test"; "test"; "tkinter.test"; "unittest.test" ].

Definition OS_IGNORE_LIBRARIES (target : TargetOs) : list string :=
  match target with
  | Linux => ["dl"; "m"]
  | Macos => ["dl"; "m"]
  | _ => []
  end.

Definition OS_IGNORE_EXTENSIONS (target : TargetOs) : list string :=
  match target with
  | Linux => ["_crypt"; "nis"]
  | Macos => ["_curses"; "_curses_panel"; "readline"]
  | _ => []
  end.

(** * Names *)

Fixpoint is_stdlib_test_package_in (packages : list string) (name : string) : bool :=
  match packages with
  | [] => false
  | package :: packages =>
      let prefix := package +:+ "." in
      if starts_with name prefix then true
      else is_stdlib_test_package_in packages name
  end.

Definition is_stdlib_test_package (name : string) : bool :=
  is_stdlib_test_package_in STDLIB_TEST_PACKAGES name.

(** The test of the package and exclude loops: the name is the package or
    lies below it. *)
Definition name_matches (name package : string) : bool :=
  let prefix := package +:+ "." in
  bool_decide (name = package) || starts_with name prefix.

(** [for package in packages { if .. { relevant = true } }]. *)
Definition mark_packages (name : string) (packages : list string) (relevant : bool) : bool :=
  foldl (λ relevant package, if name_matches name package then true else relevant)
    relevant packages.

(** [for exclude in excludes { if .. { relevant = false } }]. *)
Definition mark_excludes (name : string) (excludes : list string) (relevant : bool) : bool :=
  foldl (λ relevant exclude, if name_matches name exclude then false else relevant)
    relevant excludes.

(** * Entries *)

Definition add_entry (r : PythonResource) : PythonResourceEntry :=
  {| action := Add; resource := r |}.

Definition entry_name (e : PythonResourceEntry) : string := resource_name (resource e).

(** No entry of the list removes. *)
Definition adds_only (es : list PythonResourceEntry) : Prop :=
  Forall (λ e, action e = Add) es.

(** What a source rule pushes for one module: the source when asked for,
    then the bytecode request. *)
Definition source_entries (name : string) (source : list byte) (include_source : bool)
    (optimize_level : Z) : list PythonResourceEntry :=
  (if include_source then [add_entry (ResourceModuleSource name source)] else []) ++
  [add_entry (ResourceModuleBytecode name source (i64_as_i32 optimize_level))].

(** The first variant that links no library ([for .. { if .. { push; break } }]). *)
Fixpoint first_without_links (name : string) (variants : list ExtensionModule) :
    list PythonResourceEntry :=
  match variants with
  | [] => []
  | em :: variants =>
      if bool_decide (em_links em = []) then [add_entry (ResourceExtensionModule name em)]
      else first_without_links name variants
  end.

(** One iteration of the loop of [StdlibExtensionsPolicy]. *)
Definition stdlib_extensions_policy_step (policy : string)
    (item : string * list ExtensionModule) : result (list PythonResourceEntry) :=
  let '(name, variants) := item in
  if decide (policy = "minimal") then
    em ← vec_index variants 0;
    if em_builtin_default em || em_required em
    then Ok [add_entry (ResourceExtensionModule name em)] else Ok []
  else if decide (policy = "all") then
    em ← vec_index variants 0;
    Ok [add_entry (ResourceExtensionModule name em)]
  else if decide (policy = "no-libraries") then
    Ok (first_without_links name variants)
  else Err (Panic ("illegal policy value: " +:+ policy)).

Definition stdlib_extensions_policy (policy : string) (dist : PythonDistributionInfo) :
    result (list PythonResourceEntry) :=
  collectM (stdlib_extensions_policy_step policy) (btree_iter (extension_modules dist)).

Definition stdlib_extensions_explicit_includes (includes : list string)
    (dist : PythonDistributionInfo) : result (list PythonResourceEntry) :=
  collectM (λ name,
    match extension_modules dist !! name with
    | Some modules =>
        module ← vec_index modules 0;
        Ok [add_entry (ResourceExtensionModule name module)]
    | None => Ok []
    end) includes.

Definition stdlib_extensions_explicit_excludes (excludes : list string)
    (dist : PythonDistributionInfo) : result (list PythonResourceEntry) :=
  collectM (λ '(name, modules),
    if bool_decide (name ∈ excludes) then Ok []
    else
      module ← vec_index modules 0;
      Ok [add_entry (ResourceExtensionModule name module)])
    (btree_iter (extension_modules dist)).

Definition stdlib_extension_variant (extension variant : string)
    (dist : PythonDistributionInfo) : result (list PythonResourceEntry) :=
  variants ← map_index (extension_modules dist) extension;
  let res := add_entry ∘ ResourceExtensionModule extension <$>
               filter (λ em, em_variant em = variant) variants in
  if bool_decide (res = []) then
    Err (Panic ("extension " +:+ extension +:+ " has no variant " +:+ variant))
  else Ok res.

Section resolver.
Context `{FileSystem F, Scanner F, Process F}.

Definition read_source (fs : F) (path : string) : result (list byte) :=
  expect_ok (read_file fs path) "error reading source file".

Definition stdlib (fs : F) (optimize_level : Z) (exclude_test_modules include_source : bool)
    (dist : PythonDistributionInfo) : result (list PythonResourceEntry) :=
  collectM (λ '(name, fs_path),
    if is_stdlib_test_package name && exclude_test_modules then Ok []
    else
      source ← read_source fs fs_path;
      Ok (source_entries name source include_source optimize_level))
    (btree_iter (py_modules dist)).

(** The body of the loops over scanned files: a source file that the rule
    finds relevant is read and pushed, every other file is skipped. *)
Definition scanned_entries (fs : F) (relevant : string → bool) (optimize_level : Z)
    (include_source : bool) (resource : PythonFileResource) :
    result (list PythonResourceEntry) :=
  match pfr_flavor resource with
  | Source =>
      if relevant (pfr_name resource) then
        source ← read_source fs (pfr_path resource);
        Ok (source_entries (pfr_name resource) source include_source optimize_level)
      else Ok []
  | _ => Ok []
  end.

Definition site_packages_path (path : string) (dist : PythonDistributionInfo) : result string :=
  let packages_path := path in
  let packages_path :=
    if decide (os dist = "windows") then path_push packages_path "Lib"
    else path_push packages_path "lib" in
  version_prefix ← str_slice (version dist) 0 3;
  let packages_path := path_push packages_path ("python" +:+ version_prefix) in
  Ok (path_push packages_path "site-packages").

Definition virtualenv (fs : F) (path : string) (optimize_level : Z) (excludes : list string)
    (include_source : bool) (dist : PythonDistributionInfo) :
    result (list PythonResourceEntry) :=
  packages_path ← site_packages_path path dist;
  collectM
    (scanned_entries fs (λ name, mark_excludes name excludes true) optimize_level
       include_source)
    (find_python_resources fs packages_path).

Definition package_root (fs : F) (path : string) (packages : list string)
    (optimize_level : Z) (excludes : list string) (include_source : bool) :
    result (list PythonResourceEntry) :=
  collectM
    (scanned_entries fs
       (λ name, mark_excludes name excludes (mark_packages name packages false))
       optimize_level include_source)
    (find_python_resources fs path).

Definition pip_install_simple (fs : F) (package : string) (optimize_level : Z)
    (include_source : bool) (dist : PythonDistributionInfo) :
    result (list PythonResourceEntry) :=
  fs ← ensure_pip fs dist;
  '(fs, temp_dir_s) ← expect_ok (temp_dir_new fs "pyoxidizer-pip-install")
                        "could not creat temp directory";
  '(fs, _) ← expect_ok
               (command_status fs (python_exe dist)
                  ["-m"; "pip"; "--disable-pip-version-check"; "install"; "--target";
                   temp_dir_s; package])
               "error running pip";
  collectM (scanned_entries fs (λ _, true) optimize_level include_source)
    (find_python_resources fs temp_dir_s).

Definition resolve_python_packaging (fs : F) (package : PythonPackaging)
    (dist : PythonDistributionInfo) : result (list PythonResourceEntry) :=
  match package with
  | StdlibExtensionsPolicy policy => stdlib_extensions_policy policy dist
  | StdlibExtensionsExplicitIncludes includes =>
      stdlib_extensions_explicit_includes includes dist
  | StdlibExtensionsExplicitExcludes excludes =>
      stdlib_extensions_explicit_excludes excludes dist
  | StdlibExtensionVariant extension variant =>
      stdlib_extension_variant extension variant dist
  | Stdlib optimize_level exclude_test_modules include_source =>
      stdlib fs optimize_level exclude_test_modules include_source dist
  | Virtualenv path optimize_level excludes include_source =>
      virtualenv fs path optimize_level excludes include_source dist
  | PackageRoot path packages optimize_level excludes include_source =>
      package_root fs path packages optimize_level excludes include_source
  | PipInstallSimple package optimize_level include_source =>
      pip_install_simple fs package optimize_level include_source dist
  | FilterFileInclude _ => Ok []
  | FilterFilesInclude _ => Ok []
  end.

End resolver.

(** * Matching names *)
Lemma name_matches_spec name package :
  name_matches name package = true ↔
  name = package ∨ ∃ rest, name = package +:+ "." +:+ rest.
Proof.
  unfold name_matches. rewrite orb_true_iff, bool_decide_eq_true, starts_with_app.
  by setoid_rewrite string_app_assoc.
Qed.

Lemma mark_excludes_spec name excludes relevant :
  mark_excludes name excludes relevant =
  relevant && negb (existsb (name_matches name) excludes).
Proof.
  unfold mark_excludes. revert relevant.
  induction excludes as [|x l IH]; intros r; simpl; [by rewrite andb_true_r|].
  rewrite IH. destruct (name_matches name x); simpl; [by rewrite andb_false_r|done].
Qed.

Lemma mark_packages_spec name packages relevant :
  mark_packages name packages relevant =
  relevant || existsb (name_matches name) packages.
Proof.
  unfold mark_packages. revert relevant.
  induction packages as [|x l IH]; intros r; simpl; [by rewrite orb_false_r|].
  rewrite IH. destruct (name_matches name x); simpl; [by rewrite orb_true_r|done].
Qed.

Lemma is_stdlib_test_package_in_spec packages name :
  is_stdlib_test_package_in packages name = true ↔
  ∃ package rest, package ∈ packages ∧ name = package +:+ "." +:+ rest.
Proof.
  induction packages as [|p l IH]; simpl.
  - split; [done|]. by intros (?&?&?%elem_of_nil&_).
  - destruct (starts_with name (p +:+ ".")) eqn:E.
    + split; [intros _|done]. apply starts_with_app in E as [rest ->].
      exists p, rest. split; [left|]. by rewrite string_app_assoc.
    + rewrite IH. split; intros (q & rest & Hq & ->).
      * exists q, rest. split; [by right|done].
      * apply elem_of_cons in Hq as [->|Hq]; [|by eauto].
        assert (starts_with (p +:+ "." +:+ rest) (p +:+ ".") = true); [|congruence].
        apply starts_with_app. exists rest. by rewrite string_app_assoc.
Qed.

(** * The entries of a module *)

Lemma elem_of_source_entries e name source include_source optimize_level :
  e ∈ source_entries name source include_source optimize_level ↔
  (include_source = true ∧ e = add_entry (ResourceModuleSource name source)) ∨
  e = add_entry (ResourceModuleBytecode name source (i64_as_i32 optimize_level)).
Proof.
  unfold source_entries. rewrite elem_of_app, list_elem_of_singleton.
  destruct include_source; [rewrite list_elem_of_singleton|rewrite elem_of_nil];
    intuition congruence.
Qed.

Lemma source_entries_adds name source include_source optimize_level :
  adds_only (source_entries name source include_source optimize_level).
Proof. apply Forall_forall. intros e [[_ ->]| ->]%elem_of_source_entries; done. Qed.

Lemma source_entries_name e name source include_source optimize_level :
  e ∈ source_entries name source include_source optimize_level → entry_name e = name.
Proof. by intros [[_ ->]| ->]%elem_of_source_entries. Qed.

Lemma first_without_links_spec name variants :
  first_without_links name variants =
  match list_find (λ em, em_links em = []) variants with
  | Some (_, em) => [add_entry (ResourceExtensionModule name em)]
  | None => []
  end.
Proof.
  induction variants as [|em l IH]; simpl; [done|].
  case_bool_decide; case_decide; try done.
  rewrite IH. by destruct (list_find _ l) as [[??]|].
Qed.

Lemma first_without_links_adds name variants : adds_only (first_without_links name variants).
Proof.
  induction variants as [|em l IH]; simpl; [constructor|].
  case_bool_decide; [by repeat constructor|done].
Qed.

Section resolver.
Context `{FileSystem F, Scanner F, Process F}.
Implicit Types (fs : F) (r : PythonFileResource) (dist : PythonDistributionInfo).

Lemma elem_of_scanned_entries fs relevant o inc r es e :
  scanned_entries fs relevant o inc r = Ok es → e ∈ es ↔
  pfr_flavor r = Source ∧ relevant (pfr_name r) = true ∧
  ∃ source, read_file fs (pfr_path r) = Ok source ∧
    e ∈ source_entries (pfr_name r) source inc o.
Proof.
  unfold scanned_entries, read_source.
  destruct (pfr_flavor r); try (intros [= <-]; rewrite elem_of_nil; by intuition).
  destruct (relevant _); [|intros [= <-]; rewrite elem_of_nil; by intuition].
  intros Hb. result_cases. split; [by eauto 6|]. intros (_ & _ & ? & ? & ?). congruence.
Qed.

Lemma scanned_entries_adds fs relevant o inc r es :
  scanned_entries fs relevant o inc r = Ok es → adds_only es.
Proof.
  intros Hs. apply Forall_forall. intros e (_ & _ & source & _ & He)%(elem_of_scanned_entries _ _ _ _ _ _ _ Hs).
  revert e He. apply Forall_forall, source_entries_adds.
Qed.

End resolver.

(** * Extension rules *)

Implicit Types (dist : PythonDistributionInfo) (em : ExtensionModule)
  (e : PythonResourceEntry) (es : list PythonResourceEntry).

Lemma policy_step_minimal name variants es :
  stdlib_extensions_policy_step "minimal" (name, variants) = Ok es ↔
  ∃ em rest, variants = em :: rest ∧
    es = if em_builtin_default em || em_required em
         then [add_entry (ResourceExtensionModule name em)] else [].
Proof.
  simpl. split.
  - intros (em & [rest ->]%vec_index_0_Ok & Hes)%bind_Ok_inv. exists em, rest.
    by destruct (_ || _); simplify_eq.
  - intros (em & rest & -> & ->). simpl. by destruct (_ || _).
Qed.

Lemma policy_step_all name variants es :
  stdlib_extensions_policy_step "all" (name, variants) = Ok es ↔
  ∃ em rest, variants = em :: rest ∧ es = [add_entry (ResourceExtensionModule name em)].
Proof.
  simpl. split.
  - intros (em & [rest ->]%vec_index_0_Ok & [= <-])%bind_Ok_inv. by exists em, rest.
  - by intros (em & rest & -> & ->).
Qed.

Lemma policy_step_illegal policy item :
  policy ∉ ["minimal"; "all"; "no-libraries"] →
  stdlib_extensions_policy_step policy item = Err (Panic ("illegal policy value: " +:+ policy)).
Proof.
  intros Hp. destruct item as [name variants]. unfold stdlib_extensions_policy_step.
  repeat case_decide; try done; subst; exfalso; apply Hp; set_solver.
Qed.

Lemma stdlib_extensions_policy_illegal policy dist :
  policy ∉ ["minimal"; "all"; "no-libraries"] →
  stdlib_extensions_policy policy dist =
  if decide (extension_modules dist = ∅) then Ok []
  else Err (Panic ("illegal policy value: " +:+ policy)).
Proof.
  intros Hp. unfold stdlib_extensions_policy.
  destruct (btree_iter (extension_modules dist)) as [|item l] eqn:E.
  - apply btree_iter_nil in E. by rewrite decide_True.
  - rewrite decide_False; [|by intros ?%btree_iter_nil; congruence].
    simpl. by rewrite policy_step_illegal.
Qed.

Lemma elem_of_policy_minimal dist es e :
  stdlib_extensions_policy "minimal" dist = Ok es →
  e ∈ es ↔ ∃ name em rest, extension_modules dist !! name = Some (em :: rest) ∧
    em_builtin_default em || em_required em = true ∧
    e = add_entry (ResourceExtensionModule name em).
Proof.
  intros Hes. rewrite (elem_of_collectM _ _ _ _ Hes). split.
  - intros ([name variants] & ys & Hin%elem_of_btree_iter &
      (em & rest & -> & ->)%policy_step_minimal & He).
    exists name, em, rest. destruct (_ || _); [|by apply elem_of_nil in He].
    by apply list_elem_of_singleton in He.
  - intros (name & em & rest & Hin%elem_of_btree_iter & Hreq & ->).
    eexists (name, em :: rest), _. split; [done|]. split.
    + apply policy_step_minimal. by eexists _, _.
    + rewrite Hreq. by apply list_elem_of_singleton.
Qed.

Lemma elem_of_policy_all dist es e :
  stdlib_extensions_policy "all" dist = Ok es →
  e ∈ es ↔ ∃ name em rest, extension_modules dist !! name = Some (em :: rest) ∧
    e = add_entry (ResourceExtensionModule name em).
Proof.
  intros Hes. rewrite (elem_of_collectM _ _ _ _ Hes). split.
  - intros ([name variants] & ys & Hin%elem_of_btree_iter &
      (em & rest & -> & ->)%policy_step_all & He).
    exists name, em, rest. by apply list_elem_of_singleton in He.
  - intros (name & em & rest & Hin%elem_of_btree_iter & ->).
    eexists (name, em :: rest), _. split; [done|]. split.
    + apply policy_step_all. by eexists _, _.
    + by apply list_elem_of_singleton.
Qed.

Lemma elem_of_policy_no_libraries dist es e :
  stdlib_extensions_policy "no-libraries" dist = Ok es →
  e ∈ es ↔ ∃ name variants i em, extension_modules dist !! name = Some variants ∧
    list_find (λ em, em_links em = []) variants = Some (i, em) ∧
    e = add_entry (ResourceExtensionModule name em).
Proof.
  intros Hes. rewrite (elem_of_collectM _ _ _ _ Hes). split.
  - intros ([name variants] & ys & Hin%elem_of_btree_iter & [= <-] & He).
    rewrite first_without_links_spec in He.
    destruct (list_find _ variants) as [[i em]|] eqn:E; [|by apply elem_of_nil in He].
    apply list_elem_of_singleton in He. by exists name, variants, i, em.
  - intros (name & variants & i & em & Hin%elem_of_btree_iter & Hfind & ->).
    eexists (name, variants), _. split; [done|]. split; [done|].
    rewrite first_without_links_spec, Hfind. by apply list_elem_of_singleton.
Qed.

Lemma stdlib_extensions_policy_is_ok policy dist :
  policy ∈ ["minimal"; "all"; "no-libraries"] →
  map_Forall (λ _ variants, variants ≠ []) (extension_modules dist) →
  is_ok (stdlib_extensions_policy policy dist) = true.
Proof.
  intros Hp Hne. unfold stdlib_extensions_policy. rewrite collectM_is_ok.
  apply forallb_forall. intros [name variants] Hin%list_elem_of_In%elem_of_btree_iter.
  specialize (Hne _ _ Hin). destruct variants as [|em rest]; [done|].
  unfold stdlib_extensions_policy_step.
  repeat case_decide; simpl; try done; [by destruct (_ || _)|].
  exfalso. repeat (apply elem_of_cons in Hp as [->|Hp]; [done|]). by apply elem_of_nil in Hp.
Qed.

Lemma elem_of_explicit_includes includes dist es e :
  stdlib_extensions_explicit_includes includes dist = Ok es →
  e ∈ es ↔ ∃ name em rest, name ∈ includes ∧
    extension_modules dist !! name = Some (em :: rest) ∧
    e = add_entry (ResourceExtensionModule name em).
Proof.
  intros Hes. rewrite (elem_of_collectM _ _ _ _ Hes). split.
  - intros (name & ys & Hin & Hstep & He). exists name.
    destruct (extension_modules dist !! name) as [variants|];
      [|injection Hstep as <-; by apply elem_of_nil in He].
    apply bind_Ok_inv in Hstep as (em & [rest ->]%vec_index_0_Ok & [= <-]).
    exists em, rest. by apply list_elem_of_singleton in He.
  - intros (name & em & rest & Hin & Hm & ->). exists name, [add_entry (ResourceExtensionModule name em)].
    rewrite Hm. split_and!; [done..|]. by apply list_elem_of_singleton.
Qed.

Lemma elem_of_explicit_excludes excludes dist es e :
  stdlib_extensions_explicit_excludes excludes dist = Ok es →
  e ∈ es ↔ ∃ name em rest, (name ∉ excludes) ∧
    extension_modules dist !! name = Some (em :: rest) ∧
    e = add_entry (ResourceExtensionModule name em).
Proof.
  intros Hes. rewrite (elem_of_collectM _ _ _ _ Hes). split.
  - intros ([name variants] & ys & Hin%elem_of_btree_iter & Hstep & He). exists name.
    case_bool_decide; [injection Hstep as <-; by apply elem_of_nil in He|].
    apply bind_Ok_inv in Hstep as (em & [rest ->]%vec_index_0_Ok & [= <-]).
    exists em, rest. by apply list_elem_of_singleton in He.
  - intros (name & em & rest & Hin & Hm%elem_of_btree_iter & ->).
    exists (name, em :: rest), [add_entry (ResourceExtensionModule name em)].
    rewrite bool_decide_eq_false_2 by done. split_and!; [done..|]. by apply list_elem_of_singleton.
Qed.

Lemma stdlib_extension_variant_Ok extension variant dist es :
  stdlib_extension_variant extension variant dist = Ok es ↔
  ∃ variants, extension_modules dist !! extension = Some variants ∧
    es = add_entry ∘ ResourceExtensionModule extension <$>
           filter (λ em, em_variant em = variant) variants ∧
    es ≠ [].
Proof.
  unfold stdlib_extension_variant, map_index. split.
  - intros (variants & Hm%expect_Ok & Hes)%bind_Ok_inv. exists variants.
    case_bool_decide; [done|]. by simplify_eq.
  - intros (variants & -> & -> & Hne). simpl. by rewrite bool_decide_eq_false_2.
Qed.

Lemma stdlib_extension_variant_Err extension variant dist :
  (∀ variants, extension_modules dist !! extension = Some variants →
     Forall (λ em, em_variant em ≠ variant) variants) →
  ∃ msg, stdlib_extension_variant extension variant dist = Err (Panic msg).
Proof.
  intros Hno. unfold stdlib_extension_variant, map_index.
  destruct (extension_modules dist !! extension) as [variants|]; simpl; [|by eauto].
  rewrite bool_decide_eq_true_2; [by eauto|].
  rewrite filter_nil_Forall; [done|]. by apply Hno.
Qed.

Section source_rules.
Context `{FileSystem F, Scanner F, Process F}.
Implicit Types (fs : F) (r : PythonFileResource).

Lemma elem_of_stdlib fs o ex inc dist es e :
  stdlib fs o ex inc dist = Ok es →
  e ∈ es ↔ ∃ name fs_path source, py_modules dist !! name = Some fs_path ∧
    is_stdlib_test_package name && ex = false ∧
    read_file fs fs_path = Ok source ∧
    e ∈ source_entries name source inc o.
Proof.
  intros Hes. rewrite (elem_of_collectM _ _ _ _ Hes). split.
  - intros ([name fs_path] & ys & Hin%elem_of_btree_iter & Hstep & He).
    exists name, fs_path. simpl in Hstep. revert Hstep.
    destruct (_ && ex); intros Hstep; [injection Hstep as <-; by apply elem_of_nil in He|].
    unfold read_source in Hstep. result_cases. eauto.
  - intros (name & fs_path & source & Hin%elem_of_btree_iter & Hskip & Hread & He).
    exists (name, fs_path), (source_entries name source inc o). split_and!; [done| |done].
    unfold read_source. by rewrite Hskip, Hread.
Qed.

(** The names that the rule pushes are modules of the distribution that it
    does not skip. *)
Lemma stdlib_entry_name fs o ex inc dist es e :
  stdlib fs o ex inc dist = Ok es → e ∈ es →
  is_stdlib_test_package (entry_name e) && ex = false ∧
  is_Some (py_modules dist !! entry_name e).
Proof.
  intros Hes (name & p & source & Hin & Hskip & _ & He)%(elem_of_stdlib _ _ _ _ _ _ _ Hes).
  rewrite (source_entries_name _ _ _ _ _ He). eauto.
Qed.

(** The rule fails if a module that it does not skip cannot be read. *)
Lemma stdlib_unreadable fs o ex inc dist name fs_path err :
  py_modules dist !! name = Some fs_path →
  is_stdlib_test_package name && ex = false →
  read_file fs fs_path = Err err →
  stdlib fs o ex inc dist = Err (Panic "error reading source file").
Proof.
  intros Hin%elem_of_btree_iter Hskip Hread. unfold stdlib.
  eapply collectM_Err; [done|by unfold read_source; rewrite Hskip, Hread|].
  intros [name' path'] _. simpl.
  destruct (is_stdlib_test_package name' && ex); [by right|].
  unfold read_source. destruct (read_file fs path'); simpl; [by right|by left].
Qed.

Lemma stdlib_is_ok fs o ex inc dist :
  map_Forall (λ name fs_path,
    is_stdlib_test_package name && ex = false → is_ok (read_file fs fs_path) = true)
    (py_modules dist) →
  is_ok (stdlib fs o ex inc dist) = true.
Proof.
  intros Hall. unfold stdlib. rewrite collectM_is_ok. apply forallb_forall.
  intros [name fs_path] Hin%list_elem_of_In%elem_of_btree_iter.
  specialize (Hall _ _ Hin). simpl in *.
  destruct (is_stdlib_test_package name && ex); [done|].
  unfold read_source. destruct (read_file fs fs_path); [done|]. by specialize (Hall eq_refl).
Qed.

(** What a loop over scanned files pushes. *)
Lemma elem_of_scanned fs relevant o inc rs es e :
  collectM (scanned_entries fs relevant o inc) rs = Ok es →
  e ∈ es ↔ ∃ r source, r ∈ rs ∧ pfr_flavor r = Source ∧ relevant (pfr_name r) = true ∧
    read_file fs (pfr_path r) = Ok source ∧
    e ∈ source_entries (pfr_name r) source inc o.
Proof.
  intros Hes. rewrite (elem_of_collectM _ _ _ _ Hes). split.
  - intros (r & ys & Hr & Hstep & He).
    apply (elem_of_scanned_entries _ _ _ _ _ _ _ Hstep) in He as (? & ? & source & ? & ?).
    by exists r, source.
  - intros (r & source & Hr & Hflavor & Hrel & Hread & He).
    exists r, (source_entries (pfr_name r) source inc o). split_and!; [done| |done].
    unfold scanned_entries, read_source. by rewrite Hflavor, Hrel, Hread.
Qed.

Lemma elem_of_virtualenv fs path o excludes inc dist es e :
  virtualenv fs path o excludes inc dist = Ok es →
  e ∈ es ↔ ∃ packages_path r source,
    site_packages_path path dist = Ok packages_path ∧
    r ∈ find_python_resources fs packages_path ∧ pfr_flavor r = Source ∧
    existsb (name_matches (pfr_name r)) excludes = false ∧
    read_file fs (pfr_path r) = Ok source ∧
    e ∈ source_entries (pfr_name r) source inc o.
Proof.
  unfold virtualenv. intros (packages_path & Hp & Hes)%bind_Ok_inv.
  rewrite (elem_of_scanned _ _ _ _ _ _ _ Hes). setoid_rewrite mark_excludes_spec.
  setoid_rewrite negb_true_iff. split.
  - intros (r & source & ?). by exists packages_path, r, source.
  - intros (p & r & source & Hp' & ?). exists r, source.
    by assert (p = packages_path) as -> by congruence.
Qed.

Lemma elem_of_package_root fs path packages o excludes inc es e :
  package_root fs path packages o excludes inc = Ok es →
  e ∈ es ↔ ∃ r source, r ∈ find_python_resources fs path ∧ pfr_flavor r = Source ∧
    existsb (name_matches (pfr_name r)) packages = true ∧
    existsb (name_matches (pfr_name r)) excludes = false ∧
    read_file fs (pfr_path r) = Ok source ∧
    e ∈ source_entries (pfr_name r) source inc o.
Proof.
  unfold package_root. intros Hes. rewrite (elem_of_scanned _ _ _ _ _ _ _ Hes).
  setoid_rewrite mark_excludes_spec. setoid_rewrite mark_packages_spec.
  setoid_rewrite andb_true_iff. setoid_rewrite negb_true_iff.
  split; intros (r & source & ?); exists r, source; simpl in *; tauto.
Qed.

(** The rule scans the directory that [pip] was told to install into, in the
    state that [pip] left, whatever status [pip] exited with. *)
Lemma pip_install_simple_scan fs fs1 fs2 fs3 temp_dir_s status package o inc dist :
  ensure_pip fs dist = Ok fs1 →
  temp_dir_new fs1 "pyoxidizer-pip-install" = Ok (fs2, temp_dir_s) →
  command_status fs2 (python_exe dist)
    ["-m"; "pip"; "--disable-pip-version-check"; "install"; "--target"; temp_dir_s; package]
    = Ok (fs3, status) →
  pip_install_simple fs package o inc dist =
  collectM (scanned_entries fs3 (λ _, true) o inc) (find_python_resources fs3 temp_dir_s).
Proof.
  intros He Ht Hc. unfold pip_install_simple.
  rewrite He. simpl. rewrite Ht. simpl. by rewrite Hc.
Qed.

(** * The resolver only adds *)

Lemma policy_step_adds policy item es :
  stdlib_extensions_policy_step policy item = Ok es → adds_only es.
Proof.
  destruct item as [name variants]. unfold stdlib_extensions_policy_step, adds_only.
  repeat case_decide; intros Hs; result_cases; try destruct (_ || _); simplify_eq;
    try by repeat constructor.
  apply first_without_links_adds.
Qed.

Lemma resolve_python_packaging_adds fs package dist es :
  resolve_python_packaging fs package dist = Ok es → adds_only es.
Proof.
  destruct package; simpl; try (by intros [= <-]; constructor).
  - apply collectM_Forall. intros ??? ?. by eapply policy_step_adds.
  - apply collectM_Forall. intros name ys _.
    destruct (_ !! name); intros Hs; result_cases; by repeat constructor.
  - apply collectM_Forall. intros [name modules] ys _.
    case_bool_decide; intros Hs; result_cases; by repeat constructor.
  - intros (variants & _ & -> & _)%stdlib_extension_variant_Ok.
    by apply Forall_fmap, Forall_true.
  - intros Hes. apply Forall_forall.
    intros e (name & ? & source & _ & _ & _ & He)%(elem_of_stdlib _ _ _ _ _ _ _ Hes).
    revert e He. apply Forall_forall, source_entries_adds.
  - unfold virtualenv. intros (? & _ & Hes)%bind_Ok_inv. revert Hes.
    apply collectM_Forall. intros ????. by eapply scanned_entries_adds.
  - apply collectM_Forall. intros ????. by eapply scanned_entries_adds.
  - unfold pip_install_simple. intros Hes.
    repeat (result_cases; repeat match goal with x : _ * _ |- _ => destruct x end;
            simpl in Hes).
    revert Hes.
    apply collectM_Forall. intros ????. by eapply scanned_entries_adds.
Qed.

End source_rules.

(** * Properties: names *)

(** The prefix rule: a name matches a package exactly when it is the
    package or continues it after a dot. *)
Theorem name_matches_rule name package :
  name_matches name package = true ↔
  name = package ∨ ∃ rest, name = package +:+ "." +:+ rest.
Proof. apply name_matches_spec. Qed.

(** C8. Prefix safety: an exclude that a name neither equals nor continues
    after a dot has no effect on the name, so [foo.barbell] is not affected
    by an exclude of [foo.bar]. *)
Theorem prefix_safety name exclude excludes relevant :
  name ≠ exclude → (∀ rest, name ≠ exclude +:+ "." +:+ rest) →
  mark_excludes name (exclude :: excludes) relevant = mark_excludes name excludes relevant.
Proof.
  intros Hne Hrest. rewrite !mark_excludes_spec. simpl.
  assert (name_matches name exclude = false) as ->; [|done].
  apply not_true_iff_false. rewrite name_matches_spec.
  intros [?|[rest ?]]; [done|by eapply Hrest].
Qed.

Lemma prefix_safety_witness : mark_excludes "foo.barbell" ["foo.bar"] true = true.
Proof.
  rewrite (prefix_safety "foo.barbell" "foo.bar" [] true); [done|done|].
  intros rest Heq. vm_compute in Heq. discriminate Heq.
Defined.

(** C39. The test-package predicate accepts exactly the names that continue
    a test package of the table after a dot: a module below [test] or
    [json.tests] is a test module, and a name that only begins like a
    package, or that is the name of the package itself, is not. *)
Theorem is_stdlib_test_package_spec name :
  is_stdlib_test_package name = true ↔
  ∃ package rest, package ∈ STDLIB_TEST_PACKAGES ∧ name = package +:+ "." +:+ rest.
Proof. apply is_stdlib_test_package_in_spec. Qed.

(** * Properties: extension rules *)

(** The policy [minimal] adds, for every extension of the distribution,
    its first variant if that variant is built in or required, and nothing
    else. *)
Theorem policy_minimal_entries dist es e :
  stdlib_extensions_policy "minimal" dist = Ok es →
  e ∈ es ↔ ∃ name em rest, extension_modules dist !! name = Some (em :: rest) ∧
    em_builtin_default em || em_required em = true ∧
    e = add_entry (ResourceExtensionModule name em).
Proof. apply elem_of_policy_minimal. Qed.

Lemma policy_minimal_entries_witness :
  ∃ es, stdlib_extensions_policy "minimal" s1_dist = Ok es ∧
    (add_entry (ResourceExtensionModule "readline" s1_readline) ∈ es ↔
     ∃ name em rest, extension_modules s1_dist !! name = Some (em :: rest) ∧
       em_builtin_default em || em_required em = true ∧
       add_entry (ResourceExtensionModule "readline" s1_readline) =
         add_entry (ResourceExtensionModule name em)).
Proof.
  eexists. split; [vm_compute; reflexivity|].
  apply policy_minimal_entries. vm_compute. reflexivity.
Defined.

(** The policy [no-libraries] adds, for every extension, the first
    variant that links no library, and nothing for an extension without
    such a variant. *)
Theorem policy_no_libraries_entries dist es e :
  stdlib_extensions_policy "no-libraries" dist = Ok es →
  e ∈ es ↔ ∃ name variants i em, extension_modules dist !! name = Some variants ∧
    list_find (λ em, em_links em = []) variants = Some (i, em) ∧
    e = add_entry (ResourceExtensionModule name em).
Proof. apply elem_of_policy_no_libraries. Qed.

Lemma policy_no_libraries_entries_witness :
  ∃ es, stdlib_extensions_policy "no-libraries" s4_dist = Ok es ∧
    (add_entry (ResourceExtensionModule "ssl" s4_openssl_3) ∈ es ↔
     ∃ name variants i em, extension_modules s4_dist !! name = Some variants ∧
       list_find (λ em, em_links em = []) variants = Some (i, em) ∧
       add_entry (ResourceExtensionModule "ssl" s4_openssl_3) =
         add_entry (ResourceExtensionModule name em)).
Proof.
  eexists. split; [vm_compute; reflexivity|].
  apply policy_no_libraries_entries. vm_compute. reflexivity.
Defined.

(** A policy other than [minimal], [all] and [no-libraries] panics with
    the policy in the message if the distribution has an extension, and adds
    nothing if it has none. *)
Theorem illegal_policy policy dist :
  policy ∉ ["minimal"; "all"; "no-libraries"] →
  stdlib_extensions_policy policy dist =
  if decide (extension_modules dist = ∅) then Ok []
  else Err (Panic ("illegal policy value: " +:+ policy)).
Proof. apply stdlib_extensions_policy_illegal. Qed.

Lemma illegal_policy_witness :
  stdlib_extensions_policy "bogus" s1_dist = Err (Panic "illegal policy value: bogus") ∧
  stdlib_extensions_policy "bogus" s3_dist = Ok [].
Proof.
  assert ("bogus" ∉ ["minimal"; "all"; "no-libraries"]) as Hp.
  { intros Hin. repeat (apply elem_of_cons in Hin as [Hin|Hin]; [discriminate Hin|]).
    by apply elem_of_nil in Hin. }
  split; rewrite (illegal_policy _ _ Hp); vm_compute; reflexivity.
Defined.

(** A variant rule succeeds exactly when the extension exists and has a
    variant of the given name; it then adds every variant of that name. *)
Theorem variant_selection extension variant dist es :
  stdlib_extension_variant extension variant dist = Ok es ↔
  ∃ variants, extension_modules dist !! extension = Some variants ∧
    es = add_entry ∘ ResourceExtensionModule extension <$>
           filter (λ em, em_variant em = variant) variants ∧
    es ≠ [].
Proof. apply stdlib_extension_variant_Ok. Qed.

(** C38. The site-packages directory of a virtual environment is named after
    the first three bytes of the version, whatever follows them.  The path
    is returned exactly when the version has three bytes after which a
    character begins; a version that is shorter, or whose fourth byte
    continues a character, makes the slice panic. *)
Theorem site_packages_path_version path dist p :
  site_packages_path path dist = Ok p ↔
  ∃ v3 rest,
    version dist = v3 +:+ rest ∧ String.length v3 = 3 ∧ char_start rest = true ∧
    p = path_push
          (path_push (path_push path (if decide (os dist = "windows") then "Lib" else "lib"))
             ("python" +:+ v3))
          "site-packages".
Proof.
  unfold site_packages_path. rewrite bind_Ok_inv. split.
  - intros (v3 & (rest & Hv & Hlen & Hrest)%str_slice_prefix_Ok & [= <-]).
    exists v3, rest. split_and!; [done..| |by case_decide].
    destruct Hrest as [->|]; done.
  - intros (v3 & rest & Hv & Hlen & Hrest & ->). exists v3. split; [|by case_decide].
    apply str_slice_prefix_Ok. exists rest. auto.
Qed.

Lemma site_packages_path_version_witness :
  site_packages_path "/venv" (venv_dist "3.10.4") = Ok "/venv/lib/python3.1/site-packages".
Proof.
  apply (proj2 (site_packages_path_version "/venv" (venv_dist "3.10.4") _)).
  by exists "3.1", "0.4".
Defined.

(** A version of two bytes and a version whose fourth byte is the second
    byte of a character make [site_packages_path] panic. *)
Example site_packages_path_panics :
  site_packages_path "/venv" (venv_dist "3.") =
    Err (Panic "byte index is out of bounds or not a char boundary") ∧
  site_packages_path "/venv" (venv_dist ("3." +:+ from_utf8 [xc3; xa9]%byte)) =
    Err (Panic "byte index is out of bounds or not a char boundary").
Proof. by vm_compute. Qed.

(** * Properties: source rules *)

Section source_properties.
Context `{FileSystem F, Scanner F, Process F}.
Implicit Types (fs : F).

(** The resolver never asks to remove: every entry of every rule is an
    add. *)
Theorem resolver_adds_only fs package dist es :
  resolve_python_packaging fs package dist = Ok es → adds_only es.
Proof. apply resolve_python_packaging_adds. Qed.

(** A standard-library rule that excludes test modules pushes entries
    only for modules of the distribution that the test-package predicate
    rejects. *)
Theorem stdlib_skips_test_modules fs o inc dist es e :
  stdlib fs o true inc dist = Ok es → e ∈ es →
  is_stdlib_test_package (entry_name e) = false ∧
  is_Some (py_modules dist !! entry_name e).
Proof.
  intros Hes He. destruct (stdlib_entry_name _ _ _ _ _ _ _ Hes He) as [Hskip ?].
  by rewrite andb_true_r in Hskip.
Qed.

(** A standard-library rule requests bytecode for every module that it
    does not skip, and pushes its source exactly when sources are included. *)
Theorem stdlib_requests fs o ex inc dist es name fs_path source :
  stdlib fs o ex inc dist = Ok es →
  py_modules dist !! name = Some fs_path →
  is_stdlib_test_package name && ex = false →
  read_file fs fs_path = Ok source →
  add_entry (ResourceModuleBytecode name source (i64_as_i32 o)) ∈ es ∧
  (add_entry (ResourceModuleSource name source) ∈ es ↔ inc = true).
Proof.
  intros Hes Hin Hskip Hread. rewrite !(elem_of_stdlib _ _ _ _ _ _ _ Hes). split.
  - exists name, fs_path, source. split_and!; [done..|]. apply elem_of_source_entries. by right.
  - split.
    + intros (? & ? & ? & _ & _ & _ & [[? _]|[=]]%elem_of_source_entries). done.
    + intros ->. exists name, fs_path, source. split_and!; [done..|].
      apply elem_of_source_entries. by left.
Qed.

(** A standard-library rule panics if a module that it does not skip
    cannot be read. *)
Theorem stdlib_unreadable_panics fs o ex inc dist name fs_path err :
  py_modules dist !! name = Some fs_path →
  is_stdlib_test_package name && ex = false →
  read_file fs fs_path = Err err →
  stdlib fs o ex inc dist = Err (Panic "error reading source file").
Proof. apply stdlib_unreadable. Qed.

(** A virtual-environment rule pushes the source files that the scanner
    finds under the site-packages directory and that no exclude matches. *)
Theorem virtualenv_entries fs path o excludes inc dist es e :
  virtualenv fs path o excludes inc dist = Ok es →
  e ∈ es ↔ ∃ packages_path r source,
    site_packages_path path dist = Ok packages_path ∧
    r ∈ find_python_resources fs packages_path ∧ pfr_flavor r = Source ∧
    existsb (name_matches (pfr_name r)) excludes = false ∧
    read_file fs (pfr_path r) = Ok source ∧
    e ∈ source_entries (pfr_name r) source inc o.
Proof. apply elem_of_virtualenv. Qed.

(** A package-root rule pushes the source files that some package
    matches and no exclude matches: an exclude wins over a package. *)
Theorem package_root_entries fs path packages o excludes inc es e :
  package_root fs path packages o excludes inc = Ok es →
  e ∈ es ↔ ∃ r source, r ∈ find_python_resources fs path ∧ pfr_flavor r = Source ∧
    existsb (name_matches (pfr_name r)) packages = true ∧
    existsb (name_matches (pfr_name r)) excludes = false ∧
    read_file fs (pfr_path r) = Ok source ∧
    e ∈ source_entries (pfr_name r) source inc o.
Proof. apply elem_of_package_root. Qed.

(** A pip rule scans the directory that pip installed into and does not
    look at the status that pip exited with. *)
Theorem pip_exit_status_ignored fs fs1 fs2 fs3 temp_dir_s status package o inc dist :
  ensure_pip fs dist = Ok fs1 →
  temp_dir_new fs1 "pyoxidizer-pip-install" = Ok (fs2, temp_dir_s) →
  command_status fs2 (python_exe dist)
    ["-m"; "pip"; "--disable-pip-version-check"; "install"; "--target"; temp_dir_s; package]
    = Ok (fs3, status) →
  pip_install_simple fs package o inc dist =
  collectM (scanned_entries fs3 (λ _, true) o inc) (find_python_resources fs3 temp_dir_s).
Proof. apply pip_install_simple_scan. Qed.

End source_properties.

Lemma resolver_adds_only_witness :
  ∃ es, resolve_python_packaging venv_world (PackageRoot "/venv/lib/python3.7/site-packages"
          ["foo"] 0 ["foo.bar"] true) (venv_dist "3.7.4") = Ok es ∧
    length es = 4 ∧ adds_only es.
Proof.
  eexists. split; [vm_compute; reflexivity|]. split; [reflexivity|].
  apply (resolver_adds_only venv_world
    (PackageRoot "/venv/lib/python3.7/site-packages" ["foo"] 0 ["foo.bar"] true)
    (venv_dist "3.7.4")).
  vm_compute. reflexivity.
Defined.

Lemma stdlib_skips_test_modules_witness :
  ∃ es e, stdlib s3_world 0 true true s3_dist = Ok es ∧ e ∈ es ∧
    is_stdlib_test_package (entry_name e) = false ∧
    is_Some (py_modules s3_dist !! entry_name e).
Proof.
  eexists _, _. split; [vm_compute; reflexivity|]. split; [left|].
  eapply (stdlib_skips_test_modules s3_world 0 true s3_dist); [vm_compute; reflexivity|left].
Defined.

Lemma stdlib_requests_witness :
  ∃ es, stdlib s3_world 2 true false s3_dist = Ok es ∧
    add_entry (ResourceModuleBytecode "os" (as_bytes "import sys") 2) ∈ es ∧
    (add_entry (ResourceModuleSource "os" (as_bytes "import sys")) ∈ es ↔ false = true).
Proof.
  eexists. split; [vm_compute; reflexivity|].
  eapply (stdlib_requests s3_world 2 true false s3_dist _ "os" "/dist/os.py");
    vm_compute; reflexivity.
Defined.

Lemma stdlib_unreadable_panics_witness :
  stdlib (world []) 0 true true s3_dist = Err (Panic "error reading source file").
Proof.
  eapply (stdlib_unreadable_panics (world []) 0 true true s3_dist "os" "/dist/os.py");
    vm_compute; reflexivity.
Defined.

Lemma virtualenv_entries_witness :
  ∃ es, virtualenv venv_world "/venv" 0 ["foo.bar"] false (venv_dist "3.7.4") = Ok es ∧
    entry_name <$> es = ["foo"; "foo.barbell"] ∧
    ∀ e, e ∈ es ↔ ∃ packages_path r source,
      site_packages_path "/venv" (venv_dist "3.7.4") = Ok packages_path ∧
      r ∈ find_python_resources venv_world packages_path ∧ pfr_flavor r = Source ∧
      existsb (name_matches (pfr_name r)) ["foo.bar"] = false ∧
      read_file venv_world (pfr_path r) = Ok source ∧
      e ∈ source_entries (pfr_name r) source false 0.
Proof.
  eexists. split; [vm_compute; reflexivity|]. split; [reflexivity|].
  intros e. apply (virtualenv_entries venv_world). vm_compute. reflexivity.
Defined.

Lemma package_root_entries_witness :
  ∃ es, package_root venv_world "/venv/lib/python3.7/site-packages" ["foo"] 0 ["foo.bar"]
          false = Ok es ∧
    entry_name <$> es = ["foo"; "foo.barbell"] ∧
    ∀ e, e ∈ es ↔ ∃ r source,
      r ∈ find_python_resources venv_world "/venv/lib/python3.7/site-packages" ∧
      pfr_flavor r = Source ∧
      existsb (name_matches (pfr_name r)) ["foo"] = true ∧
      existsb (name_matches (pfr_name r)) ["foo.bar"] = false ∧
      read_file venv_world (pfr_path r) = Ok source ∧
      e ∈ source_entries (pfr_name r) source false 0.
Proof.
  eexists. split; [vm_compute; reflexivity|]. split; [reflexivity|].
  intros e. apply (package_root_entries venv_world). vm_compute. reflexivity.
Defined.

Lemma pip_exit_status_ignored_witness :
  pip_install_simple venv_world "nonexistent" 0 false (venv_dist "3.7.4") = Ok [].
Proof.
  by rewrite (pip_exit_status_ignored venv_world venv_world venv_world venv_world
    "/tmp/pyoxidizer-pip-install.0" 1 "nonexistent" 0 false (venv_dist "3.7.4")).
Defined.
