(* ===== verification/Reducer.v ===== *)
(** * The resource reducer

    [resolve_python_resources] of repackage.rs folds the entries of every
    rule into four staging maps, applies the filter rules, adds the required
    extensions, removes the ignored ones, compiles the bytecode requests
    that are left and returns the frozen [PythonResources].  [Staging] holds
    the local variables of the function; each phase is a definition on it.
    The file of names of a filter rule is read line by line as text: bytes
    that are not UTF-8 make the read fail, and the rule panics on the
    failure.  What is printed is not modelled. *)

From S2P Require Import Prelude BTree RustStd RustText Io Dist Env Scenario Resolver.

(** * The staging maps *)

(** The mutable locals of [resolve_python_resources]. *)
Record Staging := {
  st_extension_modules : gmap string ExtensionModule;
  st_sources : gmap string (list byte);
  st_bytecode_requests : gmap string (list byte * Z);
  st_resources : gmap string (list byte);
  st_read_files : list string
}.

Definition empty_staging : Staging :=
  {| st_extension_modules := ∅; st_sources := ∅; st_bytecode_requests := ∅;
     st_resources := ∅; st_read_files := [] |}.

Definition set_extension_modules (st : Staging) (m : gmap string ExtensionModule) : Staging :=
  {| st_extension_modules := m; st_sources := st_sources st;
     st_bytecode_requests := st_bytecode_requests st; st_resources := st_resources st;
     st_read_files := st_read_files st |}.

Definition set_sources (st : Staging) (m : gmap string (list byte)) : Staging :=
  {| st_extension_modules := st_extension_modules st; st_sources := m;
     st_bytecode_requests := st_bytecode_requests st; st_resources := st_resources st;
     st_read_files := st_read_files st |}.

Definition set_bytecode_requests (st : Staging) (m : gmap string (list byte * Z)) : Staging :=
  {| st_extension_modules := st_extension_modules st; st_sources := st_sources st;
     st_bytecode_requests := m; st_resources := st_resources st;
     st_read_files := st_read_files st |}.

Definition set_resources (st : Staging) (m : gmap string (list byte)) : Staging :=
  {| st_extension_modules := st_extension_modules st; st_sources := st_sources st;
     st_bytecode_requests := st_bytecode_requests st; st_resources := m;
     st_read_files := st_read_files st |}.

Definition set_read_files (st : Staging) (files : list string) : Staging :=
  {| st_extension_modules := st_extension_modules st; st_sources := st_sources st;
     st_bytecode_requests := st_bytecode_requests st; st_resources := st_resources st;
     st_read_files := files |}.

(** * The whitelist of a filter rule *)

(** The set built by the loop over the lines of a names file. *)
Definition resource_names (text : string) : gset string :=
  foldl (λ res line,
    if starts_with line "#" || bool_decide (line = "") then res else {[line]} ∪ res)
    ∅ (lines text).

Definition filter_btreemap {V} (m : gmap string V) (f : gset string) : gmap string V :=
  foldl (λ m key, if bool_decide (key ∈ f) then m else delete key m) m (btree_keys m).

(** The four calls of [filter_btreemap] of a filter rule. *)
Definition filter_staging (st : Staging) (include_names : gset string) : Staging :=
  {| st_extension_modules := filter_btreemap (st_extension_modules st) include_names;
     st_sources := filter_btreemap (st_sources st) include_names;
     st_bytecode_requests := filter_btreemap (st_bytecode_requests st) include_names;
     st_resources := filter_btreemap (st_resources st) include_names;
     st_read_files := st_read_files st |}.

(** * The action switch *)

Definition apply_entry (st : Staging) (entry : PythonResourceEntry) : Staging :=
  match action entry, resource entry with
  | Add, ResourceExtensionModule name module =>
      set_extension_modules st (<[name := module]> (st_extension_modules st))
  | Remove, ResourceExtensionModule name _ =>
      set_extension_modules st (delete name (st_extension_modules st))
  | Add, ResourceModuleSource name source =>
      set_sources st (<[name := source]> (st_sources st))
  | Remove, ResourceModuleSource name _ =>
      set_sources st (delete name (st_sources st))
  | Add, ResourceModuleBytecode name source optimize_level =>
      set_bytecode_requests st (<[name := (source, optimize_level)]> (st_bytecode_requests st))
  | Remove, ResourceModuleBytecode name _ _ =>
      set_bytecode_requests st (delete name (st_bytecode_requests st))
  | Add, ResourceData name data =>
      set_resources st (<[name := data]> (st_resources st))
  | Remove, ResourceData name _ =>
      set_resources st (delete name (st_resources st))
  end.

(** * The passes after the rules *)

(** One iteration of the loop that adds the required extensions. *)
Definition add_required_step (extension_modules : gmap string ExtensionModule)
    (item : string * list ExtensionModule) : result (gmap string ExtensionModule) :=
  let '(name, variants) := item in
  em ← vec_index variants 0;
  if (em_builtin_default em || em_required em) &&
     negb (bool_decide (is_Some (extension_modules !! name)))
  then Ok (<[name := em]> extension_modules)
  else Ok extension_modules.

Definition add_required (dist : PythonDistributionInfo)
    (extension_modules : gmap string ExtensionModule) :
    result (gmap string ExtensionModule) :=
  foldM add_required_step extension_modules (btree_iter (Dist.extension_modules dist)).

Definition remove_ignored (target : TargetOs)
    (extension_modules : gmap string ExtensionModule) : gmap string ExtensionModule :=
  foldl (λ m e, delete e m) extension_modules (OS_IGNORE_EXTENSIONS target).

Definition error_message (e : error) : string :=
  match e with Panic msg | Failure msg | WithContext msg _ => msg end.

(** The union of the keys of the two module maps, built by two loops. *)
Definition collect_all_modules (sources bytecodes : gmap string (list byte)) : gset string :=
  let all_modules := foldl (λ s name, {[name]} ∪ s) ∅ (btree_keys sources) in
  foldl (λ s name, {[name]} ∪ s) all_modules (btree_keys bytecodes).

Section compiler.
Context `{BytecodeCompiler}.

(** One iteration of the loop that compiles the requests. *)
Definition compile_step (bytecodes : gmap string (list byte))
    (request : string * (list byte * Z)) : result (gmap string (list byte)) :=
  let '(name, (source, optimize_level)) := request in
  match compile source name optimize_level with
  | Ok bytecode => Ok (<[name := bytecode]> bytecodes)
  | Err msg =>
      Err (Panic ("error compiling bytecode for " +:+ name +:+ ": " +:+ error_message msg))
  end.

Definition compile_requests (bytecode_requests : gmap string (list byte * Z)) :
    result (gmap string (list byte)) :=
  foldM compile_step ∅ (btree_iter bytecode_requests).

End compiler.

Section reducer.
Context `{FileSystem F, Scanner F, Process F, Glob F, BytecodeCompiler}.

(** [BufReader::lines] gives an error for a line that is not well-formed
    UTF-8, and [line?] returns it.  Lines end at a byte of ASCII, so some
    line is ill-formed exactly when the content is, and the loop has no
    effect before it returns: the content is validated as a whole. *)
Definition read_resource_names_file (fs : F) (path : string) : result (gset string) :=
  content ← read_file fs path;
  match string_from_utf8 content with
  | Ok text => Ok (resource_names text)
  | Err _ => Err (Failure "stream did not contain valid UTF-8")
  end.

(** One iteration of the loop over the matches of a glob. *)
Definition glob_step (fs : F) (acc : gset string * list string) (entry : result string) :
    result (gset string * list string) :=
  let '(include_names, read_files) := acc in
  match entry with
  | Ok path =>
      new_names ← expect_ok (read_resource_names_file fs path)
                    "failed to read resource names";
      Ok (include_names ∪ new_names, read_files ++ [path])
  | Err e => Err (Panic ("error reading resource names file: " +:+ error_message e))
  end.

(** The filter that a rule applies after its entries. *)
Definition apply_filter (fs : F) (st : Staging) (packaging : PythonPackaging) :
    result Staging :=
  match packaging with
  | FilterFileInclude path =>
      include_names ← expect_ok (read_resource_names_file fs path)
                        "failed to read resource names file";
      let st := filter_staging st include_names in
      Ok (set_read_files st (st_read_files st ++ [path]))
  | FilterFilesInclude glob =>
      entries ← expect_ok (findglob fs glob) "filter-files-include glob match";
      '(include_names, read_files) ← foldM (glob_step fs) (∅, st_read_files st) entries;
      Ok (filter_staging (set_read_files st read_files) include_names)
  | _ => Ok st
  end.

(** The body of the loop over the rules. *)
Definition stage_rule (fs : F) (dist : PythonDistributionInfo) (st : Staging)
    (packaging : PythonPackaging) : result Staging :=
  entries ← resolve_python_packaging fs packaging dist;
  let st := foldl apply_entry st entries in
  apply_filter fs st packaging.

Definition resolve_python_resources (fs : F) (target : TargetOs) (config : Config)
    (dist : PythonDistributionInfo) : result PythonResources :=
  let packages := python_packaging config in
  st ← foldM (stage_rule fs dist) empty_staging packages;
  extension_modules ← add_required dist (st_extension_modules st);
  let extension_modules := remove_ignored target extension_modules in
  bytecodes ← compile_requests (st_bytecode_requests st);
  let all_modules := collect_all_modules (st_sources st) bytecodes in
  Ok {| module_sources := st_sources st;
        module_bytecodes := bytecodes;
        all_modules := all_modules;
        resources := st_resources st;
        res_extension_modules := extension_modules;
        read_files := st_read_files st |}.

End reducer.

(** * Filtering a map *)

Section filter.
Context {V : Type}.
Implicit Types (m : gmap string V) (f : gset string).

Lemma lookup_foldl_retain f ks m k :
  foldl (λ m key, if bool_decide (key ∈ f) then m else delete key m) m ks !! k =
  if decide (k ∈ ks ∧ k ∉ f) then None else m !! k.
Proof.
  revert m. induction ks as [|key ks IH]; intros m; cbn [foldl].
  - rewrite decide_False; [done|]. by intros [?%elem_of_nil _].
  - rewrite IH. case_bool_decide as Hkey.
    + apply decide_ext. rewrite elem_of_cons. split; [tauto|].
      intros [[->|?] ?]; tauto.
    + destruct (decide (k = key)) as [->|Hne].
      * rewrite lookup_delete_eq, (decide_True (P := key ∈ key :: ks ∧ key ∉ f));
          [by case_decide|]. split; [left|done].
      * rewrite lookup_delete_ne by done. apply decide_ext. rewrite elem_of_cons.
        split; [tauto|]. intros [[->|?] ?]; tauto.
Qed.

(** The loop keeps the bindings whose key is in the set, and only them. *)
Lemma lookup_filter_btreemap m f k :
  filter_btreemap m f !! k = if decide (k ∈ f) then m !! k else None.
Proof.
  unfold filter_btreemap. rewrite lookup_foldl_retain.
  destruct (decide (k ∈ f)) as [Hk|Hk].
  - rewrite decide_False; [done|]. by intros [_ ?].
  - case_decide as Hin; [done|]. destruct (m !! k) eqn:E; [|done].
    exfalso. apply Hin. split; [|done]. apply elem_of_btree_keys. by rewrite E.
Qed.

Lemma filter_btreemap_filter m f : filter_btreemap m f = filter (λ kv, kv.1 ∈ f) m.
Proof.
  apply map_eq. intros k. rewrite lookup_filter_btreemap, map_lookup_filter.
  destruct (m !! k) as [v|]; simpl; case_decide; try done.
  - by rewrite option_guard_True.
  - by rewrite option_guard_False.
Qed.

Lemma filter_btreemap_idemp m f :
  filter_btreemap (filter_btreemap m f) f = filter_btreemap m f.
Proof. apply map_eq. intros k. rewrite !lookup_filter_btreemap. by case_decide. Qed.

Lemma filter_btreemap_comm m f g :
  filter_btreemap (filter_btreemap m f) g = filter_btreemap (filter_btreemap m g) f.
Proof. apply map_eq. intros k. rewrite !lookup_filter_btreemap. by repeat case_decide. Qed.

Lemma dom_filter_btreemap m f : dom (filter_btreemap m f) = dom m ∩ f.
Proof.
  apply set_eq. intros k.
  rewrite elem_of_intersection, !elem_of_dom, lookup_filter_btreemap.
  case_decide; [tauto|]. split; [by intros [? ?]|tauto].
Qed.

Lemma filter_btreemap_subseteq m f : filter_btreemap m f ⊆ m.
Proof. rewrite filter_btreemap_filter. apply map_filter_subseteq. Qed.

End filter.

Lemma filter_staging_idemp st f : filter_staging (filter_staging st f) f = filter_staging st f.
Proof. unfold filter_staging. simpl. by rewrite !filter_btreemap_idemp. Qed.

Lemma filter_staging_comm st f g :
  filter_staging (filter_staging st f) g = filter_staging (filter_staging st g) f.
Proof.
  unfold filter_staging. simpl.
  by rewrite (filter_btreemap_comm (st_extension_modules st)),
    (filter_btreemap_comm (st_sources st)), (filter_btreemap_comm (st_bytecode_requests st)),
    (filter_btreemap_comm (st_resources st)).
Qed.

(** * The whitelist *)

Lemma elem_of_foldl_names (skip : string → bool) (ls : list string) (acc : gset string) x :
  x ∈ foldl (λ res line, if skip line then res else {[line]} ∪ res) acc ls ↔
  x ∈ acc ∨ (x ∈ ls ∧ skip x = false).
Proof.
  revert acc. induction ls as [|l ls IH]; intros acc; cbn [foldl].
  - rewrite elem_of_nil. tauto.
  - rewrite IH, elem_of_cons. destruct (skip l) eqn:E.
    + split; [tauto|]. intros [?|[[->|?] ?]]; [tauto|congruence|tauto].
    + rewrite elem_of_union, elem_of_singleton. split; [|intros [?|[[->|?] ?]]; tauto].
      intros [[->|?]|[? ?]]; tauto.
Qed.

(** A names file lists one name per line; empty lines and lines that start
    with [#] are skipped. *)
Lemma elem_of_resource_names text x :
  x ∈ resource_names text ↔ x ∈ lines text ∧ x ≠ "" ∧ starts_with x "#" = false.
Proof.
  unfold resource_names.
  rewrite (elem_of_foldl_names (λ line, starts_with line "#" || bool_decide (line = ""))).
  rewrite elem_of_empty, orb_false_iff, bool_decide_eq_false. tauto.
Qed.

(** * The passes after the rules *)

Lemma lookup_foldl_delete {V} (ks : list string) (m : gmap string V) k :
  foldl (λ m e, delete e m) m ks !! k = if decide (k ∈ ks) then None else m !! k.
Proof.
  revert m. induction ks as [|key ks IH]; intros m; cbn [foldl].
  - rewrite decide_False; [done|]. apply not_elem_of_nil.
  - rewrite IH. destruct (decide (k = key)) as [->|Hne].
    + rewrite lookup_delete_eq, (decide_True (P := key ∈ key :: ks)) by left.
      by case_decide.
    + rewrite lookup_delete_ne by done. apply decide_ext. rewrite elem_of_cons. tauto.
Qed.

Lemma lookup_remove_ignored target m k :
  remove_ignored target m !! k =
  if decide (k ∈ OS_IGNORE_EXTENSIONS target) then None else m !! k.
Proof. apply lookup_foldl_delete. Qed.

(** The variant that the required pass adds for an extension, if any. *)
Definition required_head (variants : list ExtensionModule) : option ExtensionModule :=
  em ← head variants;
  if em_builtin_default em || em_required em then Some em else None.

(** The extensions of the distribution that are built in or required. *)
Definition required_extensions (dist : PythonDistributionInfo) : gmap string ExtensionModule :=
  omap required_head (Dist.extension_modules dist).

Lemma lookup_foldM_add_required l (m m' : gmap string ExtensionModule) k :
  NoDup l.*1 → foldM add_required_step m l = Ok m' →
  m' !! k = match m !! k with
            | Some em => Some em
            | None => (list_to_map l : gmap string _) !! k ≫= required_head
            end.
Proof.
  revert m. induction l as [|[k0 variants] l IH]; intros m Hnd Hl.
  - injection Hl as <-. by destruct (m !! k).
  - apply NoDup_cons in Hnd as [Hk0 Hnd]. simpl in Hl.
    apply bind_Ok_inv in Hl as (m1 & (em & [rest ->]%vec_index_0_Ok & Hm1)%bind_Ok_inv & Hl).
    rewrite (IH _ Hnd Hl). clear IH Hl. simpl.
    destruct (decide (k = k0)) as [->|Hne].
    + rewrite lookup_insert_eq, (not_elem_of_list_to_map_1 _ _ Hk0). simpl.
      unfold required_head. simpl. revert Hm1.
      destruct (em_builtin_default em || em_required em); simpl;
        [case_bool_decide as Hin; simpl|]; intros [= <-].
      * destruct Hin as [v ->]. done.
      * apply eq_None_not_Some in Hin. by rewrite lookup_insert_eq, Hin.
      * by destruct (m !! k0).
    + rewrite lookup_insert_ne by done.
      assert (m1 !! k = m !! k) as ->; [|done].
      destruct (_ && _); injection Hm1 as <-; [by rewrite lookup_insert_ne|done].
Qed.

(** The required pass adds the built-in and the required extensions that are
    not staged, and leaves the staged ones as they are. *)
Lemma add_required_Ok dist m m' :
  add_required dist m = Ok m' → m' = m ∪ required_extensions dist.
Proof.
  intros Hm. apply map_eq. intros k.
  rewrite (lookup_foldM_add_required _ _ _ _ (NoDup_btree_keys _) Hm), list_to_map_btree_iter.
  rewrite lookup_union. unfold required_extensions. rewrite lookup_omap.
  destruct (m !! k); [by rewrite union_Some_l|by rewrite (left_id_L None _)].
Qed.

Lemma add_required_is_ok dist m :
  map_Forall (λ _ variants, variants ≠ []) (Dist.extension_modules dist) →
  is_ok (add_required dist m) = true.
Proof.
  intros Hne. apply foldM_is_ok. intros m1 [name variants] Hin%elem_of_btree_iter.
  specialize (Hne _ _ Hin). destruct variants as [|em rest]; [done|]. simpl.
  by destruct (_ && _).
Qed.

Lemma add_required_Err dist m e :
  add_required dist m = Err e → e = Panic "index out of bounds" ∧
  ∃ name, Dist.extension_modules dist !! name = Some [].
Proof.
  intros (m1 & [name variants] & Hin%elem_of_btree_iter & Hstep)%foldM_Err_inv.
  destruct variants as [|em rest]; simpl in Hstep.
  - injection Hstep as <-. eauto.
  - by destruct (_ && _).
Qed.

Lemma foldl_union_singletons (ks : list string) (acc : gset string) :
  foldl (λ s name, {[name]} ∪ s) acc ks = list_to_set ks ∪ acc.
Proof.
  revert acc. induction ks as [|k ks IH]; intros acc; cbn [foldl].
  - by rewrite list_to_set_nil, (left_id_L ∅ _).
  - by rewrite IH, list_to_set_cons, (assoc_L (∪)), (comm_L (∪) (list_to_set ks)).
Qed.

(** The two loops build the union of the key sets. *)
Lemma collect_all_modules_dom sources bytecodes :
  collect_all_modules sources bytecodes = dom sources ∪ dom bytecodes.
Proof.
  unfold collect_all_modules.
  rewrite !foldl_union_singletons, !list_to_set_btree_keys, (right_id_L ∅ _).
  apply (comm_L _).
Qed.

(** * Compilation *)

Section compiler_lemmas.
Context `{BytecodeCompiler}.
Implicit Types (requests : gmap string (list byte * Z)) (bytecodes : gmap string (list byte)).

(** The bytecode that a request compiles to, if the compiler accepts it. *)
Definition compiled (name : string) (request : list byte * Z) : option (list byte) :=
  result_to_option (compile request.1 name request.2).

Lemma compile_step_Ok bytecodes name request bytecodes' :
  compile_step bytecodes (name, request) = Ok bytecodes' ↔
  ∃ bytecode, compile request.1 name request.2 = Ok bytecode ∧
    bytecodes' = <[name := bytecode]> bytecodes.
Proof.
  destruct request as [source level]. simpl. destruct (compile source name level); split.
  - intros [= <-]. eauto.
  - by intros (? & [= <-] & ->).
  - done.
  - by intros (? & ? & _).
Qed.

Lemma lookup_foldM_compile l bytecodes bytecodes' k :
  NoDup l.*1 → foldM compile_step bytecodes l = Ok bytecodes' →
  bytecodes' !! k = match (list_to_map l : gmap string _) !! k with
                    | Some request => compiled k request
                    | None => bytecodes !! k
                    end.
Proof.
  revert bytecodes. induction l as [|[k0 request] l IH]; intros acc Hnd Hl.
  - by injection Hl as <-.
  - apply NoDup_cons in Hnd as [Hk0 Hnd]. cbn [foldM] in Hl.
    apply bind_Ok_inv in Hl as (acc1 & (bytecode & Hc & ->)%compile_step_Ok & Hl).
    rewrite (IH _ Hnd Hl). clear IH Hl. cbn [list_to_map foldr fst snd uncurry].
    destruct (decide (k = k0)) as [->|Hne].
    + rewrite lookup_insert_eq, (not_elem_of_list_to_map_1 _ _ Hk0), lookup_insert_eq.
      unfold compiled. by rewrite Hc.
    + by rewrite !lookup_insert_ne.
Qed.

(** A compilation that succeeds gives the bytecode of every request, and
    nothing else. *)
Lemma lookup_compile_requests requests bytecodes k :
  compile_requests requests = Ok bytecodes →
  bytecodes !! k = requests !! k ≫= compiled k.
Proof.
  intros Hc. rewrite (lookup_foldM_compile _ _ _ _ (NoDup_btree_keys _) Hc).
  rewrite list_to_map_btree_iter. by destruct (requests !! k).
Qed.

Lemma compile_requests_accepted requests bytecodes k request :
  compile_requests requests = Ok bytecodes → requests !! k = Some request →
  is_Some (compiled k request).
Proof.
  intros Hc Hk%elem_of_btree_iter.
  destruct (foldM_Ok_inv _ _ _ _ _ Hc Hk) as (b1 & b2 & (bc & Hbc & _)%compile_step_Ok).
  unfold compiled. by rewrite Hbc.
Qed.

Lemma dom_compile_requests requests bytecodes :
  compile_requests requests = Ok bytecodes → dom bytecodes = dom requests.
Proof.
  intros Hc. apply set_eq. intros k. rewrite !elem_of_dom, (lookup_compile_requests _ _ _ Hc).
  destruct (requests !! k) as [request|] eqn:E; simpl.
  - split; [by eauto|]. intros _. by eapply compile_requests_accepted.
  - split; by intros [? ?].
Qed.

Lemma compile_requests_is_ok requests :
  map_Forall (λ name request, is_Some (compiled name request)) requests →
  is_ok (compile_requests requests) = true.
Proof.
  intros Hall. apply foldM_is_ok. intros acc [name [source level]] Hin%elem_of_btree_iter.
  destruct (Hall _ _ Hin) as [bc Hbc]. unfold compiled in Hbc. simpl in *.
  by destruct (compile source name level).
Qed.

(** A compilation that fails reports a request that the compiler rejected,
    with the compiler's message. *)
Lemma compile_requests_Err requests e :
  compile_requests requests = Err e →
  ∃ name source level msg, requests !! name = Some (source, level) ∧
    compile source name level = Err msg ∧
    e = Panic ("error compiling bytecode for " +:+ name +:+ ": " +:+ error_message msg).
Proof.
  intros (acc & [name [source level]] & Hin%elem_of_btree_iter & Hstep)%foldM_Err_inv.
  simpl in Hstep. destruct (compile source name level) as [|msg] eqn:E; [done|].
  injection Hstep as <-. by exists name, source, level, msg.
Qed.

End compiler_lemmas.

(** * The switch on add entries *)

(** Inserting a list of bindings in order: a later binding of a key
    replaces an earlier one. *)
Definition insert_all {V} (m : gmap string V) (kvs : list (string * V)) : gmap string V :=
  foldl (λ m kv, <[kv.1 := kv.2]> m) m kvs.

Definition extension_of (e : PythonResourceEntry) : option (string * ExtensionModule) :=
  match resource e with ResourceExtensionModule name module => Some (name, module) | _ => None end.

Definition source_of (e : PythonResourceEntry) : option (string * list byte) :=
  match resource e with ResourceModuleSource name source => Some (name, source) | _ => None end.

Definition request_of (e : PythonResourceEntry) : option (string * (list byte * Z)) :=
  match resource e with
  | ResourceModuleBytecode name source level => Some (name, (source, level))
  | _ => None
  end.

Definition data_of (e : PythonResourceEntry) : option (string * list byte) :=
  match resource e with ResourceData name data => Some (name, data) | _ => None end.

(** What a list of add entries stages: each map receives the bindings of its
    kind of resource, in the order of the list. *)
Definition staged (st : Staging) (es : list PythonResourceEntry) : Staging :=
  {| st_extension_modules := insert_all (st_extension_modules st) (omap extension_of es);
     st_sources := insert_all (st_sources st) (omap source_of es);
     st_bytecode_requests := insert_all (st_bytecode_requests st) (omap request_of es);
     st_resources := insert_all (st_resources st) (omap data_of es);
     st_read_files := st_read_files st |}.

Section insert_all.
Context {V : Type}.
Implicit Types (m : gmap string V) (kvs : list (string * V)).

Lemma insert_all_app m kvs kvs' :
  insert_all m (kvs ++ kvs') = insert_all (insert_all m kvs) kvs'.
Proof. apply foldl_app. Qed.

Lemma insert_all_snoc m kvs k v : insert_all m (kvs ++ [(k, v)]) = <[k := v]> (insert_all m kvs).
Proof. by rewrite insert_all_app. Qed.

Lemma lookup_insert_all_notin m kvs k : k ∉ kvs.*1 → insert_all m kvs !! k = m !! k.
Proof.
  revert m. induction kvs as [|[k0 v0] kvs IH]; intros m Hk; [done|].
  apply not_elem_of_cons in Hk as [Hne Hk]. cbn [insert_all foldl].
  unfold insert_all in IH. rewrite IH by done. by apply lookup_insert_ne.
Qed.

(** Last write wins: the value of a key is the one of its last binding. *)
Lemma lookup_insert_all_last m kvs k v kvs' :
  k ∉ kvs'.*1 → insert_all m (kvs ++ (k, v) :: kvs') !! k = Some v.
Proof.
  intros Hk. rewrite (cons_middle _ kvs kvs'), (assoc_L (++)), insert_all_app.
  by rewrite lookup_insert_all_notin, insert_all_snoc, lookup_insert_eq.
Qed.

Lemma dom_insert_all m kvs : dom (insert_all m kvs) = dom m ∪ list_to_set kvs.*1.
Proof.
  revert m. induction kvs as [|[k0 v0] kvs IH]; intros m.
  - cbn. by rewrite (right_id_L ∅ _).
  - cbn [insert_all foldl]. unfold insert_all in IH. rewrite IH, dom_insert_L.
    cbn [fmap list_fmap fst]. rewrite list_to_set_cons.
    by rewrite (comm_L (∪) {[k0]} (dom m)), (assoc_L (∪)).
Qed.

End insert_all.

Lemma staged_cons st e es :
  action e = Add → staged (apply_entry st e) es = staged st (e :: es).
Proof. destruct e as [a []]; simpl; by intros ->. Qed.

(** On add entries the switch stages the bindings of the list in order. *)
Lemma foldl_apply_entry_adds st es :
  adds_only es → foldl apply_entry st es = staged st es.
Proof.
  intros Hes. revert st. induction Hes as [|e es He _ IH]; intros st.
  - by destruct st.
  - cbn [foldl]. by rewrite IH, staged_cons.
Qed.

Lemma apply_entry_read_files st e : st_read_files (apply_entry st e) = st_read_files st.
Proof. by destruct e as [[] []]. Qed.

(** * Rules and the whole reduction *)

Section reducer_lemmas.
Context `{FileSystem F, Scanner F, Process F, Glob F, BytecodeCompiler}.
Implicit Types (fs : F) (dist : PythonDistributionInfo) (st : Staging)
  (packaging : PythonPackaging) (r : PythonResources).

(** A rule stages what the resolver gives for it, then filters. *)
Lemma stage_rule_staged fs dist st packaging es :
  resolve_python_packaging fs packaging dist = Ok es →
  stage_rule fs dist st packaging = apply_filter fs (staged st es) packaging.
Proof.
  intros Hes. unfold stage_rule. rewrite Hes. simpl.
  rewrite foldl_apply_entry_adds; [done|]. by eapply resolve_python_packaging_adds.
Qed.

Lemma stage_rule_filter_file fs dist st path :
  stage_rule fs dist st (FilterFileInclude path) =
  include_names ← expect_ok (read_resource_names_file fs path)
                    "failed to read resource names file";
  Ok (set_read_files (filter_staging st include_names) (st_read_files st ++ [path])).
Proof. done. Qed.

(** A filter rule applied again with the same file leaves the maps as the
    first application left them. *)
Lemma stage_rule_filter_file_twice fs dist st path st1 :
  stage_rule fs dist st (FilterFileInclude path) = Ok st1 →
  stage_rule fs dist st1 (FilterFileInclude path) =
  Ok (set_read_files st1 (st_read_files st1 ++ [path])).
Proof.
  rewrite !stage_rule_filter_file. intros (names & Hn & [= <-])%bind_Ok_inv.
  rewrite Hn. simpl. unfold set_read_files. simpl. by rewrite !filter_btreemap_idemp.
Qed.

(** The names of a file that can be read: the lines of well-formed content,
    and an error for content that is not well-formed UTF-8. *)
Lemma read_resource_names_file_read fs path content :
  read_file fs path = Ok content →
  read_resource_names_file fs path =
  match string_from_utf8 content with
  | Ok text => Ok (resource_names text)
  | Err _ => Err (Failure "stream did not contain valid UTF-8")
  end.
Proof. unfold read_resource_names_file. by intros ->. Qed.

Lemma read_resource_names_file_Ok fs path names :
  read_resource_names_file fs path = Ok names ↔
  ∃ content, read_file fs path = Ok content ∧ is_utf8 content = true ∧
    names = resource_names (from_utf8 content).
Proof.
  unfold read_resource_names_file. rewrite bind_Ok_inv. unfold string_from_utf8. split.
  - intros (content & Hread & Hn). exists content. destruct (is_utf8 content); by simplify_eq.
  - intros (content & Hread & Hutf8 & ->). exists content. by rewrite Hutf8.
Qed.

(** A filter rule whose file of names is not well-formed UTF-8 panics, and
    nothing is filtered. *)
Lemma stage_rule_filter_file_not_text fs dist st path content :
  read_file fs path = Ok content →
  is_utf8 content = false →
  stage_rule fs dist st (FilterFileInclude path) =
  Err (Panic "failed to read resource names file").
Proof.
  intros Hread Hutf8. rewrite stage_rule_filter_file.
  rewrite (read_resource_names_file_read _ _ _ Hread). unfold string_from_utf8.
  by rewrite Hutf8.
Qed.

(** After a filter rule every staged name is in the whitelist. *)
Lemma stage_rule_filter_file_dom fs dist st path st1 content :
  read_file fs path = Ok content →
  stage_rule fs dist st (FilterFileInclude path) = Ok st1 →
  let names := resource_names (from_utf8 content) in
  dom (st_extension_modules st1) ⊆ names ∧ dom (st_sources st1) ⊆ names ∧
  dom (st_bytecode_requests st1) ⊆ names ∧ dom (st_resources st1) ⊆ names.
Proof.
  rewrite stage_rule_filter_file. intros Hread.
  rewrite (read_resource_names_file_read _ _ _ Hread). unfold string_from_utf8.
  destruct (is_utf8 content); [|done]. simpl.
  intros [= <-]. simpl. rewrite !dom_filter_btreemap.
  split_and!; apply intersection_subseteq_r.
Qed.

(** What a reduction that succeeds returns, in terms of the staging that the
    rules produce. *)
Lemma resolve_python_resources_Ok fs target config dist r :
  resolve_python_resources fs target config dist = Ok r →
  ∃ st, foldM (stage_rule fs dist) empty_staging (python_packaging config) = Ok st ∧
    module_sources r = st_sources st ∧
    compile_requests (st_bytecode_requests st) = Ok (module_bytecodes r) ∧
    all_modules r = collect_all_modules (st_sources st) (module_bytecodes r) ∧
    resources r = st_resources st ∧
    res_extension_modules r =
      remove_ignored target (st_extension_modules st ∪ required_extensions dist) ∧
    read_files r = st_read_files st.
Proof.
  unfold resolve_python_resources.
  intros (st & Hst & (ext & ->%add_required_Ok & (bytecodes & Hbc & [= <-])%bind_Ok_inv)
    %bind_Ok_inv)%bind_Ok_inv.
  by exists st.
Qed.

(** The reduction succeeds when the rules do, every extension of the
    distribution has a variant and the compiler accepts every request. *)
Lemma resolve_python_resources_is_ok fs target config dist st :
  foldM (stage_rule fs dist) empty_staging (python_packaging config) = Ok st →
  map_Forall (λ _ variants, variants ≠ []) (Dist.extension_modules dist) →
  map_Forall (λ name request, is_Some (compiled name request)) (st_bytecode_requests st) →
  is_ok (resolve_python_resources fs target config dist) = true.
Proof.
  intros Hst Hne Hc. unfold resolve_python_resources. rewrite Hst. simpl.
  pose proof (add_required_is_ok dist (st_extension_modules st) Hne) as Hr.
  destruct (add_required dist _) as [ext|]; [simpl|done].
  apply compile_requests_is_ok in Hc. by destruct (compile_requests _).
Qed.

Lemma elem_of_sources_staged st es name :
  name ∈ dom (st_sources (staged st es)) →
  name ∈ dom (st_sources st) ∨ ∃ e, e ∈ es ∧ entry_name e = name.
Proof.
  simpl. rewrite dom_insert_all, elem_of_union, elem_of_list_to_set, list_elem_of_fmap.
  intros [?|([k v] & -> & (e & He & Hk)%list_elem_of_omap)]; [by left|right].
  exists e. split; [done|]. unfold source_of in Hk. unfold entry_name.
  by destruct (resource e); simplify_eq.
Qed.

(** The sources that a standard-library rule followed by a filter stages
    are named in the whitelist and pass the test-package predicate of the
    rule. *)
Lemma stdlib_then_filter_sources fs dist o ex inc path content st name :
  read_file fs path = Ok content →
  foldM (stage_rule fs dist) empty_staging [Stdlib o ex inc; FilterFileInclude path] = Ok st →
  name ∈ dom (st_sources st) →
  name ∈ resource_names (from_utf8 content) ∧
  is_stdlib_test_package name && ex = false.
Proof.
  intros Hread Hst Hname. cbn [foldM] in Hst.
  apply bind_Ok_inv in Hst as (st1 & Hst1 & (st2 & Hst2 & [= ->])%bind_Ok_inv).
  destruct (stage_rule_filter_file_dom _ _ _ _ _ _ Hread Hst2) as (_ & Hdom & _).
  split; [by apply Hdom|].
  rewrite stage_rule_filter_file in Hst2.
  apply bind_Ok_inv in Hst2 as (names & _ & [= <-]). simpl in Hname.
  rewrite dom_filter_btreemap in Hname. apply elem_of_intersection in Hname as [Hname _].
  unfold stage_rule in Hst1. apply bind_Ok_inv in Hst1 as (es & Hes & [= <-]).
  rewrite foldl_apply_entry_adds in Hname by (by eapply resolve_python_packaging_adds).
  apply elem_of_sources_staged in Hname as [Hname|(e & He & <-)].
  - simpl in Hname. rewrite dom_empty_L in Hname. by apply not_elem_of_empty in Hname.
  - by eapply stdlib_entry_name.
Qed.

End reducer_lemmas.

(** * Properties: maps and entries *)

(** The loop of [filter_btreemap] computes the restriction of the map
    to the keys of the set. *)
Theorem filter_btreemap_spec {V} (m : gmap string V) (f : gset string) :
  filter_btreemap m f = filter (λ kv, kv.1 ∈ f) m.
Proof. apply filter_btreemap_filter. Qed.

(** A names file lists one name per line; empty lines and lines that
    start with [#] are skipped. *)
Theorem resource_names_spec text x :
  x ∈ resource_names text ↔ x ∈ lines text ∧ x ≠ "" ∧ starts_with x "#" = false.
Proof. apply elem_of_resource_names. Qed.

(** C28. On add entries the switch refines the staging specification: every
    map receives the bindings of its kind of resource, in order. *)
Theorem switch_refines_staged st es :
  adds_only es → foldl apply_entry st es = staged st es.
Proof. apply foldl_apply_entry_adds. Qed.

Lemma switch_refines_staged_witness :
  foldl apply_entry empty_staging
    (source_entries "a" [x01] true 0 ++ source_entries "a" [x02] false 1) =
  staged empty_staging (source_entries "a" [x01] true 0 ++ source_entries "a" [x02] false 1).
Proof. apply switch_refines_staged. by repeat constructor. Defined.

(** Last write wins: after the switch, a module source is the one of the
    last entry that names the module. *)
Theorem last_write_wins st es name source es' :
  adds_only es → adds_only es' → name ∉ (omap source_of es').*1 →
  st_sources (foldl apply_entry st (es ++ add_entry (ResourceModuleSource name source) :: es'))
    !! name = Some source.
Proof.
  intros Hes Hes' Hname. rewrite foldl_apply_entry_adds.
  - simpl. rewrite omap_app. by apply lookup_insert_all_last.
  - apply Forall_app. split; [done|]. by constructor.
Qed.

Lemma last_write_wins_witness :
  st_sources (foldl apply_entry empty_staging
    (source_entries "a" [x01] true 0 ++
     add_entry (ResourceModuleSource "a" [x02]) :: source_entries "b" [x03] true 0))
    !! "a" = Some [x02].
Proof.
  apply last_write_wins; [by repeat constructor..|].
  vm_compute. intros Hin. apply list_elem_of_singleton in Hin. discriminate Hin.
Defined.

(** * Properties: the reduction *)

Section properties.
Context `{FileSystem F, Scanner F, Process F, Glob F, BytecodeCompiler}.
Implicit Types (fs : F) (dist : PythonDistributionInfo) (st : Staging)
  (r : PythonResources).

(** C2. The module-set law: the set of all modules is the union of the keys
    of the module sources and of the module bytecodes. *)
Theorem module_set_law fs target config dist r :
  resolve_python_resources fs target config dist = Ok r →
  all_modules r = dom (module_sources r) ∪ dom (module_bytecodes r).
Proof.
  intros (st & _ & -> & _ & -> & _)%resolve_python_resources_Ok.
  apply collect_all_modules_dom.
Qed.

(** C10. Filter idempotence: a filter rule applied a second time with the same
    file leaves the four staging maps as the first application left them,
    and records the file once more. *)
Theorem filter_rule_idempotent fs dist st path st1 :
  stage_rule fs dist st (FilterFileInclude path) = Ok st1 →
  stage_rule fs dist st1 (FilterFileInclude path) =
  Ok (set_read_files st1 (st_read_files st1 ++ [path])).
Proof. apply stage_rule_filter_file_twice. Qed.

(** C3. Required-extensions closure: after a reduction every extension of
    the distribution whose first variant is built in or required is staged,
    unless it is on the ignore list of the target. *)
Theorem required_extensions_closure fs target config dist r name em rest :
  resolve_python_resources fs target config dist = Ok r →
  Dist.extension_modules dist !! name = Some (em :: rest) →
  em_builtin_default em || em_required em = true →
  name ∉ OS_IGNORE_EXTENSIONS target →
  is_Some (res_extension_modules r !! name).
Proof.
  intros (st & _ & _ & _ & _ & _ & -> & _)%resolve_python_resources_Ok Hname Hreq Hign.
  rewrite lookup_remove_ignored, decide_False by done.
  apply lookup_union_is_Some. right. unfold required_extensions.
  rewrite lookup_omap, Hname. unfold required_head. simpl. by rewrite Hreq.
Qed.

(** No extension of the ignore list of the target is staged after a
    reduction, not even one that the distribution requires. *)
Theorem ignored_extensions_absent fs target config dist r name :
  resolve_python_resources fs target config dist = Ok r →
  name ∈ OS_IGNORE_EXTENSIONS target →
  res_extension_modules r !! name = None.
Proof.
  intros (st & _ & _ & _ & _ & _ & -> & _)%resolve_python_resources_Ok Hign.
  by rewrite lookup_remove_ignored, decide_True.
Qed.

(** C12. Bytecode is compiled for the requests that survive the rules and for
    nothing else: the bytecode map has the keys of the final request map,
    and holds for each the output of the compiler on the staged source and
    level. *)
Theorem bytecode_for_staged_requests fs target config dist r :
  resolve_python_resources fs target config dist = Ok r →
  ∃ st, foldM (stage_rule fs dist) empty_staging (python_packaging config) = Ok st ∧
    dom (module_bytecodes r) = dom (st_bytecode_requests st) ∧
    ∀ name, module_bytecodes r !! name = st_bytecode_requests st !! name ≫= compiled name.
Proof.
  intros (st & Hst & _ & Hc & _)%resolve_python_resources_Ok. exists st.
  split_and!; [done|by apply dom_compile_requests|].
  intros name. by apply lookup_compile_requests.
Qed.

(** A compilation that fails stops the build with a panic that names a
    request that the compiler rejected and carries the compiler's message. *)
Theorem compile_failure_reported requests e :
  compile_requests requests = Err e →
  ∃ name source level msg, requests !! name = Some (source, level) ∧
    compile source name level = Err msg ∧
    e = Panic ("error compiling bytecode for " +:+ name +:+ ": " +:+ error_message msg).
Proof. apply compile_requests_Err. Qed.

(** C7. Exclude, then filter: with a standard-library rule that excludes
    test modules followed by a filter, every staged module source is named
    in the filter file and is not a test module. *)
Theorem exclude_then_filter fs target config dist r o inc path content name :
  python_packaging config = [Stdlib o true inc; FilterFileInclude path] →
  read_file fs path = Ok content →
  resolve_python_resources fs target config dist = Ok r →
  name ∈ dom (module_sources r) →
  name ∈ resource_names (from_utf8 content) ∧ is_stdlib_test_package name = false.
Proof.
  intros Hrules Hread (st & Hst & -> & _)%resolve_python_resources_Ok Hname.
  rewrite Hrules in Hst.
  destruct (stdlib_then_filter_sources _ _ _ _ _ _ _ _ _ Hread Hst Hname) as [? Hskip].
  by rewrite andb_true_r in Hskip.
Qed.

(** C32. The reduction returns resources when the rules succeed, every
    extension of the distribution has a variant and the compiler accepts
    every staged request. *)
Theorem reduction_succeeds fs target config dist st :
  foldM (stage_rule fs dist) empty_staging (python_packaging config) = Ok st →
  map_Forall (λ _ variants, variants ≠ []) (Dist.extension_modules dist) →
  map_Forall (λ name request, is_Some (compiled name request)) (st_bytecode_requests st) →
  is_ok (resolve_python_resources fs target config dist) = true.
Proof. apply resolve_python_resources_is_ok. Qed.

End properties.

(** * The scenarios, evaluated *)

Section scenarios.
#[local] Existing Instance scenario_compiler.

Lemma module_set_law_witness :
  ∃ r, resolve_python_resources s3_world Linux s3_config s3_dist = Ok r ∧
    all_modules r = dom (module_sources r) ∪ dom (module_bytecodes r).
Proof.
  eexists. split; [vm_compute; reflexivity|].
  apply (module_set_law s3_world Linux s3_config s3_dist). vm_compute. reflexivity.
Defined.

Lemma filter_rule_idempotent_witness :
  ∃ st1,
    stage_rule s3_world s3_dist
      (staged empty_staging (source_entries "json" [x01] true 0 ++
                             source_entries "os" [x02] true 0))
      (FilterFileInclude "/cfg/names.txt") = Ok st1 ∧
    stage_rule s3_world s3_dist st1 (FilterFileInclude "/cfg/names.txt") =
      Ok (set_read_files st1 (st_read_files st1 ++ ["/cfg/names.txt"])).
Proof.
  eexists. split; [vm_compute; reflexivity|].
  apply (filter_rule_idempotent s3_world s3_dist
    (staged empty_staging (source_entries "json" [x01] true 0 ++
                           source_entries "os" [x02] true 0)) "/cfg/names.txt").
  vm_compute. reflexivity.
Defined.

Lemma required_extensions_closure_witness :
  ∃ r, resolve_python_resources s3_world Linux s6_config s6_dist = Ok r ∧
    is_Some (res_extension_modules r !! "_io").
Proof.
  eexists. split; [vm_compute; reflexivity|].
  apply (required_extensions_closure s3_world Linux s6_config s6_dist _ "_io" s1_io []);
    [vm_compute; reflexivity..|].
  apply (bool_decide_unpack _). vm_compute. exact I.
Defined.

Lemma ignored_extensions_absent_witness :
  ∃ r, resolve_python_resources s3_world Macos
         (configuration [StdlibExtensionsPolicy "all"]) s1_dist = Ok r ∧
    res_extension_modules r !! "readline" = None.
Proof.
  eexists. split; [vm_compute; reflexivity|].
  apply (ignored_extensions_absent s3_world Macos
    (configuration [StdlibExtensionsPolicy "all"]) s1_dist); [vm_compute; reflexivity|].
  apply (bool_decide_unpack _). vm_compute. exact I.
Defined.

Lemma bytecode_for_staged_requests_witness :
  ∃ r, resolve_python_resources s3_world Linux s3_config s3_dist = Ok r ∧
    ∃ st, foldM (stage_rule s3_world s3_dist) empty_staging (python_packaging s3_config) = Ok st ∧
      dom (module_bytecodes r) = dom (st_bytecode_requests st) ∧
      ∀ name, module_bytecodes r !! name = st_bytecode_requests st !! name ≫= compiled name.
Proof.
  eexists. split; [vm_compute; reflexivity|].
  apply (bytecode_for_staged_requests s3_world Linux s3_config s3_dist).
  vm_compute. reflexivity.
Defined.

Lemma compile_failure_reported_witness :
  ∃ name source level msg,
    ({[ "broken" := ([x00], 0%Z) ]} : gmap string (list byte * Z)) !! name =
      Some (source, level) ∧
    compile source name level = Err msg ∧
    Panic "error compiling bytecode for broken: invalid syntax" =
      Panic ("error compiling bytecode for " +:+ name +:+ ": " +:+ error_message msg).
Proof. apply compile_failure_reported. vm_compute. reflexivity. Defined.

Lemma exclude_then_filter_witness :
  ∃ r, resolve_python_resources s3_world Linux s3_config s3_dist = Ok r ∧
    "json" ∈ dom (module_sources r) ∧
    "json" ∈ resource_names (from_utf8 (as_bytes ("# kept modules" +:+ nl +:+ "json" +:+ nl +:+
                                                  "json.tests.test_foo" +:+ nl))) ∧
    is_stdlib_test_package "json" = false.
Proof.
  eexists. split; [vm_compute; reflexivity|].
  match goal with |- _ ∈ dom (module_sources ?r) ∧ _ =>
    assert ("json" ∈ dom (module_sources r)) as Hin
      by (apply (bool_decide_unpack _); vm_compute; exact I);
    split; [exact Hin|];
    apply (exclude_then_filter s3_world Linux s3_config s3_dist r 0 true "/cfg/names.txt"
             _ "json"); [vm_compute; reflexivity..|exact Hin]
  end.
Defined.

Lemma reduction_succeeds_witness :
  is_ok (resolve_python_resources s3_world Linux s3_config s3_dist) = true.
Proof.
  eapply (reduction_succeeds s3_world Linux s3_config s3_dist); [vm_compute; reflexivity|..];
    apply (bool_decide_unpack _); vm_compute; exact I.
Defined.

End scenarios.
