(* ===== verification/ConfigC.v ===== *)
(** * The config.c generator

    [make_config_c] of repackage.rs writes the C file that declares the
    init functions of the staged extensions and lists them in
    [_PyImport_Inittab].  The lines are built by two loops over the values of
    the staging map, in key order; [config_c_lines] is the vector of lines
    before it is joined. *)

From S2P Require Import Prelude BTree RustStd Dist Scenario.

(** The init function of an extension that the two loops do not skip:
    present, and not the string [NULL]. *)
Definition init_fn_of (em : ExtensionModule) : option string :=
  match em_init_fn em with
  | Some init_fn => if decide (init_fn = "NULL") then None else Some init_fn
  | None => None
  end.

(** [format!("extern PyObject* {}(void);", init_fn)]. *)
Definition extern_line (init_fn : string) : string :=
  "extern PyObject* " +:+ init_fn +:+ "(void);".

(** [format!("{{\"{}\", {}}},", em.module, init_fn)]. *)
Definition inittab_row (module init_fn : string) : string :=
  "{" +:+ dq +:+ module +:+ dq +:+ ", " +:+ init_fn +:+ "},".

Definition extern_lines (extension_modules : gmap string ExtensionModule) : list string :=
  omap (λ em, extern_line <$> init_fn_of em) (btree_values extension_modules).

Definition inittab_rows (extension_modules : gmap string ExtensionModule) : list string :=
  omap (λ em, inittab_row (em_module em) <$> init_fn_of em) (btree_values extension_modules).

Definition config_c_lines (extension_modules : gmap string ExtensionModule) : list string :=
  ["#include " +:+ dq +:+ "Python.h" +:+ dq] ++
  extern_lines extension_modules ++
  ["struct _inittab _PyImport_Inittab[] = {"] ++
  inittab_rows extension_modules ++
  ["{0, 0}"; "};"].

Definition make_config_c (extension_modules : gmap string ExtensionModule) : string :=
  join nl (config_c_lines extension_modules).

(** * The rows *)

(** The staged extensions that get a row, in key order. *)
Definition with_init_fn (extension_modules : gmap string ExtensionModule) :
    list (string * ExtensionModule) :=
  filter (λ kv, is_Some (init_fn_of kv.2)) (btree_iter extension_modules).

Lemma init_fn_of_is_Some em :
  is_Some (init_fn_of em) ↔ ∃ init_fn, em_init_fn em = Some init_fn ∧ init_fn ≠ "NULL".
Proof.
  unfold init_fn_of. destruct (em_init_fn em) as [f|]; [case_decide as E|].
  - subst. split; [by intros [? ?]|]. by intros (? & [= <-] & ?).
  - split; [by eauto|]. intros _. by eauto.
  - split; [by intros [? ?]|by intros (? & ? & _)].
Qed.

Lemma omap_init_fn {A} (f : ExtensionModule → string → A)
    (l : list (string * ExtensionModule)) :
  omap (λ em, f em <$> init_fn_of em) l.*2 =
  (λ kv, f kv.2 (default "" (init_fn_of kv.2))) <$> filter (λ kv, is_Some (init_fn_of kv.2)) l.
Proof.
  induction l as [|[k em] l IH]; [done|]. cbn [fmap list_fmap omap list_omap snd].
  rewrite filter_cons. cbn [snd]. destruct (init_fn_of em) as [init_fn|] eqn:E.
  - rewrite decide_True by eauto. cbn [fmap list_fmap option_fmap option_map snd].
    rewrite E. cbn [default]. f_equal. apply IH.
  - rewrite decide_False by (by intros [? ?]). apply IH.
Qed.

Lemma inittab_rows_with_init_fn m :
  inittab_rows m =
  (λ kv, inittab_row (em_module kv.2) (default "" (init_fn_of kv.2))) <$> with_init_fn m.
Proof. apply (omap_init_fn (λ em, inittab_row (em_module em))). Qed.

Lemma extern_lines_with_init_fn m :
  extern_lines m = (λ kv, extern_line (default "" (init_fn_of kv.2))) <$> with_init_fn m.
Proof. apply (omap_init_fn (λ _, extern_line)). Qed.

Lemma with_init_fn_sorted m : StronglySorted key_le (with_init_fn m).
Proof. apply StronglySorted_filter, btree_iter_sorted. Qed.

Lemma elem_of_with_init_fn m k em :
  (k, em) ∈ with_init_fn m ↔ m !! k = Some em ∧ is_Some (init_fn_of em).
Proof.
  unfold with_init_fn. rewrite list_elem_of_filter, elem_of_btree_iter. simpl. tauto.
Qed.

Lemma with_init_fn_NoDup m : NoDup (with_init_fn m).*1.
Proof.
  apply (NoDup_fmap_fst _).
  - intros k em em' [? _]%elem_of_with_init_fn [? _]%elem_of_with_init_fn. congruence.
  - apply NoDup_filter. eapply NoDup_fmap_1, NoDup_btree_keys.
Qed.

Lemma length_config_c_lines m : length (config_c_lines m) = 4 + 2 * length (with_init_fn m).
Proof.
  unfold config_c_lines. rewrite !length_app, extern_lines_with_init_fn,
    inittab_rows_with_init_fn, !length_fmap. simpl. lia.
Qed.

(** * Properties *)

(** C4. Inittab closure: the table has exactly one row per staged extension
    with an init function other than [NULL], in ascending order of the keys
    of the staging map; the row names the module of the variant and its init
    function. *)
Theorem inittab_closure m :
  inittab_rows m =
    (λ kv, inittab_row (em_module kv.2) (default "" (init_fn_of kv.2))) <$> with_init_fn m ∧
  StronglySorted key_le (with_init_fn m) ∧ NoDup (with_init_fn m).*1 ∧
  ∀ k em, (k, em) ∈ with_init_fn m ↔
    m !! k = Some em ∧ ∃ init_fn, em_init_fn em = Some init_fn ∧ init_fn ≠ "NULL".
Proof.
  split_and!; [apply inittab_rows_with_init_fn|apply with_init_fn_sorted|
               apply with_init_fn_NoDup|].
  intros k em. by rewrite elem_of_with_init_fn, init_fn_of_is_Some.
Qed.

(** The file is the include line, one declaration per row, the opening
    of the table, the rows, the sentinel and the closing line: every
    extension that has a row has a declaration, and conversely. *)
Theorem config_c_layout m :
  make_config_c m =
  join nl (["#include " +:+ dq +:+ "Python.h" +:+ dq] ++
           ((λ kv, extern_line (default "" (init_fn_of kv.2))) <$> with_init_fn m) ++
           ["struct _inittab _PyImport_Inittab[] = {"] ++
           ((λ kv, inittab_row (em_module kv.2) (default "" (init_fn_of kv.2))) <$>
              with_init_fn m) ++
           ["{0, 0}"; "};"]) ∧
  length (config_c_lines m) = 4 + 2 * length (with_init_fn m).
Proof.
  split; [|apply length_config_c_lines].
  unfold make_config_c, config_c_lines.
  by rewrite extern_lines_with_init_fn, inittab_rows_with_init_fn.
Qed.

(** An extension without an init function, or whose init function is
    [NULL], contributes neither a declaration nor a row. *)
Theorem config_c_skips_null m k em :
  m !! k = None → init_fn_of em = None →
  make_config_c (<[k := em]> m) = make_config_c m.
Proof.
  intros Hk Hem. unfold make_config_c, config_c_lines.
  rewrite !extern_lines_with_init_fn, !inittab_rows_with_init_fn.
  assert (with_init_fn (<[k:=em]> m) = with_init_fn m) as ->; [|done].
  unfold with_init_fn. rewrite <-!btree_iter_filter. f_equal.
  rewrite map_filter_insert_False by (simpl; rewrite Hem; by intros [? ?]).
  by rewrite delete_id.
Qed.

Lemma config_c_skips_null_witness :
  make_config_c (<["math" := extension "math" "default" false false (Some "NULL") []]>
                   {[ "_io" := s1_io ]}) =
  make_config_c {[ "_io" := s1_io ]}.
Proof. by apply config_c_skips_null. Defined.

(** On the staged extensions [zlib], [_io] and [_ssl] the file declares
    and lists them in the order [_io], [_ssl], [zlib]. *)
Theorem config_c_ordering :
  make_config_c (list_to_map [("zlib", s1_zlib); ("_io", s1_io); ("_ssl", s4_openssl_3)]) =
  join nl
    ["#include " +:+ dq +:+ "Python.h" +:+ dq;
     "extern PyObject* PyInit__io(void);";
     "extern PyObject* PyInit__ssl(void);";
     "extern PyObject* PyInit_zlib(void);";
     "struct _inittab _PyImport_Inittab[] = {";
     "{" +:+ dq +:+ "_io" +:+ dq +:+ ", PyInit__io},";
     "{" +:+ dq +:+ "_ssl" +:+ dq +:+ ", PyInit__ssl},";
     "{" +:+ dq +:+ "zlib" +:+ dq +:+ ", PyInit_zlib},";
     "{0, 0}";
     "};"].
Proof. vm_compute. reflexivity. Qed.

(** The rows follow the keys of the staging map, and name the module of
    the variant: when a key differs from the module of its variant the rows
    are not in the order of the names they show. *)
Theorem inittab_rows_follow_keys :
  inittab_rows (list_to_map [("a", extension "zz" "default" false false (Some "PyInit_zz") []);
                             ("b", extension "aa" "default" false false (Some "PyInit_aa") [])]) =
  [inittab_row "zz" "PyInit_zz"; inittab_row "aa" "PyInit_aa"].
Proof. vm_compute. reflexivity. Qed.
