(* ===== verification/Resources.v ===== *)
(** * The files of the resources

    The methods of [PythonResources] in repackage.rs: [sources_blob] and
    [bytecodes_blob] lay the two module maps out as blob entries in key
    order, and [write_blobs] writes the names of all modules, one per line,
    and the two blobs, into three files.  The file system is threaded through
    the three files as the code creates and writes them. *)

From S2P Require Import Prelude BTree RustStd RustText Io Blob Dist Env Scenario.
From S2P Require Import Resolver Reducer.

Definition blob_entry (item : string * list byte) : BlobEntry :=
  {| be_name := item.1; be_data := item.2 |}.

Definition sources_blob (r : PythonResources) : BlobEntries :=
  blob_entry <$> btree_iter (module_sources r).

Definition bytecodes_blob (r : PythonResources) : BlobEntries :=
  blob_entry <$> btree_iter (module_bytecodes r).

Section write_blobs.
Context `{FileSystem F}.

(** The body of the loop over [all_modules]. *)
Definition write_module_name (fh : File F) (name : string) : result (File F) :=
  fh ← expect_ok (write_all fh (as_bytes name)) "failed to write";
  expect_ok (write_all fh (as_bytes nl)) "failed to write".

Definition write_blobs (fs : F) (r : PythonResources)
    (module_names_path modules_path bytecodes_path : string) : result F :=
  fh ← expect_ok (file_create fs module_names_path) "error creating file";
  fh ← foldM write_module_name fh (btree_set_iter (all_modules r));
  fh ← expect_ok (file_create (file_fs fh) modules_path) unwrap_message;
  fh ← expect_ok (write_blob_entries fh (sources_blob r)) unwrap_message;
  fh ← expect_ok (file_create (file_fs fh) bytecodes_path) unwrap_message;
  fh ← expect_ok (write_blob_entries fh (bytecodes_blob r)) unwrap_message;
  Ok (file_fs fh).

End write_blobs.

(** * The blobs *)

Lemma blob_names_keys (m : gmap string (list byte)) :
  be_name <$> (blob_entry <$> btree_iter m) = btree_keys m.
Proof. unfold btree_keys. rewrite <-list_fmap_compose. by apply list_fmap_ext. Qed.

(** The entries of a blob keep the map: looking a name up in the entries
    gives the bytes of the map. *)
Lemma elem_of_blob_entries (m : gmap string (list byte)) name data :
  {| be_name := name; be_data := data |} ∈ blob_entry <$> btree_iter m ↔ m !! name = Some data.
Proof.
  rewrite list_elem_of_fmap. split.
  - intros ([k v] & [= -> ->] & Hin). by apply elem_of_btree_iter.
  - intros Hm. exists (name, data). split; [done|]. by apply elem_of_btree_iter.
Qed.

(** * The three files *)

Section write_blobs_lemmas.
Context `{FileSystemLaws F}.
Implicit Types (fs : F) (fh : File F).

Lemma write_module_name_frame fs0 p fh name fh' :
  file_frame fs0 p fh → write_module_name fh name = Ok fh' →
  file_frame fs0 p fh' ∧ file_content fh' = file_content fh ++ as_bytes name ++ as_bytes nl.
Proof.
  unfold write_module_name. intros Hf (fh1 & H1%expect_ok_Ok & H2%expect_ok_Ok)%bind_Ok_inv.
  split; [by eauto using file_write_frame|].
  by rewrite (file_write_content _ _ _ H2), (file_write_content _ _ _ H1), (assoc_L (++)).
Qed.

Lemma write_module_names_frame fs0 p names fh fh' :
  file_frame fs0 p fh → foldM write_module_name fh names = Ok fh' →
  file_frame fs0 p fh' ∧ file_content fh' = file_content fh ++ as_bytes (terminated names).
Proof.
  revert fh. induction names as [|name names IH]; intros fh Hf Hw.
  - injection Hw as <-. split; [done|]. by rewrite (right_id_L [] _).
  - cbn [foldM] in Hw. apply bind_Ok_inv in Hw as (fh1 & H1 & Hw).
    destruct (write_module_name_frame _ _ _ _ _ Hf H1) as [Hf1 Hc1].
    destruct (IH _ Hf1 Hw) as [Hf' Hc']. split; [done|].
    rewrite Hc', Hc1. cbn [terminated foldr]. by rewrite !as_bytes_app, !(assoc_L (++)).
Qed.

Lemma write_blob_entries_frame fs0 p entries fh fh' :
  file_frame fs0 p fh → write_blob_entries fh entries = Ok fh' →
  file_frame fs0 p fh' ∧ file_content fh' = file_content fh ++ blob_bytes entries.
Proof.
  intros Hf Hw. split.
  - eapply (write_blob_entries_invariant (file_frame fs0 p)); [|exact Hf|exact Hw].
    intros ????. by apply file_write_frame.
  - pose proof (write_blob_entries_written (W := File F) fh fh' entries Hw) as Hwr.
    exact Hwr.
Qed.

(** What [write_blobs] leaves in the file system when its three paths
    differ. *)
Lemma write_blobs_files fs r p1 p2 p3 fs' :
  write_blobs fs r p1 p2 p3 = Ok fs' → p1 ≠ p2 → p1 ≠ p3 → p2 ≠ p3 →
  read_file fs' p1 = Ok (as_bytes (terminated (btree_set_iter (all_modules r)))) ∧
  read_file fs' p2 = Ok (blob_bytes (sources_blob r)) ∧
  read_file fs' p3 = Ok (blob_bytes (bytecodes_blob r)) ∧
  ∀ q, q ∉ [p1; p2; p3] → read_file fs' q = read_file fs q.
Proof.
  unfold write_blobs. intros Hw H12 H13 H23.
  apply bind_Ok_inv in Hw as (fh1 & Hc1%expect_ok_Ok & Hw).
  apply bind_Ok_inv in Hw as (fh1' & Hw1 & Hw).
  apply bind_Ok_inv in Hw as (fh2 & Hc2%expect_ok_Ok & Hw).
  apply bind_Ok_inv in Hw as (fh2' & Hw2%expect_ok_Ok & Hw).
  apply bind_Ok_inv in Hw as (fh3 & Hc3%expect_ok_Ok & Hw).
  apply bind_Ok_inv in Hw as (fh3' & Hw3%expect_ok_Ok & [= <-]).
  destruct (created_file _ _ _ fh1' _ Hc1
    (λ Hf, write_module_names_frame _ _ _ _ _ Hf Hw1)) as [R1 O1].
  destruct (created_file _ _ _ fh2' _ Hc2
    (λ Hf, write_blob_entries_frame _ _ _ _ _ Hf Hw2)) as [R2 O2].
  destruct (created_file _ _ _ fh3' _ Hc3
    (λ Hf, write_blob_entries_frame _ _ _ _ _ Hf Hw3)) as [R3 O3].
  split_and!; [| |done|].
  - by rewrite O3, O2 by done.
  - by rewrite O3 by done.
  - intros q Hq. apply not_elem_of_cons in Hq as [? Hq].
    apply not_elem_of_cons in Hq as [? Hq]. apply not_elem_of_cons in Hq as [? _].
    by rewrite O3, O2, O1 by done.
Qed.

(** * Properties *)

(** [write_blobs] leaves three files: the names of all modules in
    ascending order, each followed by a line feed; the blob of the module
    sources; the blob of the module bytecodes.  No other file changes. *)
Theorem write_blobs_three_files fs r p1 p2 p3 fs' :
  write_blobs fs r p1 p2 p3 = Ok fs' → p1 ≠ p2 → p1 ≠ p3 → p2 ≠ p3 →
  read_file fs' p1 = Ok (as_bytes (terminated (btree_set_iter (all_modules r)))) ∧
  read_file fs' p2 = Ok (blob_bytes (sources_blob r)) ∧
  read_file fs' p3 = Ok (blob_bytes (bytecodes_blob r)) ∧
  ∀ q, q ∉ [p1; p2; p3] → read_file fs' q = read_file fs q.
Proof. apply write_blobs_files. Qed.

(** C11. The module sources survive the file: the blob that [write_blobs]
    leaves in the modules file reads back as one entry per module source, in
    ascending order of the names, with the bytes of the map. *)
Theorem sources_file_roundtrip fs r p1 p2 p3 fs' :
  write_blobs fs r p1 p2 p3 = Ok fs' → p1 ≠ p2 → p1 ≠ p3 → p2 ≠ p3 →
  blob_fits (sources_blob r) →
  ∃ bs entries, read_file fs' p2 = Ok bs ∧ read_blob_entries bs = Some (entries, []) ∧
    be_name <$> entries = btree_keys (module_sources r) ∧
    ∀ name data, {| be_name := name; be_data := data |} ∈ entries ↔
                 module_sources r !! name = Some data.
Proof.
  intros Hw H12 H13 H23 Hfits.
  destruct (write_blobs_files _ _ _ _ _ _ Hw H12 H13 H23) as (_ & R2 & _).
  exists (blob_bytes (sources_blob r)), (sources_blob r). split_and!; [done| | |].
  - rewrite <-(right_id_L [] (++) (blob_bytes _)). by apply read_blob_bytes.
  - apply blob_names_keys.
  - apply elem_of_blob_entries.
Qed.

(** The names file can be fed back as a filter: when every module
    name is a non-empty line of well-formed text that does not start with
    [#], reading the names file that [write_blobs] wrote gives the set of
    all modules. *)
Theorem module_names_roundtrip fs r p1 p2 p3 fs' :
  write_blobs fs r p1 p2 p3 = Ok fs' → p1 ≠ p2 → p1 ≠ p3 → p2 ≠ p3 →
  set_Forall (λ name, is_line name = true ∧ is_utf8 (as_bytes name) = true ∧
                      name ≠ "" ∧ starts_with name "#" = false)
    (all_modules r) →
  read_resource_names_file fs' p1 = Ok (all_modules r).
Proof.
  intros Hw H12 H13 H23 Hnames.
  destruct (write_blobs_files _ _ _ _ _ _ Hw H12 H13 H23) as (R1 & _).
  rewrite (read_resource_names_file_read _ _ _ R1), string_from_utf8_as_bytes.
  - f_equal. apply set_eq. intros name.
    rewrite elem_of_resource_names, lines_terminated, elem_of_btree_set_iter.
    + split; [tauto|]. intros Hin. destruct (Hnames _ Hin) as (_ & _ & ? & ?). done.
    + apply Forall_forall. intros l Hl%elem_of_btree_set_iter. by destruct (Hnames _ Hl).
  - apply is_utf8_terminated, Forall_forall. intros l Hl%elem_of_btree_set_iter.
    by destruct (Hnames _ Hl) as (_ & ? & _).
Qed.

(** A names file that cannot be created stops [write_blobs] with a
    panic before anything is written. *)
Theorem write_blobs_create_fails fs r p1 p2 p3 e :
  file_create fs p1 = Err e →
  write_blobs fs r p1 p2 p3 = Err (Panic "error creating file").
Proof. intros Hc. unfold write_blobs. by rewrite Hc. Qed.

End write_blobs_lemmas.

Section scenarios.
#[local] Existing Instance scenario_compiler.

Lemma write_blobs_three_files_witness :
  ∃ fs', write_blobs (world []) two_sources "/out/names" "/out/modules" "/out/bytecodes" = Ok fs' ∧
    read_file fs' "/out/names" = Ok (as_bytes ("json" +:+ nl +:+ "os" +:+ nl)) ∧
    read_file fs' "/out/modules" = Ok (blob_bytes (sources_blob two_sources)) ∧
    read_file fs' "/out/bytecodes" = Ok (blob_bytes (bytecodes_blob two_sources)) ∧
    ∀ q, q ∉ ["/out/names"; "/out/modules"; "/out/bytecodes"] →
         read_file fs' q = read_file (world []) q.
Proof.
  eexists. split; [vm_compute; reflexivity|].
  by apply (write_blobs_three_files (world []) two_sources
    "/out/names" "/out/modules" "/out/bytecodes"); [vm_compute; reflexivity|..].
Defined.

Lemma sources_file_roundtrip_witness :
  ∃ fs', write_blobs (world []) two_sources "/out/names" "/out/modules" "/out/bytecodes" = Ok fs' ∧
    ∃ bs entries, read_file fs' "/out/modules" = Ok bs ∧
      read_blob_entries bs = Some (entries, []) ∧
      be_name <$> entries = btree_keys (module_sources two_sources) ∧
      ∀ name data, {| be_name := name; be_data := data |} ∈ entries ↔
                   module_sources two_sources !! name = Some data.
Proof.
  eexists. split; [vm_compute; reflexivity|].
  apply (sources_file_roundtrip (world []) two_sources
    "/out/names" "/out/modules" "/out/bytecodes"); [vm_compute; reflexivity|done..|].
  split; [vm_compute; reflexivity|]. repeat constructor.
Defined.

Lemma module_names_roundtrip_witness :
  ∃ fs', write_blobs (world []) two_sources "/out/names" "/out/modules" "/out/bytecodes" = Ok fs' ∧
    read_resource_names_file fs' "/out/names" = Ok (all_modules two_sources).
Proof.
  eexists. split; [vm_compute; reflexivity|].
  apply (module_names_roundtrip (world []) two_sources
    "/out/names" "/out/modules" "/out/bytecodes"); [vm_compute; reflexivity|done..|].
  apply (bool_decide_unpack _). vm_compute. exact I.
Defined.

Lemma write_blobs_create_fails_witness :
  write_blobs {| mem_files := ∅; mem_readonly := {[ "/out/names" ]} |} two_sources
    "/out/names" "/out/modules" "/out/bytecodes" = Err (Panic "error creating file").
Proof.
  apply (write_blobs_create_fails _ _ _ _ _ (Failure "Permission denied")).
  vm_compute. reflexivity.
Defined.

End scenarios.
