(* ===== verification/Linker.v ===== *)
(** * The libpython linker

    [link_libpython] of repackage.rs writes config.c, copies the headers and
    the core objects of the distribution into a temporary tree, compiles
    config.c and the objects into two static libraries through the [cc]
    crate, copies the libraries that the extensions need and returns the
    linker directives.  The C compiler and the creation of directories are
    the interface [Toolchain]; each loop of the function is a definition.
    The temporary directory is not removed in the model.

    The keys of [dist.objs_core] are paths: the loop over them runs in the
    order of the paths ([path_iter]) and [ends_with] compares components
    ([path_ends_with]).

    The function makes two builds with the [cc] crate.  The first one turns
    the cargo metadata of the crate off, the second one leaves it on, so
    that the crate itself prints directives for the library [pythonXY] to
    the standard output when it compiles.  What the crate prints is an
    effect of [cc_compile] on the world and is not among the lines that the
    model returns: [li_cargo_metadata] holds the lines that the code of
    repackage.rs collects, which the caller prints. *)

From S2P Require Import Prelude BTree RustStd RustText Io Dist Env Scenario Resolver ConfigC.

Record LibpythonInfo := {
  li_path : string;
  li_cargo_metadata : list string
}.

(** A [cc::Build] as [link_libpython] configures it. *)
Record Build := {
  b_out_dir : string;
  b_host : string;
  b_target : string;
  b_opt_level : string;
  b_files : list string;
  b_includes : list string;
  b_defines : list (string * option string);
  b_flags : list string;
  b_cargo_metadata : bool;
  b_objects : list string
}.

Class Toolchain (F : Type) := {
  (** [std::fs::create_dir_all]. *)
  create_dir_all : F → string → result F;
  (** [cc::Build::compile(name)]: panics when the compiler fails. *)
  cc_compile : F → Build → string → result F
}.
#[global] Hint Mode Toolchain ! : typeclass_instances.

(** The build of config.c. *)
Definition config_build (out_dir host target opt_level config_c_path temp_dir_path : string) :
    Build :=
  {| b_out_dir := out_dir; b_host := host; b_target := target; b_opt_level := opt_level;
     b_files := [config_c_path]; b_includes := [temp_dir_path];
     b_defines := [("NDEBUG", None); ("Py_BUILD_CORE", None)];
     b_flags := ["-std=c99"]; b_cargo_metadata := false; b_objects := [] |}.

(** The build of the library, with the objects that the loops added. *)
Definition library_build (out_dir host target opt_level : string) (objects : list string) :
    Build :=
  {| b_out_dir := out_dir; b_host := host; b_target := target; b_opt_level := opt_level;
     b_files := []; b_includes := []; b_defines := []; b_flags := [];
     b_cargo_metadata := true; b_objects := objects |}.

(** * What the extensions need *)

(** The three sets of names that the loops over the links fill. *)
Record Needed := {
  needed_libraries : gset string;
  needed_frameworks : gset string;
  needed_system_libraries : gset string
}.

Definition no_needs : Needed :=
  {| needed_libraries := ∅; needed_frameworks := ∅; needed_system_libraries := ∅ |}.

(** The body of the loop over [dist.links_core]: a library that is neither
    a framework nor a system library is not recorded. *)
Definition need_core_link (needed : Needed) (entry : LibraryDepends) : Needed :=
  if ld_framework entry then
    {| needed_libraries := needed_libraries needed;
       needed_frameworks := {[ld_name entry]} ∪ needed_frameworks needed;
       needed_system_libraries := needed_system_libraries needed |}
  else if ld_system entry then
    {| needed_libraries := needed_libraries needed;
       needed_frameworks := needed_frameworks needed;
       needed_system_libraries := {[ld_name entry]} ∪ needed_system_libraries needed |}
  else needed.

(** The body of the loop over the links of an extension. *)
Definition need_extension_link (needed : Needed) (entry : LibraryDepends) : Needed :=
  if ld_framework entry then
    {| needed_libraries := needed_libraries needed;
       needed_frameworks := {[ld_name entry]} ∪ needed_frameworks needed;
       needed_system_libraries := needed_system_libraries needed |}
  else if ld_system entry then
    {| needed_libraries := needed_libraries needed;
       needed_frameworks := needed_frameworks needed;
       needed_system_libraries := {[ld_name entry]} ∪ needed_system_libraries needed |}
  else if bool_decide (is_Some (ld_static_path entry)) then
    {| needed_libraries := {[ld_name entry]} ∪ needed_libraries needed;
       needed_frameworks := needed_frameworks needed;
       needed_system_libraries := needed_system_libraries needed |}
  else if bool_decide (is_Some (ld_dynamic_path entry)) then
    {| needed_libraries := {[ld_name entry]} ∪ needed_libraries needed;
       needed_frameworks := needed_frameworks needed;
       needed_system_libraries := needed_system_libraries needed |}
  else needed.

(** The body of the loop over the staged extensions: a built-in extension
    is skipped, the others add their objects and their links. *)
Definition add_extension (acc : list string * Needed) (item : string * ExtensionModule) :
    list string * Needed :=
  let '(objects, needed) := acc in
  let em := item.2 in
  if em_builtin_default em then acc
  else (objects ++ em_object_paths em, foldl need_extension_link needed (em_links em)).

(** The directives of the frameworks and of the system libraries. *)
Definition framework_lines (needed : Needed) : list string :=
  (λ framework, "cargo:rustc-link-lib=framework=" +:+ framework) <$>
    btree_set_iter (needed_frameworks needed).

Definition system_library_lines (needed : Needed) : list string :=
  (λ lib, "cargo:rustc-link-lib=" +:+ lib) <$>
    btree_set_iter (needed_system_libraries needed).

Section linker.
Context `{FileSystem F, Process F, Toolchain F}.

(** The body of the loop over [dist.includes]. *)
Definition copy_include (temp_dir_path : string) (fs : F) (item : string * string) : result F :=
  let '(name, fs_path) := item in
  let full := path_join temp_dir_path name in
  parent ← expect (path_parent full) "parent directory";
  fs ← expect_ok (create_dir_all fs parent) "create include directory";
  expect_ok (fs_copy fs fs_path full) "unable to copy include file".

(** The body of the loop over [dist.objs_core]. *)
Definition stage_core_object (temp_dir_path : string) (acc : F * list string)
    (item : string * string) : result (F * list string) :=
  let '(fs, objects) := acc in
  let '(rel_path, fs_path) := item in
  if path_ends_with rel_path "Modules/config.o" then Ok acc
  else
    rel_parent ← expect (path_parent rel_path) unwrap_message;
    let parent := path_join temp_dir_path rel_parent in
    fs ← expect_ok (create_dir_all fs parent) unwrap_message;
    let full := path_join temp_dir_path rel_path in
    fs ← expect_ok (fs_copy fs fs_path full) "unable to copy object file";
    Ok (fs, objects ++ [full]).

(** The body of the loop over the needed libraries. *)
Definition link_library (target_os : TargetOs) (dist : PythonDistributionInfo)
    (out_dir : string) (acc : F * list string) (library : string) :
    result (F * list string) :=
  let '(fs, cargo_metadata) := acc in
  if bool_decide (library ∈ OS_IGNORE_LIBRARIES target_os) then Ok acc
  else
    fs_path ← expect (libraries dist !! library) ("unable to find library " +:+ library);
    let library_path := path_join out_dir ("lib" +:+ library +:+ ".a") in
    fs ← expect_ok (fs_copy fs fs_path library_path) "unable to copy library file";
    Ok (fs, cargo_metadata ++ ["cargo:rustc-link-lib=static=" +:+ library]).

Definition link_libpython (fs : F) (target_os : TargetOs) (dist : PythonDistributionInfo)
    (resources : PythonResources) (out_dir host target opt_level : string) :
    result (F * LibpythonInfo) :=
  '(fs, temp_dir_path) ← expect_ok (temp_dir_new fs "libpython") unwrap_message;
  let extension_modules := res_extension_modules resources in
  let config_c_source := make_config_c extension_modules in
  let config_c_path := path_join out_dir "config.c" in
  fs ← expect_ok (write_file fs config_c_path (as_bytes config_c_source))
         "unable to write config.c";
  fs ← foldM (copy_include temp_dir_path) fs (btree_iter (includes dist));
  fs ← cc_compile fs (config_build out_dir host target opt_level config_c_path temp_dir_path)
         "pyembeddedconfig";
  let cargo_metadata := ["cargo:rustc-link-lib=static=pyembeddedconfig"] in
  '(fs, objects) ← foldM (stage_core_object temp_dir_path) (fs, []) (path_iter (objs_core dist));
  let needed := foldl need_core_link no_needs (links_core dist) in
  let '(objects, needed) := foldl add_extension (objects, needed) (btree_iter extension_modules) in
  '(fs, cargo_metadata) ← foldM (link_library target_os dist out_dir) (fs, cargo_metadata)
                            (btree_set_iter (needed_libraries needed));
  let cargo_metadata := cargo_metadata ++ framework_lines needed in
  let cargo_metadata := cargo_metadata ++ system_library_lines needed in
  fs ← cc_compile fs (library_build out_dir host target opt_level objects) "pythonXY";
  Ok (fs, {| li_path := path_join out_dir "libpythonXY.a";
             li_cargo_metadata := cargo_metadata |}).

End linker.

(** A tool chain for [World]: directories need no creation, and the
    compiler leaves an archive that lists its inputs. *)
#[export] Instance world_toolchain : Toolchain World := {|
  create_dir_all w _ := Ok w;
  cc_compile w build name :=
    write_file w (path_join (b_out_dir build) ("lib" +:+ name +:+ ".a"))
      (as_bytes (join " " (b_files build ++ b_objects build)))
|}.

(** * The needs, as a specification *)

(** The staged extensions that are linked: the ones that are not built in. *)
Definition linked_extensions (extension_modules : gmap string ExtensionModule) :
    list (string * ExtensionModule) :=
  filter (λ kv, em_builtin_default kv.2 = false) (btree_iter extension_modules).

Definition extension_objects (extension_modules : gmap string ExtensionModule) : list string :=
  linked_extensions extension_modules ≫= λ kv, em_object_paths kv.2.

Definition extension_links (extension_modules : gmap string ExtensionModule) :
    list LibraryDepends :=
  linked_extensions extension_modules ≫= λ kv, em_links kv.2.

Definition needs_of (links_core : list LibraryDepends)
    (extension_modules : gmap string ExtensionModule) : Needed :=
  foldl need_extension_link (foldl need_core_link no_needs links_core)
    (extension_links extension_modules).

(** The directives of the libraries that are copied from the distribution. *)
Definition static_lines (target_os : TargetOs) (libs : list string) : list string :=
  (λ library, "cargo:rustc-link-lib=static=" +:+ library) <$>
    filter (λ library, library ∉ OS_IGNORE_LIBRARIES target_os) libs.

(** A link that makes its library needed: not a framework, not a system
    library, with a static or a dynamic path. *)
Definition is_library_link (entry : LibraryDepends) : bool :=
  negb (ld_framework entry) && negb (ld_system entry) &&
  (bool_decide (is_Some (ld_static_path entry)) ||
   bool_decide (is_Some (ld_dynamic_path entry))).

Lemma foldl_add_extension items objects needed :
  foldl add_extension (objects, needed) items =
  (objects ++ (filter (λ kv, em_builtin_default kv.2 = false) items ≫= λ kv, em_object_paths kv.2),
   foldl need_extension_link needed
     (filter (λ kv, em_builtin_default kv.2 = false) items ≫= λ kv, em_links kv.2)).
Proof.
  revert objects needed. induction items as [|[name em] items IH]; intros objects needed.
  - by rewrite (right_id_L [] _).
  - cbn [foldl add_extension snd]. rewrite filter_cons. cbn [snd].
    destruct (em_builtin_default em) eqn:E.
    + rewrite decide_False by done. apply IH.
    + rewrite decide_True by done. rewrite IH, !bind_cons, foldl_app.
      by rewrite (assoc_L (++)).
Qed.

(** A loop that adds the names of the selected elements to one of the
    sets. *)
Lemma elem_of_foldl_needed {A} (f : Needed → A → Needed) (proj : Needed → gset string)
    (sel : A → bool) (name : A → string) :
  (∀ n a, proj (f n a) = (if sel a then {[name a]} else ∅) ∪ proj n) →
  ∀ l n x, x ∈ proj (foldl f n l) ↔ x ∈ proj n ∨ ∃ a, a ∈ l ∧ name a = x ∧ sel a = true.
Proof.
  intros Hstep l. induction l as [|a l IH]; intros n x; cbn [foldl].
  - split; [by left|]. by intros [?|(? & ?%elem_of_nil & _)].
  - rewrite IH, Hstep, elem_of_union. setoid_rewrite elem_of_cons. split.
    + intros [[Hx|?]|(b & ? & ? & ?)]; [|by left|right; by exists b; auto].
      destruct (sel a) eqn:E; [|by apply elem_of_empty in Hx].
      apply elem_of_singleton in Hx as ->. right. by exists a; auto.
    + intros [?|(b & [->|?] & Hn & Hs)]; [by auto| |right; by exists b].
      left. left. rewrite Hs. by apply elem_of_singleton.
Qed.

Lemma needed_libraries_step needed entry :
  needed_libraries (need_extension_link needed entry) =
  (if is_library_link entry then {[ld_name entry]} else ∅) ∪ needed_libraries needed.
Proof.
  unfold need_extension_link, is_library_link.
  destruct (ld_framework entry), (ld_system entry); simpl; try by rewrite (left_id_L ∅ _).
  repeat case_bool_decide; simpl; by rewrite ?(left_id_L ∅ _).
Qed.

Lemma needed_frameworks_step needed entry :
  needed_frameworks (need_extension_link needed entry) =
  (if ld_framework entry then {[ld_name entry]} else ∅) ∪ needed_frameworks needed.
Proof.
  unfold need_extension_link.
  destruct (ld_framework entry), (ld_system entry); simpl; try by rewrite ?(left_id_L ∅ _).
  repeat case_bool_decide; simpl; by rewrite ?(left_id_L ∅ _).
Qed.

Lemma needed_system_step needed entry :
  needed_system_libraries (need_extension_link needed entry) =
  (if negb (ld_framework entry) && ld_system entry then {[ld_name entry]} else ∅) ∪
  needed_system_libraries needed.
Proof.
  unfold need_extension_link.
  destruct (ld_framework entry), (ld_system entry); simpl; try by rewrite ?(left_id_L ∅ _).
  repeat case_bool_decide; simpl; by rewrite ?(left_id_L ∅ _).
Qed.

Lemma core_libraries_step needed entry :
  needed_libraries (need_core_link needed entry) = needed_libraries needed.
Proof. unfold need_core_link. by destruct (ld_framework entry), (ld_system entry). Qed.

Lemma core_frameworks_step needed entry :
  needed_frameworks (need_core_link needed entry) =
  (if ld_framework entry then {[ld_name entry]} else ∅) ∪ needed_frameworks needed.
Proof.
  unfold need_core_link.
  destruct (ld_framework entry), (ld_system entry); simpl; by rewrite ?(left_id_L ∅ _).
Qed.

Lemma core_system_step needed entry :
  needed_system_libraries (need_core_link needed entry) =
  (if negb (ld_framework entry) && ld_system entry then {[ld_name entry]} else ∅) ∪
  needed_system_libraries needed.
Proof.
  unfold need_core_link.
  destruct (ld_framework entry), (ld_system entry); simpl; by rewrite ?(left_id_L ∅ _).
Qed.

Lemma core_libraries_foldl links needed :
  needed_libraries (foldl need_core_link needed links) = needed_libraries needed.
Proof.
  revert needed. induction links as [|entry links IH]; intros needed; [done|].
  cbn [foldl]. by rewrite IH, core_libraries_step.
Qed.

(** The libraries that are needed are the ones that a linked extension links
    with a static or a dynamic path; the links of the core add none. *)
Lemma elem_of_needs_libraries links_core extension_modules x :
  x ∈ needed_libraries (needs_of links_core extension_modules) ↔
  ∃ entry, entry ∈ extension_links extension_modules ∧ ld_name entry = x ∧
    is_library_link entry = true.
Proof.
  unfold needs_of.
  rewrite (elem_of_foldl_needed _ needed_libraries _ _ needed_libraries_step).
  rewrite core_libraries_foldl. simpl. rewrite elem_of_empty. tauto.
Qed.

Lemma elem_of_needs_frameworks links_core extension_modules x :
  x ∈ needed_frameworks (needs_of links_core extension_modules) ↔
  ∃ entry, entry ∈ links_core ++ extension_links extension_modules ∧ ld_name entry = x ∧
    ld_framework entry = true.
Proof.
  unfold needs_of.
  rewrite (elem_of_foldl_needed _ needed_frameworks _ _ needed_frameworks_step).
  rewrite (elem_of_foldl_needed _ needed_frameworks _ _ core_frameworks_step).
  simpl. rewrite elem_of_empty. setoid_rewrite elem_of_app. split.
  - intros [[[]|(e & ? & ?)]|(e & ? & ?)]; exists e; tauto.
  - intros (e & [?|?] & ?); [left; right|right]; by exists e.
Qed.

Lemma elem_of_needs_system links_core extension_modules x :
  x ∈ needed_system_libraries (needs_of links_core extension_modules) ↔
  ∃ entry, entry ∈ links_core ++ extension_links extension_modules ∧ ld_name entry = x ∧
    negb (ld_framework entry) && ld_system entry = true.
Proof.
  unfold needs_of.
  rewrite (elem_of_foldl_needed _ needed_system_libraries _ _ needed_system_step).
  rewrite (elem_of_foldl_needed _ needed_system_libraries _ _ core_system_step).
  simpl. rewrite elem_of_empty. setoid_rewrite elem_of_app. split.
  - intros [[[]|(e & ? & ?)]|(e & ? & ?)]; exists e; tauto.
  - intros (e & [?|?] & ?); [left; right|right]; by exists e.
Qed.

(** * The loops with effects *)

(** The core objects that are staged: all but those whose last components
    are [Modules/config.o], in the order of their paths. *)
Definition core_objects (temp_dir_path : string) (dist : PythonDistributionInfo) : list string :=
  path_join temp_dir_path <$>
    filter (λ rel_path, path_ends_with rel_path "Modules/config.o" = false)
      (path_keys (objs_core dist)).

Section linker_lemmas.
Context `{FileSystem F, Process F, Toolchain F}.
Implicit Types (fs : F) (dist : PythonDistributionInfo).

Lemma foldM_link_library target_os dist out_dir libs fs md fs' md' :
  foldM (link_library target_os dist out_dir) (fs, md) libs = Ok (fs', md') →
  md' = md ++ static_lines target_os libs ∧
  Forall (λ library, library ∉ OS_IGNORE_LIBRARIES target_os →
                     is_Some (libraries dist !! library)) libs.
Proof.
  revert fs md. induction libs as [|library libs IH]; intros fs md Hl; cbn [foldM] in Hl.
  - injection Hl as <- <-. split; [by rewrite (right_id_L [] _)|constructor].
  - apply bind_Ok_inv in Hl as ([fs1 md1] & Hstep & Hl). apply IH in Hl as [-> Hall].
    unfold link_library in Hstep. unfold static_lines. rewrite filter_cons.
    case_bool_decide as Hign.
    + injection Hstep as <- <-. rewrite decide_False by (by intros []).
      split; [done|]. by constructor.
    + rewrite decide_True by done.
      apply bind_Ok_inv in Hstep as (fs_path & Hp%expect_Ok & Hstep).
      apply bind_Ok_inv in Hstep as (fs2 & _ & [= <- <-]).
      split; [by rewrite <-(assoc_L (++))|]. constructor; [by rewrite Hp|done].
Qed.

Lemma foldM_stage_core_object temp_dir_path items fs objects fs' objects' :
  foldM (stage_core_object temp_dir_path) (fs, objects) items = Ok (fs', objects') →
  objects' = objects ++
    (path_join temp_dir_path <$>
       filter (λ rel_path, path_ends_with rel_path "Modules/config.o" = false) items.*1).
Proof.
  revert fs objects. induction items as [|[rel_path fs_path] items IH]; intros fs objects Hl;
    cbn [foldM] in Hl.
  - injection Hl as <- <-. by rewrite (right_id_L [] _).
  - apply bind_Ok_inv in Hl as ([fs1 objects1] & Hstep & Hl). apply IH in Hl as ->.
    cbn [fmap list_fmap fst]. rewrite filter_cons. unfold stage_core_object in Hstep.
    destruct (path_ends_with rel_path "Modules/config.o").
    + injection Hstep as <- <-. by rewrite decide_False.
    + rewrite decide_True by done.
      apply bind_Ok_inv in Hstep as (rel_parent & _ & Hstep).
      apply bind_Ok_inv in Hstep as (fs2 & _ & Hstep).
      apply bind_Ok_inv in Hstep as (fs3 & _ & [= <- <-]).
      by rewrite <-(assoc_L (++)).
Qed.

(** What a link that succeeds returns, and what it has called the compiler
    with. *)
Lemma link_libpython_Ok fs target_os dist resources out_dir host target opt_level fs' info :
  link_libpython fs target_os dist resources out_dir host target opt_level = Ok (fs', info) →
  let needed := needs_of (links_core dist) (res_extension_modules resources) in
  li_path info = path_join out_dir "libpythonXY.a" ∧
  li_cargo_metadata info =
    ["cargo:rustc-link-lib=static=pyembeddedconfig"] ++
    static_lines target_os (btree_set_iter (needed_libraries needed)) ++
    framework_lines needed ++ system_library_lines needed ∧
  Forall (λ library, library ∉ OS_IGNORE_LIBRARIES target_os →
                     is_Some (libraries dist !! library))
    (btree_set_iter (needed_libraries needed)) ∧
  ∃ fs0 temp_dir_path,
    cc_compile fs0
      (library_build out_dir host target opt_level
         (core_objects temp_dir_path dist ++
          extension_objects (res_extension_modules resources))) "pythonXY" = Ok fs'.
Proof.
  unfold link_libpython. intros Hl.
  apply bind_Ok_inv in Hl as ([fs1 temp_dir_path] & _ & Hl).
  apply bind_Ok_inv in Hl as (fs2 & _ & Hl).
  apply bind_Ok_inv in Hl as (fs3 & _ & Hl).
  apply bind_Ok_inv in Hl as (fs4 & _ & Hl).
  apply bind_Ok_inv in Hl as ([fs5 objects] & Hobjects%foldM_stage_core_object & Hl).
  rewrite foldl_add_extension in Hl.
  apply bind_Ok_inv in Hl as ([fs6 md] & [-> Hlibs]%foldM_link_library & Hl).
  apply bind_Ok_inv in Hl as (fs7 & Hcc & [= <- <-]).
  simpl. split_and!; [done|by rewrite <-!(assoc_L (++))|done|].
  exists fs6, temp_dir_path. by rewrite Hobjects in Hcc.
Qed.

(** * Properties *)

(** C13. The directives of a link are, in this order: the static library of
    config.c; one static library per needed library that is not on the
    ignore list of the target, in ascending order; the frameworks in
    ascending order; the system libraries in ascending order.  The library
    is [libpythonXY.a] in the output directory. *)
Theorem linker_directives fs target_os dist resources out_dir host target opt_level fs' info :
  link_libpython fs target_os dist resources out_dir host target opt_level = Ok (fs', info) →
  let needed := needs_of (links_core dist) (res_extension_modules resources) in
  li_path info = path_join out_dir "libpythonXY.a" ∧
  li_cargo_metadata info =
    ["cargo:rustc-link-lib=static=pyembeddedconfig"] ++
    static_lines target_os (btree_set_iter (needed_libraries needed)) ++
    framework_lines needed ++ system_library_lines needed.
Proof. intros Hl. destruct (link_libpython_Ok _ _ _ _ _ _ _ _ _ _ Hl) as (? & ? & _). done. Qed.

(** A needed library that is not on the ignore list and that the
    distribution does not hold is fatal: the link does not return. *)
Theorem missing_library_is_fatal fs target_os dist resources out_dir host target opt_level
    library :
  library ∈ needed_libraries (needs_of (links_core dist) (res_extension_modules resources)) →
  library ∉ OS_IGNORE_LIBRARIES target_os →
  libraries dist !! library = None →
  is_ok (link_libpython fs target_os dist resources out_dir host target opt_level) = false.
Proof.
  intros Hin Hign Hnone.
  destruct (link_libpython _ _ _ _ _ _ _ _) as [[fs' info]|] eqn:Hl; [|done].
  destruct (link_libpython_Ok _ _ _ _ _ _ _ _ _ _ Hl) as (_ & _ & Hall & _).
  rewrite Forall_forall in Hall. destruct (Hall library) as [? Hsome]; [|done|congruence].
  by apply elem_of_btree_set_iter.
Qed.

(** C30. The library is compiled from the core objects of the distribution
    except [Modules/config.o], staged in the temporary directory, followed
    by the objects of the staged extensions that are not built in, in
    ascending order of their names. *)
Theorem library_objects fs target_os dist resources out_dir host target opt_level fs' info :
  link_libpython fs target_os dist resources out_dir host target opt_level = Ok (fs', info) →
  ∃ fs0 temp_dir_path,
    cc_compile fs0
      (library_build out_dir host target opt_level
         (core_objects temp_dir_path dist ++
          extension_objects (res_extension_modules resources))) "pythonXY" = Ok fs'.
Proof. intros Hl. by destruct (link_libpython_Ok _ _ _ _ _ _ _ _ _ _ Hl) as (_ & _ & _ & ?). Qed.

End linker_lemmas.

(** C31. A library is needed exactly when a staged extension that is not
    built in links it with a static or a dynamic path, as neither a
    framework nor a system library; the links of the core never make a
    library needed. *)
Theorem needed_libraries_spec links_core extension_modules x :
  x ∈ needed_libraries (needs_of links_core extension_modules) ↔
  ∃ entry, entry ∈ extension_links extension_modules ∧ ld_name entry = x ∧
    is_library_link entry = true.
Proof. apply elem_of_needs_libraries. Qed.

(** The ignore list of the target is consulted for the needed libraries
    only: a system library is emitted even if it is on the list. *)
Theorem system_libraries_not_ignored links_core extension_modules x :
  x ∈ needed_system_libraries (needs_of links_core extension_modules) →
  "cargo:rustc-link-lib=" +:+ x ∈ system_library_lines (needs_of links_core extension_modules).
Proof.
  intros Hx. unfold system_library_lines. apply list_elem_of_fmap. exists x.
  split; [done|]. by apply elem_of_btree_set_iter.
Qed.

Lemma linker_directives_witness :
  ∃ fs' info,
    link_libpython link_world Linux link_dist link_resources "/out" "x86_64-unknown-linux-gnu"
      "x86_64-unknown-linux-gnu" "3" = Ok (fs', info) ∧
    li_path info = "/out/libpythonXY.a" ∧
    li_cargo_metadata info =
      ["cargo:rustc-link-lib=static=pyembeddedconfig"; "cargo:rustc-link-lib=static=ssl";
       "cargo:rustc-link-lib=framework=Security"; "cargo:rustc-link-lib=dl";
       "cargo:rustc-link-lib=m"].
Proof.
  destruct (proj1 (is_ok_true
              (link_libpython link_world Linux link_dist link_resources "/out"
                 "x86_64-unknown-linux-gnu" "x86_64-unknown-linux-gnu" "3")))
    as [[fs' info] Hl]; [vm_compute; reflexivity|].
  exists fs', info. split; [done|].
  destruct (linker_directives _ _ _ _ _ _ _ _ _ _ Hl) as [Hp Hm].
  split; [rewrite Hp|rewrite Hm]; vm_compute; reflexivity.
Defined.

Lemma missing_library_is_fatal_witness :
  is_ok (link_libpython link_world OtherOs
           {| python_exe := python_exe link_dist; os := os link_dist;
              version := version link_dist; py_modules := ∅;
              extension_modules := extension_modules link_dist;
              objs_core := objs_core link_dist; includes := includes link_dist;
              libraries := ∅; links_core := links_core link_dist |}
           link_resources "/out" "host" "target" "3") = false.
Proof.
  apply (missing_library_is_fatal _ _ _ _ _ _ _ _ "ssl"); [|by vm_compute; intros ?%elem_of_nil|done].
  apply elem_of_needs_libraries. exists (static_library "ssl" "/dist/lib/libssl.a").
  split; [|done]. vm_compute. left.
Defined.

Lemma library_objects_witness :
  ∃ fs' info,
    link_libpython link_world Linux link_dist link_resources "/out" "host" "target" "3"
      = Ok (fs', info) ∧
    core_objects "/tmp/libpython.0" link_dist ++
      extension_objects (res_extension_modules link_resources) =
      ["/tmp/libpython.0/Python/ceval.o"; "/dist/build/Modules/_ssl.o"] ∧
    ∃ fs0 temp_dir_path,
      cc_compile fs0
        (library_build "/out" "host" "target" "3"
           (core_objects temp_dir_path link_dist ++
            extension_objects (res_extension_modules link_resources))) "pythonXY" = Ok fs'.
Proof.
  destruct (proj1 (is_ok_true
              (link_libpython link_world Linux link_dist link_resources "/out" "host" "target"
                 "3"))) as [[fs' info] Hl]; [vm_compute; reflexivity|].
  exists fs', info. split; [done|]. split; [vm_compute; reflexivity|].
  by apply (library_objects _ _ _ _ _ _ _ _ _ _ Hl).
Defined.

Lemma system_libraries_not_ignored_witness :
  "cargo:rustc-link-lib=m" ∈ system_library_lines (needs_of (links_core link_dist)
                                                    (res_extension_modules link_resources)).
Proof.
  apply (system_libraries_not_ignored _ _ "m"). apply (bool_decide_unpack _).
  vm_compute. exact I.
Defined.
