(* ===== verification/PyConfig.v ===== *)
(** * Frozen importlib and the runtime configuration

    [derive_importlib] of repackage.rs reads the two bootstrap modules of
    importlib, appends the in-memory importer to the second and compiles
    both; [derive_python_config] renders the runtime configuration as the
    Rust source of a [PythonConfig] literal; [write_data_rs] wraps that
    source in a function and writes it.  The source of the importer
    ([memoryimporter.py], included at compile time) is a parameter. *)

From stdpp Require Import pretty.
From S2P Require Import Prelude BTree RustStd Io Dist Env Scenario.

(** * Frozen importlib *)

Record ImportlibData := {
  bootstrap_source : list byte;
  bootstrap_bytecode : list byte;
  bootstrap_external_source : list byte;
  bootstrap_external_bytecode : list byte
}.

(** The comment that separates [_bootstrap_external.py] from the importer. *)
Definition importlib_marker : string :=
  nl +:+ "# END OF importlib/_bootstrap_external.py" +:+ nl +:+ nl.

(** What is compiled as [_bootstrap_external]: the module of the
    distribution, the marker, the importer. *)
Definition external_source (original PYTHON_IMPORTER : list byte) : list byte :=
  original ++ as_bytes importlib_marker ++ PYTHON_IMPORTER.

Section importlib.
Context `{FileSystem F, BytecodeCompiler}.

Definition derive_importlib (fs : F) (PYTHON_IMPORTER : list byte)
    (dist : PythonDistributionInfo) : result ImportlibData :=
  mod_bootstrap_path ← map_index (py_modules dist) "importlib._bootstrap";
  mod_bootstrap_external_path ← map_index (py_modules dist) "importlib._bootstrap_external";
  bootstrap_source ← expect_ok (read_file fs mod_bootstrap_path)
                       "unable to read bootstrap source";
  let module_name := "<frozen importlib._bootstrap>" in
  bootstrap_bytecode ← expect_ok (compile bootstrap_source module_name 0)
                         "error compiling bytecode";
  bootstrap_external_source ← expect_ok (read_file fs mod_bootstrap_external_path)
                                "unable to read bootstrap_external source";
  let bootstrap_external_source :=
    bootstrap_external_source ++ as_bytes importlib_marker in
  let bootstrap_external_source := bootstrap_external_source ++ PYTHON_IMPORTER in
  let module_name := "<frozen importlib._bootstrap_external>" in
  bootstrap_external_bytecode ← expect_ok (compile bootstrap_external_source module_name 0)
                                  "error compiling bytecode";
  Ok {| bootstrap_source := bootstrap_source;
        bootstrap_bytecode := bootstrap_bytecode;
        bootstrap_external_source := bootstrap_external_source;
        bootstrap_external_bytecode := bootstrap_external_bytecode |}.

End importlib.

(** * The configuration literal *)

(** [Display] of a [bool] and of an [i64]. *)
Definition show_bool (b : bool) : string := if b then "true" else "false".
Definition show_i64 (z : Z) : string := pretty z.

(** [Some("value")] or [None]. *)
Definition encoding_literal (o : option string) : string :=
  match o with
  | Some value => "Some(" +:+ dq +:+ value +:+ dq +:+ ")"
  | None => "None"
  end.

(** ["p".to_string()]. *)
Definition string_literal (p : string) : string := dq +:+ p +:+ dq +:+ ".to_string()".

Definition env_literal (o : option string) : string :=
  match o with
  | Some path => "Some(" +:+ dq +:+ path +:+ dq +:+ ".to_string())"
  | None => "None"
  end.

Definition run_literal (run : RunMode) : string :=
  match run with
  | Repl => "PythonRunMode::Repl"
  | RunModule module =>
      "PythonRunMode::Module { module: " +:+ dq +:+ module +:+ dq +:+ ".to_string() }"
  | Eval code => "PythonRunMode::Eval { code: " +:+ dq +:+ code +:+ dq +:+ ".to_string() }"
  end.

Definition include_literal (path : string) : string :=
  "include_bytes!(" +:+ dq +:+ path +:+ dq +:+ ")".

(** The lines of the literal: the format string has one field per line. *)
Definition python_config_lines (config : Config)
    (importlib_bootstrap_path importlib_bootstrap_external_path py_modules_path
       pyc_modules_path : string) : list string :=
  [ "PythonConfig {";
    "    program_name: " +:+ string_literal (program_name config) +:+ ",";
    "    standard_io_encoding: " +:+ encoding_literal (stdio_encoding_name config) +:+ ",";
    "    standard_io_errors: " +:+ encoding_literal (stdio_encoding_errors config) +:+ ",";
    "    opt_level: " +:+ show_i64 (optimize_level config) +:+ ",";
    "    use_custom_importlib: true,";
    "    filesystem_importer: " +:+ show_bool (filesystem_importer config) +:+ ",";
    "    sys_paths: [" +:+ join ", " (string_literal <$> sys_paths config) +:+ "].to_vec(),";
    "    import_site: " +:+ show_bool (negb (no_site config)) +:+ ",";
    "    import_user_site: " +:+ show_bool (negb (no_user_site_directory config)) +:+ ",";
    "    ignore_python_env: " +:+ show_bool (ignore_environment config) +:+ ",";
    "    dont_write_bytecode: " +:+ show_bool (dont_write_bytecode config) +:+ ",";
    "    unbuffered_stdio: " +:+ show_bool (unbuffered_stdio config) +:+ ",";
    "    frozen_importlib_data: " +:+ include_literal importlib_bootstrap_path +:+ ",";
    "    frozen_importlib_external_data: " +:+
      include_literal importlib_bootstrap_external_path +:+ ",";
    "    py_modules_data: " +:+ include_literal py_modules_path +:+ ",";
    "    pyc_modules_data: " +:+ include_literal pyc_modules_path +:+ ",";
    "    argvb: false,";
    "    rust_allocator_raw: " +:+ show_bool (rust_allocator_raw config) +:+ ",";
    "    write_modules_directory_env: " +:+
      env_literal (write_modules_directory_env config) +:+ ",";
    "    run: " +:+ run_literal (run config) +:+ ",";
    "}" ].

Definition derive_python_config (config : Config)
    (importlib_bootstrap_path importlib_bootstrap_external_path py_modules_path
       pyc_modules_path : string) : string :=
  join nl (python_config_lines config importlib_bootstrap_path
             importlib_bootstrap_external_path py_modules_path pyc_modules_path).

(** The strings of the configuration that the literal holds between
    quotes. *)
Definition run_fields (run : RunMode) : list string :=
  match run with Repl => [] | RunModule module => [module] | Eval code => [code] end.

Definition config_fields (config : Config)
    (importlib_bootstrap_path importlib_bootstrap_external_path py_modules_path
       pyc_modules_path : string) : list string :=
  program_name config ::
  option_list (stdio_encoding_name config) ++ option_list (stdio_encoding_errors config) ++
  sys_paths config ++
  [importlib_bootstrap_path; importlib_bootstrap_external_path; py_modules_path;
   pyc_modules_path] ++
  option_list (write_modules_directory_env config) ++ run_fields (run config).

(** The configuration with other search paths. *)
Definition with_sys_paths (config : Config) (paths : list string) : Config :=
  {| program_name := program_name config;
     python_distribution_path := python_distribution_path config;
     stdio_encoding_name := stdio_encoding_name config;
     stdio_encoding_errors := stdio_encoding_errors config;
     optimize_level := optimize_level config;
     filesystem_importer := filesystem_importer config;
     sys_paths := paths;
     no_site := no_site config;
     no_user_site_directory := no_user_site_directory config;
     ignore_environment := ignore_environment config;
     dont_write_bytecode := dont_write_bytecode config;
     unbuffered_stdio := unbuffered_stdio config;
     rust_allocator_raw := rust_allocator_raw config;
     write_modules_directory_env := write_modules_directory_env config;
     run := run config;
     python_packaging := python_packaging config |}.

(** * data.rs *)

(** Every line of the literal, indented by four spaces. *)
Definition indented (python_config_rs : string) : string :=
  join nl ((λ line, "    " +:+ line) <$> split_char LF python_config_rs).

Definition data_rs_header : string :=
  "use super::config::{PythonConfig, PythonRunMode};" +:+ nl +:+ nl.

Definition data_rs_function (python_config_rs : string) : string :=
  "pub fn default_python_config() -> PythonConfig {" +:+ nl +:+
  indented python_config_rs +:+ nl +:+ "}" +:+ nl.

Section data_rs.
Context `{FileSystem F}.

Definition write_data_rs (fs : F) (path python_config_rs : string) : result F :=
  f ← expect_ok (file_create fs path) unwrap_message;
  f ← expect_ok (write_all f (as_bytes data_rs_header)) unwrap_message;
  f ← expect_ok (write_all f (as_bytes (data_rs_function python_config_rs))) unwrap_message;
  Ok (file_fs f).

End data_rs.

(** The lines of [data.rs]: the import, an empty line, the function around
    the indented lines of the literal; the file ends with a line feed. *)
Definition data_rs_lines (python_config_rs : string) : list string :=
  ["use super::config::{PythonConfig, PythonRunMode};"; "";
   "pub fn default_python_config() -> PythonConfig {"] ++
  ((λ line, "    " +:+ line) <$> split_char LF python_config_rs) ++ ["}"; ""].

(** What the frozen data is made from: the two modules of the distribution
    as they are on disk, the second extended by the marker and the importer,
    each compiled under its frozen name at optimisation level 0. *)
Definition frozen_from `{FileSystem F, BytecodeCompiler} (fs : F) (importer : list byte)
    (dist : PythonDistributionInfo) (d : ImportlibData) : Prop :=
  ∃ p1 p2 original,
    py_modules dist !! "importlib._bootstrap" = Some p1 ∧
    py_modules dist !! "importlib._bootstrap_external" = Some p2 ∧
    read_file fs p1 = Ok (bootstrap_source d) ∧
    read_file fs p2 = Ok original ∧
    bootstrap_external_source d = external_source original importer ∧
    compile (bootstrap_source d) "<frozen importlib._bootstrap>" 0 =
      Ok (bootstrap_bytecode d) ∧
    compile (bootstrap_external_source d) "<frozen importlib._bootstrap_external>" 0 =
      Ok (bootstrap_external_bytecode d).

(** * Frozen importlib: what is read and what is compiled *)

Section importlib_lemmas.
Context `{FileSystem F, BytecodeCompiler}.
Implicit Types (fs : F) (dist : PythonDistributionInfo) (d : ImportlibData).

Lemma derive_importlib_Ok fs importer dist d :
  derive_importlib fs importer dist = Ok d ↔ frozen_from fs importer dist d.
Proof.
  unfold frozen_from, derive_importlib, map_index, external_source. split.
  - intros Hd. result_cases.
    cbn [bootstrap_source bootstrap_bytecode bootstrap_external_source
         bootstrap_external_bytecode].
    eexists _, _, _. split_and!; try eassumption. by rewrite <-(assoc_L (++)).
  - intros (p1 & p2 & original & -> & -> & Hs & Ho & He & Hb & Hbe).
    cbn [expect mbind result_bind]. rewrite Hs. cbn [expect_ok mbind result_bind]. rewrite Hb.
    cbn [expect_ok mbind result_bind]. rewrite Ho. cbn [expect_ok mbind result_bind].
    rewrite <-(assoc_L (++)), <-He, Hbe. cbn [expect_ok mbind result_bind]. by destruct d.
Qed.

Lemma derive_importlib_Err fs importer dist e :
  derive_importlib fs importer dist = Err e →
  e ∈ [Panic "no entry found for key"; Panic "unable to read bootstrap source";
       Panic "error compiling bytecode"; Panic "unable to read bootstrap_external source"].
Proof.
  unfold derive_importlib, map_index. intros Hd.
  repeat (apply bind_Err_inv in Hd as [Hd|(? & _ & Hd)]);
    first [apply expect_Err in Hd as [_ ->]|apply expect_ok_Err in Hd as [_ ->]|done];
    rewrite !elem_of_cons; auto 6.
Qed.

End importlib_lemmas.

(** * The configuration literal: one field per line *)

Lemma pretty_N_char_has c n : string_has c "0123456789" = false → pretty_N_char n ≠ c.
Proof.
  intros Hc <-. unfold pretty_N_char in Hc.
  repeat case_match; vm_compute in Hc; discriminate Hc.
Qed.

Lemma string_has_pretty_N_go c n s :
  string_has c "0123456789" = false →
  string_has c (pretty_N_go n s) = string_has c s.
Proof.
  intros Hc. revert s. induction (N.lt_wf_0 n) as [n _ IH]; intros s.
  destruct (decide (n = 0)%N) as [->|Hn]; [by rewrite pretty_N_go_0|].
  rewrite pretty_N_go_step by lia. rewrite IH by (apply N.div_lt; lia).
  cbn [string_has]. by rewrite bool_decide_eq_false_2 by by apply pretty_N_char_has.
Qed.

(** The rendering of an integer holds a sign and digits only. *)
Lemma string_has_show_i64 c z :
  string_has c "-0123456789" = false → string_has c (show_i64 z) = false.
Proof.
  change (string_has c "-0123456789")
    with (bool_decide ("-"%char = c) || string_has c "0123456789").
  intros [Hm Hc]%orb_false_iff.
  assert (∀ n : N, string_has c (pretty n) = false) as Hn.
  { intros n. unfold pretty, pretty_N. destruct (decide (n = 0%N)).
    - cbn [string_has] in *. apply orb_false_iff in Hc as [Hz _]. by rewrite Hz.
    - by rewrite string_has_pretty_N_go. }
  unfold show_i64, pretty, pretty_Z.
  destruct z; [apply (Hn 0%N)|apply Hn|].
  rewrite string_has_app. apply orb_false_iff. split; [|apply Hn].
  cbn [string_has]. by rewrite Hm.
Qed.

Section single_line.
Implicit Types (s : string) (o : option string).

(** A string without a line feed. *)
#[local] Abbreviation one_line s := (string_has LF s = false).

Lemma show_bool_one_line b : one_line (show_bool b).
Proof. by destruct b. Qed.

Lemma show_i64_one_line z : one_line (show_i64 z).
Proof. by apply string_has_show_i64. Qed.

Lemma string_literal_one_line s : one_line s → one_line (string_literal s).
Proof. intros Hs. unfold string_literal. by rewrite !string_has_app, Hs. Qed.

Lemma include_literal_one_line s : one_line s → one_line (include_literal s).
Proof. intros Hs. unfold include_literal. by rewrite !string_has_app, Hs. Qed.

Lemma encoding_literal_one_line o :
  Forall (λ s, one_line s) (option_list o) → one_line (encoding_literal o).
Proof.
  destruct o as [s|]; [|done]. intros [Hs _]%Forall_cons.
  unfold encoding_literal. by rewrite !string_has_app, Hs.
Qed.

Lemma env_literal_one_line o :
  Forall (λ s, one_line s) (option_list o) → one_line (env_literal o).
Proof.
  destruct o as [s|]; [|done]. intros [Hs _]%Forall_cons.
  unfold env_literal. by rewrite !string_has_app, Hs.
Qed.

Lemma run_literal_one_line run :
  Forall (λ s, one_line s) (run_fields run) → one_line (run_literal run).
Proof.
  destruct run as [|s|s]; [done|..]; intros [Hs _]%Forall_cons;
    unfold run_literal; by rewrite !string_has_app, Hs.
Qed.

Lemma sys_paths_one_line paths :
  Forall (λ s, one_line s) paths → one_line (join ", " (string_literal <$> paths)).
Proof.
  intros Hp. apply string_has_join; [done|]. apply Forall_fmap.
  eapply Forall_impl; [done|]. intros s. apply string_literal_one_line.
Qed.

Lemma python_config_lines_one_line config p1 p2 p3 p4 :
  Forall (λ s, one_line s) (config_fields config p1 p2 p3 p4) →
  Forall (λ s, one_line s) (python_config_lines config p1 p2 p3 p4).
Proof.
  unfold config_fields. rewrite Forall_cons, !Forall_app, !Forall_cons.
  intros (Hprog & Henc & Herr & Hsys & (H1 & H2 & H3 & H4 & _) & Henv & Hrun).
  repeat constructor;
    rewrite ?string_has_app, ?show_bool_one_line, ?show_i64_one_line,
      ?string_literal_one_line, ?include_literal_one_line, ?encoding_literal_one_line,
      ?env_literal_one_line, ?run_literal_one_line, ?sys_paths_one_line by done;
    done.
Qed.

End single_line.

(** * data.rs: the lines and the file *)

Lemma indented_pieces s :
  Forall (λ l, string_has LF l = false) ((λ line, "    " +:+ line) <$> split_char LF s).
Proof.
  apply Forall_fmap. eapply Forall_impl; [apply split_char_pieces|].
  intros l Hl. simpl. by rewrite string_has_app, Hl.
Qed.

Lemma indented_nonempty s : (λ line, "    " +:+ line) <$> split_char LF s ≠ [].
Proof. pose proof (split_char_nonempty LF s). by destruct (split_char LF s). Qed.

Lemma split_char_indented s :
  split_char LF (indented s) = (λ line, "    " +:+ line) <$> split_char LF s.
Proof. apply (split_char_join LF); [apply indented_nonempty|apply indented_pieces]. Qed.

Lemma split_char_data_rs s :
  split_char LF (data_rs_header +:+ data_rs_function s) = data_rs_lines s.
Proof.
  unfold data_rs_header, data_rs_function, data_rs_lines, nl.
  rewrite !string_app_assoc, !string_app_singleton.
  rewrite split_char_app by done. cbn [app]. f_equal.
  cbn [split_char]. rewrite decide_True by done. f_equal.
  rewrite split_char_app by done. f_equal.
  unfold indented.
  by rewrite split_char_join_app; [|apply indented_nonempty|apply indented_pieces].
Qed.

Section data_rs_lemmas.
Context `{FileSystemLaws F}.
Implicit Types (fs : F).

Lemma write_data_rs_Ok fs path python_config_rs fs' :
  write_data_rs fs path python_config_rs = Ok fs' →
  read_file fs' path = Ok (as_bytes (data_rs_header +:+ data_rs_function python_config_rs)) ∧
  ∀ q, path ≠ q → read_file fs' q = read_file fs q.
Proof.
  unfold write_data_rs. intros Hw.
  apply bind_Ok_inv in Hw as (fh & Hc%expect_ok_Ok & Hw).
  apply bind_Ok_inv in Hw as (fh1 & H1%expect_ok_Ok & Hw).
  apply bind_Ok_inv in Hw as (fh2 & H2%expect_ok_Ok & [= <-]).
  rewrite as_bytes_app.
  exact (created_file _ _ _ fh2 _ Hc (λ Hf, file_write_twice_frame _ _ _ _ _ _ _ Hf H1 H2)).
Qed.

Lemma write_data_rs_Err fs path python_config_rs e :
  write_data_rs fs path python_config_rs = Err e → e = Panic unwrap_message.
Proof.
  unfold write_data_rs. intros Hw.
  repeat (apply bind_Err_inv in Hw as [Hw|(? & _ & Hw)]);
    by first [apply expect_ok_Err in Hw as [_ ->]|discriminate Hw].
Qed.

End data_rs_lemmas.

(** * Properties *)

Section properties.
Context `{FileSystemLaws F, BytecodeCompiler}.
Implicit Types (fs : F) (dist : PythonDistributionInfo) (d : ImportlibData).

(** C29. The data that [derive_importlib] returns is made from the two
    importlib modules of the distribution: [_bootstrap] as it is on disk,
    [_bootstrap_external] followed by the marker comment and the source of
    the importer, each compiled under its frozen name at level 0. *)
Theorem frozen_importlib_contents fs importer dist d :
  derive_importlib fs importer dist = Ok d → frozen_from fs importer dist d.
Proof. apply derive_importlib_Ok. Qed.

(** [derive_importlib] fails by a panic only, with one of four
    messages: a module of importlib is missing from the distribution, one
    of the two files cannot be read, or a compilation fails. *)
Theorem frozen_importlib_panics fs importer dist e :
  derive_importlib fs importer dist = Err e →
  e ∈ [Panic "no entry found for key"; Panic "unable to read bootstrap source";
       Panic "error compiling bytecode"; Panic "unable to read bootstrap_external source"].
Proof. apply derive_importlib_Err. Qed.

(** After [write_data_rs] the file holds the import line, an empty
    line and the function around the indented literal; no other file
    changes. *)
Theorem write_data_rs_file fs path python_config_rs fs' :
  write_data_rs fs path python_config_rs = Ok fs' →
  read_file fs' path = Ok (as_bytes (data_rs_header +:+ data_rs_function python_config_rs)) ∧
  ∀ q, path ≠ q → read_file fs' q = read_file fs q.
Proof. apply write_data_rs_Ok. Qed.

End properties.

(** When no string of the configuration and no path holds a line feed,
    the literal has one field per line: splitting it at the line feeds gives
    the opening line, the twenty fields in the order of the format string,
    and the closing brace. *)
Theorem python_config_one_field_per_line config p1 p2 p3 p4 :
  Forall (λ s, string_has LF s = false) (config_fields config p1 p2 p3 p4) →
  split_char LF (derive_python_config config p1 p2 p3 p4) =
    python_config_lines config p1 p2 p3 p4.
Proof.
  intros Hf. apply (split_char_join LF); [done|].
  by apply python_config_lines_one_line.
Qed.

(** C40. The strings of the configuration are put between quotes as they
    are: a search path that holds a quote renders as the two search paths
    it spells. *)
Theorem sys_paths_not_escaped config p1 p2 p3 p4 a b :
  derive_python_config
    (with_sys_paths config [a +:+ dq +:+ ".to_string(), " +:+ dq +:+ b]) p1 p2 p3 p4 =
  derive_python_config (with_sys_paths config [a; b]) p1 p2 p3 p4.
Proof.
  unfold derive_python_config, python_config_lines, with_sys_paths, string_literal.
  cbn [sys_paths fmap list_fmap]. rewrite join_cons. cbn [join String.concat].
  do 8 f_equal. by rewrite !string_app_assoc.
Qed.

(** The text of [data.rs] has these lines: the import, an empty line,
    the head of the function, every line of the literal behind four spaces,
    the closing brace, and nothing after the last line feed. *)
Theorem data_rs_layout python_config_rs :
  split_char LF (data_rs_header +:+ data_rs_function python_config_rs) =
    data_rs_lines python_config_rs.
Proof. apply split_char_data_rs. Qed.

(** * The scenarios, evaluated *)

Section scenarios.
#[local] Existing Instance scenario_compiler.

Lemma frozen_importlib_contents_witness :
  ∃ d, derive_importlib importlib_world (as_bytes "class MemoryImporter: pass")
         importlib_dist = Ok d ∧
    frozen_from importlib_world (as_bytes "class MemoryImporter: pass") importlib_dist d.
Proof.
  eexists. split; [vm_compute; reflexivity|].
  apply (frozen_importlib_contents importlib_world (as_bytes "class MemoryImporter: pass")
           importlib_dist).
  vm_compute. reflexivity.
Defined.

Lemma frozen_importlib_panics_witness :
  derive_importlib link_world [] link_dist = Err (Panic "no entry found for key") ∧
  Panic "no entry found for key" ∈
    [Panic "no entry found for key"; Panic "unable to read bootstrap source";
     Panic "error compiling bytecode"; Panic "unable to read bootstrap_external source"].
Proof.
  split; [vm_compute; reflexivity|].
  apply (frozen_importlib_panics link_world [] link_dist). vm_compute. reflexivity.
Defined.

Lemma write_data_rs_file_witness :
  ∃ fs', write_data_rs importlib_world "/out/data.rs" "PythonConfig {}" = Ok fs' ∧
    read_file fs' "/out/data.rs" =
      Ok (as_bytes (data_rs_header +:+ data_rs_function "PythonConfig {}")) ∧
    ∀ q, "/out/data.rs" ≠ q → read_file fs' q = read_file importlib_world q.
Proof.
  eexists. split; [vm_compute; reflexivity|].
  apply (write_data_rs_file importlib_world "/out/data.rs" "PythonConfig {}").
  vm_compute. reflexivity.
Defined.

Lemma python_config_one_field_per_line_witness :
  split_char LF (derive_python_config run_config "/out/importlib_bootstrap"
                   "/out/importlib_bootstrap_external" "/out/py-modules" "/out/pyc-modules") =
    python_config_lines run_config "/out/importlib_bootstrap"
      "/out/importlib_bootstrap_external" "/out/py-modules" "/out/pyc-modules".
Proof.
  apply (python_config_one_field_per_line run_config "/out/importlib_bootstrap"
           "/out/importlib_bootstrap_external" "/out/py-modules" "/out/pyc-modules").
  apply (bool_decide_unpack _). vm_compute. exact I.
Defined.

End scenarios.
