(* ===== verification/Orchestrator.v ===== *)
(** * The orchestrator

    [process_config] of repackage.rs reads the configuration, obtains and
    analyses the distribution, and runs the components in order: frozen
    importlib, resolution and reduction, the three blob files, the link, the
    runtime configuration.  [process_config_and_copy_artifacts] runs it in a
    build directory and copies five artifacts to an output directory;
    [find_pyoxidizer_config_file] searches the ancestors of a directory;
    [run_from_build] is the entry point of a build script: what it prints
    for cargo is its result.  The parsers of the configuration and of the
    distribution are the interface [Frontend]; the environment variables are
    a map.  Of what is printed, only the lines meant for cargo are
    modelled. *)

From S2P Require Import Prelude BTree RustStd RustText Io Dist Env Scenario Resolver Reducer.
From S2P Require Import ConfigC Resources Linker PyConfig.

Record EmbeddedPythonConfig := {
  epc_config : Config;
  epc_python_distribution_path : string;
  epc_importlib_bootstrap_path : string;
  epc_importlib_bootstrap_external_path : string;
  epc_module_names_path : string;
  epc_py_modules_path : string;
  epc_pyc_modules_path : string;
  epc_libpython_path : string;
  epc_cargo_metadata : list string;
  epc_python_config_rs : string
}.

(** The functions of config.rs and dist.rs that the orchestrator calls, and
    the two queries of the file system that it makes. *)
Class Frontend (F : Type) := {
  (** [parse_config(&config_data)]. *)
  parse_config : list byte → result Config;
  (** [resolve_python_distribution_archive(&config, &out_dir)]: the path of
      the archive, which it may have to fetch. *)
  resolve_python_distribution_archive : F → Config → string → result (F * string);
  (** [analyze_python_distribution_tar_zst(cursor)]: unpacks the archive and
      describes what it holds. *)
  analyze_python_distribution_tar_zst : F → list byte → result (F * PythonDistributionInfo);
  (** [Path::exists]. *)
  path_exists : F → string → bool;
  (** [std::fs::canonicalize]. *)
  canonicalize : F → string → result string
}.
#[global] Hint Mode Frontend ! : typeclass_instances.

(** [env::var(name)] on the variables of the process.  [env::var] gives an
    error for a variable that is not set and for one whose value is not
    Unicode: [env] holds the variables that it can read. *)
Definition env_var (env : gmap string string) (name : string) : option string := env !! name.

(** [format!("cargo:rerun-if-changed={}", path)]. *)
Definition rerun_if_changed (path : string) : string := "cargo:rerun-if-changed=" +:+ path.

(** The host triple that [process_config_and_copy_artifacts] assumes. *)
Definition host_triple (target_os : TargetOs) : result string :=
  match target_os with
  | Linux => Ok "x86_64-unknown-linux-gnu"
  | Windows => Ok "x86_64-pc-windows-msvc"
  | Macos => Ok "x86_64-apple-darwin"
  | OtherOs => Err (Panic "unable to resolve target for current binary (this is a known issue)")
  end.

Section orchestrator.
Context `{FileSystem F, Scanner F, Process F, Glob F, BytecodeCompiler, Toolchain F, Frontend F}.

(** [File::create(path).unwrap()] followed by [write_all(data).unwrap()]. *)
Definition create_and_write (fs : F) (path : string) (data : list byte) : result F :=
  fh ← expect_ok (file_create fs path) unwrap_message;
  fh ← expect_ok (write_all fh data) unwrap_message;
  Ok (file_fs fh).

(** [File::open(path).unwrap()] followed by [read_to_end(..).unwrap()]. *)
Definition open_and_read (fs : F) (path : string) : result (list byte) :=
  expect_ok (read_file fs path) unwrap_message.

(** [path.metadata().unwrap().len()]. *)
Definition metadata_len (fs : F) (path : string) : result nat :=
  length <$> expect_ok (read_file fs path) unwrap_message.

Definition process_config (fs : F) (target_os : TargetOs) (PYTHON_IMPORTER : list byte)
    (config_path out_dir host target opt_level : string) :
    result (F * EmbeddedPythonConfig) :=
  let cargo_metadata := [] in
  config_data ← open_and_read fs config_path;
  config ← parse_config (F := F) config_data;
  let cargo_metadata :=
    match python_distribution_path config with
    | Some path => cargo_metadata ++ [rerun_if_changed path]
    | None => cargo_metadata
    end in
  '(fs, python_distribution_path) ← resolve_python_distribution_archive fs config out_dir;
  python_distribution_data ← open_and_read fs python_distribution_path;
  '(fs, dist) ← expect_ok (analyze_python_distribution_tar_zst fs python_distribution_data)
                  unwrap_message;
  importlib ← derive_importlib fs PYTHON_IMPORTER dist;
  let importlib_bootstrap_path := path_join out_dir "importlib_bootstrap" in
  fs ← create_and_write fs importlib_bootstrap_path (bootstrap_bytecode importlib);
  let importlib_bootstrap_external_path := path_join out_dir "importlib_bootstrap_external" in
  fs ← create_and_write fs importlib_bootstrap_external_path
         (bootstrap_external_bytecode importlib);
  resources ← resolve_python_resources fs target_os config dist;
  let module_names_path := path_join out_dir "py-module-names" in
  let py_modules_path := path_join out_dir "py-modules" in
  let pyc_modules_path := path_join out_dir "pyc-modules" in
  fs ← write_blobs fs resources module_names_path py_modules_path pyc_modules_path;
  _ ← metadata_len fs py_modules_path;
  _ ← metadata_len fs pyc_modules_path;
  '(fs, libpython_info) ← link_libpython fs target_os dist resources out_dir host target
                            opt_level;
  let cargo_metadata := cargo_metadata ++ li_cargo_metadata libpython_info in
  let cargo_metadata := cargo_metadata ++ (rerun_if_changed <$> read_files resources) in
  let python_config_rs :=
    derive_python_config config importlib_bootstrap_path importlib_bootstrap_external_path
      py_modules_path pyc_modules_path in
  let dest_path := path_join out_dir "data.rs" in
  fs ← write_data_rs fs dest_path python_config_rs;
  Ok (fs, {| epc_config := config;
             epc_python_distribution_path := python_distribution_path;
             epc_importlib_bootstrap_path := importlib_bootstrap_path;
             epc_importlib_bootstrap_external_path := importlib_bootstrap_external_path;
             epc_module_names_path := module_names_path;
             epc_py_modules_path := py_modules_path;
             epc_pyc_modules_path := pyc_modules_path;
             epc_libpython_path := li_path libpython_info;
             epc_cargo_metadata := cargo_metadata;
             epc_python_config_rs := python_config_rs |}).

(** [fs::copy(from, to).expect("error copying file")]. *)
Definition copy_artifact (fs : F) (from to : string) : result F :=
  expect_ok (fs_copy fs from to) "error copying file".

Definition process_config_and_copy_artifacts (fs : F) (target_os : TargetOs)
    (PYTHON_IMPORTER : list byte) (config_path build_dir out_dir : string) :
    result (F * EmbeddedPythonConfig) :=
  host ← host_triple target_os;
  let target := host in
  let opt_level := "0" in
  fs ← expect_ok (create_dir_all fs build_dir) "unable to create build directory";
  build_dir ← expect_ok (canonicalize fs build_dir) "unable to canonicalize build_dir";
  fs ← expect_ok (create_dir_all fs out_dir) "unable to create output directory";
  let orig_out_dir := out_dir in
  out_dir ← expect_ok (canonicalize fs out_dir) "unable to canonicalize out_dir";
  '(fs, embedded_config) ← process_config fs target_os PYTHON_IMPORTER config_path build_dir
                             host target opt_level;
  let importlib_bootstrap_path := path_join out_dir "importlib_bootstrap" in
  let importlib_bootstrap_external_path := path_join out_dir "importlib_bootstrap_external" in
  let py_modules_path := path_join out_dir "py-modules" in
  let pyc_modules_path := path_join out_dir "pyc-modules" in
  let libpython_path := path_join out_dir "libpythonXY.a" in
  fs ← copy_artifact fs (epc_importlib_bootstrap_path embedded_config) importlib_bootstrap_path;
  fs ← copy_artifact fs (epc_importlib_bootstrap_external_path embedded_config)
         importlib_bootstrap_external_path;
  fs ← copy_artifact fs (epc_py_modules_path embedded_config) py_modules_path;
  fs ← copy_artifact fs (epc_pyc_modules_path embedded_config) pyc_modules_path;
  fs ← copy_artifact fs (epc_libpython_path embedded_config) libpython_path;
  let python_config_rs :=
    derive_python_config (epc_config embedded_config)
      (path_join orig_out_dir "importlib_bootstrap")
      (path_join orig_out_dir "importlib_bootstrap_external")
      (path_join orig_out_dir "py-modules")
      (path_join orig_out_dir "pyc-modules") in
  Ok (fs, {| epc_config := epc_config embedded_config;
             epc_python_distribution_path := epc_python_distribution_path embedded_config;
             epc_importlib_bootstrap_path := importlib_bootstrap_path;
             epc_importlib_bootstrap_external_path := importlib_bootstrap_external_path;
             epc_module_names_path := epc_module_names_path embedded_config;
             epc_py_modules_path := py_modules_path;
             epc_pyc_modules_path := pyc_modules_path;
             epc_libpython_path := libpython_path;
             epc_cargo_metadata := epc_cargo_metadata embedded_config;
             epc_python_config_rs := python_config_rs |}).

(** The loop of [find_pyoxidizer_config_file]: the first directory whose
    candidate exists. *)
Fixpoint first_candidate (fs : F) (basename : string) (dirs : list string) : option string :=
  match dirs with
  | [] => None
  | test_dir :: dirs =>
      let candidate := path_join test_dir basename in
      if path_exists fs candidate then Some candidate
      else first_candidate fs basename dirs
  end.

Definition find_pyoxidizer_config_file (fs : F) (start_dir target : string) : option string :=
  let basename := "pyoxidizer." +:+ target +:+ ".toml" in
  first_candidate fs basename (path_ancestors start_dir).

(** The part of [run_from_build] between its first two lines and the test
    that the configuration exists: the three variables and the path of the
    configuration. *)
Definition build_inputs (fs : F) (env : gmap string string) :
    result (string * string * string * string) :=
  host ← expect (env_var env "HOST") "HOST not defined";
  target ← expect (env_var env "TARGET") "TARGET not defined";
  opt_level ← expect (env_var env "OPT_LEVEL") "OPT_LEVEL not defined";
  config_path ←
    match env_var env "PYOXIDIZER_CONFIG" with
    | Some config_env => Ok config_env
    | None =>
        manifest_dir ← expect (env_var env "CARGO_MANIFEST_DIR") "CARGO_MANIFEST_DIR not found";
        expect (find_pyoxidizer_config_file fs manifest_dir target)
          "Could not find PyOxidizer config file"
    end;
  Ok (host, target, opt_level, config_path).

(** [run_from_build]: the lines printed for cargo, and how the run ends.
    The lines printed before a panic stay printed. *)
Definition run_from_build (fs : F) (env : gmap string string) (target_os : TargetOs)
    (PYTHON_IMPORTER : list byte) (build_script : string) : list string * result F :=
  let printed := [rerun_if_changed build_script; "cargo:rerun-if-env-changed=PYOXIDIZER_CONFIG"] in
  match build_inputs fs env with
  | Err e => (printed, Err e)
  | Ok (host, target, opt_level, config_path) =>
      if negb (path_exists fs config_path) then
        (printed, Err (Panic "PyOxidizer config file does not exist"))
      else
        match expect (path_to_str config_path) "could not convert path to str" with
        | Err e => (printed, Err e)
        | Ok config_path_str =>
            let printed := printed ++ [rerun_if_changed config_path_str] in
            match
              out_dir ← expect (env_var env "OUT_DIR") unwrap_message;
              process_config fs target_os PYTHON_IMPORTER config_path out_dir host target
                             opt_level
            with
            | Err e => (printed, Err e)
            | Ok (fs, embedded_config) => (printed ++ epc_cargo_metadata embedded_config, Ok fs)
            end
        end
  end.

End orchestrator.

(** * A run, step by step *)

(** The directives that [process_config] collects. *)
Definition cargo_metadata_of (config : Config) (libpython_info : LibpythonInfo)
    (resources : PythonResources) : list string :=
  (rerun_if_changed <$> option_list (python_distribution_path config)) ++
  li_cargo_metadata libpython_info ++ (rerun_if_changed <$> read_files resources).

(** What [process_config] returns, from what its steps returned. *)
Definition embedded_config_of (config : Config) (out_dir python_distribution_path : string)
    (libpython_info : LibpythonInfo) (resources : PythonResources) : EmbeddedPythonConfig :=
  {| epc_config := config;
     epc_python_distribution_path := python_distribution_path;
     epc_importlib_bootstrap_path := path_join out_dir "importlib_bootstrap";
     epc_importlib_bootstrap_external_path := path_join out_dir "importlib_bootstrap_external";
     epc_module_names_path := path_join out_dir "py-module-names";
     epc_py_modules_path := path_join out_dir "py-modules";
     epc_pyc_modules_path := path_join out_dir "pyc-modules";
     epc_libpython_path := li_path libpython_info;
     epc_cargo_metadata := cargo_metadata_of config libpython_info resources;
     epc_python_config_rs :=
       derive_python_config config (path_join out_dir "importlib_bootstrap")
         (path_join out_dir "importlib_bootstrap_external") (path_join out_dir "py-modules")
         (path_join out_dir "pyc-modules") |}.

(** The values that the steps of a run hand to each other: the parsed
    configuration, the archive and the file system once it is there, the
    distribution and the file system once it is unpacked, and so on. *)
Record Trace (F : Type) := {
  t_config : Config;
  t_distribution_path : string;
  t_archive : F;
  t_unpacked : F;
  t_dist : PythonDistributionInfo;
  t_importlib : ImportlibData;
  t_frozen : F;
  t_resources : PythonResources;
  t_blobs : F;
  t_linked : F;
  t_info : LibpythonInfo
}.
Arguments t_config {F} _.
Arguments t_distribution_path {F} _.
Arguments t_archive {F} _.
Arguments t_unpacked {F} _.
Arguments t_dist {F} _.
Arguments t_importlib {F} _.
Arguments t_frozen {F} _.
Arguments t_resources {F} _.
Arguments t_blobs {F} _.
Arguments t_linked {F} _.
Arguments t_info {F} _.

Section pipeline.
Context `{FileSystem F, Scanner F, Process F, Glob F, BytecodeCompiler, Toolchain F, Frontend F}.

(** The steps of [process_config] in their order, each on the file system
    that the step before left. *)
Definition pipeline (fs : F) (target_os : TargetOs) (importer : list byte)
    (config_path out_dir host target opt_level : string) (t : Trace F) (fs' : F)
    (ec : EmbeddedPythonConfig) : Prop :=
  ∃ config_data python_distribution_data fs_bootstrap,
    read_file fs config_path = Ok config_data ∧
    parse_config (F := F) config_data = Ok (t_config t) ∧
    resolve_python_distribution_archive fs (t_config t) out_dir =
      Ok (t_archive t, t_distribution_path t) ∧
    read_file (t_archive t) (t_distribution_path t) = Ok python_distribution_data ∧
    analyze_python_distribution_tar_zst (t_archive t) python_distribution_data =
      Ok (t_unpacked t, t_dist t) ∧
    derive_importlib (t_unpacked t) importer (t_dist t) = Ok (t_importlib t) ∧
    create_and_write (t_unpacked t) (path_join out_dir "importlib_bootstrap")
      (bootstrap_bytecode (t_importlib t)) = Ok fs_bootstrap ∧
    create_and_write fs_bootstrap (path_join out_dir "importlib_bootstrap_external")
      (bootstrap_external_bytecode (t_importlib t)) = Ok (t_frozen t) ∧
    resolve_python_resources (t_frozen t) target_os (t_config t) (t_dist t) =
      Ok (t_resources t) ∧
    write_blobs (t_frozen t) (t_resources t) (path_join out_dir "py-module-names")
      (path_join out_dir "py-modules") (path_join out_dir "pyc-modules") = Ok (t_blobs t) ∧
    is_ok (read_file (t_blobs t) (path_join out_dir "py-modules")) = true ∧
    is_ok (read_file (t_blobs t) (path_join out_dir "pyc-modules")) = true ∧
    link_libpython (t_blobs t) target_os (t_dist t) (t_resources t) out_dir host target
      opt_level = Ok (t_linked t, t_info t) ∧
    ec = embedded_config_of (t_config t) out_dir (t_distribution_path t) (t_info t)
           (t_resources t) ∧
    write_data_rs (t_linked t) (path_join out_dir "data.rs") (epc_python_config_rs ec) = Ok fs'.

End pipeline.

(** * The copies, as a loop *)

(** The artifacts that are copied, under a directory. *)
Definition artifact_names : list string :=
  ["importlib_bootstrap"; "importlib_bootstrap_external"; "py-modules"; "pyc-modules";
   "libpythonXY.a"].

(** Where [process_config] left them. *)
Definition artifact_sources (embedded_config : EmbeddedPythonConfig) : list string :=
  [epc_importlib_bootstrap_path embedded_config;
   epc_importlib_bootstrap_external_path embedded_config;
   epc_py_modules_path embedded_config; epc_pyc_modules_path embedded_config;
   epc_libpython_path embedded_config].

Definition copy_artifacts `{FileSystem F} (fs : F) (pairs : list (string * string)) : result F :=
  foldM (λ fs '(from, to), copy_artifact fs from to) fs pairs.

(** What [process_config_and_copy_artifacts] returns, from what
    [process_config] returned, the output directory as it was given and its
    canonical form. *)
Definition copied_config_of (embedded_config : EmbeddedPythonConfig)
    (orig_out_dir out_dir : string) : EmbeddedPythonConfig :=
  {| epc_config := epc_config embedded_config;
     epc_python_distribution_path := epc_python_distribution_path embedded_config;
     epc_importlib_bootstrap_path := path_join out_dir "importlib_bootstrap";
     epc_importlib_bootstrap_external_path := path_join out_dir "importlib_bootstrap_external";
     epc_module_names_path := epc_module_names_path embedded_config;
     epc_py_modules_path := path_join out_dir "py-modules";
     epc_pyc_modules_path := path_join out_dir "pyc-modules";
     epc_libpython_path := path_join out_dir "libpythonXY.a";
     epc_cargo_metadata := epc_cargo_metadata embedded_config;
     epc_python_config_rs :=
       derive_python_config (epc_config embedded_config)
         (path_join orig_out_dir "importlib_bootstrap")
         (path_join orig_out_dir "importlib_bootstrap_external")
         (path_join orig_out_dir "py-modules") (path_join orig_out_dir "pyc-modules") |}.

(** The directives of a build that succeeds, in the order in which they are
    printed. *)
Definition directive_stream (target_os : TargetOs) (build_script config_path : string)
    (config : Config) (dist : PythonDistributionInfo) (resources : PythonResources) :
    list string :=
  let needed := needs_of (links_core dist) (res_extension_modules resources) in
  [rerun_if_changed build_script; "cargo:rerun-if-env-changed=PYOXIDIZER_CONFIG";
   rerun_if_changed config_path] ++
  (rerun_if_changed <$> option_list (python_distribution_path config)) ++
  ["cargo:rustc-link-lib=static=pyembeddedconfig"] ++
  static_lines target_os (btree_set_iter (needed_libraries needed)) ++
  framework_lines needed ++ system_library_lines needed ++
  (rerun_if_changed <$> read_files resources).

(** A front end for [World] that parses every configuration to the given
    one and finds the given distribution in the given archive; a path exists
    when it can be read, and the canonical form of a relative path is below
    the given working directory. *)
Definition fixed_frontend (config : Config) (archive : string)
    (dist : PythonDistributionInfo) (cwd : string) : Frontend World := {|
  parse_config _ := Ok config;
  resolve_python_distribution_archive w _ _ := Ok (w, archive);
  analyze_python_distribution_tar_zst w _ := Ok (w, dist);
  path_exists w p := is_ok (read_file w p);
  canonicalize w p := Ok (path_join cwd p)
|}.

(** The front end of the scenario of a build: the working directory is
    [/work]. *)
Definition build_frontend : Frontend World :=
  fixed_frontend build_config "/cfg/python.tar.zst" build_dist "/work".

(** * The steps of [process_config] *)

Section pipeline_lemmas.
Context `{FileSystem F, Scanner F, Process F, Glob F, BytecodeCompiler, Toolchain F, Frontend F}.
Implicit Types (fs : F) (t : Trace F) (ec : EmbeddedPythonConfig).

Lemma metadata_len_is_ok fs p : is_ok (metadata_len fs p) = is_ok (read_file fs p).
Proof. unfold metadata_len. by destruct (read_file fs p). Qed.

Lemma process_config_Ok fs target_os importer config_path out_dir host target opt_level fs' ec :
  process_config fs target_os importer config_path out_dir host target opt_level = Ok (fs', ec) →
  ∃ t, pipeline fs target_os importer config_path out_dir host target opt_level t fs' ec.
Proof.
  unfold process_config, open_and_read. intros Hp.
  repeat (result_cases;
          repeat match goal with x : (_ * _)%type |- _ => destruct x end; cbn beta iota in *).
  repeat match goal with
         | Hm : metadata_len _ _ = Ok _ |- _ =>
             apply (f_equal is_ok) in Hm; rewrite metadata_len_is_ok in Hm
         end.
  eexists {| t_config := _ |}. unfold pipeline. cbn.
  eexists _, _, _. split_and!; try eassumption.
  unfold embedded_config_of, cargo_metadata_of. f_equal.
  destruct (python_distribution_path _); by rewrite <-?(assoc_L (++)).
Qed.

Lemma pipeline_process_config fs target_os importer config_path out_dir host target opt_level
    t fs' ec :
  pipeline fs target_os importer config_path out_dir host target opt_level t fs' ec →
  process_config fs target_os importer config_path out_dir host target opt_level = Ok (fs', ec).
Proof.
  intros (config_data & data & fs_b & Hr & Hp & Ha & Hd & Hu & Hi & Hb & Hbe & Hres & Hw &
          [n1 Hm1]%is_ok_true & [n2 Hm2]%is_ok_true & Hl & -> & Hdata).
  unfold process_config, open_and_read, metadata_len.
  rewrite Hr. cbn [expect_ok mbind result_bind]. rewrite Hp. cbn [mbind result_bind].
  rewrite Ha. cbn [mbind result_bind]. rewrite Hd. cbn [expect_ok mbind result_bind].
  rewrite Hu. cbn [expect_ok mbind result_bind]. rewrite Hi. cbn [mbind result_bind].
  rewrite Hb. cbn [mbind result_bind]. rewrite Hbe. cbn [mbind result_bind].
  rewrite Hres. cbn [mbind result_bind]. rewrite Hw. cbn [mbind result_bind].
  rewrite Hm1, Hm2. cbn [expect_ok fmap result_fmap mbind result_bind]. rewrite Hl.
  cbn [mbind result_bind].
  cbn [epc_python_config_rs embedded_config_of] in Hdata.
  rewrite Hdata. cbn [mbind result_bind].
  unfold embedded_config_of, cargo_metadata_of. do 2 f_equal.
  destruct (python_distribution_path _); by rewrite <-?(assoc_L (++)).
Qed.

Lemma process_config_and_copy_artifacts_Ok fs target_os importer config_path build_dir out_dir
    fs' ec :
  process_config_and_copy_artifacts fs target_os importer config_path build_dir out_dir =
    Ok (fs', ec) →
  ∃ host fs1 build_dir' fs2 out_dir' fs3 ec0,
    host_triple target_os = Ok host ∧
    create_dir_all fs build_dir = Ok fs1 ∧ canonicalize fs1 build_dir = Ok build_dir' ∧
    create_dir_all fs1 out_dir = Ok fs2 ∧ canonicalize fs2 out_dir = Ok out_dir' ∧
    process_config fs2 target_os importer config_path build_dir' host host "0" = Ok (fs3, ec0) ∧
    copy_artifacts fs3 (zip (artifact_sources ec0) (path_join out_dir' <$> artifact_names)) =
      Ok fs' ∧
    ec = copied_config_of ec0 out_dir out_dir'.
Proof.
  unfold process_config_and_copy_artifacts. intros Hp.
  repeat (result_cases;
          repeat match goal with x : (_ * _)%type |- _ => destruct x end; cbn beta iota in *).
  eexists _, _, _, _, _, _, _. split_and!; try eassumption; [|done].
  unfold copy_artifacts. cbn [artifact_sources artifact_names fmap list_fmap zip zip_with foldM].
  repeat (match goal with Hc : copy_artifact _ _ _ = Ok _ |- _ => rewrite Hc; clear Hc end;
          cbn [mbind result_bind]).
  done.
Qed.

End pipeline_lemmas.

(** * The search for the configuration *)

Section search.
Context `{Frontend F}.
Implicit Types (fs : F).

Lemma first_candidate_Some fs basename dirs candidate :
  first_candidate fs basename dirs = Some candidate ↔
  ∃ before test_dir after,
    dirs = before ++ test_dir :: after ∧ candidate = path_join test_dir basename ∧
    path_exists fs candidate = true ∧
    Forall (λ d, path_exists fs (path_join d basename) = false) before.
Proof.
  induction dirs as [|d dirs IH]; cbn [first_candidate].
  - split; [done|]. by intros ([|??] & ? & ? & ? & _).
  - destruct (path_exists fs (path_join d basename)) eqn:E.
    + split.
      * intros [= <-]. by exists [], d, dirs.
      * intros ([|d' before] & test_dir & after & [= -> ->] & -> & Hex & Hb); [done|].
        apply Forall_cons in Hb as [Hd _]. congruence.
    + rewrite IH. split.
      * intros (before & test_dir & after & -> & -> & Hex & Hb).
        exists (d :: before), test_dir, after. split_and!; [done..|by constructor].
      * intros ([|d' before] & test_dir & after & [= -> ->] & -> & Hex & Hb); [congruence|].
        apply Forall_cons in Hb as [_ Hb]. by exists before, test_dir, after.
Qed.

Lemma first_candidate_None fs basename dirs :
  first_candidate fs basename dirs = None ↔
  Forall (λ d, path_exists fs (path_join d basename) = false) dirs.
Proof.
  induction dirs as [|d dirs IH]; cbn [first_candidate]; [by split|].
  rewrite Forall_cons. destruct (path_exists fs (path_join d basename)); [|by rewrite IH; tauto].
  split; [done|by intros [? _]].
Qed.

End search.

(** * Files that are written and copied *)

Section file_lemmas.
Context `{FileSystemLaws F}.
Implicit Types (fs : F).

Lemma create_and_write_Ok fs path data fs' :
  create_and_write fs path data = Ok fs' →
  read_file fs' path = Ok data ∧ ∀ q, path ≠ q → read_file fs' q = read_file fs q.
Proof.
  unfold create_and_write. intros Hw.
  apply bind_Ok_inv in Hw as (fh & Hc%expect_ok_Ok & Hw).
  apply bind_Ok_inv in Hw as (fh' & Hw%expect_ok_Ok & [= <-]).
  apply (created_file _ _ _ fh' _ Hc). intros Hf. split; [by eapply file_write_frame|].
  by rewrite (file_write_content _ _ _ Hw).
Qed.

Lemma copy_artifact_Ok fs from to fs' :
  copy_artifact fs from to = Ok fs' →
  read_file fs' to = read_file fs from ∧ ∀ q, to ≠ q → read_file fs' q = read_file fs q.
Proof.
  unfold copy_artifact, fs_copy. intros (bs & Hr & Hw)%expect_ok_Ok%bind_Ok_inv.
  rewrite Hr. split; [by eapply read_write_eq|]. intros q Hq. by eapply read_write_ne.
Qed.

Lemma copy_artifacts_other fs pairs fs' q :
  copy_artifacts fs pairs = Ok fs' → q ∉ pairs.*2 → read_file fs' q = read_file fs q.
Proof.
  revert fs. induction pairs as [|[from to] pairs IH]; intros fs Hc Hq.
  - by injection Hc as <-.
  - cbn in Hc. apply bind_Ok_inv in Hc as (fs1 & [_ H1]%copy_artifact_Ok & Hc).
    apply not_elem_of_cons in Hq as [? ?]. rewrite (IH _ Hc) by done. by apply H1.
Qed.

(** When the destinations differ from each other and from the sources,
    every destination holds what its source held. *)
Lemma copy_artifacts_Ok fs pairs fs' from to :
  copy_artifacts fs pairs = Ok fs' → NoDup pairs.*2 →
  (∀ p, p ∈ pairs.*1 → p ∉ pairs.*2) →
  (from, to) ∈ pairs → read_file fs' to = read_file fs from.
Proof.
  revert fs. induction pairs as [|[from' to'] pairs IH]; intros fs Hc Hnd Hsrc Hin.
  { by apply elem_of_nil in Hin. }
  cbn in Hc. apply bind_Ok_inv in Hc as (fs1 & [H1 H1o]%copy_artifact_Ok & Hc).
  cbn in Hnd. apply NoDup_cons in Hnd as [Hto Hnd].
  apply elem_of_cons in Hin as [[= -> ->]|Hin].
  - by rewrite (copy_artifacts_other _ _ _ _ Hc Hto).
  - rewrite (IH fs1 Hc Hnd); [|intros p Hp|done].
    + apply H1o. intros ->. apply (Hsrc from); [|by left].
      right. apply list_elem_of_fmap. by exists (from, to).
    + intros Hp'. apply (Hsrc p); [by right|by right].
Qed.

End file_lemmas.

(** * The build script *)

Section run_lemmas.
Context `{FileSystem F, Scanner F, Process F, Glob F, BytecodeCompiler, Toolchain F, Frontend F}.
Implicit Types (fs : F) (env : gmap string string) (t : Trace F).

Lemma build_inputs_Ok fs env host target opt_level config_path :
  build_inputs fs env = Ok (host, target, opt_level, config_path) ↔
  env !! "HOST" = Some host ∧ env !! "TARGET" = Some target ∧
  env !! "OPT_LEVEL" = Some opt_level ∧
  match env !! "PYOXIDIZER_CONFIG" with
  | Some config_env => config_path = config_env
  | None => ∃ manifest_dir, env !! "CARGO_MANIFEST_DIR" = Some manifest_dir ∧
      find_pyoxidizer_config_file fs manifest_dir target = Some config_path
  end.
Proof.
  unfold build_inputs, env_var.
  destruct (env !! "HOST") as [h|]; cbn [expect mbind result_bind];
    [|split; [done|by intros [? _]]].
  destruct (env !! "TARGET") as [t|]; cbn [expect mbind result_bind];
    [|split; [done|by intros (_ & ? & _)]].
  destruct (env !! "OPT_LEVEL") as [o|]; cbn [expect mbind result_bind];
    [|split; [done|by intros (_ & _ & ? & _)]].
  destruct (env !! "PYOXIDIZER_CONFIG") as [c|]; cbn [mbind result_bind].
  { split; [by intros [= -> -> -> ->]|by intros ([= ->] & [= ->] & [= ->] & ->)]. }
  destruct (env !! "CARGO_MANIFEST_DIR") as [m|]; cbn [expect mbind result_bind].
  - destruct (find_pyoxidizer_config_file fs m t) as [c|] eqn:E; cbn [expect mbind result_bind].
    + split; [intros [= -> -> -> ->]; split_and!; [done..|by exists m]|].
      intros ([= ->] & [= ->] & [= ->] & m' & [= <-] & Hf). congruence.
    + split; [done|]. intros ([= ->] & [= ->] & [= ->] & m' & [= <-] & Hf). congruence.
  - split; [done|]. by intros (_ & _ & _ & ? & ? & _).
Qed.

Lemma run_from_build_Ok fs env target_os importer build_script printed fs' :
  run_from_build fs env target_os importer build_script = (printed, Ok fs') →
  ∃ host target opt_level config_path out_dir ec,
    build_inputs fs env = Ok (host, target, opt_level, config_path) ∧
    path_exists fs config_path = true ∧ is_utf8 (as_bytes config_path) = true ∧
    env !! "OUT_DIR" = Some out_dir ∧
    process_config fs target_os importer config_path out_dir host target opt_level =
      Ok (fs', ec) ∧
    printed = [rerun_if_changed build_script; "cargo:rerun-if-env-changed=PYOXIDIZER_CONFIG";
               rerun_if_changed config_path] ++ epc_cargo_metadata ec.
Proof.
  unfold run_from_build, env_var, path_to_str.
  destruct (build_inputs fs env) as [[[[host target] opt_level] config_path]|]; [|done].
  destruct (path_exists fs config_path) eqn:Hex; [|done]. cbn [negb].
  destruct (is_utf8 (as_bytes config_path)) eqn:Hutf8; [|done]. cbn [expect].
  destruct (env !! "OUT_DIR") as [out_dir|]; [|done]. cbn [expect mbind result_bind].
  destruct (process_config _ _ _ _ _ _ _ _) as [[fs1 ec]|] eqn:Hp; [|done].
  intros [= <- <-]. by exists host, target, opt_level, config_path, out_dir, ec.
Qed.

Lemma run_from_build_first_lines fs env target_os importer build_script :
  [rerun_if_changed build_script; "cargo:rerun-if-env-changed=PYOXIDIZER_CONFIG"]
    `prefix_of` (run_from_build fs env target_os importer build_script).1.
Proof.
  unfold run_from_build.
  destruct (build_inputs fs env) as [[[[host target] opt_level] config_path]|];
    [|by exists []].
  destruct (negb _); [by exists []|].
  destruct (expect _ _); [|by exists []].
  destruct (_ ≫= _) as [[fs1 ec]|]; cbn [fst]; rewrite <-?(assoc_L (++)); by eexists.
Qed.

(** The directives of a run of the pipeline. *)
Lemma pipeline_cargo_metadata fs target_os importer config_path out_dir host target opt_level
    t fs' ec build_script :
  pipeline fs target_os importer config_path out_dir host target opt_level t fs' ec →
  [rerun_if_changed build_script; "cargo:rerun-if-env-changed=PYOXIDIZER_CONFIG";
   rerun_if_changed config_path] ++ epc_cargo_metadata ec =
  directive_stream target_os build_script config_path (t_config t) (t_dist t) (t_resources t).
Proof.
  intros (? & ? & ? & _ & _ & _ & _ & _ & _ & _ & _ & _ & _ & _ & _ & Hl & -> & _).
  destruct (link_libpython_Ok _ _ _ _ _ _ _ _ _ _ Hl) as (_ & Hm & _).
  unfold directive_stream. cbn [epc_cargo_metadata embedded_config_of]. unfold cargo_metadata_of.
  rewrite Hm. by rewrite <-!(assoc_L (++)).
Qed.

Lemma run_from_build_missing fs env target_os importer build_script e :
  build_inputs fs env = Err e →
  run_from_build fs env target_os importer build_script =
    ([rerun_if_changed build_script; "cargo:rerun-if-env-changed=PYOXIDIZER_CONFIG"], Err e).
Proof. unfold run_from_build. by intros ->. Qed.

End run_lemmas.

(** * The copied artifacts *)

Lemma artifact_names_relative : Forall (λ name, starts_with name "/" = false) artifact_names.
Proof. by repeat constructor. Qed.

Lemma artifact_destinations_NoDup out_dir : NoDup (path_join out_dir <$> artifact_names).
Proof.
  apply NoDup_fmap_2_strong; [|by apply (bool_decide_unpack _)].
  pose proof artifact_names_relative as Hrel. rewrite Forall_forall in Hrel.
  intros a b Ha Hb. apply path_join_relative_inj; auto.
Qed.

Lemma zip_fmap_same {A B} (f g : A → B) (l : list A) x :
  x ∈ l → (f x, g x) ∈ zip (f <$> l) (g <$> l).
Proof.
  induction l as [|y l IH]; [by intros ?%elem_of_nil|].
  intros [->|Hx]%elem_of_cons; cbn; [by left|right; auto].
Qed.

Section copy_lemmas.
Context `{FileSystemLaws F, Scanner F, Process F, Glob F, BytecodeCompiler, Toolchain F,
          Frontend F}.
Implicit Types (fs : F) (t : Trace F).

Lemma pipeline_artifact_sources fs target_os importer config_path out_dir host target opt_level
    t fs' ec :
  pipeline fs target_os importer config_path out_dir host target opt_level t fs' ec →
  artifact_sources ec = path_join out_dir <$> artifact_names.
Proof.
  intros (? & ? & ? & _ & _ & _ & _ & _ & _ & _ & _ & _ & _ & _ & _ & Hl & -> & _).
  destruct (link_libpython_Ok _ _ _ _ _ _ _ _ _ _ Hl) as (Hp & _).
  unfold artifact_sources. cbn. by rewrite Hp.
Qed.

Lemma pipeline_data_rs fs target_os importer config_path out_dir host target opt_level
    t fs' ec :
  pipeline fs target_os importer config_path out_dir host target opt_level t fs' ec →
  read_file fs' (path_join out_dir "data.rs") =
    Ok (as_bytes (data_rs_header +:+ data_rs_function (epc_python_config_rs ec))) ∧
  epc_python_config_rs ec =
    derive_python_config (epc_config ec) (epc_importlib_bootstrap_path ec)
      (epc_importlib_bootstrap_external_path ec) (epc_py_modules_path ec)
      (epc_pyc_modules_path ec).
Proof.
  intros (? & ? & ? & _ & _ & _ & _ & _ & _ & _ & _ & _ & _ & _ & _ & _ & -> & Hw).
  split; [|done]. by destruct (write_data_rs_Ok _ _ _ _ Hw).
Qed.

Lemma copied_artifacts_hold fs target_os importer config_path build_dir out_dir fs' ec :
  process_config_and_copy_artifacts fs target_os importer config_path build_dir out_dir =
    Ok (fs', ec) →
  ∃ fs2 fs3 host build_dir' out_dir' ec0,
    process_config fs2 target_os importer config_path build_dir' host host "0" = Ok (fs3, ec0) ∧
    ec = copied_config_of ec0 out_dir out_dir' ∧
    ((∀ x y, x ∈ artifact_names → y ∈ artifact_names →
        path_join build_dir' x ≠ path_join out_dir' y) →
     ∀ name, name ∈ artifact_names →
       read_file fs' (path_join out_dir' name) = read_file fs3 (path_join build_dir' name)).
Proof.
  intros (host & fs1 & b & fs2 & o & fs3 & ec0 & _ & _ & _ & _ & _ & Hp & Hc & ->)
    %process_config_and_copy_artifacts_Ok.
  exists fs2, fs3, host, b, o, ec0. split_and!; [done..|]. intros Hdis name Hname.
  destruct (process_config_Ok _ _ _ _ _ _ _ _ _ _ Hp) as [t Ht].
  rewrite (pipeline_artifact_sources _ _ _ _ _ _ _ _ _ _ _ Ht) in Hc.
  apply (copy_artifacts_Ok _ _ _ _ _ Hc).
  - rewrite snd_zip by by rewrite !length_fmap. apply artifact_destinations_NoDup.
  - rewrite fst_zip, snd_zip by by rewrite !length_fmap.
    intros p (x & -> & Hx)%list_elem_of_fmap (y & Hy & ?)%list_elem_of_fmap.
    by apply (Hdis x y).
  - by apply zip_fmap_same.
Qed.

End copy_lemmas.

(** * Properties *)

Section properties.
Context `{FileSystemLaws F, Scanner F, Process F, Glob F, BytecodeCompiler, Toolchain F,
          Frontend F}.
Implicit Types (fs : F) (env : gmap string string) (t : Trace F).

(** C20. [process_config] returns exactly when its steps succeed in this
    order, each on the file system that the step before left: read and
    parse the configuration, resolve, read and analyse the archive, derive
    importlib and write its two files, resolve the resources, write the
    three blob files, link, render the configuration and write data.rs.
    What it returns is made of the configuration, the output directory and
    what the link and the reduction returned. *)
Theorem process_config_pipeline fs target_os importer config_path out_dir host target
    opt_level fs' ec :
  process_config fs target_os importer config_path out_dir host target opt_level =
    Ok (fs', ec) ↔
  ∃ t, pipeline fs target_os importer config_path out_dir host target opt_level t fs' ec.
Proof.
  split; [apply process_config_Ok|]. intros [t Ht]. by eapply pipeline_process_config.
Qed.

(** C14. The lines that the code of a build script that succeeds prints for
    cargo are, in this order: the build script, the variable
    [PYOXIDIZER_CONFIG], the configuration file, the archive of the
    distribution when the configuration names one, the directives of the
    link, and every file that a filter rule read.  The lines that the [cc]
    crate prints by itself while it compiles are not among them; they reach
    the standard output between the second and the third line. *)
Theorem build_directives fs env target_os importer build_script printed fs' :
  run_from_build fs env target_os importer build_script = (printed, Ok fs') →
  ∃ host target opt_level config_path t,
    build_inputs fs env = Ok (host, target, opt_level, config_path) ∧
    resolve_python_resources (t_frozen t) target_os (t_config t) (t_dist t) =
      Ok (t_resources t) ∧
    printed = directive_stream target_os build_script config_path (t_config t) (t_dist t)
                (t_resources t).
Proof.
  intros (host & target & opt_level & config_path & out_dir & ec & Hi & _ & _ & _ & Hp & ->)
    %run_from_build_Ok.
  destruct (process_config_Ok _ _ _ _ _ _ _ _ _ _ Hp) as [t Ht].
  exists host, target, opt_level, config_path, t. split; [done|].
  split; [|by eapply pipeline_cargo_metadata].
  by destruct Ht as (? & ? & ? & _ & _ & _ & _ & _ & _ & _ & _ & ? & _).
Qed.

(** However a build script ends, its first two lines for cargo are the
    build script and the variable [PYOXIDIZER_CONFIG]. *)
Theorem build_script_lines_first fs env target_os importer build_script :
  [rerun_if_changed build_script; "cargo:rerun-if-env-changed=PYOXIDIZER_CONFIG"]
    `prefix_of` (run_from_build fs env target_os importer build_script).1.
Proof. apply run_from_build_first_lines. Qed.

(** The search returns the configuration of the nearest directory that
    has one: the candidate of an ancestor of the start directory that
    exists, when no candidate of a nearer ancestor exists. *)
Theorem config_search_nearest fs start_dir target candidate :
  find_pyoxidizer_config_file fs start_dir target = Some candidate ↔
  ∃ before test_dir after,
    path_ancestors start_dir = before ++ test_dir :: after ∧
    candidate = path_join test_dir ("pyoxidizer." +:+ target +:+ ".toml") ∧
    path_exists fs candidate = true ∧
    Forall (λ d, path_exists fs (path_join d ("pyoxidizer." +:+ target +:+ ".toml")) = false)
      before.
Proof. apply first_candidate_Some. Qed.

(** The search fails exactly when no ancestor of the start directory,
    the directory itself included, has a candidate: the walk over the
    parents never stops short. *)
Theorem config_search_complete fs start_dir target :
  find_pyoxidizer_config_file fs start_dir target = None ↔
  ∀ d, ancestor start_dir d →
    path_exists fs (path_join d ("pyoxidizer." +:+ target +:+ ".toml")) = false.
Proof.
  unfold find_pyoxidizer_config_file. rewrite first_candidate_None, Forall_forall.
  by setoid_rewrite elem_of_path_ancestors.
Qed.

(** After [process_config], data.rs in the output directory holds the
    function around the literal that is returned, and the literal names the
    four files by the paths that are returned. *)
Theorem data_rs_holds_literal fs target_os importer config_path out_dir host target opt_level
    fs' ec :
  process_config fs target_os importer config_path out_dir host target opt_level =
    Ok (fs', ec) →
  read_file fs' (path_join out_dir "data.rs") =
    Ok (as_bytes (data_rs_header +:+ data_rs_function (epc_python_config_rs ec))) ∧
  epc_python_config_rs ec =
    derive_python_config (epc_config ec) (epc_importlib_bootstrap_path ec)
      (epc_importlib_bootstrap_external_path ec) (epc_py_modules_path ec)
      (epc_pyc_modules_path ec).
Proof. intros [t Ht]%process_config_Ok. by eapply pipeline_data_rs. Qed.

(** [process_config_and_copy_artifacts] runs [process_config] in the
    canonical build directory; when no artifact of the build directory is an
    artifact of the output directory, each of the five artifacts in the
    canonical output directory holds what [process_config] left in the
    build directory. *)
Theorem copied_artifacts fs target_os importer config_path build_dir out_dir fs' ec :
  process_config_and_copy_artifacts fs target_os importer config_path build_dir out_dir =
    Ok (fs', ec) →
  ∃ fs2 fs3 host build_dir' out_dir' ec0,
    process_config fs2 target_os importer config_path build_dir' host host "0" = Ok (fs3, ec0) ∧
    ec = copied_config_of ec0 out_dir out_dir' ∧
    ((∀ x y, x ∈ artifact_names → y ∈ artifact_names →
        path_join build_dir' x ≠ path_join out_dir' y) →
     ∀ name, name ∈ artifact_names →
       read_file fs' (path_join out_dir' name) = read_file fs3 (path_join build_dir' name)).
Proof. apply copied_artifacts_hold. Qed.

(** The configuration that [process_config_and_copy_artifacts] returns
    names the copies by the canonical output directory, but its literal
    names them by the output directory as it was given; the file of the
    module names is not copied and stays in the build directory. *)
Theorem literal_names_given_out_dir fs target_os importer config_path build_dir out_dir
    fs' ec :
  process_config_and_copy_artifacts fs target_os importer config_path build_dir out_dir =
    Ok (fs', ec) →
  ∃ fs1 fs2 build_dir' out_dir',
    canonicalize fs1 build_dir = Ok build_dir' ∧ canonicalize fs2 out_dir = Ok out_dir' ∧
    epc_py_modules_path ec = path_join out_dir' "py-modules" ∧
    epc_module_names_path ec = path_join build_dir' "py-module-names" ∧
    epc_python_config_rs ec =
      derive_python_config (epc_config ec) (path_join out_dir "importlib_bootstrap")
        (path_join out_dir "importlib_bootstrap_external") (path_join out_dir "py-modules")
        (path_join out_dir "pyc-modules").
Proof.
  intros (host & fs1 & b & fs2 & o & fs3 & ec0 & _ & _ & Hb & _ & Ho & Hp & _ & ->)
    %process_config_and_copy_artifacts_Ok.
  destruct (process_config_Ok _ _ _ _ _ _ _ _ _ _ Hp)
    as (t & ? & ? & ? & _ & _ & _ & _ & _ & _ & _ & _ & _ & _ & _ & _ & _ & -> & _).
  by exists fs1, fs2, b, o.
Qed.

(** Without one of the variables [HOST], [TARGET], [OPT_LEVEL], and
    without a configuration file when [PYOXIDIZER_CONFIG] is not set, the
    build script panics after its first two lines. *)
Theorem build_without_inputs fs env target_os importer build_script e :
  build_inputs fs env = Err e →
  run_from_build fs env target_os importer build_script =
    ([rerun_if_changed build_script; "cargo:rerun-if-env-changed=PYOXIDIZER_CONFIG"], Err e) ∧
  e ∈ [Panic "HOST not defined"; Panic "TARGET not defined"; Panic "OPT_LEVEL not defined";
       Panic "CARGO_MANIFEST_DIR not found"; Panic "Could not find PyOxidizer config file"].
Proof.
  intros Hi. split; [by apply run_from_build_missing|].
  unfold build_inputs in Hi.
  repeat (apply bind_Err_inv in Hi as [Hi|(? & _ & Hi)]);
    try (apply expect_Err in Hi as [_ ->]; rewrite !elem_of_cons; by auto 6).
  - destruct (env_var env "PYOXIDIZER_CONFIG"); [done|].
    repeat (apply bind_Err_inv in Hi as [Hi|(? & _ & Hi)]);
      apply expect_Err in Hi as [_ ->]; rewrite !elem_of_cons; by auto 6.
  - done.
Qed.

(** When [PYOXIDIZER_CONFIG] is set its value is the configuration
    file: nothing is searched and [CARGO_MANIFEST_DIR] is not read. *)
Theorem config_override fs env host target opt_level config_env :
  env !! "HOST" = Some host → env !! "TARGET" = Some target →
  env !! "OPT_LEVEL" = Some opt_level → env !! "PYOXIDIZER_CONFIG" = Some config_env →
  build_inputs fs env = Ok (host, target, opt_level, config_env).
Proof. intros Hh Ht Ho Hc. apply build_inputs_Ok. by rewrite Hc. Qed.

End properties.

(** * The scenario of a build, evaluated *)

Lemma run_is_ok_inv {A B} (x : A * result B) : is_ok x.2 = true → ∃ a b, x = (a, Ok b).
Proof. destruct x as [a [b|e]]; [by eauto|done]. Qed.

Section scenarios.
#[local] Existing Instance scenario_compiler.
#[local] Existing Instance build_frontend.

Lemma build_directives_witness :
  ∃ printed fs',
    run_from_build build_world build_env Linux (as_bytes "class MemoryImporter: pass")
      "build.rs" = (printed, Ok fs') ∧
    ∃ host target opt_level config_path (t : Trace World),
      build_inputs build_world build_env = Ok (host, target, opt_level, config_path) ∧
      resolve_python_resources (t_frozen t) Linux (t_config t) (t_dist t) =
        Ok (t_resources t) ∧
      printed = directive_stream Linux "build.rs" config_path (t_config t) (t_dist t)
                  (t_resources t).
Proof.
  destruct (run_is_ok_inv
              (run_from_build build_world build_env Linux
                 (as_bytes "class MemoryImporter: pass") "build.rs"))
    as (printed & fs' & Hr); [vm_compute; reflexivity|].
  exists printed, fs'. split; [exact Hr|]. exact (build_directives _ _ _ _ _ _ _ Hr).
Defined.

Lemma data_rs_holds_literal_witness :
  ∃ fs' ec,
    process_config build_world Linux (as_bytes "class MemoryImporter: pass")
      "/proj/pyoxidizer.x86_64-unknown-linux-gnu.toml" "/out" "x86_64-unknown-linux-gnu"
      "x86_64-unknown-linux-gnu" "3" = Ok (fs', ec) ∧
    read_file fs' (path_join "/out" "data.rs") =
      Ok (as_bytes (data_rs_header +:+ data_rs_function (epc_python_config_rs ec))) ∧
    epc_python_config_rs ec =
      derive_python_config (epc_config ec) (epc_importlib_bootstrap_path ec)
        (epc_importlib_bootstrap_external_path ec) (epc_py_modules_path ec)
        (epc_pyc_modules_path ec).
Proof.
  destruct (proj1 (is_ok_true
              (process_config build_world Linux (as_bytes "class MemoryImporter: pass")
                 "/proj/pyoxidizer.x86_64-unknown-linux-gnu.toml" "/out"
                 "x86_64-unknown-linux-gnu" "x86_64-unknown-linux-gnu" "3")))
    as [[fs' ec] Hp]; [vm_compute; reflexivity|].
  exists fs', ec. split; [exact Hp|]. exact (data_rs_holds_literal _ _ _ _ _ _ _ _ _ _ Hp).
Defined.

Lemma copied_artifacts_witness :
  ∃ fs' ec,
    process_config_and_copy_artifacts build_world Linux (as_bytes "class MemoryImporter: pass")
      "/proj/pyoxidizer.x86_64-unknown-linux-gnu.toml" "build" "out" = Ok (fs', ec) ∧
    ∃ (fs2 fs3 : World) host build_dir' out_dir' ec0,
      process_config fs2 Linux (as_bytes "class MemoryImporter: pass")
        "/proj/pyoxidizer.x86_64-unknown-linux-gnu.toml" build_dir' host host "0" =
        Ok (fs3, ec0) ∧
      ec = copied_config_of ec0 "out" out_dir' ∧
      ((∀ x y, x ∈ artifact_names → y ∈ artifact_names →
          path_join build_dir' x ≠ path_join out_dir' y) →
       ∀ name, name ∈ artifact_names →
         read_file fs' (path_join out_dir' name) = read_file fs3 (path_join build_dir' name)).
Proof.
  destruct (proj1 (is_ok_true
              (process_config_and_copy_artifacts build_world Linux
                 (as_bytes "class MemoryImporter: pass")
                 "/proj/pyoxidizer.x86_64-unknown-linux-gnu.toml" "build" "out")))
    as [[fs' ec] Hp]; [vm_compute; reflexivity|].
  exists fs', ec. split; [exact Hp|]. exact (copied_artifacts _ _ _ _ _ _ _ _ Hp).
Defined.

Lemma literal_names_given_out_dir_witness :
  ∃ fs' ec,
    process_config_and_copy_artifacts build_world Linux (as_bytes "class MemoryImporter: pass")
      "/proj/pyoxidizer.x86_64-unknown-linux-gnu.toml" "build" "out" = Ok (fs', ec) ∧
    ∃ (fs1 fs2 : World) build_dir' out_dir',
      canonicalize fs1 "build" = Ok build_dir' ∧ canonicalize fs2 "out" = Ok out_dir' ∧
      epc_py_modules_path ec = path_join out_dir' "py-modules" ∧
      epc_module_names_path ec = path_join build_dir' "py-module-names" ∧
      epc_python_config_rs ec =
        derive_python_config (epc_config ec) (path_join "out" "importlib_bootstrap")
          (path_join "out" "importlib_bootstrap_external") (path_join "out" "py-modules")
          (path_join "out" "pyc-modules").
Proof.
  destruct (proj1 (is_ok_true
              (process_config_and_copy_artifacts build_world Linux
                 (as_bytes "class MemoryImporter: pass")
                 "/proj/pyoxidizer.x86_64-unknown-linux-gnu.toml" "build" "out")))
    as [[fs' ec] Hp]; [vm_compute; reflexivity|].
  exists fs', ec. split; [exact Hp|]. exact (literal_names_given_out_dir _ _ _ _ _ _ _ _ Hp).
Defined.

Lemma build_without_inputs_witness :
  build_inputs build_world ∅ = Err (Panic "HOST not defined") ∧
  run_from_build build_world ∅ Linux [] "build.rs" =
    ([rerun_if_changed "build.rs"; "cargo:rerun-if-env-changed=PYOXIDIZER_CONFIG"],
     Err (Panic "HOST not defined")) ∧
  Panic "HOST not defined" ∈
    [Panic "HOST not defined"; Panic "TARGET not defined"; Panic "OPT_LEVEL not defined";
     Panic "CARGO_MANIFEST_DIR not found"; Panic "Could not find PyOxidizer config file"].
Proof.
  split; [vm_compute; reflexivity|].
  apply (build_without_inputs build_world ∅ Linux [] "build.rs"). vm_compute. reflexivity.
Defined.

Lemma config_override_witness :
  build_inputs build_world (<["PYOXIDIZER_CONFIG" := "/etc/app.toml"]> build_env) =
    Ok ("x86_64-unknown-linux-gnu", "x86_64-unknown-linux-gnu", "3", "/etc/app.toml").
Proof.
  apply (config_override build_world (<["PYOXIDIZER_CONFIG" := "/etc/app.toml"]> build_env)
           "x86_64-unknown-linux-gnu" "x86_64-unknown-linux-gnu" "3" "/etc/app.toml");
    vm_compute; reflexivity.
Defined.

End scenarios.
