(* ===== verification/Tar.v ===== *)
(** * The toolchain archive (tugger-rust-toolchain/src/tar.rs)

    [PackageArchive::new] reads a compressed tar archive of a Rust package
    into a manifest of files in memory, with the first component of every
    path removed, and checks the installer version and the list of
    components.  [install] copies the files that the [manifest.in] of each
    component lists to a destination directory.

    The decoders, the tar reader, the file manifest and the writing of an
    entry to a path belong to other crates; they are the interfaces
    [ArchiveReader], [FileManifest] and [Destination], each with the laws
    that the theorems rely on and with an executable instance.  The data of
    an entry is held in memory, which is the only kind of entry that this
    file makes, so that resolving it returns the bytes.  [install] runs in
    [io]: what was written before an error stays written, and a write that
    fails leaves what the destination says it leaves ([write_interrupted]:
    the file may have been created, or truncated), of which the laws fix
    only that the other paths are untouched.  A destination whose failing
    writes change nothing is an [AtomicDestination]. *)

From S2P Require Import Prelude RustStd Io Effect RustText.

(** * Data *)

Inductive CompressionFormat : Type :=
  | Gzip
  | Xz
  | Zstd.

#[export] Instance CompressionFormat_eq_dec : EqDecision CompressionFormat.
Proof. solve_decision. Defined.

(** What the tar reader gives for one entry: its path, its content and the
    mode of its header, each of which can fail to be read. *)
Record TarEntry := {
  te_path : result string;
  te_data : result (list byte);
  te_mode : result Z
}.

(** [tugger_file_manifest::FileEntry]. *)
Record FileEntry := {
  fe_data : list byte;
  fe_executable : bool
}.

#[export] Instance FileEntry_eq_dec : EqDecision FileEntry.
Proof. solve_decision. Defined.

(** * Interfaces *)

(** The decoders of zstd, xz2 and flate2 and [tar::Archive::entries].  Of
    the three constructors only the one of zstd can fail.  The entries come
    in the order of the archive; an entry that cannot be read is an
    error in the list. *)
Class ArchiveReader (R : Type) := {
  zstd_decoder_new : list byte → result R;
  xz_decoder_new : list byte → R;
  gz_decoder_new : list byte → R;
  archive_entries : R → result (list (result TarEntry))
}.
#[global] Hint Mode ArchiveReader ! : typeclass_instances.

(** [tugger_file_manifest::FileManifest]: [default], [add_file_entry] and
    [get]. *)
Class FileManifest (M : Type) := {
  manifest_default : M;
  add_file_entry : M → string → FileEntry → result M;
  manifest_get : M → string → option FileEntry
}.
#[global] Hint Mode FileManifest ! : typeclass_instances.

(** The manifest is a map whose keys are paths, which are equal when their
    components are. *)
Class FileManifestLaws (M : Type) `{FileManifest M} := {
  get_default (p : string) : manifest_get (manifest_default : M) p = None;
  get_add_eq (m m' : M) (p q : string) (e : FileEntry) :
    add_file_entry m p e = Ok m' → path_components p = path_components q →
    manifest_get m' q = Some e;
  get_add_ne (m m' : M) (p q : string) (e : FileEntry) :
    add_file_entry m p e = Ok m' → path_components p ≠ path_components q →
    manifest_get m' q = manifest_get m q
}.
#[global] Hint Mode FileManifestLaws ! - : typeclass_instances.

Definition is_normal (c : Component) : bool :=
  match c with Normal _ => true | _ => false end.

(** A relative path without [.] and [..]. *)
Definition normal_path (p : string) : bool := forallb is_normal (path_components p).

(** A manifest that refuses the paths that are absolute or that point
    upwards. *)
Class CheckedManifest (M : Type) `{FileManifest M} :=
  add_file_entry_normal (m m' : M) (p : string) (e : FileEntry) :
    add_file_entry m p e = Ok m' → normal_path p = true.
#[global] Hint Mode CheckedManifest ! - : typeclass_instances.

(** [FileEntry::write_to_path] and what can be seen of the destination
    afterwards.  The call creates the file and then writes it, so that a
    call that fails can have changed the destination: [write_interrupted]
    is the destination that a failing call leaves. *)
Class Destination (F : Type) := {
  write_to_path : F → FileEntry → string → result F;
  write_interrupted : F → FileEntry → string → F;
  installed : F → string → option FileEntry
}.
#[global] Hint Mode Destination ! : typeclass_instances.

(** A call writes its entry at its path when it succeeds, and touches no
    other path, whether it succeeds or not. *)
Class DestinationLaws (F : Type) `{Destination F} := {
  installed_write_eq (fs fs' : F) (e : FileEntry) (p q : string) :
    write_to_path fs e p = Ok fs' → path_components p = path_components q →
    installed fs' q = Some e;
  installed_write_ne (fs fs' : F) (e : FileEntry) (p q : string) :
    write_to_path fs e p = Ok fs' → path_components p ≠ path_components q →
    installed fs' q = installed fs q;
  installed_interrupted_ne (fs : F) (e : FileEntry) (p q : string) :
    path_components p ≠ path_components q →
    installed (write_interrupted fs e p) q = installed fs q
}.
#[global] Hint Mode DestinationLaws ! - : typeclass_instances.

(** A destination on which a call that fails has changed nothing. *)
Class AtomicDestination (F : Type) `{Destination F} :=
  write_interrupted_id (fs : F) (e : FileEntry) (p : string) : write_interrupted fs e p = fs.
#[global] Hint Mode AtomicDestination ! - : typeclass_instances.

(** * The archive *)

Record PackageArchive (M : Type) := {
  pa_manifest : M;
  pa_components : list string
}.
Arguments pa_manifest {M} _.
Arguments pa_components {M} _.

Section reading.
Context `{ArchiveReader R} `{FileManifest M}.

Definition get_decompression_stream (format : CompressionFormat) (data : list byte) : result R :=
  match format with
  | Zstd => zstd_decoder_new data
  | Xz => Ok (xz_decoder_new data)
  | Gzip => Ok (gz_decoder_new data)
  end.

(** [mode & 0o111 != 0]. *)
Definition executable_mode (mode : Z) : bool := negb (Z.land mode 73 =? 0)%Z.

(** What the body of the loop over the entries reads before it touches the
    manifest: the path without its first component, and the file entry. *)
Definition read_entry (entry : result TarEntry) : result (string * FileEntry) :=
  entry ← context entry "resolving tar archive entry";
  path ← context (te_path entry) "resolving entry path";
  first_component ← ok_or (head (path_components path)) "unable to get first path component";
  path ← ok_or (path_strip_prefix path (as_os_str first_component)) "stripping path prefix";
  entry_data ← te_data entry;
  mode ← te_mode entry;
  Ok (path, {| fe_data := entry_data; fe_executable := executable_mode mode |}).

(** The body of the loop over the entries. *)
Definition add_archive_entry (manifest : M) (entry : result TarEntry) : result M :=
  '(path, file_entry) ← read_entry entry;
  add_file_entry manifest path file_entry.

Definition package_archive_new (format : CompressionFormat) (data : list byte) :
    result (PackageArchive M) :=
  stream ← context (get_decompression_stream format data) "obtaining decompression stream";
  entries ← context (archive_entries stream) "obtaining tar archive entries";
  manifest ← foldM add_archive_entry manifest_default entries;
  version ← ok_or (manifest_get manifest "rust-installer-version")
                  "archive does not contain rust-installer-version";
  if bool_decide (fe_data version ≠ as_bytes ("3" +:+ nl))
  then Err (Failure "rust-installer-version has unsupported version")
  else
    components ← ok_or (manifest_get manifest "components")
                       "archive does not contain components file";
    components ← context (string_from_utf8 (fe_data components))
                         "converting components file to string";
    Ok {| pa_manifest := manifest; pa_components := lines components |}.

End reading.

(** * The manifest of a component *)

(** The body of the loop over the lines; a line without a colon is passed
    over. *)
Definition parse_manifest_line (acc : list string * list string) (line : string) :
    result (list string * list string) :=
  let '(dirs, files) := acc in
  match find_char ":" line with
  | Some pos =>
      action ← str_slice line 0 pos;
      path ← str_slice line (pos + 1) (String.length line);
      if decide (action = "file") then Ok (dirs, files ++ [path])
      else if decide (action = "dir") then Ok (dirs ++ [path], files)
      else Err (Failure ("unhandled action in manifest.in: " +:+ action))
  | None => Ok acc
  end.

(** The directories and the files that a [manifest.in] lists. *)
Definition parse_manifest (data : list byte) : result (list string * list string) :=
  data ← string_from_utf8 data;
  foldM parse_manifest_line ([], []) (lines data).

(** * Installation *)

Section installing.
Context `{FileManifest M} `{Destination F}.

(** The body of the loop over the files of a component. *)
Definition install_file (a : PackageArchive M) (dest_dir component_path file : string) :
    io F () :=
  let manifest_path := path_join component_path file in
  entry ← io_lift (ok_or (manifest_get (pa_manifest a) manifest_path)
                         ("could not locate file " +:+ manifest_path +:+ " in manifest"));
  let dest_path := path_join dest_dir file in
  io_context (io_try (λ fs, write_to_path fs entry dest_path)
                     (λ fs, write_interrupted fs entry dest_path))
             ("writing " +:+ manifest_path +:+ " to " +:+ dest_path).

(** The body of the loop over the components. *)
Definition install_component (a : PackageArchive M) (dest_dir component : string) : io F () :=
  let component_path := component in
  let manifest_path := path_join component_path "manifest.in" in
  manifest ← io_lift (ok_or (manifest_get (pa_manifest a) manifest_path)
                            (manifest_path +:+ " not found"));
  '(dirs, files) ← io_lift (parse_manifest (fe_data manifest));
  if negb (bool_decide (dirs = []))
  then io_fail (Failure "support for copying directories not implemented")
  else io_for (install_file a dest_dir component_path) files.

Definition install (a : PackageArchive M) (dest_dir : string) : io F () :=
  io_for (install_component a dest_dir) (pa_components a).

End installing.

(** * Reference definitions *)

(** The entry that a list of files holds for a path: the last one whose path
    has the same components. *)
Fixpoint last_entry (files : list (string * FileEntry)) (q : string) : option FileEntry :=
  match files with
  | [] => None
  | (p, e) :: files =>
      match last_entry files q with
      | Some e' => Some e'
      | None => if decide (path_components p = path_components q) then Some e else None
      end
  end.

(** A line of a [manifest.in]: a file, a directory, or text without a
    colon. *)
Inductive ManifestItem : Type :=
  | FileItem (path : string)
  | DirItem (path : string)
  | OtherItem (text : string).

Definition item_line (i : ManifestItem) : string :=
  match i with
  | FileItem path => "file:" +:+ path
  | DirItem path => "dir:" +:+ path
  | OtherItem text => text
  end.

Definition item_files (items : list ManifestItem) : list string :=
  omap (λ i, match i with FileItem path => Some path | _ => None end) items.

Definition item_dirs (items : list ManifestItem) : list string :=
  omap (λ i, match i with DirItem path => Some path | _ => None end) items.

(** An item whose line is one line of well-formed text. *)
Definition item_ok (i : ManifestItem) : bool :=
  is_line (item_line i) && is_utf8 (as_bytes (item_line i)) &&
  match i with OtherItem text => negb (string_has ":" text) | _ => true end.

(** The text of a [manifest.in] with the given items. *)
Definition manifest_text (items : list ManifestItem) : string :=
  terminated (item_line <$> items).

Section well_formed.
Context `{FileManifest M}.

(** Every key of the manifest is a relative path without [.] and [..]. *)
Definition keys_normal (m : M) : Prop :=
  ∀ p e, manifest_get m p = Some e → normal_path p = true.

(** What holds of an archive that [package_archive_new] returns. *)
Record wf_archive (a : PackageArchive M) : Prop := {
  wf_keys : keys_normal (pa_manifest a);
  wf_version :
    ∃ v, manifest_get (pa_manifest a) "rust-installer-version" = Some v ∧
         fe_data v = as_bytes ("3" +:+ nl);
  wf_components :
    ∃ c text, manifest_get (pa_manifest a) "components" = Some c ∧
              string_from_utf8 (fe_data c) = Ok text ∧ pa_components a = lines text
}.

End well_formed.

(** One copy of an installation: the path in the manifest, the entry and
    where it goes. *)
Record Copy := {
  copy_from : string;
  copy_entry : FileEntry;
  copy_to : string
}.

(** What an installation does: the copies, in order, and the error that it
    ends with when all of them succeed. *)
Definition Plan : Type := list Copy * option error.

Definition plan_seq (p : Plan) (q : Plan) : Plan :=
  match p.2 with
  | Some e => p
  | None => (p.1 ++ q.1, q.2)
  end.

Section planning.
Context `{FileManifest M}.

Definition plan_file (a : PackageArchive M) (dest_dir component_path file : string) : Plan :=
  let manifest_path := path_join component_path file in
  match manifest_get (pa_manifest a) manifest_path with
  | Some entry =>
      ([{| copy_from := manifest_path; copy_entry := entry;
           copy_to := path_join dest_dir file |}], None)
  | None =>
      ([], Some (Failure ("could not locate file " +:+ manifest_path +:+ " in manifest")))
  end.

Definition plan_component (a : PackageArchive M) (dest_dir component : string) : Plan :=
  let manifest_path := path_join component "manifest.in" in
  match manifest_get (pa_manifest a) manifest_path with
  | None => ([], Some (Failure (manifest_path +:+ " not found")))
  | Some manifest =>
      match parse_manifest (fe_data manifest) with
      | Err e => ([], Some e)
      | Ok (dirs, files) =>
          if negb (bool_decide (dirs = []))
          then ([], Some (Failure "support for copying directories not implemented"))
          else foldr (λ file, plan_seq (plan_file a dest_dir component file)) ([], None) files
      end
  end.

Definition install_plan (a : PackageArchive M) (dest_dir : string) : Plan :=
  foldr (λ component, plan_seq (plan_component a dest_dir component)) ([], None)
        (pa_components a).

End planning.

Section running.
Context `{Destination F}.

Definition write_copy (c : Copy) : io F () :=
  io_context (io_try (λ fs, write_to_path fs (copy_entry c) (copy_to c))
                     (λ fs, write_interrupted fs (copy_entry c) (copy_to c)))
             ("writing " +:+ copy_from c +:+ " to " +:+ copy_to c).

(** The copies are made in order until one fails. *)
Definition run_plan (p : Plan) : io F () :=
  io_bind (λ _, match p.2 with Some e => io_fail e | None => io_ret () end)
          (io_for write_copy p.1).

End running.

(** The files that the copies write, in order. *)
Definition copy_files (cs : list Copy) : list (string * FileEntry) :=
  (λ c, (copy_to c, copy_entry c)) <$> cs.

(** The path is inside the directory: its components are those of the
    directory followed by names. *)
Definition inside (dir q : string) : Prop :=
  ∃ names, path_components q = path_components dir ++ names ∧ forallb is_normal names = true.

(** * Executable instances *)

Fixpoint lookup_path {V} (m : list (list Component * V)) (k : list Component) : option V :=
  match m with
  | [] => None
  | (k', v) :: m => if decide (k' = k) then Some v else lookup_path m k
  end.

(** A manifest in memory that refuses the paths that are not normal. *)
Definition MemManifest : Type := list (list Component * FileEntry).

#[export] Instance mem_manifest : FileManifest MemManifest := {|
  manifest_default := [];
  add_file_entry m p e :=
    if normal_path p then Ok ((path_components p, e) :: m)
    else Err (Failure ("illegal path in file manifest: " +:+ p));
  manifest_get m p := lookup_path m (path_components p)
|}.

(** A destination in memory, with paths that cannot be opened for writing
    and a number of bytes that a file can take: a file that is longer is
    created and left empty when the write fails. *)
Record MemDest := {
  md_files : list (list Component * FileEntry);
  md_readonly : list (list Component);
  md_space : nat
}.

Definition md_add (fs : MemDest) (p : string) (e : FileEntry) : MemDest :=
  {| md_files := (path_components p, e) :: md_files fs;
     md_readonly := md_readonly fs; md_space := md_space fs |}.

#[export] Instance mem_dest : Destination MemDest := {|
  write_to_path fs e p :=
    if bool_decide (path_components p ∈ md_readonly fs)
    then Err (Failure "Permission denied")
    else if bool_decide (length (fe_data e) ≤ md_space fs)
    then Ok (md_add fs p e)
    else Err (Failure "No space left on device");
  write_interrupted fs e p :=
    if bool_decide (path_components p ∈ md_readonly fs) then fs
    else md_add fs p {| fe_data := []; fe_executable := false |};
  installed fs p := lookup_path (md_files fs) (path_components p)
|}.

(** A reader of archives that are given by a table: the stream is the
    compressed data. *)
Definition table_reader (table : list byte → result (list (result TarEntry))) :
    ArchiveReader (list byte) := {|
  zstd_decoder_new data := Ok data;
  xz_decoder_new data := data;
  gz_decoder_new data := data;
  archive_entries := table
|}.

(** * An archive to run the definitions on *)

Definition tar_file (path content : string) (mode : Z) : result TarEntry :=
  Ok {| te_path := Ok path; te_data := Ok (as_bytes content); te_mode := Ok mode |}.

Definition rust_entries : list (result TarEntry) := [
  tar_file "rust-1.50.0/rust-installer-version" ("3" +:+ nl) 420;
  tar_file "rust-1.50.0/components" ("rustc" +:+ nl +:+ "cargo" +:+ nl) 420;
  tar_file "rust-1.50.0/rustc/manifest.in"
           ("file:bin/rustc" +:+ nl +:+ "file:lib/librustc.so" +:+ nl) 420;
  tar_file "rust-1.50.0/rustc/bin/rustc" "ELF rustc" 493;
  tar_file "rust-1.50.0/rustc/lib/librustc.so" "ELF librustc" 420;
  tar_file "rust-1.50.0/cargo/manifest.in" ("file:bin/cargo" +:+ nl) 420;
  tar_file "rust-1.50.0/cargo/bin/cargo" "ELF cargo" 493
].

Definition rust_table (data : list byte) : result (list (result TarEntry)) :=
  if decide (data = as_bytes "rust-1.50.0.tar.zst") then Ok rust_entries
  else Err (Failure "unexpected end of file").

(** The [manifest.in] of a component with a comment. *)
Definition rustc_items : list ManifestItem :=
  [FileItem "bin/rustc"; OtherItem "# libraries"; FileItem "lib/librustc.so"].

Definition rust_reader : ArchiveReader (list byte) := table_reader rust_table.

Definition rust_data : list byte := as_bytes "rust-1.50.0.tar.zst".

(** The archive that is read from [rust_data]. *)
Definition rust_archive : PackageArchive MemManifest :=
  match @package_archive_new (list byte) rust_reader MemManifest _ Zstd rust_data with
  | Ok a => a
  | Err _ => {| pa_manifest := []; pa_components := [] |}
  end.

Definition empty_dest : MemDest := {| md_files := []; md_readonly := []; md_space := 1000 |}.

(** A destination whose [bin/cargo] cannot be written. *)
Definition locked_dest : MemDest :=
  {| md_files := []; md_readonly := [path_components "/opt/rust/bin/cargo"];
     md_space := 1000 |}.

(** A destination that takes files of ten bytes. *)
Definition small_dest : MemDest := {| md_files := []; md_readonly := []; md_space := 10 |}.

(** * The instances keep the laws *)

#[export] Instance mem_manifest_laws : FileManifestLaws MemManifest.
Proof.
  split; [done|..]; intros m m' p q e; cbn [add_file_entry manifest_get mem_manifest];
    destruct (normal_path p); try done; intros [= <-] Hpq; cbn [lookup_path].
  - by rewrite decide_True.
  - by rewrite decide_False.
Qed.

#[export] Instance mem_manifest_checked : CheckedManifest MemManifest.
Proof. intros m m' p e. simpl. by destruct (normal_path p). Qed.

#[export] Instance mem_dest_laws : DestinationLaws MemDest.
Proof.
  split; [intros fs fs' e p q..|intros fs e p q];
    cbn [write_to_path write_interrupted installed mem_dest];
    repeat case_bool_decide; try done; try intros [= <-]; intros Hpq;
    cbn [lookup_path md_files md_add].
  - by rewrite decide_True.
  - by rewrite decide_False.
  - by rewrite decide_False.
Qed.

(** * The mode of an entry *)

(** An entry is executable when one of the three execute bits of its mode
    is set. *)
Lemma executable_mode_bits mode :
  executable_mode mode = Z.testbit mode 0 || Z.testbit mode 3 || Z.testbit mode 6.
Proof.
  unfold executable_mode.
  assert (Z.land mode 73 = 0 ↔
          Z.testbit mode 0 || Z.testbit mode 3 || Z.testbit mode 6 = false)%Z as Hbits.
  { rewrite !orb_false_iff. split.
    - intros H0.
      assert (∀ n, Z.testbit 73 n = true → Z.testbit mode n = false) as Hbit.
      { intros n Hn. pose proof (Z.land_spec mode 73 n) as Hs.
        by rewrite H0, Z.bits_0, Hn, andb_true_r in Hs. }
      by rewrite !Hbit.
    - intros [[H0 H3] H6]. apply Z.bits_inj'. intros n Hn.
      rewrite Z.land_spec, Z.bits_0.
      destruct (decide (n = 0%Z)) as [->|]; [by rewrite H0|].
      destruct (decide (n = 3%Z)) as [->|]; [by rewrite H3|].
      destruct (decide (n = 6%Z)) as [->|]; [by rewrite H6|].
      replace (Z.testbit 73 n) with false; [apply andb_false_r|].
      destruct (decide (n < 7)%Z).
      + assert (n = 1 ∨ n = 2 ∨ n = 4 ∨ n = 5)%Z as [-> | [-> | [-> | ->]]] by lia; done.
      + symmetry. apply Z.bits_above_log2; [lia|]. change (Z.log2 73) with 6%Z. lia. }
  destruct (Z.eqb_spec (Z.land mode 73) 0) as [E|E]; simpl.
  - symmetry. by apply Hbits.
  - symmetry. apply not_false_iff_true. by rewrite <-Hbits.
Qed.

(** * Reading the archive *)

Section reading_lemmas.
Context `{ArchiveReader R} `{FileManifest M}.

Lemma read_entry_Ok entry path fe :
  read_entry entry = Ok (path, fe) ↔
  ∃ te p mode,
    entry = Ok te ∧ te_path te = Ok p ∧ path_components p ≠ [] ∧
    path = path_of_components (tail (path_components p)) ∧
    te_data te = Ok (fe_data fe) ∧ te_mode te = Ok mode ∧
    fe_executable fe = executable_mode mode.
Proof.
  unfold read_entry. split.
  - intros Hr. apply bind_Ok_inv in Hr as (te & ->%context_Ok & Hr).
    apply bind_Ok_inv in Hr as (p & Hp%context_Ok & Hr).
    destruct (head (path_components p)) as [c|] eqn:Hc; [|done].
    cbn [ok_or] in Hr. rewrite bind_Ok, (path_strip_prefix_first p c Hc) in Hr.
    cbn [ok_or] in Hr. rewrite bind_Ok in Hr.
    apply bind_Ok_inv in Hr as (data & Hdata & Hr).
    apply bind_Ok_inv in Hr as (mode & Hmode & [= <- <-]).
    exists te, p, mode. split_and!; try done. by destruct (path_components p).
  - intros (te & p & mode & -> & Hp & Hne & -> & Hdata & Hmode & Hexec).
    cbn [context]. rewrite bind_Ok, Hp. cbn [context]. rewrite bind_Ok.
    destruct (path_components p) as [|c cs] eqn:Hcs; [done|].
    cbn [head ok_or]. rewrite bind_Ok, (path_strip_prefix_first p c) by by rewrite Hcs.
    cbn [ok_or]. rewrite Hcs, bind_Ok, Hdata, bind_Ok, Hmode, bind_Ok.
    destruct fe. simpl in *. by subst.
Qed.

Lemma read_entry_is_ok entry :
  is_ok (read_entry entry) = true ↔
  ∃ te p, entry = Ok te ∧ te_path te = Ok p ∧ path_components p ≠ [] ∧
          is_ok (te_data te) = true ∧ is_ok (te_mode te) = true.
Proof.
  rewrite is_ok_true. split.
  - intros [[path fe] (te & p & mode & ? & ? & ? & _ & Hd & Hm & _)%read_entry_Ok].
    exists te, p. by rewrite Hd, Hm.
  - intros (te & p & -> & Hp & Hne & [data Hd]%is_ok_true & [mode Hm]%is_ok_true).
    exists (path_of_components (tail (path_components p)),
            {| fe_data := data; fe_executable := executable_mode mode |}).
    apply read_entry_Ok. by exists te, p, mode.
Qed.

Lemma package_archive_new_inv format data (a : PackageArchive M) :
  package_archive_new (R := R) format data = Ok a →
  ∃ (stream : R) entries v c text,
    get_decompression_stream format data = Ok stream ∧
    archive_entries stream = Ok entries ∧
    foldM add_archive_entry manifest_default entries = Ok (pa_manifest a) ∧
    manifest_get (pa_manifest a) "rust-installer-version" = Some v ∧
    fe_data v = as_bytes ("3" +:+ nl) ∧
    manifest_get (pa_manifest a) "components" = Some c ∧
    string_from_utf8 (fe_data c) = Ok text ∧ pa_components a = lines text.
Proof.
  unfold package_archive_new.
  intros (stream & Hs%context_Ok & Ha)%bind_Ok_inv.
  apply bind_Ok_inv in Ha as (entries & He%context_Ok & Ha).
  apply bind_Ok_inv in Ha as (m & Hm & Ha).
  destruct (manifest_get m "rust-installer-version") as [v|] eqn:Hv; [|done].
  cbn [ok_or] in Ha. rewrite bind_Ok in Ha. case_bool_decide as Hdata; [done|].
  destruct (manifest_get m "components") as [c|] eqn:Hc; [|done].
  cbn [ok_or] in Ha. rewrite bind_Ok in Ha.
  apply bind_Ok_inv in Ha as (text & Ht%context_Ok & [= <-]).
  by exists stream, entries, v, c, text.
Qed.

Context `{!FileManifestLaws M}.

(** What the manifest holds after the entries are added. *)
Lemma fold_add_archive_entry (m m' : M) entries :
  foldM add_archive_entry m entries = Ok m' →
  ∃ files,
    Forall2 (λ entry file, read_entry entry = Ok file) entries files ∧
    ∀ q, manifest_get m' q = from_option Some (manifest_get m q) (last_entry files q).
Proof.
  revert m. induction entries as [|entry entries IH]; intros m; simpl.
  { intros [= <-]. by exists []. }
  intros (m1 & Hadd & (files & Hfiles & Hget)%IH)%bind_Ok_inv.
  unfold add_archive_entry in Hadd.
  apply bind_Ok_inv in Hadd as ([path fe] & Hread & Hadd).
  exists ((path, fe) :: files). split; [by constructor|].
  intros q. rewrite Hget. cbn [last_entry]. destruct (last_entry files q); [done|].
  case_decide; simpl; [by eapply get_add_eq|by eapply get_add_ne].
Qed.

Context `{!CheckedManifest M}.

Lemma add_archive_entry_keys_normal (m m' : M) entry :
  keys_normal m → add_archive_entry m entry = Ok m' → keys_normal m'.
Proof.
  unfold add_archive_entry. intros Hm ([path fe] & _ & Hadd)%bind_Ok_inv q e.
  destruct (decide (path_components path = path_components q)) as [Heq|Hne].
  - intros _. unfold normal_path. rewrite <-Heq.
    exact (add_file_entry_normal _ _ _ _ Hadd).
  - rewrite (get_add_ne _ _ _ _ _ Hadd Hne). apply Hm.
Qed.

Lemma package_archive_new_wf format data (a : PackageArchive M) :
  package_archive_new (R := R) format data = Ok a → wf_archive a.
Proof.
  intros (stream & entries & v & c & text & _ & _ & Hm & ? & ? & ? & ? & ?)
    %package_archive_new_inv.
  split; [|by exists v|by exists c, text].
  eapply (foldM_invariant keys_normal); [|by intros p e; rewrite get_default|done].
  intros m entry m' ??. by eapply add_archive_entry_keys_normal.
Qed.

End reading_lemmas.

(** * The manifest of a component *)

(** A line of well-formed text with a colon is cut at the colon: a
    character begins after it, so that neither slice panics. *)
Lemma parse_manifest_line_action dirs files action path :
  string_has ":" action = false →
  is_utf8 (as_bytes (action +:+ String ":" path)) = true →
  parse_manifest_line (dirs, files) (action +:+ String ":" path) =
  if decide (action = "file") then Ok (dirs, files ++ [path])
  else if decide (action = "dir") then Ok (dirs ++ [path], files)
  else Err (Failure ("unhandled action in manifest.in: " +:+ action)).
Proof.
  intros Ha (_ & _ & Hpath)%is_utf8_after_ascii; [|done]. unfold parse_manifest_line.
  by rewrite find_char_app, str_slice_prefix, bind_Ok, str_slice_after, bind_Ok.
Qed.

Lemma parse_manifest_line_other acc line :
  string_has ":" line = false → parse_manifest_line acc line = Ok acc.
Proof.
  intros Hl%find_char_None. unfold parse_manifest_line. destruct acc. by rewrite Hl.
Qed.

Lemma parse_manifest_line_item dirs files i :
  item_ok i = true →
  parse_manifest_line (dirs, files) (item_line i) =
  Ok (dirs ++ item_dirs [i], files ++ item_files [i]).
Proof.
  destruct i as [path|path|text]; cbn [item_line item_dirs item_files omap list_omap].
  - intros [[_ Hutf8]%andb_prop _]%andb_prop.
    change ("file:" +:+ path) with ("file" +:+ String ":" path) in Hutf8 |- *.
    rewrite (parse_manifest_line_action dirs files "file" path) by done.
    by rewrite decide_True, (right_id_L [] (++)).
  - intros [[_ Hutf8]%andb_prop _]%andb_prop.
    change ("dir:" +:+ path) with ("dir" +:+ String ":" path) in Hutf8 |- *.
    rewrite (parse_manifest_line_action dirs files "dir" path) by done.
    by rewrite decide_False, decide_True, (right_id_L [] (++)).
  - intros [_ Ht%negb_true_iff]%andb_prop.
    by rewrite parse_manifest_line_other, !(right_id_L [] (++)).
Qed.

Lemma item_dirs_app l k : item_dirs (l ++ k) = item_dirs l ++ item_dirs k.
Proof. apply omap_app. Qed.

Lemma item_files_app l k : item_files (l ++ k) = item_files l ++ item_files k.
Proof. apply omap_app. Qed.

Lemma fold_parse_manifest_line dirs files items :
  Forall (λ i, item_ok i = true) items →
  foldM parse_manifest_line (dirs, files) (item_line <$> items) =
  Ok (dirs ++ item_dirs items, files ++ item_files items).
Proof.
  intros Hitems. revert dirs files.
  induction Hitems as [|i items Hi _ IH]; intros dirs files.
  { cbn. by rewrite !(right_id_L [] (++)). }
  cbn [fmap list_fmap foldM]. rewrite parse_manifest_line_item, bind_Ok, IH by done.
  change (i :: items) with ([i] ++ items).
  by rewrite item_dirs_app, item_files_app, !(assoc_L (++)).
Qed.

Lemma item_ok_lines items :
  Forall (λ i, item_ok i = true) items →
  Forall (λ l, is_line l = true ∧ is_utf8 (as_bytes l) = true) (item_line <$> items).
Proof.
  intros Hitems. apply Forall_fmap. eapply Forall_impl; [done|].
  by intros i [[? ?]%andb_prop _]%andb_prop.
Qed.

(** A text of lines that are well-formed is read as those lines. *)
Lemma lines_of_text ls :
  Forall (λ l, is_line l = true ∧ is_utf8 (as_bytes l) = true) ls →
  string_from_utf8 (as_bytes (terminated ls)) = Ok (terminated ls) ∧
  lines (terminated ls) = ls.
Proof.
  intros Hls. split.
  - apply string_from_utf8_as_bytes, is_utf8_terminated.
    eapply Forall_impl; [done|]. by intros ? [_ ?].
  - apply lines_terminated. eapply Forall_impl; [done|]. by intros ? [? _].
Qed.

Lemma parse_manifest_text items :
  Forall (λ i, item_ok i = true) items →
  parse_manifest (as_bytes (manifest_text items)) = Ok (item_dirs items, item_files items).
Proof.
  intros Hitems. destruct (lines_of_text _ (item_ok_lines items Hitems)) as [Hutf8 Hlines].
  unfold parse_manifest, manifest_text. rewrite Hutf8, bind_Ok, Hlines.
  by apply (fold_parse_manifest_line [] []).
Qed.

Lemma parse_manifest_unhandled items action path rest :
  Forall (λ i, item_ok i = true) items →
  string_has ":" action = false → action ≠ "file" → action ≠ "dir" →
  Forall (λ l, is_line l = true ∧ is_utf8 (as_bytes l) = true)
         ((action +:+ String ":" path) :: rest) →
  parse_manifest
    (as_bytes (terminated ((item_line <$> items) ++ (action +:+ String ":" path) :: rest))) =
  Err (Failure ("unhandled action in manifest.in: " +:+ action)).
Proof.
  intros Hitems Ha Hfile Hdir Hrest.
  destruct (lines_of_text ((item_line <$> items) ++ (action +:+ String ":" path) :: rest))
    as [Hutf8 Hlines]; [apply Forall_app; split; [by apply item_ok_lines|done]|].
  unfold parse_manifest. rewrite Hutf8, bind_Ok, Hlines.
  rewrite foldM_app, (fold_parse_manifest_line [] []), bind_Ok by done.
  apply Forall_cons in Hrest as [[_ Hline] _].
  cbn [foldM]. rewrite parse_manifest_line_action by done.
  by rewrite !decide_False.
Qed.

(** * Installation *)

Section plan_lemmas.
Context `{FileManifest M} `{Destination F}.
Implicit Types (p q : Plan) (fs : F).

Lemma run_plan_seq p q fs :
  run_plan (plan_seq p q) fs = io_bind (λ _, run_plan q) (run_plan p) fs.
Proof.
  destruct p as [cs [e|]]; unfold plan_seq, run_plan, io_bind; simpl.
  - by destruct (io_for write_copy cs fs) as [fs1 [[]|e']].
  - rewrite io_for_app. unfold io_bind.
    by destruct (io_for write_copy cs fs) as [fs1 [[]|e']].
Qed.

(** A loop whose body runs a plan runs the plans in sequence. *)
Lemma io_for_run_plan {B} (f : B → io F ()) (g : B → Plan) l fs :
  (∀ x fs, f x fs = run_plan (g x) fs) →
  io_for f l fs = run_plan (foldr (λ x, plan_seq (g x)) ([], None) l) fs.
Proof.
  intros Hf. revert fs. induction l as [|x l IH]; intros fs; [done|].
  cbn [io_for foldr]. rewrite run_plan_seq. unfold io_bind. rewrite Hf.
  destruct (run_plan (g x) fs) as [fs1 [[]|e]]; [apply IH|done].
Qed.

Lemma install_file_plan (a : PackageArchive M) dest_dir component file fs :
  install_file a dest_dir component file fs =
  run_plan (plan_file a dest_dir component file) fs.
Proof.
  unfold install_file, plan_file.
  destruct (manifest_get (pa_manifest a) (path_join component file)) as [entry|]; [|done].
  unfold mbind, io_mbind. rewrite io_bind_lift. cbn [ok_or].
  unfold run_plan. cbn [fst snd]. by rewrite io_bind_ret_r, io_for_singleton.
Qed.

Lemma install_component_plan (a : PackageArchive M) dest_dir component fs :
  install_component a dest_dir component fs =
  run_plan (plan_component a dest_dir component) fs.
Proof.
  unfold install_component, plan_component.
  destruct (manifest_get (pa_manifest a) (path_join component "manifest.in"))
    as [manifest|]; [|done].
  unfold mbind, io_mbind, io_bind, io_lift; simpl.
  destruct (parse_manifest (fe_data manifest)) as [[dirs files]|e]; [|done].
  destruct (negb (bool_decide (dirs = []))); [done|].
  apply io_for_run_plan, install_file_plan.
Qed.

Lemma install_run_plan (a : PackageArchive M) dest_dir fs :
  install a dest_dir fs = run_plan (install_plan a dest_dir) fs.
Proof. apply io_for_run_plan, install_component_plan. Qed.

End plan_lemmas.

Lemma inside_components dir q q' :
  path_components q = path_components q' → inside dir q → inside dir q'.
Proof. intros Hq (names & ? & ?). exists names. by rewrite <-Hq. Qed.

(** A path that is normal after it was joined was relative, and its body
    has only names. *)
Lemma normal_join_body component file :
  normal_path (path_join component file) = true →
  has_root file = false ∧ forallb is_normal (body_components file) = true.
Proof.
  unfold normal_path. intros Hn. destruct (has_root file) eqn:Hroot.
  { rewrite path_join_absolute in Hn by done. unfold path_components in Hn.
    by rewrite Hroot in Hn. }
  split; [done|]. destruct (decide (component = "")) as [->|Hc].
  - rewrite path_join_empty in Hn. destruct (path_components_body file) as [first Hf].
    rewrite Hf, forallb_app in Hn. by apply andb_prop in Hn as [_ ?].
  - rewrite path_components_join_relative, forallb_app in Hn by done.
    by apply andb_prop in Hn as [_ ?].
Qed.

Lemma plan_seq_copies (p q : Plan) c : c ∈ (plan_seq p q).1 → c ∈ p.1 ∨ c ∈ q.1.
Proof.
  unfold plan_seq. destruct p as [cs [e|]]; simpl; [by left|]. apply elem_of_app.
Qed.

Lemma plan_fold_copies {B} (g : B → Plan) l c :
  c ∈ (foldr (λ x, plan_seq (g x)) ([], None) l).1 → ∃ x, x ∈ l ∧ c ∈ (g x).1.
Proof.
  induction l as [|x l IH]; simpl; [by intros ?%elem_of_nil|].
  intros [Hc|(y & ? & ?)%IH]%plan_seq_copies; [exists x|exists y]; split; try done;
    by constructor.
Qed.

Section plan_inside.
Context `{FileManifest M}.
Context (a : PackageArchive M) (dest_dir : string).
Context (Hkeys : keys_normal (pa_manifest a)) (Hdest : dest_dir ≠ "").

Lemma plan_file_inside component file c :
  c ∈ (plan_file a dest_dir component file).1 → inside dest_dir (copy_to c).
Proof.
  unfold plan_file.
  destruct (manifest_get (pa_manifest a) (path_join component file)) as [entry|] eqn:Hget;
    simpl; [|by intros ?%elem_of_nil].
  intros ->%list_elem_of_singleton. simpl.
  destruct (normal_join_body component file (Hkeys _ _ Hget)) as [Hroot Hbody].
  exists (body_components file). split; [|done].
  by apply path_components_join_relative.
Qed.

Lemma plan_component_inside component c :
  c ∈ (plan_component a dest_dir component).1 → inside dest_dir (copy_to c).
Proof.
  unfold plan_component. repeat case_match; simpl; try by intros ?%elem_of_nil.
  intros (file & _ & ?)%plan_fold_copies. by eapply plan_file_inside.
Qed.

(** With a manifest whose keys are normal, every copy of an installation
    goes inside the destination. *)
Lemma install_plan_inside c :
  c ∈ (install_plan a dest_dir).1 → inside dest_dir (copy_to c).
Proof. intros (component & _ & ?)%plan_fold_copies. by eapply plan_component_inside. Qed.

End plan_inside.

Section run_lemmas.
Context `{Destination F} `{!DestinationLaws F}.
Implicit Types (p : Plan) (fs : F) (c : Copy).

Lemma write_copy_Ok c fs fs' u :
  write_copy c fs = (fs', Ok u) ↔ write_to_path fs (copy_entry c) (copy_to c) = Ok fs'.
Proof. unfold write_copy. by rewrite io_context_Ok, io_try_Ok. Qed.

(** A copy that fails leaves the destination that the interrupted call
    leaves. *)
Lemma write_copy_Err c fs fs' e :
  write_copy c fs = (fs', Err e) →
  fs' = write_interrupted fs (copy_entry c) (copy_to c) ∧
  ∃ e', write_to_path fs (copy_entry c) (copy_to c) = Err e' ∧
    e = context_error e' ("writing " +:+ copy_from c +:+ " to " +:+ copy_to c).
Proof.
  unfold write_copy. intros (e' & [He ->]%io_try_Err & ->)%io_context_Err.
  split; [done|]. by exists e'.
Qed.

(** A copy touches no other path, whether it succeeds or not. *)
Lemma write_copy_frame c fs q :
  path_components (copy_to c) ≠ path_components q →
  installed (write_copy c fs).1 q = installed fs q.
Proof.
  intros Hne. unfold write_copy. rewrite io_context_state, io_try_state.
  destruct (write_to_path fs (copy_entry c) (copy_to c)) eqn:Hw.
  - by apply (installed_write_ne _ _ _ _ _ Hw).
  - by apply installed_interrupted_ne.
Qed.

Lemma run_plan_state p fs : (run_plan p fs).1 = (io_for write_copy p.1 fs).1.
Proof.
  unfold run_plan, io_bind. destruct (io_for write_copy p.1 fs) as [fs1 [[]|e]]; [|done].
  by destruct p.2.
Qed.

(** A path that no copy of the plan writes is left as it was. *)
Lemma run_plan_frame p fs q :
  (∀ c, c ∈ p.1 → path_components (copy_to c) ≠ path_components q) →
  installed (run_plan p fs).1 q = installed fs q.
Proof.
  intros Hp. rewrite run_plan_state.
  apply (io_for_invariant (λ s, installed s q = installed fs q)); [|done].
  intros c s Hc <-. by apply write_copy_frame, Hp.
Qed.

(** What the destination holds after the copies. *)
Lemma io_for_write_copy_Ok cs fs fs' :
  io_for write_copy cs fs = (fs', Ok ()) →
  ∀ q, installed fs' q = from_option Some (installed fs q) (last_entry (copy_files cs) q).
Proof.
  revert fs. induction cs as [|c cs IH]; intros fs.
  { by intros [= <-]. }
  intros (fs1 & Hc%write_copy_Ok & Hcs)%io_for_cons_Ok q.
  rewrite (IH _ Hcs). cbn [copy_files fmap list_fmap last_entry].
  fold (copy_files cs). destruct (last_entry (copy_files cs) q); [done|].
  case_decide; simpl; [by eapply installed_write_eq|by eapply installed_write_ne].
Qed.

Lemma run_plan_Ok p fs fs' :
  run_plan p fs = (fs', Ok ()) ↔ p.2 = None ∧ io_for write_copy p.1 fs = (fs', Ok ()).
Proof.
  unfold run_plan. rewrite io_bind_Ok. split.
  - intros (fs1 & [] & Hcs & Hp). destruct p.2; [done|]. by injection Hp as <-.
  - intros [-> Hcs]. by exists fs', ().
Qed.

(** A plan that fails has made the copies before the failure, and they
    stay: it ends in the state that they reach, or in the state that the
    copy that failed leaves of it. *)
Lemma run_plan_Err p fs fs' e :
  run_plan p fs = (fs', Err e) →
  ∃ made rest fs1, p.1 = made ++ rest ∧ io_for write_copy made fs = (fs1, Ok ()) ∧
    match rest with
    | [] => fs' = fs1 ∧ p.2 = Some e
    | c :: _ =>
        fs' = write_interrupted fs1 (copy_entry c) (copy_to c) ∧
        ∃ e', write_to_path fs1 (copy_entry c) (copy_to c) = Err e' ∧
          e = context_error e' ("writing " +:+ copy_from c +:+ " to " +:+ copy_to c)
    end.
Proof.
  unfold run_plan. rewrite io_bind_Err.
  intros [(made & c & rest & fs1 & Hp & Hmade & Hc)%io_for_Err|(fs1 & [] & Hcs & He)].
  - destruct (write_copy_Err _ _ _ _ Hc) as [-> He]. by exists made, (c :: rest), fs1.
  - exists p.1, [], fs1. rewrite (right_id_L [] (++)). destruct p.2; [|done].
    injection He as <- <-. by split_and!.
Qed.

(** A plan without an error runs to its end when every copy can be
    written in the states of an invariant. *)
Lemma run_plan_succeeds (P : F → Prop) (p : Plan) :
  p.2 = None →
  (∀ c fs, c ∈ p.1 → P fs →
     ∃ fs', write_to_path fs (copy_entry c) (copy_to c) = Ok fs' ∧ P fs') →
  succeeds P (run_plan p) (λ _, P).
Proof.
  intros Hplan Hwrite. unfold run_plan. rewrite Hplan.
  apply (succeeds_bind _ (λ _, P)).
  - apply succeeds_for. intros c Hc. apply succeeds_context, succeeds_try. eauto.
  - intros _. eapply succeeds_mono; [apply (succeeds_ret P)|done|by intros ?? [_ ?]].
Qed.

End run_lemmas.

(** * Properties *)

(** Whether an entry is executable depends on the three execute bits of
    its mode and on nothing else. *)
Theorem executable_bits mode :
  executable_mode mode = Z.testbit mode 0 || Z.testbit mode 3 || Z.testbit mode 6.
Proof. apply executable_mode_bits. Qed.

(** C17. A text of [file:] and [dir:] lines and of lines without a colon is
    parsed to the directories and the files that it lists, in order; the
    lines without a colon are passed over. *)
Theorem manifest_text_roundtrip items :
  Forall (λ i, item_ok i = true) items →
  parse_manifest (as_bytes (manifest_text items)) = Ok (item_dirs items, item_files items).
Proof. apply parse_manifest_text. Qed.

Lemma manifest_text_roundtrip_witness :
  parse_manifest (as_bytes (manifest_text rustc_items)) =
  Ok ([], ["bin/rustc"; "lib/librustc.so"]).
Proof. apply (manifest_text_roundtrip rustc_items). by repeat constructor. Defined.

(** The first line whose action is neither [file] nor [dir] makes the
    parse fail with that action in the message, whatever follows it. *)
Theorem manifest_unhandled_action items action path rest :
  Forall (λ i, item_ok i = true) items →
  string_has ":" action = false → action ≠ "file" → action ≠ "dir" →
  Forall (λ l, is_line l = true ∧ is_utf8 (as_bytes l) = true)
         ((action +:+ String ":" path) :: rest) →
  parse_manifest
    (as_bytes (terminated ((item_line <$> items) ++ (action +:+ String ":" path) :: rest))) =
  Err (Failure ("unhandled action in manifest.in: " +:+ action)).
Proof. apply parse_manifest_unhandled. Qed.

Lemma manifest_unhandled_action_witness :
  parse_manifest
    (as_bytes (terminated ((item_line <$> rustc_items) ++ ["files:bin/cargo"; "file:bin/rls"]))) =
  Err (Failure "unhandled action in manifest.in: files").
Proof.
  apply (manifest_unhandled_action rustc_items "files" "bin/cargo" ["file:bin/rls"]);
    by repeat constructor.
Defined.

Section properties.
Context `{ArchiveReader R} `{FileManifest M} `{!FileManifestLaws M} `{!CheckedManifest M}.
Context `{Destination F} `{!DestinationLaws F}.

(** An entry is read exactly when the reader gives its path, its content
    and its mode and the path has a component: removing the first component
    never fails. *)
Theorem entry_read_succeeds entry :
  is_ok (read_entry entry) = true ↔
  ∃ te p, entry = Ok te ∧ te_path te = Ok p ∧ path_components p ≠ [] ∧
          is_ok (te_data te) = true ∧ is_ok (te_mode te) = true.
Proof. apply read_entry_is_ok. Qed.

(** C16. An archive that is read is well formed: its keys are relative paths
    of names, it holds the installer version 3, and its components are the
    lines of its components file. *)
Theorem archive_well_formed format data (a : PackageArchive M) :
  package_archive_new (R := R) format data = Ok a → wf_archive a.
Proof. apply package_archive_new_wf. Qed.

(** C33. The manifest of an archive that is read holds, for every path, the
    last entry of the archive whose path without its first component has the
    components of that path. *)
Theorem archive_manifest_contents format data (a : PackageArchive M) :
  package_archive_new (R := R) format data = Ok a →
  ∃ (stream : R) entries files,
    get_decompression_stream format data = Ok stream ∧
    archive_entries stream = Ok entries ∧
    Forall2 (λ entry file, read_entry entry = Ok file) entries files ∧
    ∀ q, manifest_get (pa_manifest a) q = last_entry files q.
Proof.
  intros (stream & entries & v & c & text & Hs & He & Hm & _)%package_archive_new_inv.
  apply fold_add_archive_entry in Hm as (files & Hfiles & Hget).
  exists stream, entries, files. split_and!; [done..|].
  intros q. by rewrite Hget, get_default; destruct (last_entry files q).
Qed.

(** C15. An installation makes the copies of its plan in order, stops at the
    first copy that fails, and otherwise ends with the error of the plan. *)
Theorem install_follows_plan (a : PackageArchive M) dest_dir (fs : F) :
  install a dest_dir fs = run_plan (install_plan a dest_dir) fs.
Proof. apply install_run_plan. Qed.

(** C5. Installing an archive that was read leaves every path outside the
    destination directory as it was, whether the installation succeeds or
    not. *)
Theorem install_stays_inside format data (a : PackageArchive M) dest_dir (fs : F) q :
  package_archive_new (R := R) format data = Ok a →
  dest_dir ≠ "" → ¬ inside dest_dir q →
  installed (install a dest_dir fs).1 q = installed fs q.
Proof.
  intros [Hkeys _ _]%package_archive_new_wf Hdest Hq.
  rewrite install_run_plan. apply run_plan_frame. intros c Hc Heq.
  apply Hq, (inside_components _ _ _ Heq). by eapply install_plan_inside.
Qed.

(** C21. After an installation that succeeds the plan had no error, and the
    destination holds at every path the entry of the last copy to that path,
    or what it held before. *)
Theorem install_result (a : PackageArchive M) dest_dir (fs fs' : F) :
  install a dest_dir fs = (fs', Ok ()) →
  (install_plan a dest_dir).2 = None ∧
  ∀ q, installed fs' q =
       from_option Some (installed fs q) (last_entry (copy_files (install_plan a dest_dir).1) q).
Proof.
  rewrite install_run_plan. intros [Hplan Hcopies]%run_plan_Ok.
  split; [done|]. by apply io_for_write_copy_Ok.
Qed.

(** C22. An installation that fails is not undone: the copies that were made
    before the failure stay.  When the plan ends with an error the
    destination holds them; when a copy fails, the destination holds them at
    every path but the one of that copy, where the interrupted write can
    have left anything.  The error of a copy that fails is the error of the
    write with the two paths as its context. *)
Theorem install_keeps_partial (a : PackageArchive M) dest_dir (fs fs' : F) e :
  install a dest_dir fs = (fs', Err e) →
  ∃ made rest fs1,
    (install_plan a dest_dir).1 = made ++ rest ∧
    (∀ q, installed fs1 q = from_option Some (installed fs q) (last_entry (copy_files made) q)) ∧
    match rest with
    | [] => fs' = fs1 ∧ (install_plan a dest_dir).2 = Some e
    | c :: _ =>
        (∀ q, path_components (copy_to c) ≠ path_components q →
              installed fs' q = installed fs1 q) ∧
        ∃ e', write_to_path fs1 (copy_entry c) (copy_to c) = Err e' ∧
          e = context_error e' ("writing " +:+ copy_from c +:+ " to " +:+ copy_to c)
    end.
Proof.
  rewrite install_run_plan. intros (made & rest & fs1 & Hp & Hmade & Hrest)%run_plan_Err.
  exists made, rest, fs1. split_and!; [done|by apply io_for_write_copy_Ok|].
  destruct rest as [|c rest]; [done|]. destruct Hrest as [-> He]. split; [|done].
  intros q Hq. by apply installed_interrupted_ne.
Qed.

(** On a destination where a write that fails changes nothing, the
    destination of an installation that fails holds the copies that were
    made before the failure, and the copy that failed fails again. *)
Corollary install_keeps_partial_atomic `{!AtomicDestination F}
    (a : PackageArchive M) dest_dir (fs fs' : F) e :
  install a dest_dir fs = (fs', Err e) →
  ∃ made rest,
    (install_plan a dest_dir).1 = made ++ rest ∧
    (∀ q, installed fs' q = from_option Some (installed fs q) (last_entry (copy_files made) q)) ∧
    match rest with
    | [] => (install_plan a dest_dir).2 = Some e
    | c :: _ =>
        ∃ e', write_to_path fs' (copy_entry c) (copy_to c) = Err e' ∧
          e = context_error e' ("writing " +:+ copy_from c +:+ " to " +:+ copy_to c)
    end.
Proof.
  rewrite install_run_plan. intros (made & rest & fs1 & Hp & Hmade & Hrest)%run_plan_Err.
  assert (fs' = fs1) as ->.
  { destruct rest; destruct Hrest as [-> _]; [done|]. apply write_interrupted_id. }
  exists made, rest. split_and!; [done|by apply io_for_write_copy_Ok|].
  destruct rest; by destruct Hrest.
Qed.

(** C23. The installation runs to its end: when the manifests of the
    components name only files of the archive (the plan has no error) and
    every file of the plan can be written in the states of an invariant of
    the destination, [install] returns without an error in a state of the
    invariant. *)
Theorem install_completes (a : PackageArchive M) dest_dir (P : F → Prop) (fs : F) :
  (install_plan a dest_dir).2 = None →
  (∀ c fs, c ∈ (install_plan a dest_dir).1 → P fs →
     ∃ fs', write_to_path fs (copy_entry c) (copy_to c) = Ok fs' ∧ P fs') →
  P fs → ∃ fs', install a dest_dir fs = (fs', Ok ()) ∧ P fs'.
Proof.
  intros Hplan Hwrite Hfs. rewrite install_run_plan.
  destruct (run_plan_succeeds P _ Hplan Hwrite fs Hfs) as (fs' & [] & ? & ?). by exists fs'.
Qed.

End properties.

(** A destination without read-only paths takes every file that is not too
    long. *)
Lemma mem_dest_writable n e p (fs : MemDest) :
  length (fe_data e) ≤ n →
  md_readonly fs = [] ∧ md_space fs = n →
  ∃ fs', write_to_path fs e p = Ok fs' ∧ md_readonly fs' = [] ∧ md_space fs' = n.
Proof.
  intros He [Hfs Hn]. cbn [write_to_path mem_dest].
  rewrite Hfs, Hn, bool_decide_eq_false_2, bool_decide_eq_true_2 by set_solver.
  by eexists.
Qed.

(** * The properties on the archive of the scenario *)

Section scenarios.
#[local] Existing Instance rust_reader.

Lemma rust_archive_read :
  package_archive_new (R := list byte) Zstd rust_data = Ok rust_archive.
Proof. vm_compute. reflexivity. Defined.

Lemma archive_well_formed_witness : wf_archive rust_archive.
Proof. exact (archive_well_formed Zstd rust_data rust_archive rust_archive_read). Defined.

Lemma archive_manifest_contents_witness :
  ∃ files,
    Forall2 (λ entry file, read_entry entry = Ok file) rust_entries files ∧
    ∀ q, manifest_get (pa_manifest rust_archive) q = last_entry files q.
Proof.
  destruct (archive_manifest_contents Zstd rust_data rust_archive rust_archive_read)
    as (stream & entries & files & [= <-] & [= <-] & Hfiles & Hget).
  by exists files.
Defined.

Lemma install_stays_inside_witness :
  installed (install rust_archive "/opt/rust" empty_dest).1 "/etc/passwd" =
  installed empty_dest "/etc/passwd".
Proof.
  apply (install_stays_inside (R := list byte) Zstd rust_data rust_archive "/opt/rust"
           empty_dest "/etc/passwd");
    [exact rust_archive_read|done|].
  intros (names & Hnames & _). vm_compute in Hnames. discriminate Hnames.
Defined.

Lemma install_result_witness :
  ∃ fs' : MemDest,
    install rust_archive "/opt/rust" empty_dest = (fs', Ok ()) ∧
    (install_plan rust_archive "/opt/rust").2 = None ∧
    ∀ q, installed fs' q =
         from_option Some (installed empty_dest q)
           (last_entry (copy_files (install_plan rust_archive "/opt/rust").1) q).
Proof.
  exists (install rust_archive "/opt/rust" empty_dest).1.
  assert (install rust_archive "/opt/rust" empty_dest =
          ((install rust_archive "/opt/rust" empty_dest).1, Ok ())) as Hinstall
    by (vm_compute; reflexivity).
  split; [exact Hinstall|].
  exact (install_result rust_archive "/opt/rust" empty_dest _ Hinstall).
Defined.

Lemma install_keeps_partial_witness :
  ∃ (fs' : MemDest) made rest (fs1 : MemDest),
    install rust_archive "/opt/rust" small_dest =
      (fs', Err (WithContext "writing rustc/lib/librustc.so to /opt/rust/lib/librustc.so"
                             (Failure "No space left on device"))) ∧
    (install_plan rust_archive "/opt/rust").1 = made ++ rest ∧
    ∀ q, installed fs1 q = from_option Some (installed small_dest q)
                                       (last_entry (copy_files made) q).
Proof.
  assert (install rust_archive "/opt/rust" small_dest =
          ((install rust_archive "/opt/rust" small_dest).1,
           Err (WithContext "writing rustc/lib/librustc.so to /opt/rust/lib/librustc.so"
                            (Failure "No space left on device")))) as Hinstall
    by (vm_compute; reflexivity).
  destruct (install_keeps_partial rust_archive "/opt/rust" small_dest _ _ Hinstall)
    as (made & rest & fs1 & Hplan & Hmade & _).
  exists (install rust_archive "/opt/rust" small_dest).1, made, rest, fs1.
  split; [exact Hinstall|]. split; [exact Hplan|exact Hmade].
Defined.

(** The installation that fails for lack of space has written [bin/rustc]
    and leaves the library that it could not write as an empty file; the
    one that fails on a path that cannot be opened leaves no file there. *)
Example install_interrupted :
  installed (install rust_archive "/opt/rust" small_dest).1 "/opt/rust/bin/rustc" =
    Some {| fe_data := as_bytes "ELF rustc"; fe_executable := true |} ∧
  installed (install rust_archive "/opt/rust" small_dest).1 "/opt/rust/lib/librustc.so" =
    Some {| fe_data := []; fe_executable := false |} ∧
  installed (install rust_archive "/opt/rust" locked_dest).1 "/opt/rust/bin/cargo" = None ∧
  (install rust_archive "/opt/rust" locked_dest).2 =
    Err (WithContext "writing cargo/bin/cargo to /opt/rust/bin/cargo"
                     (Failure "Permission denied")).
Proof. by vm_compute. Qed.

Lemma install_completes_witness :
  ∃ fs', install rust_archive "/opt/rust" empty_dest = (fs', Ok ()) ∧
         md_readonly fs' = [] ∧ md_space fs' = 1000.
Proof.
  apply (install_completes rust_archive "/opt/rust"
           (λ fs, md_readonly fs = [] ∧ md_space fs = 1000) empty_dest).
  - vm_compute. reflexivity.
  - intros c fs Hc. apply mem_dest_writable. revert c Hc.
    apply Forall_forall, (bool_decide_unpack _). vm_compute. reflexivity.
  - split; reflexivity.
Defined.

End scenarios.
