(* ===== verification/Layout.v ===== *)
(** * The layout of a new project (pyoxidizer/src/project_layout.rs)

    [initialize_project] runs [cargo init] and then writes the files that
    make a Rust project embed Python: it checks the directory
    ([add_pyoxidizer]), edits [Cargo.toml] ([update_new_cargo_toml]) and
    writes [.cargo/config], [Cargo.lock], [build.rs], [src/main.rs],
    [pyoxidizer.bzl] and the application manifest, each from a template.

    The functions that write run in [io] over a file system: what was
    written before an error stays written, and a write that fails leaves
    the file as [write_failed] says (truncated, on a real disk).  Where the
    code converts a path with [to_str().unwrap()] or [expect], the model
    panics on a path that is not UTF-8 ([path_to_str]); where it slices the
    text of [Cargo.toml], it panics off a character boundary.  The template engine with its
    template files, the parsers of [Cargo.lock] and of [Cargo.toml], the
    walk of a directory tree, the child process and the constants of the
    build are not in the repository; they are the interfaces [Templates],
    [CargoLock], [CargoToml], [TreeWalker], [Process] and [Environment].  The
    template registry is the list of the names that are registered; that
    the templates parse when they are registered is assumed.  What is
    printed is not modelled. *)

From S2P Require Import Prelude RustStd Io Dist Env Effect RustText RustSort FsIo.

(** * Data *)

(** The names of the templates that the registry holds. *)
Definition HANDLEBARS : list string := [
  "application-manifest.rc";
  "cargo-extra.toml";
  "exe.manifest";
  "new-build.rs";
  "new-cargo-config";
  "new-main.rs";
  "new-pyoxidizer.bzl"
].

Definition NEW_PROJECT_DEPENDENCIES : list string := [
  "embed-resource";
  "jemallocator";
  "mimalloc";
  "pyembed";
  "snmalloc-rs"
].

Record PythonDistribution := {
  pd_build_target : string;
  pd_url : string;
  pd_sha256 : string
}.

Record TemplateData := {
  td_pyoxidizer_version : option string;
  td_pyoxidizer_commit : option string;
  td_pyoxidizer_local_repo_path : option string;
  td_pyoxidizer_git_url : option string;
  td_pyoxidizer_git_commit : option string;
  td_pyoxidizer_git_tag : option string;
  td_python_distributions : list PythonDistribution;
  td_program_name : option string;
  td_code : option string;
  td_pip_install_simple : list string
}.

(** [TemplateData::new]. *)
Definition template_data_new : TemplateData := {|
  td_pyoxidizer_version := None;
  td_pyoxidizer_commit := None;
  td_pyoxidizer_local_repo_path := None;
  td_pyoxidizer_git_url := None;
  td_pyoxidizer_git_commit := None;
  td_pyoxidizer_git_tag := None;
  td_python_distributions := [];
  td_program_name := None;
  td_code := None;
  td_pip_install_simple := []
|}.

(** [environment::PyOxidizerSource]. *)
Inductive PyOxidizerSource : Type :=
  | LocalPath (path : string)
  | GitUrl (url : string) (commit tag : option string).

(** How the [pyembed] crate is depended on. *)
Inductive PyembedLocation : Type :=
  | Version (version : string)
  | Path (path : string)
  | Git (url commit : string).

(** What a template is rendered with: a [TemplateData] or a map of
    strings. *)
Inductive RenderData : Type :=
  | DataOfTemplate (data : TemplateData)
  | DataOfMap (data : gmap string string).

(** [cargo_lock::Dependency], [cargo_lock::Package] and
    [cargo_lock::Lockfile], with names and versions as they are printed;
    [lf_other] stands for what a lock file holds beside its packages. *)
Record Dependency := {
  dep_name : string;
  dep_version : string;
  dep_source : option string
}.

Record Package := {
  pkg_name : string;
  pkg_version : string;
  pkg_source : option string;
  pkg_checksum : option string;
  pkg_dependencies : list Dependency;
  pkg_replace : option Dependency
}.

Record Lockfile := {
  lf_packages : list Package;
  lf_other : string
}.

(** [cargo_toml::Manifest]: whether it has a [[package]] table. *)
Record CargoManifest := {
  cm_package : option string
}.

(** * Interfaces *)

(** The constants of the build and how the source of PyOxidizer locates the
    [pyembed] crate. *)
Class Environment := {
  PYOXIDIZER_VERSION : string;
  BUILD_GIT_COMMIT : option string;
  NEW_PROJECT_CARGO_LOCK : string;
  as_pyembed_location : PyOxidizerSource → PyembedLocation
}.

(** The rendering of a registered template. *)
Class Templates := template_render : string → RenderData → result string.

Class CargoLock := {
  lockfile_from_str : string → result Lockfile;
  lockfile_to_string : Lockfile → string;
  name_from_str : string → result string
}.

Class CargoToml := manifest_from_slice : list byte → result CargoManifest.

(** [walk_tree_files(root)]: the paths of the files under a directory. *)
Class TreeWalker (F : Type) := walk_tree_files : F → string → list string.
#[global] Hint Mode TreeWalker ! : typeclass_instances.

(** [Path::is_dir], [Path::exists] and [std::fs::create_dir]. *)
Class Directories (F : Type) := {
  is_dir : F → string → bool;
  fs_exists : F → string → bool;
  create_dir : F → string → result F
}.
#[global] Hint Mode Directories ! : typeclass_instances.

(** Creating a directory changes no file. *)
Class DirectoriesLaws (F : Type) `{FileSystem F} `{Directories F} :=
  read_create_dir (fs fs' : F) (dir p : string) :
    create_dir fs dir = Ok fs' → read_file fs' p = read_file fs p.
#[global] Hint Mode DirectoriesLaws ! - - : typeclass_instances.

(** * Pure functions *)

(** The relative path names PyOxidizer. *)
Definition pyoxidizer_path (path_s : string) : bool :=
  str_contains path_s "pyoxidizer" || str_contains path_s "pyembed".

Section pure.
Context `{Environment} `{Templates}.

(** [HANDLEBARS.render(name, data)]: a template that is not registered
    cannot be rendered. *)
Definition render (name : string) (data : RenderData) : result string :=
  if bool_decide (name ∈ HANDLEBARS) then template_render name data
  else Err (Failure ("template not found: " +:+ name)).

Definition populate_template_data (source : PyOxidizerSource) (data : TemplateData) :
    TemplateData :=
  let version := Some PYOXIDIZER_VERSION in
  let commit := Some (default "UNKNOWN" BUILD_GIT_COMMIT) in
  match source with
  | LocalPath path =>
      {| td_pyoxidizer_version := version;
         td_pyoxidizer_commit := commit;
         td_pyoxidizer_local_repo_path := Some path;
         td_pyoxidizer_git_url := td_pyoxidizer_git_url data;
         td_pyoxidizer_git_commit := td_pyoxidizer_git_commit data;
         td_pyoxidizer_git_tag := td_pyoxidizer_git_tag data;
         td_python_distributions := td_python_distributions data;
         td_program_name := td_program_name data;
         td_code := td_code data;
         td_pip_install_simple := td_pip_install_simple data |}
  | GitUrl url commit' tag =>
      {| td_pyoxidizer_version := version;
         td_pyoxidizer_commit := commit;
         td_pyoxidizer_local_repo_path := td_pyoxidizer_local_repo_path data;
         td_pyoxidizer_git_url := Some url;
         td_pyoxidizer_git_commit :=
           match commit' with Some c => Some c | None => td_pyoxidizer_git_commit data end;
         td_pyoxidizer_git_tag :=
           match tag with Some t => Some t | None => td_pyoxidizer_git_tag data end;
         td_python_distributions := td_python_distributions data;
         td_program_name := td_program_name data;
         td_code := td_code data;
         td_pip_install_simple := td_pip_install_simple data |}
  end.

Definition with_program_name (data : TemplateData) (program_name : string) : TemplateData :=
  {| td_pyoxidizer_version := td_pyoxidizer_version data;
     td_pyoxidizer_commit := td_pyoxidizer_commit data;
     td_pyoxidizer_local_repo_path := td_pyoxidizer_local_repo_path data;
     td_pyoxidizer_git_url := td_pyoxidizer_git_url data;
     td_pyoxidizer_git_commit := td_pyoxidizer_git_commit data;
     td_pyoxidizer_git_tag := td_pyoxidizer_git_tag data;
     td_python_distributions := td_python_distributions data;
     td_program_name := Some program_name;
     td_code := td_code data;
     td_pip_install_simple := td_pip_install_simple data |}.

(** [code.replace] of the double quote by a backslash and a double quote. *)
Definition escape_code (code : string) : string :=
  replace_char DQ (String BACKSLASH dq) code.

(** The data that [pyoxidizer.bzl] is rendered with. *)
Definition config_file_data (source : PyOxidizerSource) (name : string)
    (code : option string) (pip_install : list string) : TemplateData :=
  let data := template_data_new in
  let data := populate_template_data source data in
  let data := with_program_name data name in
  {| td_pyoxidizer_version := td_pyoxidizer_version data;
     td_pyoxidizer_commit := td_pyoxidizer_commit data;
     td_pyoxidizer_local_repo_path := td_pyoxidizer_local_repo_path data;
     td_pyoxidizer_git_url := td_pyoxidizer_git_url data;
     td_pyoxidizer_git_commit := td_pyoxidizer_git_commit data;
     td_pyoxidizer_git_tag := td_pyoxidizer_git_tag data;
     td_python_distributions := td_python_distributions data;
     td_program_name := td_program_name data;
     td_code := match code with Some code => Some (escape_code code) | None => td_code data end;
     td_pip_install_simple := pip_install |}.

Definition cargo_manifest_fields (location : PyembedLocation) : string :=
  match location with
  | Version version => "version = " +:+ dq +:+ version +:+ dq
  | Path path => "path = " +:+ dq +:+ path +:+ dq
  | Git url commit =>
      "git = " +:+ dq +:+ url +:+ dq +:+ ", rev = " +:+ dq +:+ commit +:+ dq
  end.

(** The line that makes the build script known. *)
Definition build_line : string := "build = " +:+ dq +:+ "build.rs" +:+ dq +:+ nl.

Definition pyembed_line (location : PyembedLocation) : string :=
  "pyembed = { " +:+ cargo_manifest_fields location +:+ ", default-features = false }" +:+ nl.

(** What [update_new_cargo_toml] computes from the content of the file. *)
Definition updated_cargo_toml (content : string) (pyembed_location : PyembedLocation) :
    result string :=
  version_start ← ok_or (str_find content "version =")
                        "could not find version line in Cargo.toml";
  rest ← str_slice content version_start (String.length content);
  nl_off ← (λ off, version_start + off + 1) <$>
             ok_or (find_char LF rest) "could not find newline after version line";
  '(before, after) ← split_at content nl_off;
  let content := before in
  let content := content +:+ build_line in
  let content := content +:+ after in
  let content := content +:+ pyembed_line pyembed_location in
  let content := content +:+ nl in
  let data := template_data_new in
  extra ← context (render "cargo-extra.toml" (DataOfTemplate data))
                  "rendering cargo-extra.toml template";
  Ok (content +:+ extra).

End pure.

(** * The lock file *)

Section lock.
Context `{Environment} `{CargoLock}.

(** The version of the first package of the lock file with the name. *)
Definition locked_version (lock_file : Lockfile) (dep : string) : option string :=
  head (omap (λ package, if decide (pkg_name package = dep)
                         then Some (pkg_version package) else None)
             (lf_packages lock_file)).

Definition lock_dependency (lock_file : Lockfile) (dep : string) : result Dependency :=
  name ← expect_ok (name_from_str dep) "could not convert dependency name to Name";
  version ← expect (locked_version lock_file dep)
    "unable to find dependency in frozen Cargo lock; something is out of sync";
  Ok {| dep_name := name; dep_version := version; dep_source := None |}.

Definition name_le (a b : Package) : Prop := String.le (pkg_name a) (pkg_name b).

#[export] Instance name_le_dec : RelDecision name_le.
Proof. intros a b. unfold name_le. apply _. Defined.

(** The lock file that is written for a project. *)
Definition new_cargo_lock (project_name : string) : result Lockfile :=
  lock_file ← lockfile_from_str NEW_PROJECT_CARGO_LOCK;
  dependencies ← collectM (λ dep, d ← lock_dependency lock_file dep; Ok [d])
                          NEW_PROJECT_DEPENDENCIES;
  name ← name_from_str project_name;
  let package := {| pkg_name := name; pkg_version := "0.1.0"; pkg_source := None;
                    pkg_checksum := None; pkg_dependencies := dependencies;
                    pkg_replace := None |} in
  let packages := lf_packages lock_file ++ [package] in
  Ok {| lf_packages := sort_by name_le packages; lf_other := lf_other lock_file |}.

End lock.

(** * The functions that read and write *)

(** The message of [Option::unwrap] on [None]. *)
Definition unwrap_none : string := "called `Option::unwrap()` on a `None` value".

Section writing.
Context `{Environment} `{Templates} `{CargoLock} `{CargoToml}.
Context `{FileSystem F} `{!WriteFailure F} `{Directories F} `{TreeWalker F} `{Process F}.

(** The body of the loop over the files of the tree. *)
Definition find_pyoxidizer_step (root : string) (res : list string) (f : string) :
    result (list string) :=
  path ← expect (path_strip_prefix f root) "unable to strip prefix";
  path_s ← expect (path_to_str path) "unable to convert path to str";
  if pyoxidizer_path path_s then Ok (res ++ [path]) else Ok res.

Definition find_pyoxidizer_files (fs : F) (root : string) : result (list string) :=
  foldM (find_pyoxidizer_step root) [] (walk_tree_files fs root).

Definition write_new_cargo_config (project_path : string) : io F () :=
  let cargo_path := path_join project_path ".cargo" in
  _ ← (λ fs, if negb (is_dir fs cargo_path)
             then io_step (λ fs, create_dir fs cargo_path) fs else io_ret () fs);
  let data : gmap string string := ∅ in
  t ← io_lift (render "new-cargo-config" (DataOfMap data));
  let config_path := path_join cargo_path "config" in
  fs_write config_path (as_bytes t).

Definition write_new_cargo_lock (project_path project_name : string) : io F () :=
  lock_file ← io_lift (new_cargo_lock project_name);
  let lock_path := path_join project_path "Cargo.lock" in
  fs_write lock_path (as_bytes (lockfile_to_string lock_file)).

Definition write_new_build_rs (path program_name : string) : io F () :=
  let data := template_data_new in
  let data := with_program_name data program_name in
  t ← io_lift (render "new-build.rs" (DataOfTemplate data));
  fs_write path (as_bytes t).

Definition write_new_main_rs (path windows_subsystem : string) : io F () :=
  let data : gmap string string := ∅ in
  let data := <["windows_subsystem" := windows_subsystem]> data in
  t ← io_lift (render "new-main.rs" (DataOfMap data));
  _ ← io_lift (expect (path_to_str path) unwrap_none);
  create_write_all path (as_bytes t).

Definition write_new_pyoxidizer_config_file (source : PyOxidizerSource)
    (project_dir name : string) (code : option string) (pip_install : list string) :
    io F () :=
  let path := path_join project_dir "pyoxidizer.bzl" in
  let data := config_file_data source name code pip_install in
  t ← io_lift (render "new-pyoxidizer.bzl" (DataOfTemplate data));
  _ ← io_lift (expect (path_to_str path) unwrap_none);
  create_write_all path (as_bytes t).

Definition write_application_manifest (project_dir program_name : string) : io F () :=
  let data := template_data_new in
  let data := with_program_name data program_name in
  let manifest_path := path_join project_dir (program_name +:+ ".exe.manifest") in
  manifest_data ← io_lift (render "exe.manifest" (DataOfTemplate data));
  _ ← create_write_all manifest_path (as_bytes manifest_data);
  let rc_path := path_join project_dir (program_name +:+ "-manifest.rc") in
  rc_data ← io_lift (render "application-manifest.rc" (DataOfTemplate data));
  create_write_all rc_path (as_bytes rc_data).

Definition add_pyoxidizer (fs : F) (project_dir : string) (_suppress_help : bool) :
    result () :=
  existing_files ← find_pyoxidizer_files fs project_dir;
  if negb (bool_decide (existing_files = []))
  then Err (Failure "existing PyOxidizer files found; cannot add")
  else
    let cargo_toml := path_join project_dir "Cargo.toml" in
    if negb (fs_exists fs cargo_toml)
    then Err (Failure "Cargo.toml does not exist at destination")
    else
      cargo_toml_data ← read_file fs cargo_toml;
      manifest ← manifest_from_slice cargo_toml_data;
      match cm_package manifest with
      | Some _package => Ok ()
      | None => Err (Panic "no [package]; that's weird")
      end.

Definition update_new_cargo_toml (path : string) (pyembed_location : PyembedLocation) :
    io F () :=
  content ← io_read (λ fs, read_to_string fs path);
  content ← io_lift (updated_cargo_toml content pyembed_location);
  fs_write path (as_bytes content).

Definition initialize_project (source : PyOxidizerSource) (project_path cargo_exe : string)
    (code : option string) (pip_install : list string) (windows_subsystem : string) :
    io F () :=
  status ← io_context
    (io_run (λ fs, command_status fs cargo_exe ["init"; "--bin"; project_path]))
    "invoking cargo init";
  if negb (status =? 0)%Z then io_fail (Failure "cargo init failed")
  else
    let path := project_path in
    name ← io_lift (last ← expect (path_last path) unwrap_none;
                    expect (path_to_str last) unwrap_none);
    _ ← io_context (io_read (λ fs, add_pyoxidizer fs path true))
                   "adding PyOxidizer to Rust project";
    _ ← io_context (update_new_cargo_toml (path_join path "Cargo.toml")
                                          (as_pyembed_location source))
                   "updating Cargo.toml";
    _ ← io_context (write_new_cargo_config path) "writing cargo config";
    _ ← io_context (write_new_cargo_lock path name) "writing Cargo.lock";
    _ ← io_context (write_new_build_rs (path_join path "build.rs") name) "writing build.rs";
    _ ← io_context (write_new_main_rs (path_join (path_join path "src") "main.rs")
                                      windows_subsystem)
                   "writing main.rs";
    _ ← io_context (write_new_pyoxidizer_config_file source path name code pip_install)
                   "writing PyOxidizer config file";
    io_context (write_application_manifest path name) "writing application manifest".

End writing.

(** * Reference definitions *)

(** The content that the update makes of a [Cargo.toml] with the given
    version line. *)
Definition with_build_line (pre line after : string) (location : PyembedLocation)
    (extra : string) : string :=
  pre +:+ line +:+ nl +:+ build_line +:+ after +:+ pyembed_line location +:+ nl +:+ extra.

(** The body of a string literal in double quotes and what follows the
    literal: a backslash makes the next character a part of the body. *)
Fixpoint read_quoted (s : string) : option (string * string) :=
  match s with
  | "" => None
  | String c s' =>
      if decide (c = DQ) then Some ("", s')
      else if decide (c = BACKSLASH) then
        match s' with
        | "" => None
        | String c' s'' => prod_map (String c') id <$> read_quoted s''
        end
      else prod_map (String c) id <$> read_quoted s'
  end.

(** The files of a new project. *)
Definition project_paths (path name : string) : list string := [
  path_join path "Cargo.toml";
  path_join (path_join path ".cargo") "config";
  path_join path "Cargo.lock";
  path_join path "build.rs";
  path_join (path_join path "src") "main.rs";
  path_join path "pyoxidizer.bzl";
  path_join path (name +:+ ".exe.manifest");
  path_join path (name +:+ "-manifest.rc")
].

(** What the files of a new project hold, in the order of [project_paths],
    when its [Cargo.toml] held [cargo_toml]. *)
Definition project_contents `{Environment} `{Templates} `{CargoLock}
    (source : PyOxidizerSource) (name : string) (code : option string)
    (pip_install : list string) (windows_subsystem cargo_toml : string) :
    result (list string) :=
  toml ← updated_cargo_toml cargo_toml (as_pyembed_location source);
  config ← render "new-cargo-config" (DataOfMap ∅);
  lock ← new_cargo_lock name;
  build ← render "new-build.rs" (DataOfTemplate (with_program_name template_data_new name));
  main ← render "new-main.rs" (DataOfMap (<["windows_subsystem" := windows_subsystem]> ∅));
  bzl ← render "new-pyoxidizer.bzl"
               (DataOfTemplate (config_file_data source name code pip_install));
  manifest ← render "exe.manifest" (DataOfTemplate (with_program_name template_data_new name));
  rc ← render "application-manifest.rc"
              (DataOfTemplate (with_program_name template_data_new name));
  Ok [toml; config; lockfile_to_string lock; build; main; bzl; manifest; rc].

(** A directory that does not exist can be created in the states of the
    invariant. *)
Definition creatable `{Directories F} (P : F → Prop) : Prop :=
  ∀ fs p, P fs → is_dir fs p = false → ∃ fs', create_dir fs p = Ok fs' ∧ P fs'.

(** The messages of the errors that [initialize_project] returns. *)
Definition initialize_project_messages : list string := [
  "invoking cargo init"; "cargo init failed"; "adding PyOxidizer to Rust project";
  "updating Cargo.toml"; "writing cargo config"; "writing Cargo.lock"; "writing build.rs";
  "writing main.rs"; "writing PyOxidizer config file"; "writing application manifest"
].

(** * Executable instances *)

Fixpoint assoc {V} (l : list (string * V)) (k : string) : option V :=
  match l with
  | [] => None
  | (k', v) :: l => if decide (k' = k) then Some v else assoc l k
  end.

(** Files, directories, the paths that cannot be opened for writing, and
    the number of bytes that a file can take, when there is a limit. *)
Record Disk := {
  disk_files : list (string * list byte);
  disk_dirs : list string;
  disk_locked : list string;
  disk_space : option nat
}.

Definition disk_put (d : Disk) (p : string) (bytes : list byte) : Disk :=
  {| disk_files := (p, bytes) :: disk_files d; disk_dirs := disk_dirs d;
     disk_locked := disk_locked d; disk_space := disk_space d |}.

Definition disk_fits (d : Disk) (bytes : list byte) : bool :=
  match disk_space d with
  | Some n => bool_decide (length bytes ≤ n)
  | None => true
  end.

#[export] Instance disk_fs : FileSystem Disk := {|
  read_file d p := ok_or (assoc (disk_files d) p) "No such file or directory";
  write_file d p bytes :=
    if bool_decide (p ∈ disk_locked d) then Err (Failure "Permission denied")
    else if disk_fits d bytes then Ok (disk_put d p bytes)
    else Err (Failure "No space left on device")
|}.

(** A file that cannot be opened stays as it was; a file that is too long
    for the disk is left empty. *)
#[export, refine] Instance disk_write_failure : WriteFailure Disk := {|
  write_failed d p bytes :=
    if bool_decide (p ∈ disk_locked d) then d else disk_put d p []
|}.
Proof.
  intros d p q bytes Hne. case_bool_decide; [done|]. simpl. by rewrite decide_False.
Defined.

#[export] Instance disk_directories : Directories Disk := {|
  is_dir d p := bool_decide (p ∈ disk_dirs d);
  fs_exists d p :=
    bool_decide (p ∈ disk_dirs d) || bool_decide (is_Some (assoc (disk_files d) p));
  create_dir d p :=
    if bool_decide (p ∈ disk_dirs d) then Err (Failure "File exists")
    else Ok {| disk_files := disk_files d; disk_dirs := p :: disk_dirs d;
               disk_locked := disk_locked d; disk_space := disk_space d |}
|}.

#[export] Instance disk_walker : TreeWalker Disk := λ d root,
  filter (λ p, starts_with p (root +:+ "/") = true) (disk_files d).*1.

(** What [cargo init --bin path] leaves. *)
Definition cargo_init (d : Disk) (path : string) : Disk :=
  let name := default "" (path_last path) in
  let cargo_toml :=
    "[package]" +:+ nl +:+ "name = " +:+ dq +:+ name +:+ dq +:+ nl +:+
    "version = " +:+ dq +:+ "0.1.0" +:+ dq +:+ nl +:+
    "edition = " +:+ dq +:+ "2018" +:+ dq +:+ nl +:+ nl +:+ "[dependencies]" +:+ nl in
  {| disk_files :=
       (path_join path "Cargo.toml", as_bytes cargo_toml) ::
       (path_join (path_join path "src") "main.rs", as_bytes "fn main() {}") :: disk_files d;
     disk_dirs := path :: path_join path "src" :: disk_dirs d;
     disk_locked := disk_locked d; disk_space := disk_space d |}.

(** A child process: [cargo init] refuses a directory that exists. *)
#[export] Instance disk_process : Process Disk := {|
  ensure_pip d _ := Ok d;
  temp_dir_new d _ := Err (Failure "Permission denied");
  command_status d program args :=
    match args with
    | [_; _; path] =>
        if bool_decide (path ∈ disk_dirs d) then Ok (d, 101%Z) else Ok (cargo_init d path, 0%Z)
    | _ => Ok (d, 1%Z)
    end
|}.

Definition example_environment : Environment := {|
  PYOXIDIZER_VERSION := "0.10.3";
  BUILD_GIT_COMMIT := None;
  NEW_PROJECT_CARGO_LOCK := "frozen";
  as_pyembed_location source :=
    match source with
    | LocalPath path => Path (path_join path "pyembed")
    | GitUrl url commit _ => Git url (default "main" commit)
    end
|}.

(** Templates that print their name and a part of their data; the ones in
    [broken] fail. *)
Definition example_templates (broken : list string) : Templates := λ name data,
  if bool_decide (name ∈ broken) then Err (Failure ("cannot render " +:+ name))
  else Ok (name +:+ ":" +:+
           match data with
           | DataOfTemplate d => default "" (td_program_name d) +:+ ":" +:+ default "" (td_code d)
           | DataOfMap m => default "" (m !! "windows_subsystem")
           end).

Definition locked_package (name version : string) : Package :=
  {| pkg_name := name; pkg_version := version; pkg_source := None; pkg_checksum := None;
     pkg_dependencies := []; pkg_replace := None |}.

(** The packages of a frozen lock file; [pyembed] is locked twice. *)
Definition frozen_packages : list Package := [
  locked_package "embed-resource" "1.3.3"; locked_package "jemallocator" "0.3.2";
  locked_package "libc" "0.2.80"; locked_package "mimalloc" "0.1.22";
  locked_package "pyembed" "0.10.2"; locked_package "pyembed" "0.10.3";
  locked_package "snmalloc-rs" "0.2.18"
].

Definition example_cargo_lock (packages : list Package) : CargoLock := {|
  lockfile_from_str text :=
    if decide (text = "frozen") then Ok {| lf_packages := packages; lf_other := "version = 3" |}
    else Err (Failure "invalid lock file");
  lockfile_to_string lock :=
    lf_other lock +:+ nl +:+
    terminated ((λ p, pkg_name p +:+ " " +:+ pkg_version p) <$> lf_packages lock);
  name_from_str name :=
    if decide (name = "") then Err (Failure "invalid package name") else Ok name
|}.

Definition example_cargo_toml : CargoToml := λ bytes,
  Ok {| cm_package :=
          if str_contains (from_utf8 bytes) "[package]" then Some "package" else None |}.

Definition empty_disk : Disk :=
  {| disk_files := []; disk_dirs := ["/work"]; disk_locked := []; disk_space := None |}.

(** A disk whose files take twenty bytes. *)
Definition small_disk : Disk :=
  {| disk_files := []; disk_dirs := ["/work"]; disk_locked := []; disk_space := Some 20 |}.

(** The project of the examples: a program that prints a greeting. *)
Definition hello_code : string := "print(" +:+ dq +:+ "hi" +:+ dq +:+ ")".

Definition hello_templates : Templates := example_templates [].
Definition hello_cargo_lock : CargoLock := example_cargo_lock frozen_packages.

(** Templates of which the one of [build.rs] cannot be rendered. *)
Definition broken_templates : Templates := example_templates ["new-build.rs"].

(** The source that the project of the examples names. *)
Definition hello_source : PyOxidizerSource := LocalPath "/src/pyoxidizer".

(** The disk after [cargo init] has made the project of the examples. *)
Definition hello_disk : Disk := cargo_init empty_disk "/work/hello".

(** * The instances keep the laws *)

#[export] Instance disk_fs_laws : FileSystemLaws Disk.
Proof.
  split; intros d d' p; cbn [read_file write_file disk_fs].
  - intros bytes. case_bool_decide; [done|]. destruct (disk_fits d bytes); [|done].
    intros [= <-]. simpl. by rewrite decide_True.
  - intros q bytes. case_bool_decide; [done|]. destruct (disk_fits d bytes); [|done].
    intros [= <-] Hne. simpl. by rewrite decide_False.
Qed.

#[export] Instance disk_directories_laws : DirectoriesLaws Disk.
Proof. intros d d' dir p. simpl. case_bool_decide; [done|]. by intros [= <-]. Qed.

(** * The update of Cargo.toml *)

Section cargo_toml.
Context `{Environment} `{Templates}.

(** The text up to the end of the version line, as [split_at] sees it. *)
Lemma version_line_end pre line after :
  String.length pre + String.length line + 1 = String.length (pre +:+ line +:+ nl) ∧
  pre +:+ line +:+ String LF after = (pre +:+ line +:+ nl) +:+ after.
Proof. rewrite !string_length_app, !string_app_assoc. simpl. split; [lia|done]. Qed.

Lemma updated_cargo_toml_intro pre line after location extra :
  str_find (pre +:+ line +:+ nl +:+ after) "version =" = Some (String.length pre) →
  starts_with line "version =" = true → string_has LF line = false →
  char_start after = true →
  render "cargo-extra.toml" (DataOfTemplate template_data_new) = Ok extra →
  updated_cargo_toml (pre +:+ line +:+ nl +:+ after) location =
  Ok (with_build_line pre line after location extra).
Proof.
  intros Hfind [value ->]%starts_with_app Hline Hafter Hextra. unfold updated_cargo_toml.
  rewrite Hfind. cbn [ok_or]. rewrite bind_Ok, str_slice_suffix, bind_Ok by done.
  change (nl +:+ after) with (String LF after).
  rewrite find_char_app by done. cbn [ok_or]. rewrite fmap_Ok, bind_Ok.
  destruct (version_line_end pre ("version =" +:+ value) after) as [-> ->].
  rewrite split_at_app, bind_Ok, Hextra by done. cbn [context]. rewrite bind_Ok.
  unfold with_build_line. by rewrite !string_app_assoc.
Qed.

(** The update with what [split_at] returned. *)
Lemma updated_cargo_toml_split pre line after location new :
  split_at ((pre +:+ line +:+ nl) +:+ after) (String.length (pre +:+ line +:+ nl)) ≫=
    (λ '(before, after),
       extra ← context (render "cargo-extra.toml" (DataOfTemplate template_data_new))
                       "rendering cargo-extra.toml template";
       Ok (((((before +:+ build_line) +:+ after) +:+ pyembed_line location) +:+ nl) +:+ extra))
    = Ok new →
  char_start after = true ∧
  ∃ extra, render "cargo-extra.toml" (DataOfTemplate template_data_new) = Ok extra ∧
    new = with_build_line pre line after location extra.
Proof.
  intros ([before after'] & (Hs & Hlen & Hb)%split_at_Ok & Hnew)%bind_Ok_inv.
  assert (before = pre +:+ line +:+ nl ∧ after' = after) as [-> ->].
  { destruct (string_app_prefix_cases _ _ _ _ (eq_sym Hs)) as [z Hz]; [lia|].
    rewrite Hz, string_length_app in Hlen. destruct z; [|simpl in Hlen; lia].
    rewrite string_app_nil_r in Hz. subst before. split; [done|].
    by apply string_app_inj_l in Hs. }
  apply bind_Ok_inv in Hnew as (extra & Hextra%context_Ok & [= <-]).
  split.
  { destruct Hb as [Hb%(f_equal String.length)|Hb]; [|done].
    rewrite !string_length_app in Hb. simpl in Hb. lia. }
  exists extra. split; [done|]. unfold with_build_line. by rewrite !string_app_assoc.
Qed.

Lemma updated_cargo_toml_Ok content location new :
  updated_cargo_toml content location = Ok new ↔
  ∃ pre line after extra,
    content = pre +:+ line +:+ nl +:+ after ∧
    str_find content "version =" = Some (String.length pre) ∧
    starts_with line "version =" = true ∧ string_has LF line = false ∧
    char_start after = true ∧
    render "cargo-extra.toml" (DataOfTemplate template_data_new) = Ok extra ∧
    new = with_build_line pre line after location extra.
Proof.
  split.
  - unfold updated_cargo_toml.
    destruct (str_find content "version =") as [version_start|] eqn:Hfind; [|done].
    cbn [ok_or]. rewrite bind_Ok.
    destruct (str_find_Some _ _ _ Hfind) as (pre & post & -> & <-).
    rewrite str_slice_suffix, bind_Ok by done.
    destruct (find_char LF ("version =" +:+ post)) as [off|] eqn:Hoff; [|done].
    cbn [ok_or]. rewrite fmap_Ok, bind_Ok.
    apply find_char_Some in Hoff as (line & after & Hline & Hlf & <-).
    destruct (app_String_prefix _ _ _ _ _ (eq_sym Hline) eq_refl) as [value ->].
    rewrite Hline in Hfind |- *.
    destruct (version_line_end pre ("version =" +:+ value) after) as [-> ->].
    intros (Hafter & extra & Hextra & ->)%updated_cargo_toml_split.
    exists pre, ("version =" +:+ value), after, extra.
    split_and!; [by rewrite !string_app_assoc|done| |done..].
    apply starts_with_app. by exists value.
  - intros (pre & line & after & extra & -> & Hfind & Hstart & Hline & Hafter & Hextra & ->).
    by apply updated_cargo_toml_intro.
Qed.

End cargo_toml.

(** * Escaping *)

Lemma escape_code_app a b : escape_code (a +:+ b) = escape_code a +:+ escape_code b.
Proof.
  unfold escape_code. induction a as [|c a IH]; [by rewrite !string_app_nil_l|].
  rewrite string_app_cons. cbn [replace_char]. by rewrite IH, string_app_assoc.
Qed.

(** Code without a backslash is read back as it was, whatever follows. *)
Lemma read_quoted_escape_code code s :
  string_has BACKSLASH code = false →
  read_quoted (escape_code code +:+ s) = prod_map (λ body, code +:+ body) id <$> read_quoted s.
Proof.
  unfold escape_code. induction code as [|c code IH]; cbn [string_has replace_char].
  { intros _. rewrite string_app_nil_l. by destruct (read_quoted s) as [[]|]. }
  intros [Hc%bool_decide_eq_false Hcode]%orb_false_iff. specialize (IH Hcode).
  case_decide as Hq.
  - subst c. rewrite string_app_assoc, string_app_cons, (string_app_singleton DQ).
    cbn [read_quoted]. rewrite decide_False, decide_True, IH by done.
    by destruct (read_quoted s) as [[]|].
  - rewrite string_app_assoc, string_app_cons, string_app_nil_l. cbn [read_quoted].
    rewrite !decide_False, IH by done. by destruct (read_quoted s) as [[]|].
Qed.

Lemma escape_code_read code rest :
  string_has BACKSLASH code = false →
  read_quoted (escape_code code +:+ String DQ rest) = Some (code, rest).
Proof.
  intros Hcode. rewrite read_quoted_escape_code by done. cbn [read_quoted].
  rewrite decide_True by done. cbn. by rewrite string_app_nil_r.
Qed.

Lemma escape_code_final_backslash pre rest :
  string_has BACKSLASH pre = false →
  read_quoted (escape_code (pre +:+ String BACKSLASH "") +:+ String DQ rest) =
  prod_map (λ body, pre +:+ String DQ body) id <$> read_quoted rest.
Proof.
  intros Hpre. rewrite escape_code_app, string_app_assoc, read_quoted_escape_code by done.
  change (escape_code (String BACKSLASH "") +:+ String DQ rest)
    with (String BACKSLASH (String DQ rest)).
  cbn [read_quoted]. rewrite decide_False, decide_True by done.
  by destruct (read_quoted rest) as [[]|].
Qed.

(** * The lock file *)

Lemma collectM_singleton {A B} (f : A → result B) l ys :
  collectM (λ x, y ← f x; Ok [y]) l = Ok ys ↔ Forall2 (λ x y, f x = Ok y) l ys.
Proof.
  revert ys. induction l as [|x l IH]; intros ys; simpl.
  { split; [by intros [= <-]|by inversion 1]. }
  split.
  - intros (y' & (y & Hy & [= <-])%bind_Ok_inv & (zs & Hzs%IH & [= <-])%bind_Ok_inv)%bind_Ok_inv.
    by constructor.
  - inversion 1 as [|?? y zs Hy Hzs]; subst. apply IH in Hzs.
    by rewrite Hy, !bind_Ok, Hzs.
Qed.

#[export] Instance name_le_trans : Transitive name_le.
Proof. intros a b c. unfold name_le. apply transitivity. Qed.

#[export] Instance name_le_total : Total name_le.
Proof. intros a b. unfold name_le. apply total, _. Qed.

Section lock_lemmas.
Context `{Environment} `{CargoLock}.

Lemma locked_version_Some lock_file dep version :
  locked_version lock_file dep = Some version ↔
  ∃ before package after,
    lf_packages lock_file = before ++ package :: after ∧
    Forall (λ p, pkg_name p ≠ dep) before ∧
    pkg_name package = dep ∧ pkg_version package = version.
Proof.
  unfold locked_version. induction (lf_packages lock_file) as [|p ps IH]; simpl.
  { split; [done|]. by intros ([|??] & ? & ? & ? & _). }
  case_decide as Hp; simpl.
  - split.
    + intros [= <-]. by exists [], p, ps.
    + intros ([|p' before] & package & after & [= -> ->] & Hb & Hn & <-); [done|].
      apply Forall_cons in Hb as [? _]. done.
  - rewrite IH. split.
    + intros (before & package & after & -> & Hb & Hn & Hv).
      exists (p :: before), package, after. split_and!; try done. by constructor.
    + intros ([|p' before] & package & after & [= -> ->] & Hb & Hn & Hv); [done|].
      apply Forall_cons in Hb as [_ Hb]. by exists before, package, after.
Qed.

Lemma locked_version_None lock_file dep :
  locked_version lock_file dep = None ↔ dep ∉ pkg_name <$> lf_packages lock_file.
Proof.
  unfold locked_version. induction (lf_packages lock_file) as [|p ps IH]; simpl.
  { split; [intros _; apply not_elem_of_nil|done]. }
  rewrite not_elem_of_cons. case_decide as Hp; simpl.
  - split; [done|]. by intros [? _].
  - rewrite IH. split; [by intros ?; split|by intros [_ ?]].
Qed.

Lemma lock_dependency_Ok lock_file dep d :
  lock_dependency lock_file dep = Ok d ↔
  name_from_str dep = Ok (dep_name d) ∧ locked_version lock_file dep = Some (dep_version d) ∧
  dep_source d = None.
Proof.
  unfold lock_dependency. split.
  - intros (name & Hn%expect_ok_Ok & (v & Hv%expect_Ok & [= <-])%bind_Ok_inv)%bind_Ok_inv.
    done.
  - intros (Hn & Hv & Hs). rewrite Hn, Hv. destruct d. simpl in *. by subst.
Qed.

(** What the lock file of a new project lists. *)
Lemma new_cargo_lock_Ok project_name lock :
  new_cargo_lock project_name = Ok lock →
  ∃ lock_file package,
    lockfile_from_str NEW_PROJECT_CARGO_LOCK = Ok lock_file ∧
    name_from_str project_name = Ok (pkg_name package) ∧
    pkg_version package = "0.1.0" ∧
    Forall2 (λ dep d, lock_dependency lock_file dep = Ok d)
            NEW_PROJECT_DEPENDENCIES (pkg_dependencies package) ∧
    lf_other lock = lf_other lock_file ∧
    lf_packages lock = sort_by name_le (lf_packages lock_file ++ [package]).
Proof.
  unfold new_cargo_lock.
  intros (lock_file & Hl & (deps & Hd%collectM_singleton & (name & Hn & [= <-])%bind_Ok_inv)
    %bind_Ok_inv)%bind_Ok_inv.
  by eexists lock_file, {| pkg_name := name |}.
Qed.

Lemma new_cargo_lock_sorted project_name lock :
  new_cargo_lock project_name = Ok lock →
  ∃ lock_file package,
    lockfile_from_str NEW_PROJECT_CARGO_LOCK = Ok lock_file ∧
    name_from_str project_name = Ok (pkg_name package) ∧
    StronglySorted name_le (lf_packages lock) ∧
    lf_packages lock ≡ₚ lf_packages lock_file ++ [package] ∧
    ∀ name, filter (λ p, pkg_name p = name) (lf_packages lock) =
            filter (λ p, pkg_name p = name) (lf_packages lock_file ++ [package]).
Proof.
  intros (lock_file & package & Hl & Hn & _ & _ & _ & ->)%new_cargo_lock_Ok.
  exists lock_file, package. split_and!; [done..| | |].
  - apply sort_by_sorted; apply _.
  - apply sort_by_Permutation.
  - intros name. apply filter_sort_by. intros x y Hx Hy. unfold name_le. rewrite Hx, Hy.
    by destruct (total String.le name name).
Qed.

Lemma new_cargo_lock_dependencies project_name lock :
  new_cargo_lock project_name = Ok lock →
  ∃ lock_file package,
    lockfile_from_str NEW_PROJECT_CARGO_LOCK = Ok lock_file ∧
    package ∈ lf_packages lock ∧
    name_from_str project_name = Ok (pkg_name package) ∧ pkg_version package = "0.1.0" ∧
    Forall2 (λ dep d,
      name_from_str dep = Ok (dep_name d) ∧ dep_source d = None ∧
      ∃ before p after,
        lf_packages lock_file = before ++ p :: after ∧
        Forall (λ p, pkg_name p ≠ dep) before ∧
        pkg_name p = dep ∧ pkg_version p = dep_version d)
      NEW_PROJECT_DEPENDENCIES (pkg_dependencies package).
Proof.
  intros (lock_file & package & Hl & Hn & Hv & Hd & _ & Hp)%new_cargo_lock_Ok.
  exists lock_file, package. split_and!; [done| |done..|].
  - rewrite Hp, elem_of_sort_by. set_solver.
  - eapply Forall2_impl; [exact Hd|].
    intros dep d (? & ?%locked_version_Some & ?)%lock_dependency_Ok. done.
Qed.

(** A dependency that the frozen lock file does not list is a panic. *)
Lemma new_cargo_lock_out_of_sync project_name lock_file dep :
  lockfile_from_str NEW_PROJECT_CARGO_LOCK = Ok lock_file →
  Forall (λ dep, is_ok (name_from_str dep) = true) NEW_PROJECT_DEPENDENCIES →
  dep ∈ NEW_PROJECT_DEPENDENCIES → dep ∉ pkg_name <$> lf_packages lock_file →
  new_cargo_lock project_name =
  Err (Panic "unable to find dependency in frozen Cargo lock; something is out of sync").
Proof.
  intros Hl Hnames Hdep Hmissing%locked_version_None. unfold new_cargo_lock.
  rewrite Hl, bind_Ok. rewrite Forall_forall in Hnames.
  assert (∀ y, y ∈ NEW_PROJECT_DEPENDENCIES →
    ∃ name, lock_dependency lock_file y =
      version ← expect (locked_version lock_file y)
        "unable to find dependency in frozen Cargo lock; something is out of sync";
      Ok {| dep_name := name; dep_version := version; dep_source := None |}) as Hdeps.
  { intros y [name Hy]%Hnames%is_ok_true. exists name. unfold lock_dependency.
    by rewrite Hy. }
  erewrite collectM_Err; [done|exact Hdep| |].
  - destruct (Hdeps dep Hdep) as [name ->]. by rewrite Hmissing.
  - intros y [name Hy]%Hdeps. rewrite Hy.
    destruct (locked_version lock_file y); [by right|by left].
Qed.

End lock_lemmas.

(** * The files that name PyOxidizer *)

Section finding.
Context `{CargoToml} `{FileSystem F} `{Directories F} `{TreeWalker F}.

Lemma find_pyoxidizer_step_Some root res f path :
  path_strip_prefix f root = Some path → is_utf8 (as_bytes path) = true →
  find_pyoxidizer_step root res f = Ok (if pyoxidizer_path path then res ++ [path] else res).
Proof.
  unfold find_pyoxidizer_step. intros -> Hpath%path_to_str_utf8. cbn [expect].
  rewrite bind_Ok, Hpath. simpl. by destruct (pyoxidizer_path path).
Qed.

(** A file whose path below the root is not well-formed text stops the
    search with a panic. *)
Lemma find_pyoxidizer_step_not_text root res f path :
  path_strip_prefix f root = Some path → is_utf8 (as_bytes path) = false →
  find_pyoxidizer_step root res f = Err (Panic "unable to convert path to str").
Proof.
  unfold find_pyoxidizer_step, path_to_str. intros -> Hpath. cbn [expect].
  by rewrite bind_Ok, Hpath.
Qed.

Lemma find_pyoxidizer_files_fold root res files :
  Forall (λ f, ∃ path, path_strip_prefix f root = Some path ∧ is_utf8 (as_bytes path) = true)
         files →
  foldM (find_pyoxidizer_step root) res files =
  Ok (res ++ filter (λ p, pyoxidizer_path p = true) (omap (λ f, path_strip_prefix f root) files)).
Proof.
  intros Hfiles. revert res. induction Hfiles as [|f files (path & Hf & Hutf8) _ IH]; intros res.
  { cbn. by rewrite (right_id_L [] (++)). }
  cbn [foldM omap list_omap].
  rewrite (find_pyoxidizer_step_Some _ _ _ _ Hf Hutf8), bind_Ok, IH, Hf.
  rewrite filter_cons. destruct (pyoxidizer_path path) eqn:Hp.
  - rewrite decide_True by done. by rewrite <-(assoc_L (++)).
  - by rewrite decide_False.
Qed.

Lemma find_pyoxidizer_files_Ok (fs : F) root :
  Forall (λ f, ∃ path, path_strip_prefix f root = Some path ∧ is_utf8 (as_bytes path) = true)
         (walk_tree_files fs root) →
  find_pyoxidizer_files fs root =
  Ok (filter (λ p, pyoxidizer_path p = true)
             (omap (λ f, path_strip_prefix f root) (walk_tree_files fs root))).
Proof. intros Hfiles. unfold find_pyoxidizer_files. by rewrite find_pyoxidizer_files_fold. Qed.

Lemma add_pyoxidizer_Ok (fs : F) project_dir suppress_help :
  add_pyoxidizer fs project_dir suppress_help = Ok () ↔
  ∃ data manifest package,
    find_pyoxidizer_files fs project_dir = Ok [] ∧
    fs_exists fs (path_join project_dir "Cargo.toml") = true ∧
    read_file fs (path_join project_dir "Cargo.toml") = Ok data ∧
    manifest_from_slice data = Ok manifest ∧ cm_package manifest = Some package.
Proof.
  unfold add_pyoxidizer. split.
  - intros (existing & Hfind & Hadd)%bind_Ok_inv. case_bool_decide as Hex; [|done]. subst.
    destruct (fs_exists fs _) eqn:Hexists; [|done]. cbn [negb] in Hadd.
    apply bind_Ok_inv in Hadd as (data & Hdata & (manifest & Hm & Hadd)%bind_Ok_inv).
    destruct (cm_package manifest) as [package|] eqn:Hp; [|done].
    by exists data, manifest, package.
  - intros (data & manifest & package & -> & -> & -> & Hm & Hp).
    rewrite bind_Ok, bool_decide_eq_true_2 by done. cbn [negb].
    by rewrite bind_Ok, Hm, bind_Ok, Hp.
Qed.

End finding.

(** * The files of the project *)

Lemma project_paths_NoDup path name : NoDup (project_paths path name).
Proof.
  apply (NoDup_by_suffix _ ["Cargo.toml"; "config"; "Cargo.lock"; "build.rs"; "main.rs";
                            "pyoxidizer.bzl"; ".exe.manifest"; "-manifest.rc"]); [|done].
  repeat constructor; try apply path_join_ends_with.
  - eapply ends_with_trans; [apply path_join_ends_with|]. apply ends_with_app. by eexists.
  - eapply ends_with_trans; [apply path_join_ends_with|]. apply ends_with_app. by eexists.
Qed.

Section writers.
Context `{Environment} `{Templates} `{CargoLock} `{CargoToml}.
Context `{FileSystem F} `{!FileSystemLaws F} `{!WriteFailure F}.
Context `{Directories F} `{!DirectoriesLaws F} `{TreeWalker F} `{Process F}.
Implicit Types (fs : F) (paths : list string).

Lemma writes_only_write_new_cargo_config paths project_path :
  path_join (path_join project_path ".cargo") "config" ∈ paths →
  writes_only paths (write_new_cargo_config (F := F) project_path).
Proof.
  intros Hp. unfold write_new_cargo_config. solve_frame.
  apply writes_only_if; [|by apply writes_only_pure].
  apply writes_only_step. intros fs fs' q Hc _. by eapply read_create_dir.
Qed.

Lemma writes_only_write_new_cargo_lock paths project_path project_name :
  path_join project_path "Cargo.lock" ∈ paths →
  writes_only paths (write_new_cargo_lock (F := F) project_path project_name).
Proof. intros Hp. unfold write_new_cargo_lock. solve_frame. Qed.

Lemma writes_only_write_new_build_rs paths path program_name :
  path ∈ paths → writes_only paths (write_new_build_rs (F := F) path program_name).
Proof. intros Hp. unfold write_new_build_rs. solve_frame. Qed.

Lemma writes_only_write_new_main_rs paths path windows_subsystem :
  path ∈ paths → writes_only paths (write_new_main_rs (F := F) path windows_subsystem).
Proof. intros Hp. unfold write_new_main_rs. solve_frame. Qed.

Lemma writes_only_write_new_pyoxidizer_config_file paths source project_dir name code pip :
  path_join project_dir "pyoxidizer.bzl" ∈ paths →
  writes_only paths
    (write_new_pyoxidizer_config_file (F := F) source project_dir name code pip).
Proof. intros Hp. unfold write_new_pyoxidizer_config_file. solve_frame. Qed.

Lemma writes_only_write_application_manifest paths project_dir program_name :
  path_join project_dir (program_name +:+ ".exe.manifest") ∈ paths →
  path_join project_dir (program_name +:+ "-manifest.rc") ∈ paths →
  writes_only paths (write_application_manifest (F := F) project_dir program_name).
Proof. intros Hp1 Hp2. unfold write_application_manifest. solve_frame. Qed.

Lemma writes_only_update_new_cargo_toml paths path location :
  path ∈ paths → writes_only paths (update_new_cargo_toml (F := F) path location).
Proof. intros Hp. unfold update_new_cargo_toml. solve_frame. Qed.

Lemma write_new_cargo_config_Ok project_path fs fs' :
  write_new_cargo_config project_path fs = (fs', Ok ()) →
  ∃ t, render "new-cargo-config" (DataOfMap ∅) = Ok t ∧
       holds [(path_join (path_join project_path ".cargo") "config", t)] fs fs'.
Proof.
  intros Hrun. pose proof Hrun as Hw. unfold write_new_cargo_config, mbind, io_mbind in Hw.
  apply io_bind_Ok in Hw as (fs1 & [] & _ & Hw).
  apply io_bind_Ok in Hw as (fs2 & t & [Ht ->]%io_lift_Ok & Hw%fs_write_Ok).
  exists t. split; [done|].
  eapply holds_writer; [|done..]. apply writes_only_write_new_cargo_config. set_solver.
Qed.

Lemma write_new_cargo_lock_Ok project_path project_name fs fs' :
  write_new_cargo_lock project_path project_name fs = (fs', Ok ()) →
  ∃ lock, new_cargo_lock project_name = Ok lock ∧
          holds [(path_join project_path "Cargo.lock", lockfile_to_string lock)] fs fs'.
Proof.
  intros Hrun. pose proof Hrun as Hw. unfold write_new_cargo_lock, mbind, io_mbind in Hw.
  apply io_bind_Ok in Hw as (fs1 & lock & [Hl ->]%io_lift_Ok & Hw%fs_write_Ok).
  exists lock. split; [done|].
  eapply holds_writer; [|done..]. apply writes_only_write_new_cargo_lock. set_solver.
Qed.

Lemma write_new_build_rs_Ok path program_name fs fs' :
  write_new_build_rs path program_name fs = (fs', Ok ()) →
  ∃ t, render "new-build.rs"
              (DataOfTemplate (with_program_name template_data_new program_name)) = Ok t ∧
       holds [(path, t)] fs fs'.
Proof.
  intros Hrun. pose proof Hrun as Hw. unfold write_new_build_rs, mbind, io_mbind in Hw.
  apply io_bind_Ok in Hw as (fs1 & t & [Ht ->]%io_lift_Ok & Hw%fs_write_Ok).
  exists t. split; [done|].
  eapply holds_writer; [|done..]. apply writes_only_write_new_build_rs. set_solver.
Qed.

Lemma write_new_main_rs_Ok path windows_subsystem fs fs' :
  write_new_main_rs path windows_subsystem fs = (fs', Ok ()) →
  ∃ t, render "new-main.rs"
              (DataOfMap (<["windows_subsystem" := windows_subsystem]> ∅)) = Ok t ∧
       holds [(path, t)] fs fs'.
Proof.
  intros Hrun. pose proof Hrun as Hw. unfold write_new_main_rs, mbind, io_mbind in Hw.
  apply io_bind_Ok in Hw as (fs1 & t & [Ht ->]%io_lift_Ok & Hw).
  apply io_bind_Ok in Hw as (fs2 & ? & [_ ->]%io_lift_Ok & Hw%create_write_all_Ok).
  exists t. split; [done|].
  eapply holds_writer; [|done..]. apply writes_only_write_new_main_rs. set_solver.
Qed.

Lemma write_new_pyoxidizer_config_file_Ok source project_dir name code pip fs fs' :
  write_new_pyoxidizer_config_file source project_dir name code pip fs = (fs', Ok ()) →
  ∃ t, render "new-pyoxidizer.bzl"
              (DataOfTemplate (config_file_data source name code pip)) = Ok t ∧
       holds [(path_join project_dir "pyoxidizer.bzl", t)] fs fs'.
Proof.
  intros Hrun. pose proof Hrun as Hw.
  unfold write_new_pyoxidizer_config_file, mbind, io_mbind in Hw.
  apply io_bind_Ok in Hw as (fs1 & t & [Ht ->]%io_lift_Ok & Hw).
  apply io_bind_Ok in Hw as (fs2 & ? & [_ ->]%io_lift_Ok & Hw%create_write_all_Ok).
  exists t. split; [done|].
  eapply holds_writer; [|done..].
  apply writes_only_write_new_pyoxidizer_config_file. set_solver.
Qed.

Lemma update_new_cargo_toml_Ok path location fs fs' :
  update_new_cargo_toml path location fs = (fs', Ok ()) →
  ∃ content new, read_to_string fs path = Ok content ∧
    updated_cargo_toml content location = Ok new ∧ holds [(path, new)] fs fs'.
Proof.
  intros Hrun. pose proof Hrun as Hw. unfold update_new_cargo_toml, mbind, io_mbind in Hw.
  apply io_bind_Ok in Hw as (fs1 & content & [Hc ->]%io_read_Ok & Hw).
  apply io_bind_Ok in Hw as (fs2 & new & [Hn ->]%io_lift_Ok & Hw%fs_write_Ok).
  exists content, new. split_and!; [done..|].
  eapply holds_writer; [|done..]. apply writes_only_update_new_cargo_toml. set_solver.
Qed.

Lemma write_application_manifest_Ok project_dir program_name fs fs' :
  path_join project_dir (program_name +:+ ".exe.manifest") ≠
    path_join project_dir (program_name +:+ "-manifest.rc") →
  write_application_manifest project_dir program_name fs = (fs', Ok ()) →
  ∃ manifest rc,
    render "exe.manifest"
           (DataOfTemplate (with_program_name template_data_new program_name)) = Ok manifest ∧
    render "application-manifest.rc"
           (DataOfTemplate (with_program_name template_data_new program_name)) = Ok rc ∧
    holds [(path_join project_dir (program_name +:+ ".exe.manifest"), manifest);
           (path_join project_dir (program_name +:+ "-manifest.rc"), rc)] fs fs'.
Proof.
  intros Hne Hw. unfold write_application_manifest, mbind, io_mbind in Hw.
  apply io_bind_Ok in Hw as (fs1 & manifest & [Hm ->]%io_lift_Ok & Hw).
  apply io_bind_Ok in Hw as (fs1 & [] & Hw1 & Hw).
  apply io_bind_Ok in Hw as (fs2 & rc & [Hr ->]%io_lift_Ok & Hw2).
  exists manifest, rc. split_and!; [done..|].
  apply (holds_app [_] [_] fs fs1 fs'); [| |set_solver].
  - eapply holds_writer; [|done|by eapply create_write_all_Ok].
    apply writes_only_create_write_all. set_solver.
  - eapply holds_writer; [|done|by eapply create_write_all_Ok].
    apply writes_only_create_write_all. set_solver.
Qed.

(** What the steps after [cargo init] do when they all succeed. *)
Lemma initialize_project_Ok source project_path cargo_exe code pip windows_subsystem fs fs' :
  initialize_project source project_path cargo_exe code pip windows_subsystem fs = (fs', Ok ()) →
  ∃ fs0 name cargo_toml contents,
    command_status fs cargo_exe ["init"; "--bin"; project_path] = Ok (fs0, 0%Z) ∧
    path_last project_path = Some name ∧
    add_pyoxidizer fs0 project_path true = Ok () ∧
    read_to_string fs0 (path_join project_path "Cargo.toml") = Ok cargo_toml ∧
    project_contents source name code pip windows_subsystem cargo_toml = Ok contents ∧
    holds (zip (project_paths project_path name) contents) fs0 fs'.
Proof.
  intros Hw. unfold initialize_project, mbind, io_mbind in Hw.
  apply io_bind_Ok in Hw as (fs0 & status & Hstatus%io_context_Ok%io_run_Ok & Hw).
  destruct (Z.eqb_spec status 0) as [->|]; [|done]. cbn [negb] in Hw.
  apply io_bind_Ok in Hw as (? & name & [Hname ->]%io_lift_Ok & Hw).
  apply bind_Ok_inv in Hname as (last & Hname%expect_Ok & [_ <-]%expect_Ok%path_to_str_Some).
  apply io_bind_Ok in Hw as (? & [] & [Hadd ->]%io_context_Ok%io_read_Ok & Hw).
  apply io_bind_Ok in Hw as (fs1 & [] & (cargo_toml & toml & Hread & Htoml & Hf1)
    %io_context_Ok%update_new_cargo_toml_Ok & Hw).
  apply io_bind_Ok in Hw as (fs2 & [] & (config & Hconfig & Hf2)
    %io_context_Ok%write_new_cargo_config_Ok & Hw).
  apply io_bind_Ok in Hw as (fs3 & [] & (lock & Hlock & Hf3)
    %io_context_Ok%write_new_cargo_lock_Ok & Hw).
  apply io_bind_Ok in Hw as (fs4 & [] & (build & Hbuild & Hf4)
    %io_context_Ok%write_new_build_rs_Ok & Hw).
  apply io_bind_Ok in Hw as (fs5 & [] & (main & Hmain & Hf5)
    %io_context_Ok%write_new_main_rs_Ok & Hw).
  apply io_bind_Ok in Hw as (fs6 & [] & (bzl & Hbzl & Hf6)
    %io_context_Ok%write_new_pyoxidizer_config_file_Ok & Hw).
  pose proof (project_paths_NoDup project_path name) as Hpaths. unfold project_paths in Hpaths.
  apply NoDup_cons in Hpaths as [Hn1 Hpaths]. apply NoDup_cons in Hpaths as [Hn2 Hpaths].
  apply NoDup_cons in Hpaths as [Hn3 Hpaths]. apply NoDup_cons in Hpaths as [Hn4 Hpaths].
  apply NoDup_cons in Hpaths as [Hn5 Hpaths]. apply NoDup_cons in Hpaths as [Hn6 Hpaths].
  apply NoDup_cons in Hpaths as [Hn7 _].
  apply io_context_Ok, write_application_manifest_Ok in Hw as (manifest & rc & Hm & Hrc & Hf7);
    [|set_solver].
  exists fs0, name, cargo_toml,
    [toml; config; lockfile_to_string lock; build; main; bzl; manifest; rc].
  split_and!; [done..| |].
  - unfold project_contents. by rewrite Htoml, bind_Ok, Hconfig, bind_Ok, Hlock, bind_Ok,
      Hbuild, bind_Ok, Hmain, bind_Ok, Hbzl, bind_Ok, Hm, bind_Ok, Hrc.
  - cbn [zip zip_with project_paths].
    eapply holds_cons; [exact Hf1| |exact Hn1]. eapply holds_cons; [exact Hf2| |exact Hn2].
    eapply holds_cons; [exact Hf3| |exact Hn3]. eapply holds_cons; [exact Hf4| |exact Hn4].
    eapply holds_cons; [exact Hf5| |exact Hn5]. eapply holds_cons; [exact Hf6| |exact Hn6].
    exact Hf7.
Qed.

(** Whatever the outcome, the steps after [cargo init] write only the files
    of the project. *)
Lemma initialize_project_frame source project_path cargo_exe code pip windows_subsystem
    fs fs0 status name q :
  command_status fs cargo_exe ["init"; "--bin"; project_path] = Ok (fs0, status) →
  path_last project_path = Some name →
  q ∉ project_paths project_path name →
  read_file (initialize_project source project_path cargo_exe code pip windows_subsystem fs).1 q =
  read_file fs0 q.
Proof.
  intros Hstatus Hname Hq. unfold initialize_project, mbind, io_mbind.
  unfold io_bind at 1, io_context at 1, io_run. rewrite Hstatus. cbn [context].
  destruct (negb (status =? 0)%Z); [done|]. rewrite Hname. cbn [expect].
  rewrite bind_Ok, io_bind_lift. unfold path_to_str.
  destruct (is_utf8 (as_bytes name)); cbn [expect]; [|done].
  match goal with |- read_file (?m _).1 _ = _ =>
    enough (writes_only (project_paths project_path name) m) as Hm by (by apply Hm) end.
  unfold project_paths.
  repeat first
    [ apply writes_only_context
    | apply writes_only_update_new_cargo_toml
    | apply writes_only_write_new_cargo_config
    | apply writes_only_write_new_cargo_lock
    | apply writes_only_write_new_build_rs
    | apply writes_only_write_new_main_rs
    | apply writes_only_write_new_pyoxidizer_config_file
    | apply writes_only_write_application_manifest
    | apply writes_only_pure; done
    | apply writes_only_bind; [|intros ?] ];
  in_list.
Qed.

End writers.

Section errors.
Context `{Environment} `{Templates} `{CargoLock} `{CargoToml}.
Context `{FileSystem F} `{!WriteFailure F} `{Directories F} `{TreeWalker F} `{Process F}.

Lemma io_context_Err_cases {A} (m : io F A) msg fs fs' e :
  io_context m msg fs = (fs', Err e) →
  (∃ m', e = Panic m') ∨ ∃ cause, e = WithContext msg cause.
Proof.
  intros (e' & _ & ->)%io_context_Err.
  destruct (context_error_cases e' msg) as [(m' & _ & ->)|[_ ->]]; [left|right]; by eexists.
Qed.

Lemma initialize_project_Err source project_path cargo_exe code pip windows_subsystem
    (fs fs' : F) e :
  initialize_project source project_path cargo_exe code pip windows_subsystem fs = (fs', Err e) →
  (∃ m, e = Panic m) ∨
  ∃ msg, msg ∈ initialize_project_messages ∧
         (e = Failure msg ∨ ∃ cause, e = WithContext msg cause).
Proof.
  unfold initialize_project, mbind, io_mbind. intros Hw.
  assert (∀ msg, msg ∈ initialize_project_messages →
    (∃ m', e = Panic m') ∨ (∃ cause, e = WithContext msg cause) →
    (∃ m, e = Panic m) ∨
    ∃ msg, msg ∈ initialize_project_messages ∧
           (e = Failure msg ∨ ∃ cause, e = WithContext msg cause))
    as Hcase by (intros msg ? [?|?]; [by left|right; exists msg; by split; [|right]]).
  apply io_bind_Err in Hw as [Hw%io_context_Err_cases|(? & status & _ & Hw)];
    [eapply Hcase; [|done]; in_list|].
  destruct (negb (status =? 0)%Z).
  { injection Hw as _ <-. right. eexists. split; [|by left]. in_list. }
  apply io_bind_Err in Hw as [Hw|(? & name & _ & Hw)].
  { unfold io_lift in Hw. injection Hw as _ Hw.
    apply bind_Err_inv in Hw as [[_ ->]%expect_Err|(? & _ & [_ ->]%expect_Err)];
      left; by eexists. }
  repeat (apply io_bind_Err in Hw as [Hw%io_context_Err_cases|(? & [] & _ & Hw)];
    [eapply Hcase; [|done]; in_list|]).
  apply io_context_Err_cases in Hw. eapply Hcase; [|done]. in_list.
Qed.

End errors.

(** * The steps succeed on a disk that can be written *)

Section completes.
Context `{Environment} `{Templates} `{CargoLock} `{CargoToml}.
Context `{FileSystem F} `{!FileSystemLaws F} `{!WriteFailure F} `{Directories F}.
Context `{TreeWalker F} `{Process F}.
Context (P : F → Prop) (Hwritable : writable P) (Hcreatable : creatable P).

Lemma succeeds_write_new_cargo_config project_path t :
  render "new-cargo-config" (DataOfMap ∅) = Ok t →
  succeeds P (write_new_cargo_config project_path) (λ _, P).
Proof.
  intros Ht. unfold write_new_cargo_config, mbind, io_mbind. cbv zeta.
  apply (succeeds_bind _ (λ _, P)).
  - intros fs Hfs. destruct (is_dir fs _) eqn:Hdir; cbn [negb]; [by exists fs, ()|].
    destruct (Hcreatable _ _ Hfs Hdir) as (fs' & Hc & ?). exists fs', ().
    unfold io_step. by rewrite Hc.
  - intros _. eapply succeeds_lift_bind; [done|]. by apply succeeds_fs_write.
Qed.

Lemma succeeds_write_new_cargo_lock project_path project_name lock :
  new_cargo_lock project_name = Ok lock →
  succeeds P (write_new_cargo_lock project_path project_name) (λ _, P).
Proof.
  intros Hl. unfold write_new_cargo_lock, mbind, io_mbind.
  eapply succeeds_lift_bind; [done|]. by apply succeeds_fs_write.
Qed.

Lemma succeeds_write_new_build_rs path program_name t :
  render "new-build.rs"
         (DataOfTemplate (with_program_name template_data_new program_name)) = Ok t →
  succeeds P (write_new_build_rs path program_name) (λ _, P).
Proof.
  intros Ht. unfold write_new_build_rs, mbind, io_mbind.
  eapply succeeds_lift_bind; [done|]. by apply succeeds_fs_write.
Qed.

Lemma succeeds_write_new_main_rs path windows_subsystem t :
  render "new-main.rs" (DataOfMap (<["windows_subsystem" := windows_subsystem]> ∅)) = Ok t →
  is_utf8 (as_bytes path) = true →
  succeeds P (write_new_main_rs path windows_subsystem) (λ _, P).
Proof.
  intros Ht Hpath%path_to_str_utf8. unfold write_new_main_rs, mbind, io_mbind.
  eapply succeeds_lift_bind; [done|]. rewrite Hpath.
  eapply succeeds_lift_bind; [done|]. by apply succeeds_create_write_all.
Qed.

Lemma succeeds_write_new_pyoxidizer_config_file source project_dir name code pip t :
  render "new-pyoxidizer.bzl" (DataOfTemplate (config_file_data source name code pip)) = Ok t →
  is_utf8 (as_bytes project_dir) = true →
  succeeds P (write_new_pyoxidizer_config_file source project_dir name code pip) (λ _, P).
Proof.
  intros Ht Hdir. unfold write_new_pyoxidizer_config_file, mbind, io_mbind.
  eapply succeeds_lift_bind; [done|]. cbv zeta.
  rewrite (path_to_str_utf8 (path_join project_dir "pyoxidizer.bzl"))
    by by apply is_utf8_path_join.
  eapply succeeds_lift_bind; [done|]. by apply succeeds_create_write_all.
Qed.

Lemma succeeds_write_application_manifest project_dir program_name manifest rc :
  render "exe.manifest"
         (DataOfTemplate (with_program_name template_data_new program_name)) = Ok manifest →
  render "application-manifest.rc"
         (DataOfTemplate (with_program_name template_data_new program_name)) = Ok rc →
  succeeds P (write_application_manifest project_dir program_name) (λ _, P).
Proof.
  intros Hm Hrc. unfold write_application_manifest, mbind, io_mbind.
  eapply succeeds_lift_bind; [done|]. apply (succeeds_bind _ (λ _, P)).
  - by apply succeeds_create_write_all.
  - intros _. eapply succeeds_lift_bind; [done|]. by apply succeeds_create_write_all.
Qed.

Lemma update_new_cargo_toml_succeeds path location content new fs :
  read_to_string fs path = Ok content → updated_cargo_toml content location = Ok new →
  P fs → ∃ fs', update_new_cargo_toml path location fs = (fs', Ok ()) ∧ P fs'.
Proof.
  intros Hread Hnew Hfs. unfold update_new_cargo_toml, mbind, io_mbind.
  unfold io_bind at 1, io_read. rewrite Hread, io_bind_lift, Hnew.
  destruct (succeeds_fs_write P path (as_bytes new) Hwritable fs Hfs) as (fs' & [] & ? & ?).
  by exists fs'.
Qed.

Lemma project_contents_Ok source name code pip windows_subsystem cargo_toml contents :
  project_contents source name code pip windows_subsystem cargo_toml = Ok contents →
  ∃ toml config lock build main bzl manifest rc,
    updated_cargo_toml cargo_toml (as_pyembed_location source) = Ok toml ∧
    render "new-cargo-config" (DataOfMap ∅) = Ok config ∧
    new_cargo_lock name = Ok lock ∧
    render "new-build.rs" (DataOfTemplate (with_program_name template_data_new name)) = Ok build ∧
    render "new-main.rs" (DataOfMap (<["windows_subsystem" := windows_subsystem]> ∅)) = Ok main ∧
    render "new-pyoxidizer.bzl" (DataOfTemplate (config_file_data source name code pip)) = Ok bzl ∧
    render "exe.manifest" (DataOfTemplate (with_program_name template_data_new name)) = Ok manifest ∧
    render "application-manifest.rc"
           (DataOfTemplate (with_program_name template_data_new name)) = Ok rc ∧
    contents = [toml; config; lockfile_to_string lock; build; main; bzl; manifest; rc].
Proof.
  unfold project_contents.
  intros (toml & ? & (config & ? & (lock & ? & (build & ? & (main & ? & (bzl & ? &
    (manifest & ? & (rc & ? & [= <-])%bind_Ok_inv)%bind_Ok_inv)%bind_Ok_inv)%bind_Ok_inv)
    %bind_Ok_inv)%bind_Ok_inv)%bind_Ok_inv)%bind_Ok_inv.
  by exists toml, config, lock, build, main, bzl, manifest, rc.
Qed.

(** When [cargo init] succeeded, the project it made can take PyOxidizer
    and the contents of the files can be computed, the steps run to the
    end. *)
Lemma initialize_project_succeeds source project_path cargo_exe code pip windows_subsystem
    fs fs0 name cargo_toml contents :
  command_status fs cargo_exe ["init"; "--bin"; project_path] = Ok (fs0, 0%Z) →
  P fs0 →
  is_utf8 (as_bytes project_path) = true →
  path_last project_path = Some name →
  add_pyoxidizer fs0 project_path true = Ok () →
  read_to_string fs0 (path_join project_path "Cargo.toml") = Ok cargo_toml →
  project_contents source name code pip windows_subsystem cargo_toml = Ok contents →
  ∃ fs', initialize_project source project_path cargo_exe code pip windows_subsystem fs =
           (fs', Ok ()) ∧ P fs'.
Proof.
  intros Hstatus Hfs0 Hpath Hname Hadd Hread
    (toml & config & lock & build & main & bzl & manifest & rc &
     Htoml & Hconfig & Hlock & Hbuild & Hmain & Hbzl & Hm & Hrc & _)%project_contents_Ok.
  assert (is_utf8 (as_bytes (path_join (path_join project_path "src") "main.rs")) = true)
    as Hmain_rs by (by repeat apply is_utf8_path_join).
  unfold initialize_project, mbind, io_mbind.
  unfold io_bind at 1, io_context at 1, io_run. rewrite Hstatus. cbn [context Z.eqb negb].
  rewrite Hname. cbn [expect].
  rewrite bind_Ok, (path_to_str_utf8 name) by by apply (is_utf8_path_last project_path).
  cbn [expect]. rewrite io_bind_lift.
  unfold io_bind at 1, io_context at 1, io_read. rewrite Hadd. cbn [context].
  destruct (update_new_cargo_toml_succeeds _ _ _ _ _ Hread Htoml Hfs0) as (fs1 & Hup & Hfs1).
  unfold io_bind at 1, io_context at 1. rewrite Hup. cbn [context].
  match goal with |- ∃ fs', ?m fs1 = _ ∧ _ =>
    enough (succeeds P m (λ _, P)) as Hm'
      by (destruct (Hm' fs1 Hfs1) as (fs' & [] & ? & ?); by exists fs') end.
  repeat first
    [ apply succeeds_context
    | by eapply succeeds_write_new_cargo_config
    | by eapply succeeds_write_new_cargo_lock
    | by eapply succeeds_write_new_build_rs
    | by eapply succeeds_write_new_main_rs
    | by eapply succeeds_write_new_pyoxidizer_config_file
    | by eapply succeeds_write_application_manifest
    | apply (succeeds_bind _ (λ _, P)); [|intros _] ].
Qed.

End completes.

(** A disk without locked paths and without a limit takes every file and
    every new directory. *)
Definition disk_free (d : Disk) : Prop := disk_locked d = [] ∧ disk_space d = None.

Lemma disk_writable : writable disk_free.
Proof.
  intros d p bytes [Hd Hs]. cbn [write_file disk_fs]. unfold disk_fits.
  rewrite Hd, Hs, bool_decide_eq_false_2 by set_solver. by eexists.
Qed.

Lemma disk_creatable : creatable disk_free.
Proof.
  intros d p Hd Hdir. cbn [is_dir create_dir disk_directories] in *. rewrite Hdir. by eexists.
Qed.

(** * Theorems *)

(** C35. Escaping and reading back: code without a backslash that was
    escaped by [escape_code] and put between double quotes is read back as
    it was, and what follows the closing quote is left. *)
Theorem escape_code_roundtrip code rest :
  string_has BACKSLASH code = false →
  read_quoted (escape_code code +:+ String DQ rest) = Some (code, rest).
Proof. apply escape_code_read. Qed.

(** C36. [escape_code] leaves a backslash as it is: when the code ends in a
    backslash, the quote that closes the literal is read as a part of the
    code, and the literal ends where the text after it has its next
    quote. *)
Theorem escape_code_backslash pre rest :
  string_has BACKSLASH pre = false →
  read_quoted (escape_code (pre +:+ String BACKSLASH "") +:+ String DQ rest) =
  prod_map (λ body, pre +:+ String DQ body) id <$> read_quoted rest.
Proof. apply escape_code_final_backslash. Qed.

Section pure_theorems.
Context `{Environment} `{Templates} `{CargoLock}.

(** C18. The update of [Cargo.toml] succeeds exactly when the content has a
    line that starts at the first occurrence of [version =] and ends in a
    newline after which a character begins, and the template of the
    additions can be rendered; the new content is the old one with the
    line of the build script after that line, followed by the line of the
    [pyembed] dependency, an empty line and the rendered additions. *)
Theorem cargo_toml_update content location new :
  updated_cargo_toml content location = Ok new ↔
  ∃ pre line after extra,
    content = pre +:+ line +:+ nl +:+ after ∧
    str_find content "version =" = Some (String.length pre) ∧
    starts_with line "version =" = true ∧ string_has LF line = false ∧
    char_start after = true ∧
    render "cargo-extra.toml" (DataOfTemplate template_data_new) = Ok extra ∧
    new = with_build_line pre line after location extra.
Proof. apply updated_cargo_toml_Ok. Qed.

(** On well-formed text, which is what [read_to_string] returns, a
    character begins after every newline: the update succeeds exactly when
    the content has the version line and the template can be rendered. *)
Corollary cargo_toml_update_text content location new :
  is_utf8 (as_bytes content) = true →
  updated_cargo_toml content location = Ok new ↔
  ∃ pre line after extra,
    content = pre +:+ line +:+ nl +:+ after ∧
    str_find content "version =" = Some (String.length pre) ∧
    starts_with line "version =" = true ∧ string_has LF line = false ∧
    render "cargo-extra.toml" (DataOfTemplate template_data_new) = Ok extra ∧
    new = with_build_line pre line after location extra.
Proof.
  intros Hutf8. rewrite updated_cargo_toml_Ok. split.
  - intros (pre & line & after & extra & ? & ? & ? & ? & _ & ? & ?).
    by exists pre, line, after, extra.
  - intros (pre & line & after & extra & -> & ? & ? & ? & ? & ?).
    exists pre, line, after, extra. split_and!; [done..| |done|done].
    rewrite <-string_app_assoc in Hutf8.
    by apply (is_utf8_after_ascii (pre +:+ line) LF after) in Hutf8 as (_ & _ & ?).
Qed.

(** C19. The packages of the lock file of a new project are the packages of
    the frozen lock file and the package of the project, sorted by name;
    packages of one name are in the order in which they were. *)
Theorem cargo_lock_sorted project_name lock :
  new_cargo_lock project_name = Ok lock →
  ∃ lock_file package,
    lockfile_from_str NEW_PROJECT_CARGO_LOCK = Ok lock_file ∧
    name_from_str project_name = Ok (pkg_name package) ∧
    StronglySorted name_le (lf_packages lock) ∧
    lf_packages lock ≡ₚ lf_packages lock_file ++ [package] ∧
    ∀ name, filter (λ p, pkg_name p = name) (lf_packages lock) =
            filter (λ p, pkg_name p = name) (lf_packages lock_file ++ [package]).
Proof. apply new_cargo_lock_sorted. Qed.

(** C34. The package of the project in the new lock file has the version
    0.1.0 and one dependency for each name of [NEW_PROJECT_DEPENDENCIES], in
    that order, without a source and with the version of the first package
    of that name in the frozen lock file. *)
Theorem cargo_lock_dependencies project_name lock :
  new_cargo_lock project_name = Ok lock →
  ∃ lock_file package,
    lockfile_from_str NEW_PROJECT_CARGO_LOCK = Ok lock_file ∧
    package ∈ lf_packages lock ∧
    name_from_str project_name = Ok (pkg_name package) ∧ pkg_version package = "0.1.0" ∧
    Forall2 (λ dep d,
      name_from_str dep = Ok (dep_name d) ∧ dep_source d = None ∧
      ∃ before p after,
        lf_packages lock_file = before ++ p :: after ∧
        Forall (λ p, pkg_name p ≠ dep) before ∧
        pkg_name p = dep ∧ pkg_version p = dep_version d)
      NEW_PROJECT_DEPENDENCIES (pkg_dependencies package).
Proof. apply new_cargo_lock_dependencies. Qed.

End pure_theorems.

Section project_theorems.
Context `{Environment} `{Templates} `{CargoLock} `{CargoToml}.
Context `{FileSystem F} `{!FileSystemLaws F} `{!WriteFailure F}.
Context `{Directories F} `{!DirectoriesLaws F} `{TreeWalker F} `{Process F}.

(** C6. [initialize_project] implements the description of a new project:
    when it returns without an error, [cargo init] had the exit status 0 and
    left a project without files that name PyOxidizer and with a
    [Cargo.toml] that has a package; the eight files of [project_paths]
    hold the contents of [project_contents], computed from that
    [Cargo.toml], and every other file is as [cargo init] left it. *)
Theorem initialize_project_files source project_path cargo_exe code pip windows_subsystem
    (fs fs' : F) :
  initialize_project source project_path cargo_exe code pip windows_subsystem fs = (fs', Ok ()) →
  ∃ fs0 name cargo_toml contents,
    command_status fs cargo_exe ["init"; "--bin"; project_path] = Ok (fs0, 0%Z) ∧
    path_last project_path = Some name ∧
    add_pyoxidizer fs0 project_path true = Ok () ∧
    read_to_string fs0 (path_join project_path "Cargo.toml") = Ok cargo_toml ∧
    project_contents source name code pip windows_subsystem cargo_toml = Ok contents ∧
    holds (zip (project_paths project_path name) contents) fs0 fs'.
Proof. apply initialize_project_Ok. Qed.

(** C24. Whatever its outcome, [initialize_project] writes no file but the
    eight files of the project: a file that is not in [project_paths] is in
    the state that is reached as [cargo init] left it. *)
Theorem initialize_project_writes_only source project_path cargo_exe code pip
    windows_subsystem (fs fs0 : F) status name q :
  command_status fs cargo_exe ["init"; "--bin"; project_path] = Ok (fs0, status) →
  path_last project_path = Some name →
  q ∉ project_paths project_path name →
  read_file (initialize_project source project_path cargo_exe code pip windows_subsystem fs).1 q =
  read_file fs0 q.
Proof. apply initialize_project_frame. Qed.

(** C25. An error of [initialize_project] is a panic or has the message of
    the step that failed, one of [initialize_project_messages]: it is the
    error that the function makes itself with that message, or the error of
    the step with that message as its context and the step's own error as
    the cause behind it. *)
Theorem initialize_project_errors source project_path cargo_exe code pip windows_subsystem
    (fs fs' : F) e :
  initialize_project source project_path cargo_exe code pip windows_subsystem fs = (fs', Err e) →
  (∃ m, e = Panic m) ∨
  ∃ msg, msg ∈ initialize_project_messages ∧
         (e = Failure msg ∨ ∃ cause, e = WithContext msg cause).
Proof. apply initialize_project_Err. Qed.

(** C26. [initialize_project] runs to its end: when the path of the project
    is well-formed text, [cargo init] returns the exit status 0 and leaves a
    project that can take PyOxidizer, the contents of the files can be
    computed, and files and directories can be written in the states of an
    invariant of the disk, it returns without an error in a state of the
    invariant. *)
Theorem initialize_project_completes (P : F → Prop) source project_path cargo_exe code pip
    windows_subsystem (fs fs0 : F) name cargo_toml contents :
  writable P → creatable P →
  command_status fs cargo_exe ["init"; "--bin"; project_path] = Ok (fs0, 0%Z) →
  P fs0 →
  is_utf8 (as_bytes project_path) = true →
  path_last project_path = Some name →
  add_pyoxidizer fs0 project_path true = Ok () →
  read_to_string fs0 (path_join project_path "Cargo.toml") = Ok cargo_toml →
  project_contents source name code pip windows_subsystem cargo_toml = Ok contents →
  ∃ fs', initialize_project source project_path cargo_exe code pip windows_subsystem fs =
           (fs', Ok ()) ∧ P fs'.
Proof. intros HW HC. by apply initialize_project_succeeds. Qed.

End project_theorems.

(** * The theorems on the project of the examples *)

Lemma escape_code_roundtrip_witness :
  read_quoted (escape_code hello_code +:+ String DQ ")") = Some (hello_code, ")").
Proof. apply (escape_code_roundtrip hello_code ")"). reflexivity. Defined.

Lemma escape_code_backslash_witness :
  read_quoted (escape_code ("a" +:+ String BACKSLASH "") +:+ String DQ ")") =
  prod_map (λ body, "a" +:+ String DQ body) id <$> read_quoted ")".
Proof. apply (escape_code_backslash "a" ")"). reflexivity. Defined.

Section hello.
#[local] Existing Instance example_environment.
#[local] Existing Instance example_cargo_toml.
#[local] Existing Instance hello_templates.
#[local] Existing Instance hello_cargo_lock.

#[local] Notation "'hello_project'" :=
  (initialize_project hello_source "/work/hello" "cargo" (Some hello_code) ["requests"] "console").

Lemma cargo_toml_update_witness :
  updated_cargo_toml ("[package]" +:+ nl +:+ "version = 1" +:+ nl) (Version "0.10.3") =
  Ok (with_build_line ("[package]" +:+ nl) "version = 1" "" (Version "0.10.3")
                      "cargo-extra.toml::").
Proof.
  apply (proj2 (cargo_toml_update ("[package]" +:+ nl +:+ "version = 1" +:+ nl)
                                  (Version "0.10.3") _)).
  exists ("[package]" +:+ nl), "version = 1", "", "cargo-extra.toml::".
  split_and!; vm_compute; reflexivity.
Defined.

Lemma cargo_lock_sorted_witness :
  ∃ lock, new_cargo_lock "hello" = Ok lock ∧
  ∃ lock_file package,
    lockfile_from_str NEW_PROJECT_CARGO_LOCK = Ok lock_file ∧
    name_from_str "hello" = Ok (pkg_name package) ∧
    StronglySorted name_le (lf_packages lock) ∧
    lf_packages lock ≡ₚ lf_packages lock_file ++ [package] ∧
    ∀ name, filter (λ p, pkg_name p = name) (lf_packages lock) =
            filter (λ p, pkg_name p = name) (lf_packages lock_file ++ [package]).
Proof.
  eexists. split; [vm_compute; reflexivity|].
  apply (cargo_lock_sorted "hello"). vm_compute. reflexivity.
Defined.

Lemma cargo_lock_dependencies_witness :
  ∃ lock, new_cargo_lock "hello" = Ok lock ∧
  ∃ lock_file package,
    lockfile_from_str NEW_PROJECT_CARGO_LOCK = Ok lock_file ∧
    package ∈ lf_packages lock ∧
    name_from_str "hello" = Ok (pkg_name package) ∧ pkg_version package = "0.1.0" ∧
    Forall2 (λ dep d,
      name_from_str dep = Ok (dep_name d) ∧ dep_source d = None ∧
      ∃ before p after,
        lf_packages lock_file = before ++ p :: after ∧
        Forall (λ p, pkg_name p ≠ dep) before ∧
        pkg_name p = dep ∧ pkg_version p = dep_version d)
      NEW_PROJECT_DEPENDENCIES (pkg_dependencies package).
Proof.
  eexists. split; [vm_compute; reflexivity|].
  apply (cargo_lock_dependencies "hello"). vm_compute. reflexivity.
Defined.

Lemma initialize_project_files_witness :
  ∃ fs',
    hello_project empty_disk = (fs', Ok ()) ∧
    ∃ fs0 name cargo_toml contents,
      command_status empty_disk "cargo" ["init"; "--bin"; "/work/hello"] = Ok (fs0, 0%Z) ∧
      path_last "/work/hello" = Some name ∧
      add_pyoxidizer fs0 "/work/hello" true = Ok () ∧
      read_to_string fs0 (path_join "/work/hello" "Cargo.toml") = Ok cargo_toml ∧
      project_contents hello_source name (Some hello_code) ["requests"] "console" cargo_toml =
        Ok contents ∧
      holds (zip (project_paths "/work/hello" name) contents) fs0 fs'.
Proof.
  exists (hello_project empty_disk).1.
  assert (hello_project empty_disk = ((hello_project empty_disk).1, Ok ())) as Hrun
    by (vm_compute; reflexivity).
  split; [exact Hrun|].
  exact (initialize_project_files _ _ _ _ _ _ _ _ Hrun).
Defined.

Lemma initialize_project_completes_witness :
  ∃ fs', hello_project empty_disk = (fs', Ok ()) ∧ disk_free fs'.
Proof.
  apply (initialize_project_completes disk_free
           hello_source "/work/hello" "cargo" (Some hello_code) ["requests"] "console"
           empty_disk hello_disk "hello"
           (from_utf8 (default [] (result_to_option
              (read_file hello_disk "/work/hello/Cargo.toml"))))
           (default [] (result_to_option
              (project_contents hello_source "hello" (Some hello_code) ["requests"] "console"
                 (from_utf8 (default [] (result_to_option
                    (read_file hello_disk "/work/hello/Cargo.toml"))))))));
    [exact disk_writable|exact disk_creatable|vm_compute; reflexivity|by split
    |vm_compute; reflexivity..].
Defined.

End hello.

Section broken.
#[local] Existing Instance example_environment.
#[local] Existing Instance example_cargo_toml.
#[local] Existing Instance broken_templates.
#[local] Existing Instance hello_cargo_lock.

#[local] Notation "'broken_project'" :=
  (initialize_project hello_source "/work/hello" "cargo" (Some hello_code) ["requests"] "console").

Lemma initialize_project_writes_only_witness :
  read_file (broken_project empty_disk).1 "/etc/passwd" = read_file hello_disk "/etc/passwd".
Proof.
  apply (initialize_project_writes_only hello_source "/work/hello" "cargo" (Some hello_code)
           ["requests"] "console" empty_disk hello_disk 0 "hello").
  - vm_compute. reflexivity.
  - vm_compute. reflexivity.
  - apply (bool_decide_unpack _). by vm_compute.
Defined.

Lemma initialize_project_errors_witness :
  ∃ fs' e,
    broken_project empty_disk = (fs', Err e) ∧
    e = WithContext "writing build.rs" (Failure "cannot render new-build.rs") ∧
    ((∃ m, e = Panic m) ∨
     ∃ msg, msg ∈ initialize_project_messages ∧
            (e = Failure msg ∨ ∃ cause, e = WithContext msg cause)).
Proof.
  exists (broken_project empty_disk).1,
    (WithContext "writing build.rs" (Failure "cannot render new-build.rs")).
  assert (broken_project empty_disk =
          ((broken_project empty_disk).1,
           Err (WithContext "writing build.rs" (Failure "cannot render new-build.rs"))))
    as Hrun by (vm_compute; reflexivity).
  split; [exact Hrun|]. split; [reflexivity|].
  exact (initialize_project_errors _ _ _ _ _ _ _ _ _ Hrun).
Defined.

(** The files that were written before the step that failed stay: the lock
    file is there, the build script is not. *)
Example initialize_project_partial :
  is_ok (read_file (broken_project empty_disk).1 "/work/hello/Cargo.lock") = true ∧
  is_ok (read_file (broken_project empty_disk).1 "/work/hello/build.rs") = false.
Proof. by vm_compute. Qed.

(** On a disk whose files take twenty bytes the first write fails: the
    error has the cause behind its context, and [Cargo.toml], which
    [cargo init] had written, is left empty. *)
Example initialize_project_interrupted :
  (broken_project small_disk).2 =
    Err (WithContext "updating Cargo.toml" (Failure "No space left on device")) ∧
  read_file (broken_project small_disk).1 "/work/hello/Cargo.toml" = Ok [] ∧
  is_ok (read_file (cargo_init small_disk "/work/hello") "/work/hello/Cargo.toml") = true.
Proof. by vm_compute. Qed.

(** A project whose name is not well-formed text makes [initialize_project]
    panic after [cargo init], before any file is written. *)
Example initialize_project_name_not_text :
  (initialize_project hello_source ("/work/" +:+ from_utf8 [xff]%byte) "cargo" None [] "console"
     empty_disk).2 = Err (Panic unwrap_none).
Proof. by vm_compute. Qed.

End broken.

