(* ===== verification/Compose.v ===== *)
(** * A new project and the build script

    The two files of PyOxidizer in the repository meet in a new project:
    [initialize_project] of project_layout.rs makes it, and its build script
    runs [run_from_build] of repackage.rs, which looks for the configuration
    with [find_pyoxidizer_config_file].  This file relates the two: the
    files that [initialize_project] writes and the candidates that the
    search accepts. *)

From S2P Require Import Prelude RustStd Io Dist Env Effect RustText FsIo Orchestrator Layout.

(** The front end of the disk of the examples; the search for the
    configuration uses [path_exists] only: a path exists when it can be
    read. *)
Definition disk_frontend : Frontend Disk := {|
  parse_config _ := Err (Failure "not a configuration");
  resolve_python_distribution_archive _ _ _ := Err (Failure "no distribution");
  analyze_python_distribution_tar_zst _ _ := Err (Failure "no distribution");
  path_exists d p := is_ok (read_file d p);
  canonicalize _ p := Ok p
|}.

(** * Lemmas *)

Section search.
Context `{Frontend F}.

(** The search depends on the existence of the candidates only. *)
Lemma first_candidate_ext (fs fs' : F) basename dirs :
  Forall (λ d, path_exists fs' (path_join d basename) = path_exists fs (path_join d basename))
         dirs →
  first_candidate fs' basename dirs = first_candidate fs basename dirs.
Proof. induction 1 as [|d dirs Hd _ IH]; [done|]. cbn [first_candidate]. by rewrite Hd, IH. Qed.

End search.

(** No file of a new project is a candidate of the search, in whatever
    directory: seven of the files end differently, and [Cargo.toml] has
    another name. *)
Lemma candidate_not_project_path d target project_path name :
  string_has "/" target = false →
  path_join d ("pyoxidizer." +:+ target +:+ ".toml") ∉ project_paths project_path name.
Proof.
  intros Htarget.
  assert (ends_with (path_join d ("pyoxidizer." +:+ target +:+ ".toml")) ".toml" = true) as He.
  { eapply ends_with_trans; [apply path_join_ends_with|]. apply ends_with_app.
    exists ("pyoxidizer." +:+ target). by rewrite !string_app_assoc. }
  assert (∀ p s, ends_with p s = true → ends_with ".toml" s = false →
                 ends_with s ".toml" = false →
                 path_join d ("pyoxidizer." +:+ target +:+ ".toml") ≠ p) as Hne.
  { intros p s Hp H1 H2. by eapply ends_with_ne. }
  unfold project_paths. rewrite !not_elem_of_cons. split_and!; [|..|apply not_elem_of_nil].
  - intros Heq. apply (f_equal (λ p, last (split_char "/" p))) in Heq.
    rewrite !path_join_file_name in Heq; [done|done|].
    by rewrite !string_has_app, Htarget.
  - apply (Hne _ "config"); [apply path_join_ends_with|done..].
  - apply (Hne _ "Cargo.lock"); [apply path_join_ends_with|done..].
  - apply (Hne _ "build.rs"); [apply path_join_ends_with|done..].
  - apply (Hne _ "main.rs"); [apply path_join_ends_with|done..].
  - apply (Hne _ "pyoxidizer.bzl"); [apply path_join_ends_with|done..].
  - apply (Hne _ ".exe.manifest"); [|done..].
    eapply ends_with_trans; [apply path_join_ends_with|]. apply ends_with_app. by eexists.
  - apply (Hne _ "-manifest.rc"); [|done..].
    eapply ends_with_trans; [apply path_join_ends_with|]. apply ends_with_app. by eexists.
Qed.

Section composition.
Context `{Environment} `{Templates} `{CargoLock} `{CargoToml}.
Context `{FileSystem F} `{!FileSystemLaws F} `{!WriteFailure F}.
Context `{Directories F} `{!DirectoriesLaws F} `{TreeWalker F} `{Process F} `{Frontend F}.

Lemma initialize_project_configuration source project_path cargo_exe code pip windows_subsystem
    (fs fs0 : F) status name start_dir target :
  (∀ (fs : F) p, path_exists fs p = is_ok (read_file fs p)) →
  command_status fs cargo_exe ["init"; "--bin"; project_path] = Ok (fs0, status) →
  path_last project_path = Some name →
  string_has "/" target = false →
  find_pyoxidizer_config_file
    (initialize_project source project_path cargo_exe code pip windows_subsystem fs).1
    start_dir target =
  find_pyoxidizer_config_file fs0 start_dir target.
Proof.
  intros Hexists Hstatus Hname Htarget. unfold find_pyoxidizer_config_file.
  apply first_candidate_ext, Forall_forall. intros d _. rewrite !Hexists. f_equal.
  eapply initialize_project_frame; [done..|]. by apply candidate_not_project_path.
Qed.

(** * Theorems *)

(** [initialize_project] gives the project no configuration that the
    build script of repackage.rs finds: on a file system where a path exists
    when it can be read and for a target without a separator, the search of
    [find_pyoxidizer_config_file], from whatever directory, finds after
    [initialize_project] what it found when [cargo init] had run, whether
    [initialize_project] succeeds or not. *)
Theorem project_without_configuration source project_path cargo_exe code pip
    windows_subsystem (fs fs0 : F) status name start_dir target :
  (∀ (fs : F) p, path_exists fs p = is_ok (read_file fs p)) →
  command_status fs cargo_exe ["init"; "--bin"; project_path] = Ok (fs0, status) →
  path_last project_path = Some name →
  string_has "/" target = false →
  find_pyoxidizer_config_file
    (initialize_project source project_path cargo_exe code pip windows_subsystem fs).1
    start_dir target =
  find_pyoxidizer_config_file fs0 start_dir target.
Proof. apply initialize_project_configuration. Qed.

End composition.

Section hello.
#[local] Existing Instance example_environment.
#[local] Existing Instance example_cargo_toml.
#[local] Existing Instance hello_templates.
#[local] Existing Instance hello_cargo_lock.
#[local] Existing Instance disk_frontend.

#[local] Notation "'hello_project'" :=
  (initialize_project hello_source "/work/hello" "cargo" (Some hello_code) ["requests"] "console").

Lemma project_without_configuration_witness :
  find_pyoxidizer_config_file (hello_project empty_disk).1 "/work/hello/src"
                              "x86_64-unknown-linux-gnu" =
  find_pyoxidizer_config_file hello_disk "/work/hello/src" "x86_64-unknown-linux-gnu".
Proof.
  apply (project_without_configuration hello_source "/work/hello" "cargo" (Some hello_code)
           ["requests"] "console" empty_disk hello_disk 0 "hello" "/work/hello/src"
           "x86_64-unknown-linux-gnu").
  - reflexivity.
  - vm_compute. reflexivity.
  - vm_compute. reflexivity.
  - vm_compute. reflexivity.
Defined.

(** The project of the examples has its eight files and no configuration:
    the search of its build script comes back empty. *)
Example hello_project_has_no_configuration :
  (hello_project empty_disk).2 = Ok () ∧
  find_pyoxidizer_config_file (hello_project empty_disk).1 "/work/hello/src"
                              "x86_64-unknown-linux-gnu" = None.
Proof. by vm_compute. Qed.

End hello.
